(** * Deployment scripts of the Directus backend: a shallow embedding

    The shell scripts under [scripts/deployment] (sync-code.sh, rollback.sh,
    backup-database.sh, backup-files.sh, verify-backup.sh,
    pre-deployment-checks.sh, deploy.sh, deploy-extensions.sh) are embedded as
    functions over an explicit file-system tree and an explicit console.
    External tools (rsync, cp, mv, find, pg_dump, pg_isready, date, python3)
    are modelled by functions or by fields of an environment record. *)

From Stdlib Require Import List String Ascii Bool Arith ZArith Lia DecimalString.
Import ListNotations.
Open Scope string_scope.
Open Scope list_scope.

Set Implicit Arguments.

(* ================================================================= *)
(** ** File-system trees *)

(** Values of the flat JSON objects the scripts write and read back
    (backup-metadata.json). *)
Inductive jvalue : Type :=
| JStr (s : string)
| JNum (n : nat)
| JBool (b : bool).

(** The content of a regular file: its bytes (a [string] is a sequence of
    8-bit characters), or, for a file whose text is a JSON object, the object
    that `python3 -m json.tool` / `json.load` read from it. *)
Inductive content : Type :=
| Bytes (s : string)
| Json (fields : list (string * jvalue)).

(** A file holds its content; a directory holds named entries.  Lookup takes
    the first entry of a given name. *)
#[local] Unset Elimination Schemes.
Inductive node : Type :=
| File (data : content)
| Dir (entries : list (string * node)).
#[local] Set Elimination Schemes.

(** Induction over a tree with the hypothesis available for every entry of a
    directory. *)
Fixpoint node_ind (P : node -> Prop)
  (HF : forall c, P (File c))
  (HD : forall es, Forall (fun e => P (snd e)) es -> P (Dir es))
  (t : node) : P t :=
  match t with
  | File c => HF c
  | Dir es =>
      HD es
        ((fix go (l : list (string * node)) : Forall (fun e => P (snd e)) l :=
            match l with
            | [] => Forall_nil _
            | e :: l' => Forall_cons e (node_ind P HF HD (snd e)) (go l')
            end) es)
  end.

Definition path := list string.

Definition is_dir (t : node) : bool :=
  match t with Dir _ => true | File _ => false end.

Fixpoint assoc {A : Type} (n : string) (l : list (string * A)) : option A :=
  match l with
  | [] => None
  | (m, x) :: l' => if String.eqb n m then Some x else assoc n l'
  end.

Fixpoint remove_entry {A : Type} (n : string) (l : list (string * A))
  : list (string * A) :=
  match l with
  | [] => []
  | (m, x) :: l' =>
      if String.eqb n m then remove_entry n l' else (m, x) :: remove_entry n l'
  end.

Fixpoint set_entry {A : Type} (n : string) (x : A) (l : list (string * A))
  : list (string * A) :=
  match l with
  | [] => [(n, x)]
  | (m, y) :: l' =>
      if String.eqb n m then (n, x) :: l' else (m, y) :: set_entry n x l'
  end.

(** [lookup t p]: the node reached from [t] along [p]. *)
Fixpoint lookup (t : node) (p : path) : option node :=
  match p with
  | [] => Some t
  | n :: p' =>
      match t with
      | Dir es =>
          match assoc n es with
          | Some c => lookup c p'
          | None => None
          end
      | File _ => None
      end
  end.

(** [[ -d p ]], [[ -f p ]], [[ -e p ]]. *)
Definition test_d (t : node) (p : path) : bool :=
  match lookup t p with Some (Dir _) => true | _ => false end.

Definition test_f (t : node) (p : path) : bool :=
  match lookup t p with Some (File _) => true | _ => false end.

Definition test_e (t : node) (p : path) : bool :=
  match lookup t p with Some _ => true | None => false end.

(** [put t p x]: [x] stored at [p]; the parent of [p] has to be an existing
    directory, otherwise [None]. *)
Fixpoint put (t : node) (p : path) (x : node) : option node :=
  match p with
  | [] => Some x
  | n :: p' =>
      match t with
      | Dir es =>
          match p' with
          | [] => Some (Dir (set_entry n x es))
          | _ :: _ =>
              match assoc n es with
              | Some c =>
                  match put c p' x with
                  | Some c' => Some (Dir (set_entry n c' es))
                  | None => None
                  end
              | None => None
              end
          end
      | File _ => None
      end
  end.

(** [unlink t p]: the tree without the node at [p] (and all below it). *)
Fixpoint unlink (t : node) (p : path) : node :=
  match p with
  | [] => t
  | n :: p' =>
      match t with
      | Dir es =>
          match p' with
          | [] => Dir (remove_entry n es)
          | _ :: _ =>
              match assoc n es with
              | Some c => Dir (set_entry n (unlink c p') es)
              | None => t
              end
          end
      | File _ => t
      end
  end.

(** [mkdir -p p]: every missing component is created; fails when a
    component exists as a regular file. *)
Fixpoint mkdir_p (t : node) (p : path) : option node :=
  match p with
  | [] => match t with Dir _ => Some t | File _ => None end
  | n :: p' =>
      match t with
      | Dir es =>
          let c := match assoc n es with Some c => c | None => Dir [] end in
          match mkdir_p c p' with
          | Some c' => Some (Dir (set_entry n c' es))
          | None => None
          end
      | File _ => None
      end
  end.

(** ["$p$s"]: a suffix glued to the last component, as in ["$TARGET_DIR.new"]. *)
Fixpoint path_suffix (p : path) (s : string) : path :=
  match p with
  | [] => [s]
  | [n] => [(n ++ s)%string]
  | n :: p' => n :: path_suffix p' s
  end.

Fixpoint basename (p : path) : string :=
  match p with
  | [] => EmptyString
  | [n] => n
  | _ :: p' => basename p'
  end.

(** [dirname p]. *)
Definition dirname (p : path) : path := removelast p.

(** [find t -type f | wc -l]. *)
Fixpoint count_type_f (t : node) : nat :=
  match t with
  | File _ => 1
  | Dir es =>
      (fix go (l : list (string * node)) : nat :=
         match l with
         | [] => 0
         | (_, x) :: l' => count_type_f x + go l'
         end) es
  end.

(** `stat -c%s`: only the size of a file of bytes is ever asked for; a JSON
    object is never empty. *)
Definition size (c : content) : nat :=
  match c with
  | Bytes s => String.length s
  | Json _ => 2
  end.

Definition is_empty (c : content) : bool :=
  match c with
  | Bytes s => Nat.eqb (String.length s) 0
  | Json _ => false
  end.

(** [find t -type f -size 0 | wc -l]. *)
Fixpoint count_size_0 (t : node) : nat :=
  match t with
  | File c => if is_empty c then 1 else 0
  | Dir es =>
      (fix go (l : list (string * node)) : nat :=
         match l with
         | [] => 0
         | (_, x) :: l' => count_size_0 x + go l'
         end) es
  end.

(** The regular file at [p], if any. *)
Definition file_at (t : node) (p : path) : option content :=
  match lookup t p with Some (File c) => Some c | _ => None end.

(* ================================================================= *)
(** ** rsync filter rules and transfer *)

(** Shell wildcards as rsync reads them in a rule that [plain_rule] (below)
    accepts: [*] is any run of characters, [?] one character, every other
    character stands for itself. *)
Fixpoint glob (pat s : string) : bool :=
  match pat with
  | EmptyString => match s with EmptyString => true | String _ _ => false end
  | String c pat' =>
      if Ascii.eqb c "*" then
        (fix star (s : string) : bool :=
           glob pat' s ||
           match s with
           | EmptyString => false
           | String _ s' => star s'
           end) s
      else
        match s with
        | EmptyString => false
        | String d s' =>
            (Ascii.eqb c "?" || Ascii.eqb c d) && glob pat' s'
        end
  end.

(** A filter rule, [--exclude=G] or [--include=G], matched against the last
    component of a name at any depth; a trailing slash in the rule restricts
    it to directories. *)
Record pattern : Type := mkPattern {
  pat_include : bool;
  pat_glob : string;
  pat_dir_only : bool
}.

Fixpoint strip_slash (s : string) : string * bool :=
  match s with
  | EmptyString => (EmptyString, false)
  | String c EmptyString =>
      if Ascii.eqb c "/" then (EmptyString, true) else (s, false)
  | String c s' => let (r, b) := strip_slash s' in (String c r, b)
  end.

Definition exclude (s : string) : pattern :=
  let (g, b) := strip_slash s in mkPattern false g b.

Definition include (s : string) : pattern :=
  let (g, b) := strip_slash s in mkPattern true g b.

(** The rules that [glob] and [matches] read as rsync does: a name made of
    letters, digits, [.], [_], [-], [*] and [?], with or without one slash
    at the end.  A rule with a slash elsewhere is anchored or matched against
    the whole path, [**] crosses directories, [[...]] is a class of
    characters and a backslash quotes; a blank or a quote would not reach
    rsync as written, the rule being a word of a command line that the shell
    reads.  (A word with [*] or [?] is also a pattern for the shell, which
    leaves it alone when no file of the current directory has a name of the
    form [--exclude=...].) *)
Definition plain_char (c : ascii) : bool :=
  let n := nat_of_ascii c in
  (Nat.leb 48 n && Nat.leb n 57) || (Nat.leb 65 n && Nat.leb n 90)
  || (Nat.leb 97 n && Nat.leb n 122)
  || Ascii.eqb c "." || Ascii.eqb c "_" || Ascii.eqb c "-"
  || Ascii.eqb c "*" || Ascii.eqb c "?".

Fixpoint all_plain (s : string) : bool :=
  match s with
  | EmptyString => true
  | String c s' => plain_char c && all_plain s'
  end.

Fixpoint double_star (s : string) : bool :=
  match s with
  | String c ((String d _) as s') =>
      (Ascii.eqb c "*" && Ascii.eqb d "*") || double_star s'
  | _ => false
  end.

Definition plain_rule (s : string) : bool :=
  let (g, _) := strip_slash s in
  negb (String.eqb g EmptyString) && all_plain g && negb (double_star g).

Definition matches (r : pattern) (n : string) (dir : bool) : bool :=
  (dir || negb (pat_dir_only r)) && glob (pat_glob r) n.

(** The first rule that matches decides; a name no rule matches is
    transferred. *)
Fixpoint excluded (ex : list pattern) (n : string) (dir : bool) : bool :=
  match ex with
  | [] => false
  | r :: ex' =>
      if matches r n dir then negb (pat_include r) else excluded ex' n dir
  end.

(** Is there an entry named [n] in the sender's listing that is transferred? *)
Definition sent (ex : list pattern) (es : list (string * node)) (n : string)
  : bool :=
  match assoc n es with
  | Some x => negb (excluded ex n (is_dir x))
  | None => false
  end.

(** The entries of the sender that no rule excludes, each as [f] makes it
    on the receiver. *)
Fixpoint transfer (ex : list pattern) (f : string -> node -> node)
  (l : list (string * node)) : list (string * node) :=
  match l with
  | [] => []
  | (n, x) :: l' =>
      if excluded ex n (is_dir x) then transfer ex f l'
      else (n, f n x) :: transfer ex f l'
  end.

(** The entries of a listing that [f] keeps, each as [f] makes it. *)
Fixpoint select (f : string -> node -> option node)
  (l : list (string * node)) : list (string * node) :=
  match l with
  | [] => []
  | (n, x) :: l' =>
      match f n x with
      | Some y => (n, y) :: select f l'
      | None => select f l'
      end
  end.

(** What [--delete] leaves of an entry of the receiver that the sender does
    not have: a file goes; of a directory, the entries that a rule excludes
    are protected (there is no [--delete-excluded]), the others are removed
    in the same way, and the directory itself goes only when nothing is left
    in it ("cannot delete non-empty directory"). *)
Fixpoint purge (ex : list pattern) (t : node) : option node :=
  match t with
  | File _ => None
  | Dir es =>
      match select (fun n x => if excluded ex n (is_dir x) then Some x
                               else purge ex x) es with
      | [] => None
      | kept => Some (Dir kept)
      end
  end.

(** The entries of the receiver that stay beside what was transferred: one
    that a rule excludes is protected, one that no rule excludes stays when
    [--delete] is off and is purged when it is on. *)
Definition leftover (del : bool) (ex : list pattern)
  (es ds : list (string * node)) : list (string * node) :=
  select (fun n y => if sent ex es n then None
                     else if excluded ex n (is_dir y) || negb del then Some y
                     else purge ex y) ds.

(** [rsync --archive [--delete] --exclude=... src/ dst/] on the two trees.
    Entries of the sender that no rule excludes are transferred, recursively,
    each in the place of what the receiver held under its name; the other
    entries of the receiver are [leftover].

    Two things rsync does are not in this function.  It skips a file when
    the receiver holds a file of the same size and modification time (the
    quick check), and the tree records no times; and it fails to put a file
    where the receiver holds a directory that it cannot empty.  [receptive]
    (below) tells when neither can happen; the theorems on the content of a
    transferred file ask for it. *)
Fixpoint rsync_node (del : bool) (ex : list pattern) (s : node)
  (d : option node) : node :=
  match s with
  | File c => File c
  | Dir es =>
      let ds := match d with Some (Dir ds) => ds | _ => [] end in
      Dir (transfer ex (fun n x => rsync_node del ex x (assoc n ds)) es
           ++ leftover del ex es ds)
  end.






(** Does a rule exclude the file at [p], by one of the directories on the
    way or by its own name? *)
Fixpoint path_excluded (ex : list pattern) (p : path) : bool :=
  match p with
  | [] => false
  | [n] => excluded ex n false
  | n :: p' => excluded ex n true || path_excluded ex p'
  end.

Fixpoint unique (names : list string) : bool :=
  match names with
  | [] => true
  | n :: names' =>
      negb (existsb (String.eqb n) names') && unique names'
  end.

(** No directory of the tree lists a name twice. *)
Fixpoint well_formed (t : node) : bool :=
  match t with
  | File _ => true
  | Dir es =>
      unique (map fst es)
      && (fix all (l : list (string * node)) : bool :=
            match l with
            | [] => true
            | (_, x) :: l' => well_formed x && all l'
            end) es
  end.



(* ================================================================= *)
(** ** Commands on the file system *)

(** [rm -rf p]. *)
Definition rm_rf (t : node) (p : path) : node := unlink t p.

(** What [cp -r] leaves at a destination that may already hold [old]. *)
Definition overlay (x : node) (old : option node) : option node :=
  match x, old with
  | File _, Some (Dir _) => None
  | Dir _, Some (File _) => None
  | _, _ => Some (rsync_node false [] x old)
  end.

(** [cp -r src dst]: into [dst/$(basename src)] when [dst] is an existing
    directory, else as [dst]; [None] when cp fails. *)
Definition cp_r (t : node) (src dst : path) : option node :=
  match lookup t src with
  | None => None
  | Some x =>
      let q := if test_d t dst then dst ++ [basename src] else dst in
      match overlay x (lookup t q) with
      | Some y => put t q y
      | None => None
      end
  end.

(** [mv src dst]: into [dst/$(basename src)] when [dst] is an existing
    directory, else a rename to [dst]; [None] when mv fails. *)
Definition mv (t : node) (src dst : path) : option node :=
  match lookup t src with
  | None => None
  | Some x =>
      let q := if test_d t dst then dst ++ [basename src] else dst in
      match x, lookup t q with
      | _, None
      | File _, Some (File _)
      | Dir _, Some (Dir []) => put (unlink t src) q x
      | _, _ => None
      end
  end.

(** [rsync --archive ... "src/" "dst/"]: the content of directory [src] into
    directory [dst], which is created when only its last component is
    missing; [None] when rsync fails. *)
Definition rsync (del : bool) (ex : list pattern) (t : node) (src dst : path)
  : option node :=
  match lookup t src with
  | Some (Dir es) =>
      if test_f t dst then None
      else put t dst (rsync_node del ex (Dir es) (lookup t dst))
  | _ => None
  end.


(** [echo text >> p], as the loggers do it: errors are ignored. *)
Definition append_line (t : node) (p : path) (text : string) : node :=
  match lookup t p with
  | Some (File (Bytes s)) =>
      match put t p (File (Bytes (s ++ text ++ "
"))) with
      | Some t' => t'
      | None => t
      end
  | Some _ => t
  | None =>
      match put t p (File (Bytes (text ++ "
"))) with
      | Some t' => t'
      | None => t
      end
  end.

(** Decimal text of a number, as the shell prints it. *)
Definition dec (n : nat) : string := NilEmpty.string_of_uint (Nat.to_uint n).

(* ================================================================= *)
(** ** The shell: state, console, exit *)

(** A line written to standard output or to standard error.  The leading
    time stamp of the loggers is left out. *)
Inductive line : Type :=
| Out (text : string)
| Err (text : string).

Record world : Type := mkWorld {
  fs : node;
  console : list line
}.

(** A step either returns a value or ends the whole script with a status
    ([exit n], or a failing command under [set -e]). *)
Inductive outcome (A : Type) : Type :=
| Ret (a : A) (w : world)
| Exit (code : nat) (w : world).

Arguments Ret {A} a w.
Arguments Exit {A} code w.

Definition sh (A : Type) : Type := world -> outcome A.

Definition ret {A : Type} (a : A) : sh A := fun w => Ret a w.

Definition bind {A B : Type} (c : sh A) (k : A -> sh B) : sh B :=
  fun w => match c w with
           | Ret a w' => k a w'
           | Exit n w' => Exit n w'
           end.

Declare Scope sh_scope.
Delimit Scope sh_scope with sh.
Notation "x <- c ;; k" := (bind c (fun x => k))
  (at level 61, c at next level, right associativity) : sh_scope.
Notation "c ;; k" := (bind c (fun _ => k))
  (at level 61, right associativity) : sh_scope.
Open Scope sh_scope.

Definition exit {A : Type} (n : nat) : sh A := fun w => Exit n w.

Definition echo (text : string) : sh unit :=
  fun w => Ret tt (mkWorld (fs w) (console w ++ [Out text])).

Definition echo_err (text : string) : sh unit :=
  fun w => Ret tt (mkWorld (fs w) (console w ++ [Err text])).

Definition get_fs : sh node := fun w => Ret (fs w) w.

Definition set_fs (t : node) : sh unit :=
  fun w => Ret tt (mkWorld t (console w)).

(** A command run where [set -e] is in force: when it fails the script ends
    with the command's status. *)
Definition must (r : node -> option node) (status : nat) : sh unit :=
  fun w => match r (fs w) with
           | Some t => Ret tt (mkWorld t (console w))
           | None => Exit status w
           end.

(** A command run where [set -e] is ignored (inside a function called from
    an [if] or from [||]): its status is returned. *)
Definition try (r : node -> option node) (status : nat) : sh nat :=
  fun w => match r (fs w) with
           | Some t => Ret 0 (mkWorld t (console w))
           | None => Ret status w
           end.

(** Statuses of failing tools.  rsync ends with 23 when it could not
    transfer all it was given (a source that is missing), with 11 when it
    cannot make its destination, with 1 when it is not given its operands. *)
Definition coreutils_error : nat := 1.
Definition rsync_error : nat := 23.
Definition rsync_io_error : nat := 11.
Definition rsync_usage_error : nat := 1.

(** [return $issues]: a status is a byte. *)
Definition status_of (issues : nat) : nat := issues mod 256.

Definition when (b : bool) (c : sh unit) : sh unit :=
  if b then c else ret tt.

(** The final state and status of a script. *)
Definition final {A : Type} (o : outcome A) : world :=
  match o with Ret _ w => w | Exit _ w => w end.

Definition exit_code (o : outcome unit) : nat :=
  match o with Ret _ _ => 0 | Exit n _ => n end.

Definition said (l : line) (w : world) : Prop := In l (console w).

(** From here on [++] joins strings; lists are joined with [%list]. *)
Open Scope string_scope.

Fixpoint path_eqb (p q : path) : bool :=
  match p, q with
  | [], [] => true
  | n :: p', m :: q' => String.eqb n m && path_eqb p' q'
  | _, _ => false
  end.

(** ["$p/$n"]. *)
Definition child (p : path) (n : string) : path := (p ++ [n])%list.
Notation "p // n" := (child p n) (at level 40, left associativity).

(** The text of a path, for messages. *)
Definition show (p : path) : string :=
  match p with
  | [] => "/"
  | _ => concat EmptyString (map (fun n => "/" ++ n) p)
  end.

(** The standard output of a function taken by [$(...)]: the lines it logged
    on the way ([noise]) and the path it echoed last.  The scripts use the
    whole text as a path; a text of several lines names no existing
    directory. *)
Record capture : Type := mkCapture {
  noise : list string;
  value : path
}.

Definition denotes (c : capture) : option path :=
  match noise c with
  | [] => Some (value c)
  | _ :: _ => None
  end.

(** The same for the functions of the backup scripts, line by line: a line
    is a text, or the path that the function echoes as its result.  The log
    lines that [--verbose] adds carry their time stamp here, as they become
    part of a file name. *)
Inductive cline : Type :=
| Text (s : string)
| Word (p : path).

Definition newline : string := String (ascii_of_nat 10) EmptyString.

(** The double-quote character. *)
Definition dquote : string := String (ascii_of_nat 34) EmptyString.

Definition cline_text (l : cline) : string :=
  match l with Text s => s | Word p => show p end.

(** The captured text: the lines, with a line break between two of them. *)
Definition captured_text (ls : list cline) : string :=
  concat newline (map cline_text ls).

(** The components of a path given as text: the pieces between slashes,
    without the empty ones. *)
Fixpoint pieces (cur : string) (s : string) : list string :=
  match s with
  | EmptyString => if String.eqb cur EmptyString then [] else [cur]
  | String c s' =>
      if Ascii.eqb c "/" then
        if String.eqb cur EmptyString then pieces EmptyString s'
        else cur :: pieces EmptyString s'
      else pieces (cur ++ String c EmptyString) s'
  end.

Definition absolute (s : string) : bool :=
  match s with String c _ => Ascii.eqb c "/" | EmptyString => false end.

(** The file that ["$captured/rest"] names: when the function echoed its
    path and nothing else, that path; when log lines came first, the
    whole text, read from the current directory [cwd] unless it starts
    with a slash. *)
Definition named (cwd : path) (ls : list cline) : path :=
  match ls with
  | [Word p] => p
  | _ =>
      let text := captured_text ls in
      if absolute text then pieces EmptyString text
      else (cwd ++ pieces EmptyString text)%list
  end.

(** [log] writes ["[$(date +'%Y-%m-%d %H:%M:%S')] text"]. *)
Definition stamped (clock text : string) : string :=
  "[" ++ clock ++ "] " ++ text.

(** What file permission tests answer; permissions are not part of the
    tree. *)
Record access : Type := mkAccess {
  readable : path -> bool;
  writable : path -> bool
}.

(* ================================================================= *)
(** ** sync-code.sh *)

Module SyncCode.

(** deploy-config.json as the script reads it.  Of [rsync_options] the
    record has the configurations that give [--archive --verbose] (the
    value the script takes when the key is missing), with or without
    [--delete]; no other option of rsync is modelled. *)
Record deploy_config : Type := mkConfig {
  exclude_patterns : list string;
  include_patterns : list string;
  (** [--delete] is among [rsync_options]. *)
  rsync_delete : bool;
  (** [atomic_deployment.staging_directory], made absolute. *)
  staging_directory : path
}.

Record options : Type := mkOptions {
  SOURCE_DIR : option path;
  TARGET_DIR : option path;
  DRY_RUN : bool;
  VERBOSE : bool;
  FORCE : bool;
  USE_STAGING : bool
}.

Record env : Type := mkEnv {
  PROJECT_ROOT : path;
  DIRECTUS_PROD_PATH : option path;
  DEPLOY_DRY_RUN : bool;
  (** [None]: the file is missing or is not valid JSON. *)
  config : option deploy_config;
  have_rsync : bool;
  have_python3 : bool;
  perms : access;
  (** [git diff-index --quiet HEAD --] fails. *)
  uncommitted_changes : bool;
  (** The status of [git rev-parse HEAD] in the source, and of
      [git log -1] after it: 0 when the repository has a commit, 128 when
      it has none, 127 when git is not installed. *)
  git_head : nat;
  (** [date +%s]. *)
  epoch : string
}.

Definition log (text : string) : sh unit := echo text.
Definition error_log (text : string) : sh unit :=
  echo_err ("ERROR: " ++ text).

Definition load_config (e : env) : sh deploy_config :=
  match config e with
  | None =>
      error_log "Configuration file not found or invalid" ;;
      exit 1
  | Some c => ret c
  end.

Definition check_prerequisites (e : env) : sh unit :=
  if negb (have_rsync e) then
    error_log "rsync is required but not installed" ;; exit 1
  else if negb (have_python3 e) then
    error_log "python3 is required for configuration parsing" ;; exit 1
  else ret tt.

(** Returns the source and the target directory in force. *)
Definition validate_directories (e : env) (o : options) (dry : bool)
  : sh (path * path) :=
  let source := match SOURCE_DIR o with
                | Some s => s
                | None => PROJECT_ROOT e
                end in
  let target := match TARGET_DIR o with
                | Some t => Some t
                | None => DIRECTUS_PROD_PATH e
                end in
  t <- get_fs ;;
  if negb (test_d t source) then
    error_log ("Source directory does not exist: " ++ show source) ;;
    exit 1
  else if negb (readable (perms e) source) then
    error_log ("Source directory is not readable: " ++ show source) ;;
    exit 1
  else
    match target with
    | None =>
        error_log
          "Target directory must be specified with --target or DIRECTUS_PROD_PATH" ;;
        exit 1
    | Some target =>
        if dry then
          if negb (test_d t (dirname target)) then
            error_log ("Target parent directory does not exist: "
                       ++ show (dirname target)) ;;
            exit 1
          else ret (source, target)
        else
          (if negb (test_d t target) then
             log ("Creating target directory: " ++ show target) ;;
             must (fun t => mkdir_p t target) coreutils_error
           else ret tt) ;;
          if negb (writable (perms e) target) then
            error_log ("Target directory is not writable: " ++ show target) ;;
            exit 1
          else ret (source, target)
    end.

(** [commit_hash=$(git rev-parse HEAD)] is a plain assignment: when git
    fails there, [set -e] ends the script with its status. *)
Definition validate_source_changes (e : env) (o : options) (source : path)
  : sh unit :=
  t <- get_fs ;;
  if test_d t (source // ".git") then
    if negb (FORCE o) && uncommitted_changes e then
      error_log
        "Source directory has uncommitted changes. Use --force to override." ;;
      exit 1
    else if negb (Nat.eqb (git_head e) 0) then exit (git_head e)
    else ret tt
  else ret tt.

(** The exclusion rules of one rsync run: those of the configuration, or
    the built-in list when the configuration gives none. *)
Definition build_exclude_patterns (c : deploy_config) : list pattern :=
  match exclude_patterns c with
  | [] => map exclude ["data/"; "uploads/"; "backups/"; ".env*"; "*.log";
                       "node_modules/"]
  | ps => map exclude ps
  end.

Definition build_include_patterns (c : deploy_config) : list pattern :=
  map include (include_patterns c).

Definition filter_rules (c : deploy_config) : list pattern :=
  match include_patterns c with
  | [] => build_exclude_patterns c
  | _ :: _ =>
      (build_include_patterns c ++ [exclude "*"]
         ++ build_exclude_patterns c)%list
  end.

(** The python helpers print one rule per line and the command is run by
    [eval]: with two rules or more the line breaks end the rsync command
    before its operands. *)
Definition one_command (c : deploy_config) : bool :=
  Nat.leb (List.length (exclude_patterns c)) 1
  && Nat.leb (List.length (include_patterns c)) 1.

(** Runs inside [$(...)]: its log lines go to the captured text, not to
    the console. *)
Definition create_staging_directory (c : deploy_config) (o : options)
  (dry : bool) (target : path) : sh capture :=
  if negb (USE_STAGING o) then ret (mkCapture [] target)
  else
    let staging_dir := staging_directory c in
    let chosen := if VERBOSE o
                 then ["VERBOSE: Using staging directory: " ++ show staging_dir]
                 else [] in
    if dry then
      ret (mkCapture
             (app chosen
                ["DRY RUN: Would create staging directory: "
                 ++ show staging_dir])
             staging_dir)
    else
      t <- get_fs ;;
      let cleaned := test_d t staging_dir in
      (if cleaned then set_fs (rm_rf t staging_dir) else ret tt) ;;
      _ <- try (fun t => mkdir_p t staging_dir) coreutils_error ;;
      ret (mkCapture
             (app chosen
                (app (if cleaned then ["Cleaning existing staging directory"]
                      else [])
                     ["Created staging directory: " ++ show staging_dir]))
             staging_dir).

(** The command is put together from the texts of [$(get_rsync_options)],
    [$(build_include_patterns)] and [$(build_exclude_patterns)] and run by
    [eval] under [set -e].  With [--verbose] each of these texts starts with
    the log lines of its function: the first line that [eval] runs is rsync
    on the words of a log line, which finds no such files.  With two rules
    or more the first line is rsync without its operands.  With a
    destination of several lines rsync cannot make its destination. *)
Definition perform_sync (c : deploy_config) (verbose dry : bool)
  (source : path) (sync_target : capture) : sh unit :=
  log "Starting code sync..." ;;
  log ("Source: " ++ show source) ;;
  log ("Target: " ++ show (value sync_target)) ;;
  if dry then
    echo "DRY RUN: Would execute sync command:" ;;
    echo "rsync"
  else
    (if verbose then exit rsync_error
     else if negb (one_command c) then exit rsync_usage_error
     else
       match denotes sync_target with
       | None => exit rsync_io_error
       | Some dst =>
           must (fun t => rsync (rsync_delete c) (filter_rules c) t source dst)
                rsync_error
       end) ;;
    log "Code sync completed successfully".

(** chmod only: nothing of the tree changes. *)
Definition set_permissions (dry : bool) (sync_target : capture) : sh unit :=
  if dry then
    echo ("DRY RUN: Would set permissions on: " ++ show (value sync_target))
  else ret tt.

Definition same_text (c : capture) (p : path) : bool :=
  match noise c with
  | [] => path_eqb (value c) p
  | _ :: _ => false
  end.

Definition promote_staging (e : env) (o : options) (dry : bool)
  (target : path) (staging_dir : capture) : sh unit :=
  if negb (USE_STAGING o) || same_text staging_dir target then ret tt
  else
    log "Promoting staging to production..." ;;
    if dry then
      echo "DRY RUN: Would promote staging to production:" ;;
      echo "  mv staging target.new" ;;
      echo "  mv target target.old" ;;
      echo "  mv target.new target"
    else
      let backup_dir := path_suffix target (".backup-" ++ epoch e) in
      let new := path_suffix target ".new" in
      match denotes staging_dir with
      | None => exit coreutils_error
      | Some staging =>
          must (fun t => cp_r t staging new) coreutils_error ;;
          t <- get_fs ;;
          (if test_d t target
           then must (fun t => mv t target backup_dir) coreutils_error
           else ret tt) ;;
          must (fun t => mv t new target) coreutils_error ;;
          log "Production promoted successfully" ;;
          log ("Previous version backed up to: " ++ show backup_dir) ;;
          t <- get_fs ;;
          set_fs (rm_rf t staging)
      end.

Definition main (e : env) (o : options) : sh unit :=
  log "Starting selective code deployment" ;;
  let dry := DRY_RUN o || DEPLOY_DRY_RUN e in
  c <- load_config e ;;
  check_prerequisites e ;;
  st <- validate_directories e o dry ;;
  let (source, target) := st in
  validate_source_changes e o source ;;
  sync_target <- create_staging_directory c o dry target ;;
  perform_sync c (VERBOSE o) dry source sync_target ;;
  set_permissions dry sync_target ;;
  promote_staging e o dry target sync_target ;;
  if negb dry then
    log "Selective deployment completed successfully!" ;;
    log ("Production directory: " ++ show target)
  else
    log "DRY RUN completed - no actual deployment performed".

End SyncCode.

(* ================================================================= *)
(** ** rollback.sh *)

Module Rollback.

Record options : Type := mkOptions {
  BACKUP_DIR : option path;
  TARGET_DIR : option path;
  DRY_RUN : bool;
  FORCE : bool;
  VERIFY_ONLY : bool;
  CHECK_HEALTH : bool
}.

(** No option sets it. *)
Definition SKIP_CONFIRMATION : bool := false.

Record env : Type := mkEnv {
  PROJECT_ROOT : path;
  perms : access;
  (** [rollback-$(date +%Y%m%d-%H%M%S)-$$]. *)
  ROLLBACK_ID : string;
  (** [date +%Y%m%d-%H%M%S] and [date -u +%Y-%m-%dT%H:%M:%SZ]. *)
  stamp : string;
  utc_stamp : string;
  (** The python helper on a time stamp [ts]:
      [(datetime.now() - datetime.fromisoformat(ts.replace('T', ' '))).days],
      [None] when it raises. *)
  days_since : string -> option Z;
  (** The line read from standard input at the prompt. *)
  response : string;
  (** The probe of [$PUBLIC_URL/server/health]; [None] when no URL is
      configured in the target's environment files or curl is missing. *)
  api_health : option bool;
  (** The verdict of validate-deployment.sh on the target; [None] when the
      script is not installed. *)
  validate_deployment : option (node -> path -> bool)
}.

(** [log] and [error_log] also append to the log file once it is set. *)
Definition log (lg : option path) (text : string) : sh unit :=
  fun w =>
    Ret tt (mkWorld
              (match lg with
               | Some f => append_line (fs w) f text
               | None => fs w
               end)
              (console w ++ [Out text])%list).

Definition error_log (lg : option path) (text : string) : sh unit :=
  fun w =>
    Ret tt (mkWorld
              (match lg with
               | Some f => append_line (fs w) f ("ERROR: " ++ text)
               | None => fs w
               end)
              (console w ++ [Err ("ERROR: " ++ text)])%list).

Definition setup_rollback_logging (e : env) (o : options)
  : sh (option path) :=
  let log_dir := PROJECT_ROOT e // "logs" in
  if DRY_RUN o then ret None
  else
    must (fun t => mkdir_p t log_dir) coreutils_error ;;
    let file := log_dir // ("rollback-" ++ ROLLBACK_ID e ++ ".log") in
    must (fun t =>
            put t file
              (File (Bytes ("# Directus Rollback Log
# Rollback ID: " ++ ROLLBACK_ID e ++ "
"))))
         coreutils_error ;;
    ret (Some file).

(** An empty [TARGET_DIR] in ["$TARGET_DIR/x"] is the root. *)
Definition target_path (o : options) : path :=
  match TARGET_DIR o with Some p => p | None => [] end.

Definition validate_parameters (lg : option path) (e : env) (o : options)
  : sh path :=
  match BACKUP_DIR o with
  | None =>
      error_log lg "Backup directory must be specified with --backup" ;;
      exit 2
  | Some backup =>
      t <- get_fs ;;
      if match TARGET_DIR o with None => negb (VERIFY_ONLY o) | _ => false end
      then
        error_log lg
          "Target directory must be specified with --target (unless using --verify-only)" ;;
        exit 2
      else if negb (test_d t backup) then
        error_log lg ("Backup directory does not exist: " ++ show backup) ;;
        exit 2
      else if negb (readable (perms e) backup) then
        error_log lg ("Backup directory is not readable: " ++ show backup) ;;
        exit 2
      else
        (if negb (VERIFY_ONLY o) then
           if negb (test_d t (target_path o)) then
             error_log lg ("Target directory does not exist: "
                           ++ show (target_path o)) ;;
             exit 2
           else if negb (writable (perms e) (target_path o)) then
             error_log lg ("Target directory is not writable: "
                           ++ show (target_path o)) ;;
             exit 2
           else ret tt
         else ret tt) ;;
        log lg "Parameter validation completed" ;;
        ret backup
  end.

(** [error_log msg; ((issues++))] when [bad]. *)
Definition issue (lg : option path) (bad : bool) (text : string) : sh nat :=
  if bad then error_log lg text ;; ret 1 else ret 0.

(** The number the python helper prints for the age of the backup. *)
Definition backup_age (e : env) (metadata : content) : Z :=
  match metadata with
  | Json o =>
      match assoc "timestamp" o with
      | Some (JStr ts) =>
          if String.eqb ts EmptyString then 999%Z
          else match days_since e ts with
               | Some d => d
               | None => 999%Z
               end
      | Some _ => 999%Z
      | None => 999%Z
      end
  | Bytes _ => 999%Z
  end.

Definition show_Z (z : Z) : string :=
  match z with
  | Z0 => "0"
  | Zpos _ => dec (Z.to_nat z)
  | Zneg _ => "-" ++ dec (Z.to_nat (Z.opp z))
  end.

Definition verify_backup_integrity (lg : option path) (e : env)
  (o : options) (backup : path) : sh nat :=
  log lg "Verifying backup integrity..." ;;
  if DRY_RUN o then
    echo "DRY RUN: Would verify backup integrity" ;; ret 0
  else
    t <- get_fs ;;
    let metadata_file := backup // "backup-metadata.json" in
    i1 <- match file_at t metadata_file with
          | None =>
              issue lg true ("Backup metadata file not found: "
                             ++ show metadata_file)
          | Some (Bytes _) => issue lg true "Invalid JSON in backup metadata"
          | Some (Json _) => ret 0
          end ;;
    i2 <- match file_at t (backup // "database.sql") with
          | Some c =>
              issue lg (Nat.eqb (size c) 0) "Database backup file is empty"
          | None => ret 0
          end ;;
    i3 <- match file_at t metadata_file with
          | Some c =>
              let backup_date := backup_age e c in
              issue lg (Z.ltb 30 backup_date)
                ("Backup is very old (" ++ show_Z backup_date
                 ++ " days) - are you sure you want to rollback to this?")
          | None => ret 0
          end ;;
    let issues := i1 + i2 + i3 in
    (if Nat.eqb issues 0 then
       log lg "✓ Backup integrity verification passed"
     else
       log lg ("❌ Backup integrity verification failed (" ++ dec issues
               ++ " issues)")) ;;
    ret (status_of issues).

Definition check_target_health (lg : option path) (e : env) (o : options)
  : sh nat :=
  if negb (CHECK_HEALTH o) then ret 0
  else
    log lg "Checking target health..." ;;
    if DRY_RUN o then echo "DRY RUN: Would check target health" ;; ret 0
    else
      t <- get_fs ;;
      let target := target_path o in
      h1 <- issue lg (negb (test_d t target)
                      || negb (readable (perms e) target))
              "Target directory is not accessible" ;;
      h2 <- issue lg (negb (test_f t (target // "package.json")))
              "Target is missing essential files" ;;
      h3 <- issue lg (match api_health e with Some false => true | _ => false end)
              "API health check failed" ;;
      if Nat.ltb 0 (h1 + h2 + h3) then
        log lg "❌ Target health check failed - rollback may be needed" ;;
        ret 1
      else
        log lg "✓ Target health check passed" ;; ret 0.

Definition confirms (r : string) : bool :=
  String.eqb r "yes" || String.eqb r "YES" || String.eqb r "y"
  || String.eqb r "Y".

Definition get_user_confirmation (lg : option path) (e : env) (o : options)
  : sh nat :=
  if FORCE o || SKIP_CONFIRMATION then
    log lg "Skipping confirmation (force mode enabled)" ;; ret 0
  else if DRY_RUN o then
    echo "DRY RUN: Would request user confirmation" ;; ret 0
  else
    log lg "=== ROLLBACK CONFIRMATION ===" ;;
    log lg "This will rollback the deployment to:" ;;
    log lg "WARNING: This will:" ;;
    log lg "  - Replace current deployment with backup" ;;
    log lg "  - Create backup of current state first" ;;
    log lg "  - Potentially lose any changes made since backup" ;;
    echo "Are you sure you want to continue? (yes/no): " ;;
    if confirms (response e) then
      log lg "User confirmed rollback" ;; ret 0
    else
      log lg "User cancelled rollback" ;; ret 1.

(** Returns its status and [CURRENT_BACKUP]. *)
Definition backup_current_state (lg : option path) (e : env) (o : options)
  (backup : path) : sh (nat * option path) :=
  log lg "Creating backup of current state before rollback..." ;;
  let current_backup_dir :=
    PROJECT_ROOT e // "backups" // ("pre-rollback-" ++ stamp e) in
  let target := target_path o in
  if DRY_RUN o then
    echo ("DRY RUN: Would backup current state to: "
          ++ show current_backup_dir) ;;
    ret (0, Some current_backup_dir)
  else
    _ <- try (fun t => mkdir_p t current_backup_dir) coreutils_error ;;
    r <- try (fun t =>
                rsync false (map exclude ["data/"; "uploads/"; "backups/"])
                  t target current_backup_dir) rsync_error ;;
    if negb (Nat.eqb r 0) then
      error_log lg "Failed to backup current state" ;; ret (1, None)
    else
      _ <- try (fun t =>
                  put t (current_backup_dir // "backup-metadata.json")
                    (File (Json [("backup_type", JStr "pre-rollback");
                                 ("timestamp", JStr (utc_stamp e));
                                 ("rollback_id", JStr (ROLLBACK_ID e));
                                 ("original_target", JStr (show target));
                                 ("rollback_source", JStr (show backup));
                                 ("created_by", JStr "rollback.sh")])))
             coreutils_error ;;
      log lg ("Current state backed up to: " ++ show current_backup_dir) ;;
      ret (0, Some current_backup_dir).

(** [cp -r "$TARGET_DIR/$dir" "$staging_dir/$dir"] for a preserved
    directory that exists in the target. *)
Definition preserve (target staging_dir : path) (dir : string) : sh unit :=
  t <- get_fs ;;
  if test_d t (target // dir) then
    _ <- try (fun t => cp_r t (target // dir) (staging_dir // dir))
           coreutils_error ;;
    ret tt
  else ret tt.

(** The end of [perform_rollback], after the restore: the preserved
    directories of the current target are copied into the staging tree,
    then the two renames. *)
Definition promote (lg : option path) (target staging_dir : path)
  : sh nat :=
  log lg "Preserving current data directories..." ;;
  preserve target staging_dir "data" ;;
  preserve target staging_dir "uploads" ;;
  log lg "Performing atomic rollback promotion..." ;;
  let temp_backup := path_suffix target ".pre-rollback-temp" in
  _ <- try (fun t => mv t target temp_backup) coreutils_error ;;
  _ <- try (fun t => mv t staging_dir target) coreutils_error ;;
  log lg "Rollback process completed successfully" ;;
  ret 0.

(** Called from an [if]: a failing command does not end the script, the
    next one runs. *)
Definition perform_rollback (lg : option path) (o : options) (backup : path)
  : sh nat :=
  log lg "Starting rollback process..." ;;
  let target := target_path o in
  if DRY_RUN o then
    echo "DRY RUN: Would perform rollback:" ;;
    echo ("  - Restore files from: " ++ show backup) ;;
    echo ("  - Restore to: " ++ show target) ;;
    echo "  - Preserve data directories" ;;
    echo "  - Update deployment metadata" ;;
    ret 0
  else
    let staging_dir := path_suffix target ".rollback-staging" in
    _ <- try (fun t => mkdir_p t staging_dir) coreutils_error ;;
    log lg "Restoring files from backup..." ;;
    t <- get_fs ;;
    if test_f t (backup // "package.json") then
      _ <- try (fun t => rsync false (map exclude ["data/"; "uploads/"])
                           t backup staging_dir) rsync_error ;;
      promote lg target staging_dir
    else if test_d t (backup // "files") then
      _ <- try (fun t => rsync false [] t (backup // "files") staging_dir)
             rsync_error ;;
      promote lg target staging_dir
    else
      error_log lg "Cannot determine backup structure" ;;
      t <- get_fs ;;
      set_fs (rm_rf t staging_dir) ;;
      ret 1.

Definition restore_database (lg : option path) (backup : path) : sh unit :=
  t <- get_fs ;;
  if test_f t (backup // "database.sql") then
    log lg "Database backup found - manual restoration required" ;;
    log lg "To restore database, run:" ;;
    log lg ("  psql -h HOST -p PORT -U USER -d DATABASE < "
            ++ show (backup // "database.sql")) ;;
    log lg "WARNING: Database restoration will overwrite all current data!" ;;
    log lg "Make sure to backup current database first if needed."
  else ret tt.

Definition verify_rollback (lg : option path) (e : env) (o : options)
  : sh nat :=
  log lg "Verifying rollback..." ;;
  if DRY_RUN o then
    echo "DRY RUN: Would verify rollback success" ;; ret 0
  else
    t <- get_fs ;;
    let target := target_path o in
    i1 <- issue lg (negb (test_f t (target // "package.json")))
            "Rollback verification failed: package.json missing" ;;
    i2 <- match validate_deployment e with
          | Some verdict =>
              issue lg (negb (verdict t target))
                "Deployment validation failed after rollback"
          | None => ret 0
          end ;;
    let issues := i1 + i2 in
    (if Nat.eqb issues 0 then log lg "✓ Rollback verification passed"
     else log lg ("❌ Rollback verification failed (" ++ dec issues
                  ++ " issues)")) ;;
    ret (status_of issues).

Definition generate_rollback_summary (lg : option path) (e : env)
  (o : options) (backup : path) (current_backup : option path) : sh unit :=
  log lg "=== Rollback Summary ===" ;;
  log lg ("Rollback ID: " ++ ROLLBACK_ID e) ;;
  log lg ("Backup source: " ++ show backup) ;;
  log lg ("Target: " ++ show (target_path o)) ;;
  match current_backup with
  | Some b => log lg ("Pre-rollback backup: " ++ show b)
  | None => ret tt
  end ;;
  (if DRY_RUN o then log lg "Mode: DRY RUN (no actual changes made)"
   else log lg "Mode: LIVE ROLLBACK") ;;
  match lg with
  | Some f => log lg ("Log file: " ++ show f)
  | None => ret tt
  end.

Definition main (e : env) (o : options) : sh unit :=
  lg <- setup_rollback_logging e o ;;
  log lg "Starting Directus deployment rollback" ;;
  log lg ("Rollback ID: " ++ ROLLBACK_ID e) ;;
  backup <- validate_parameters lg e o ;;
  v <- verify_backup_integrity lg e o backup ;;
  if negb (Nat.eqb v 0) then
    error_log lg "Backup verification failed - aborting rollback" ;;
    exit 2
  else if VERIFY_ONLY o then
    log lg "✓ Backup verification completed (verify-only mode)" ;;
    exit 0
  else
    h <- check_target_health lg e o ;;
    (if negb (Nat.eqb h 0)
     then log lg "Target health check suggests rollback may be needed"
     else ret tt) ;;
    c <- get_user_confirmation lg e o ;;
    if negb (Nat.eqb c 0) then
      log lg "Rollback cancelled by user" ;; exit 3
    else
      b <- backup_current_state lg e o backup ;;
      if negb (Nat.eqb (fst b) 0) then
        error_log lg "Failed to backup current state - aborting rollback" ;;
        exit 1
      else
        r <- perform_rollback lg o backup ;;
        if negb (Nat.eqb r 0) then
          error_log lg "Rollback process failed" ;; exit 1
        else
          restore_database lg backup ;;
          vr <- verify_rollback lg e o ;;
          if negb (Nat.eqb vr 0) then
            error_log lg "Rollback verification failed" ;; exit 1
          else
            log lg "🎉 Rollback completed successfully!" ;;
            generate_rollback_summary lg e o backup (snd b) ;;
            exit 0.

(** The start of [main], up to and with the verification of the backup:
    returns the log file, the backup directory and the status of
    [verify_backup_integrity]. *)
Definition verification (e : env) (o : options)
  : sh (option path * path * nat) :=
  lg <- setup_rollback_logging e o ;;
  log lg "Starting Directus deployment rollback" ;;
  log lg ("Rollback ID: " ++ ROLLBACK_ID e) ;;
  backup <- validate_parameters lg e o ;;
  v <- verify_backup_integrity lg e o backup ;;
  ret (lg, backup, v).

(** The issues a live verification counts in the tree it reads: the
    metadata (missing, or not JSON), an empty database dump, the age. *)
Definition issues_found (e : env) (t : node) (backup : path) : nat :=
  (match file_at t (backup // "backup-metadata.json") with
   | Some (Json _) => 0
   | _ => 1
   end)
  + (match file_at t (backup // "database.sql") with
     | Some c => if Nat.eqb (size c) 0 then 1 else 0
     | None => 0
     end)
  + (match file_at t (backup // "backup-metadata.json") with
     | Some c => if Z.ltb 30 (backup_age e c) then 1 else 0
     | None => 0
     end).

End Rollback.

(** Variables of the process environment; a variable that is set more than
    once has the value set first in the list. *)
Definition environ := list (string * string).

(** ["${NAME:-default}"]. *)
Definition getenv (vars : environ) (name default : string) : string :=
  match assoc name vars with
  | Some v => if String.eqb v EmptyString then default else v
  | None => default
  end.

(* ================================================================= *)
(** ** backup-database.sh *)

Module BackupDatabase.

Record options : Type := mkOptions {
  DRY_RUN : bool;
  VERBOSE : bool
}.

Record env : Type := mkEnv {
  PROJECT_ROOT : path;
  (** The directory the script is started in, and what [date] prints for
      the stamp of a log line. *)
  cwd : path;
  clock : string;
  (** The status of [source .env.production] on the content of the file:
      0 when the shell can run every line of it (a file of assignments);
      the status of the first line that fails, or of the shell on a variable
      that is not set, otherwise. *)
  source_status : content -> nat;
  (** The variables in force once .env.production has been sourced. *)
  vars : environ;
  (** [date +%Y-%m-%dT%H-%M-%S]. *)
  TIMESTAMP : string;
  have_pg_dump : bool;
  pg_isready : bool;
  (** What pg_dump writes to the dump file, and its exit status. *)
  pg_dump_output : string;
  pg_dump_status : nat;
  (** [du -h file | cut -f1] and [git rev-parse HEAD]. *)
  du : node -> string;
  git_commit : string
}.

Definition BACKUP_BASE_DIR (e : env) : path := PROJECT_ROOT e // "backups".
Definition BACKUP_NAME (e : env) : string :=
  "directus-db-backup-" ++ TIMESTAMP e.
Definition DB_HOST (e : env) := getenv (vars e) "DB_HOST" "localhost".
Definition DB_PORT (e : env) := getenv (vars e) "DB_PORT" "5432".
Definition DB_DATABASE (e : env) := getenv (vars e) "DB_DATABASE" "directus".
Definition DB_USER (e : env) := getenv (vars e) "DB_USER" "postgres".

Definition log (text : string) : sh unit := echo text.

(** The top of the script: the environment file has to be there, and it
    is sourced under [set -euo pipefail], so that a line of it that fails
    ends the script. *)
Definition load_environment (e : env) : sh unit :=
  t <- get_fs ;;
  match file_at t (PROJECT_ROOT e // ".env.production") with
  | Some c =>
      if Nat.eqb (source_status e c) 0 then ret tt
      else exit (source_status e c)
  | None => echo "Error: .env.production file not found" ;; exit 1
  end.

Definition check_prerequisites (e : env) : sh unit :=
  if negb (have_pg_dump e) then
    echo "Error: pg_dump not found. Please install PostgreSQL client tools." ;;
    exit 1
  else if String.eqb (DB_DATABASE e) EmptyString then
    echo "Error: DB_DATABASE environment variable is required" ;; exit 1
  else if String.eqb (DB_USER e) EmptyString then
    echo "Error: DB_USER environment variable is required" ;; exit 1
  else ret tt.

Definition test_connection (e : env) (o : options) : sh unit :=
  if DRY_RUN o then ret tt
  else if negb (pg_isready e) then
    echo ("Error: Cannot connect to database " ++ DB_DATABASE e ++ " on "
          ++ DB_HOST e ++ ":" ++ DB_PORT e) ;;
    echo "Please verify your database connection settings." ;;
    exit 1
  else ret tt.

(** Runs inside [$(...)], where [set -e] is not in force: the text taken
    is the path in a live run, after the log line that [--verbose] adds. *)
Definition create_backup_directory (e : env) (o : options)
  : sh (list cline) :=
  let backup_dir := BACKUP_BASE_DIR e // BACKUP_NAME e in
  let creating :=
    if VERBOSE o
    then [Text (stamped (clock e)
                  ("VERBOSE: Creating backup directory: " ++ show backup_dir))]
    else [] in
  if DRY_RUN o then
    ret (app creating
           [Text ("DRY RUN: Would create directory: " ++ show backup_dir)])
  else
    _ <- try (fun t => mkdir_p t backup_dir) coreutils_error ;;
    ret (app creating [Word backup_dir]).

Definition metadata (e : env) (dump : content) : content :=
  Json [("backup_type", JStr "database");
        ("timestamp", JStr (TIMESTAMP e));
        ("database_host", JStr (DB_HOST e));
        ("database_port", JStr (DB_PORT e));
        ("database_name", JStr (DB_DATABASE e));
        ("database_user", JStr (DB_USER e));
        ("dump_file", JStr "database.sql");
        ("backup_size_bytes", JNum (size dump));
        ("created_by", JStr "backup-database.sh");
        ("git_commit", JStr (git_commit e))].

(** pg_dump writes its output to [--file]; a run that cannot write, or
    that ends with a status other than 0, ends the script ([set -e]). *)
Definition pg_dump (e : env) (dump_file : path) : sh unit :=
  must (fun t => put t dump_file (File (Bytes (pg_dump_output e)))) 1 ;;
  if Nat.eqb (pg_dump_status e) 0 then ret tt else exit (pg_dump_status e).

Definition create_database_dump (e : env) (o : options) (backup_dir : path)
  : sh unit :=
  let dump_file := backup_dir // "database.sql" in
  let metadata_file := backup_dir // "backup-metadata.json" in
  if DRY_RUN o then
    echo "DRY RUN: Would create database dump:" ;;
    echo ("  Output: " ++ show dump_file) ;;
    echo ("  Metadata: " ++ show metadata_file)
  else
    pg_dump e dump_file ;;
    must (fun t => put t metadata_file
                     (File (metadata e (Bytes (pg_dump_output e)))))
         coreutils_error ;;
    log ("Database backup completed: " ++ show dump_file) ;;
    log ("Backup size: " ++ du e (File (Bytes (pg_dump_output e)))).

Definition create_backup_summary (e : env) (o : options) (backup_dir : path)
  : sh unit :=
  let summary_file := backup_dir // "README.md" in
  if DRY_RUN o then
    echo ("DRY RUN: Would create backup summary: " ++ show summary_file)
  else
    must (fun t => put t summary_file
                     (File (Bytes ("# Database Backup: " ++ BACKUP_NAME e))))
         coreutils_error.

Definition main (e : env) (o : options) : sh unit :=
  load_environment e ;;
  log ("Starting database backup: " ++ BACKUP_NAME e) ;;
  check_prerequisites e ;;
  test_connection e o ;;
  captured <- create_backup_directory e o ;;
  let backup_dir := named (cwd e) captured in
  if negb (DRY_RUN o) then
    create_database_dump e o backup_dir ;;
    create_backup_summary e o backup_dir ;;
    log "Database backup completed successfully!" ;;
    log ("Backup location: " ++ captured_text captured)
  else
    log "DRY RUN completed - no actual backup created".

End BackupDatabase.

(* ================================================================= *)
(** ** backup-files.sh *)

(** [find t -name ... -exec rm -rf / -delete]: the tree without the entries
    [doomed] says to remove, looking at an entry once its own content has
    been pruned. *)
Fixpoint prune (doomed : string -> node -> bool) (t : node) : node :=
  match t with
  | File c => File c
  | Dir es =>
      Dir ((fix go (l : list (string * node)) : list (string * node) :=
              match l with
              | [] => []
              | (n, x) :: l' =>
                  let x' := prune doomed x in
                  if doomed n x' then go l' else (n, x') :: go l'
              end) es)
  end.

Definition named_dir (g : string) (n : string) (x : node) : bool :=
  glob g n && is_dir x.

Definition named_file (g : string) (n : string) (x : node) : bool :=
  glob g n && negb (is_dir x).

(** [-delete] removes a file, and a directory only when it is empty. *)
Definition named_deletable (g : string) (n : string) (x : node) : bool :=
  glob g n && match x with Dir (_ :: _) => false | _ => true end.

Definition hidden (n : string) : bool :=
  match n with String c _ => Ascii.eqb c "." | EmptyString => false end.

Module BackupFiles.

Record options : Type := mkOptions {
  SOURCE_DIR : option path;
  TARGET_DIR : option path;
  DRY_RUN : bool;
  VERBOSE : bool;
  EXCLUDE_CACHE : bool
}.

Record env : Type := mkEnv {
  PROJECT_ROOT : path;
  (** The directory the script is started in, and what [date] prints for
      the stamp of a log line. *)
  cwd : path;
  clock : string;
  TIMESTAMP : string;
  have_rsync : bool;
  perms : access;
  (** [du -sh dir | cut -f1] and [git rev-parse HEAD]. *)
  du : node -> string;
  git_commit : string
}.

Definition BACKUP_BASE_DIR (e : env) : path := PROJECT_ROOT e // "backups".
Definition DEFAULT_SOURCE_DIR (e : env) : path := PROJECT_ROOT e // "uploads".
Definition BACKUP_NAME (e : env) : string :=
  "directus-files-backup-" ++ TIMESTAMP e.

Definition log (text : string) : sh unit := echo text.

Definition validate_source (e : env) (o : options) : sh path :=
  let source := match SOURCE_DIR o with
                | Some s => s
                | None => DEFAULT_SOURCE_DIR e
                end in
  t <- get_fs ;;
  if negb (test_d t source) then
    echo ("Error: Source directory does not exist: " ++ show source) ;;
    exit 1
  else if negb (readable (perms e) source) then
    echo ("Error: Source directory is not readable: " ++ show source) ;;
    exit 1
  else ret source.

Definition calculate_source_size (e : env) (source : path) : sh string :=
  t <- get_fs ;;
  match lookup t source with
  | Some x => ret (du e x)
  | None => ret EmptyString
  end.

(** [find "$SOURCE_DIR" -type f | wc -l]. *)
Definition count_files (source : path) : sh nat :=
  t <- get_fs ;;
  match lookup t source with
  | Some x => ret (count_type_f x)
  | None => ret 0
  end.

(** The log lines that [--verbose] adds to the standard output of a
    function. *)
Definition verbose_log (e : env) (o : options) (texts : list string)
  : list cline :=
  if VERBOSE o
  then map (fun l => Text (stamped (clock e) ("VERBOSE: " ++ l))) texts
  else [].

(** What [$(calculate_source_size)] and [$(count_files)] give: the size and
    the count, after the log lines of the function. *)
Definition source_size_text (e : env) (o : options) (size : string)
  : string :=
  captured_text
    (app (verbose_log e o ["Calculating source directory size...";
                           "Source directory size: " ++ size])
         [Text size]).

Definition file_count_text (e : env) (o : options) (count : nat) : string :=
  captured_text
    (app (verbose_log e o ["Counting files in source directory...";
                           "File count: " ++ dec count ++ " files"])
         [Text (dec count)]).

(** Runs inside [$(...)], where [set -e] is not in force: the text taken
    is the path in a live run, after the log line that [--verbose] adds. *)
Definition create_backup_directory (e : env) (o : options)
  : sh (list cline) :=
  let target := match TARGET_DIR o with
                | Some t => t
                | None => BACKUP_BASE_DIR e // BACKUP_NAME e
                end in
  let creating :=
    verbose_log e o ["Creating backup directory: " ++ show target] in
  if DRY_RUN o then
    ret (app creating
           [Text ("DRY RUN: Would create directory: " ++ show target)])
  else
    _ <- try (fun t => mkdir_p t target) coreutils_error ;;
    ret (app creating [Word target]).

Definition build_exclude_patterns (o : options) : list pattern :=
  ((if EXCLUDE_CACHE o then
      map exclude [".cache/"; "cache/"; "*.cache"; "thumbs/"; "thumbnails/";
                   ".tmp/"; "tmp/"; "*.tmp"]
    else [])
   ++ map exclude [".DS_Store"; "Thumbs.db"; ".git/"; ".svn/"])%list.

Definition backup_files_rsync (o : options) (source target_dir : path)
  : sh unit :=
  let files_target := target_dir // "files" in
  if DRY_RUN o then
    echo "DRY RUN: Would run rsync command:"
  else
    must (fun t => mkdir_p t files_target) coreutils_error ;;
    must (fun t => rsync false (build_exclude_patterns o) t source
                     files_target) rsync_error.

(** [cp -r "$SOURCE_DIR/"* "$files_target/"]: every entry that is not
    hidden, one after the other; what cannot be copied is skipped. *)
Fixpoint copy_entries (es : list (string * node)) (dst : path) (t : node)
  : node :=
  match es with
  | [] => t
  | (n, x) :: es' =>
      let t' :=
        if hidden n then t
        else match overlay x (lookup t (dst // n)) with
             | Some y =>
                 match put t (dst // n) y with Some t' => t' | None => t end
             | None => t
             end in
      copy_entries es' dst t'
  end.

Definition prune_at (doomed : string -> node -> bool) (p : path) (t : node)
  : node :=
  match lookup t p with
  | Some x => match put t p (prune doomed x) with Some t' => t' | None => t end
  | None => t
  end.

Definition backup_files_cp (o : options) (source target_dir : path)
  : sh unit :=
  let files_target := target_dir // "files" in
  if DRY_RUN o then
    echo "DRY RUN: Would run cp command:"
  else
    must (fun t => mkdir_p t files_target) coreutils_error ;;
    t <- get_fs ;;
    let copied :=
      match lookup t source with
      | Some (Dir es) => copy_entries es files_target t
      | _ => t
      end in
    let cleaned :=
      if EXCLUDE_CACHE o then
        prune_at (named_dir "thumbnails") files_target
          (prune_at (named_dir "thumbs") files_target
             (prune_at (named_file "*.cache") files_target
                (prune_at (named_dir "cache") files_target
                   (prune_at (named_dir ".cache") files_target copied))))
      else copied in
    set_fs (prune_at (named_deletable "Thumbs.db") files_target
              (prune_at (named_deletable ".DS_Store") files_target cleaned)).

(** The metadata file.  Without [--verbose] its text is a JSON object; with
    it, the texts put in for the size and the count hold log lines and line
    breaks, and the file is no JSON. *)
Definition metadata (e : env) (o : options) (source target_dir : path)
  (source_size : string) (file_count : nat) : content :=
  Json [("backup_type", JStr "files");
        ("timestamp", JStr (TIMESTAMP e));
        ("source_directory", JStr (show source));
        ("backup_directory", JStr (show target_dir));
        ("source_size", JStr source_size);
        ("file_count", JNum file_count);
        ("exclude_cache", JBool (EXCLUDE_CACHE o));
        ("backup_method", JStr (if have_rsync e then "rsync" else "cp"));
        ("created_by", JStr "backup-files.sh");
        ("git_commit", JStr (git_commit e))].

Definition member (key value : string) : string :=
  "    " ++ dquote ++ key ++ dquote ++ ": " ++ value.

Definition metadata_text (e : env) (o : options) (source : path)
  (target_text source_size file_count : string) : string :=
  concat ("," ++ newline)
    [ "{" ++ newline ++ member "backup_type" (dquote ++ "files" ++ dquote);
      member "timestamp" (dquote ++ TIMESTAMP e ++ dquote);
      member "source_directory" (dquote ++ show source ++ dquote);
      member "backup_directory" (dquote ++ target_text ++ dquote);
      member "source_size" (dquote ++ source_size ++ dquote);
      member "file_count" file_count;
      member "exclude_cache" (if EXCLUDE_CACHE o then "true" else "false");
      member "backup_method"
        (dquote ++ (if have_rsync e then "rsync" else "cp") ++ dquote);
      member "created_by" (dquote ++ "backup-files.sh" ++ dquote);
      member "git_commit" (dquote ++ git_commit e ++ dquote)
      ++ newline ++ "}" ].

Definition create_backup_metadata (e : env) (o : options)
  (source : path) (captured : list cline) : sh unit :=
  let target_dir := named (cwd e) captured in
  let metadata_file := target_dir // "backup-metadata.json" in
  source_size <- calculate_source_size e source ;;
  file_count <- count_files source ;;
  if DRY_RUN o then
    echo ("DRY RUN: Would create metadata file: " ++ show metadata_file) ;;
    echo ("  Source size: " ++ source_size_text e o source_size) ;;
    echo ("  File count: " ++ file_count_text e o file_count ++ " files")
  else
    must (fun t => put t metadata_file
                     (File (if VERBOSE o
                            then Bytes (metadata_text e o source
                                          (captured_text captured)
                                          (source_size_text e o source_size)
                                          (file_count_text e o file_count))
                            else metadata e o source target_dir source_size
                                   file_count)))
         coreutils_error.

Definition create_backup_summary (e : env) (o : options)
  (source target_dir : path) : sh unit :=
  let summary_file := target_dir // "README.md" in
  source_size <- calculate_source_size e source ;;
  file_count <- count_files source ;;
  if DRY_RUN o then
    echo ("DRY RUN: Would create backup summary: " ++ show summary_file)
  else
    must (fun t => put t summary_file
                     (File (Bytes ("# File Backup: " ++ BACKUP_NAME e ++ "
Source: " ++ show source ++ "
Size: " ++ source_size_text e o source_size ++ " ("
          ++ file_count_text e o file_count ++ " files)"))))
         coreutils_error.

(** [target_dir=$(create_backup_directory)]: every later step names its
    files by the captured text. *)
Definition main (e : env) (o : options) : sh unit :=
  log ("Starting file backup: " ++ BACKUP_NAME e) ;;
  source <- validate_source e o ;;
  source_size <- calculate_source_size e source ;;
  file_count <- count_files source ;;
  log ("Source: " ++ show source ++ " (" ++ source_size_text e o source_size
       ++ ", " ++ file_count_text e o file_count ++ " files)") ;;
  captured <- create_backup_directory e o ;;
  let target_dir := named (cwd e) captured in
  if negb (DRY_RUN o) then
    log ("Target: " ++ captured_text captured) ;;
    (if have_rsync e then backup_files_rsync o source target_dir
     else backup_files_cp o source target_dir) ;;
    create_backup_metadata e o source captured ;;
    create_backup_summary e o source target_dir ;;
    t <- get_fs ;;
    log "File backup completed successfully!" ;;
    log ("Backup location: " ++ captured_text captured) ;;
    log ("Backup size: "
         ++ match lookup t target_dir with Some x => du e x | None => EmptyString end)
  else
    log "DRY RUN completed - no actual backup created" ;;
    log ("Would backup " ++ file_count_text e o file_count ++ " files ("
         ++ source_size_text e o source_size ++ ") to: "
         ++ captured_text captured).

End BackupFiles.

(* ================================================================= *)
(** ** verify-backup.sh *)


(** [grep -q needle]: does the text hold [needle]? *)
Fixpoint contains (needle s : string) : bool :=
  String.prefix needle s ||
  match s with
  | EmptyString => false
  | String _ s' => contains needle s'
  end.

Definition grep_q (needle : string) (c : content) : bool :=
  match c with
  | Bytes s => contains needle s
  | Json _ => false
  end.

Definition digit (c : ascii) : bool :=
  let n := nat_of_ascii c in Nat.leb 48 n && Nat.leb n 57.

(** [^[0-9]{4}-[0-9]{2}-[0-9]{2}T[0-9]{2}-[0-9]{2}-[0-9]{2}$]. *)
Definition timestamp_format (s : string) : bool :=
  match list_ascii_of_string s with
  | [y1; y2; y3; y4; d1; m1; m2; d2; a1; a2; t; h1; h2; d3; n1; n2; d4; s1; s2]
    =>
      forallb digit [y1; y2; y3; y4; m1; m2; a1; a2; h1; h2; n1; n2; s1; s2]
      && forallb (Ascii.eqb "-") [d1; d2; d3; d4]
      && Ascii.eqb t "T"
  | _ => false
  end.

(** What python's [print] writes for a value. *)
Definition py_print (v : jvalue) : string :=
  match v with
  | JStr s => s
  | JNum n => dec n
  | JBool true => "True"
  | JBool false => "False"
  end.

(** [find t -type f -size +100M | wc -l]. *)
Fixpoint count_large (t : node) : nat :=
  match t with
  | File c => if N.ltb 104857600 (N.of_nat (size c)) then 1 else 0
  | Dir es =>
      (fix go (l : list (string * node)) : nat :=
         match l with
         | [] => 0
         | (_, x) :: l' => count_large x + go l'
         end) es
  end.

Module VerifyBackup.

Record options : Type := mkOptions {
  BACKUP_DIR : option path;
  CHECK_DATABASE : bool;
  CHECK_FILES : bool;
  QUICK_CHECK : bool
}.

Record env : Type := mkEnv {
  PROJECT_ROOT : path;
  have_python3 : bool
}.

Definition BACKUP_BASE_DIR (e : env) : path := PROJECT_ROOT e // "backups".

Definition log (text : string) : sh unit := echo text.
Definition error_log (text : string) : sh unit :=
  echo_err ("ERROR: " ++ text).

(** [error_log msg; ((issues++))] when [bad]. *)
Definition issue (bad : bool) (text : string) : sh nat :=
  if bad then error_log text ;; ret 1 else ret 0.

(** [... | sort | tail -1] over the names, in byte order. *)
Fixpoint last_sorted (best : option string) (es : list (string * node))
  : option string :=
  match es with
  | [] => best
  | (n, x) :: es' =>
      let take := is_dir x && contains "backup" n
                  && match best with
                     | Some b => String.leb b n
                     | None => true
                     end in
      last_sorted (if take then Some n else best) es'
  end.

(** Returns the status and the path printed.  [find -maxdepth 1] lists
    its starting point as well, whose name, backups, matches the pattern
    and sorts before its entries: the text found is never empty.  (The
    options of this module are those of a run without [--verbose], which
    only adds log lines to the console, except here: [main] takes the
    output of this function for the directory, log lines included.) *)
Definition find_latest_backup (e : env) : sh (nat * path) :=
  t <- get_fs ;;
  match lookup t (BACKUP_BASE_DIR e) with
  | Some (Dir es) =>
      match last_sorted None es with
      | Some n => ret (0, BACKUP_BASE_DIR e // n)
      | None => ret (0, BACKUP_BASE_DIR e)
      end
  | _ =>
      error_log ("Backup directory does not exist: "
                 ++ show (BACKUP_BASE_DIR e)) ;;
      ret (1, [])
  end.

Definition verify_backup_structure (backup_dir : path) : sh nat :=
  log ("Verifying backup structure: " ++ basename backup_dir) ;;
  t <- get_fs ;;
  if negb (test_d t backup_dir) then
    error_log ("Backup directory does not exist: " ++ show backup_dir) ;;
    ret 1
  else
    i1 <- match file_at t (backup_dir // "backup-metadata.json") with
          | None => issue true "Missing backup metadata file"
          | Some (Bytes _) => issue true "Invalid JSON in metadata file"
          | Some (Json _) => ret 0
          end ;;
    i2 <- issue (negb (test_f t (backup_dir // "README.md")))
            "Missing backup README file" ;;
    ret (status_of (i1 + i2)).

Definition verify_database_backup (backup_dir : path) : sh nat :=
  log "Verifying database backup..." ;;
  t <- get_fs ;;
  let db_file := backup_dir // "database.sql" in
  match file_at t db_file with
  | None =>
      error_log ("Database backup file not found: " ++ show db_file) ;;
      ret 1
  | Some c =>
      let file_size := size c in
      i1 <- issue (Nat.eqb file_size 0) "Database backup file is empty" ;;
      i2 <- (if Nat.ltb 0 file_size then
               a <- issue (negb (grep_q "PostgreSQL database dump" c))
                      "Database backup does not appear to be a PostgreSQL dump" ;;
               b1 <- issue (negb (grep_q "CREATE" c))
                       "Missing CREATE statements in database backup (may be empty database)" ;;
               b2 <- issue (negb (grep_q "INSERT" c))
                       "Missing INSERT statements in database backup (may be empty database)" ;;
               b3 <- issue (negb (grep_q "COPY" c))
                       "Missing COPY statements in database backup (may be empty database)" ;;
               ret (a + b1 + b2 + b3)
             else ret 0) ;;
      let issues := i1 + i2 in
      (if Nat.eqb issues 0 then log "✓ Database backup verification passed"
       else log ("❌ Database backup verification failed (" ++ dec issues
                 ++ " issues)")) ;;
      ret (status_of issues)
  end.

Definition verify_file_backup (o : options) (backup_dir : path) : sh nat :=
  log "Verifying file backup..." ;;
  t <- get_fs ;;
  let files_dir := backup_dir // "files" in
  match lookup t files_dir with
  | Some (Dir es) =>
      let backup_file_count := count_type_f (Dir es) in
      i1 <- issue (Nat.eqb backup_file_count 0)
              "No files found in backup (empty backup)" ;;
      i2 <- (if negb (QUICK_CHECK o) then
               let zero_byte_files := count_size_0 (Dir es) in
               let large_files := count_large (Dir es) in
               a <- issue (Nat.ltb 0 zero_byte_files)
                      ("Found " ++ dec zero_byte_files
                       ++ " zero-byte files in backup") ;;
               b <- issue (Nat.ltb 10 large_files)
                      ("Found " ++ dec large_files
                       ++ " very large files (>100MB) - verify this is expected") ;;
               ret (a + b)
             else ret 0) ;;
      let issues := i1 + i2 in
      (if Nat.eqb issues 0 then log "✓ File backup verification passed"
       else log ("❌ File backup verification failed (" ++ dec issues
                 ++ " issues)")) ;;
      ret (status_of issues)
  | _ =>
      error_log ("Files backup directory not found: " ++ show files_dir) ;;
      ret 1
  end.

(** [data.get(key, default)], printed. *)
Definition field (o : list (string * jvalue)) (key default : string)
  : string :=
  match assoc key o with
  | Some v => py_print v
  | None => default
  end.

(** The [file_count] of the metadata as the shell compares it: python
    prints the value, and the text is read as a number, also when the
    metadata gives it as a string of digits; another value matches no
    count. *)
Definition file_count_meta (o : list (string * jvalue)) : option nat :=
  match assoc "file_count" o with
  | Some (JNum n) => Some n
  | Some (JStr s) => option_map Nat.of_uint (NilEmpty.uint_of_string s)
  | Some (JBool _) => None
  | None => Some 0
  end.

Definition verify_metadata_consistency (e : env) (backup_dir : path)
  : sh nat :=
  t <- get_fs ;;
  match file_at t (backup_dir // "backup-metadata.json") with
  | None => ret 0
  | Some c =>
      log "Verifying metadata consistency..." ;;
      issues <-
        (if have_python3 e then
           let o := match c with Json o => o | Bytes _ => [] end in
           let backup_type := field o "backup_type" "unknown" in
           let timestamp := field o "timestamp" "unknown" in
           i1 <- issue (negb (timestamp_format timestamp))
                   ("Invalid timestamp format in metadata: " ++ timestamp) ;;
           i2 <- (if String.eqb backup_type "files" then
                    match lookup t (backup_dir // "files") with
                    | Some (Dir es) =>
                        let actual_file_count := count_type_f (Dir es) in
                        match file_count_meta o with
                        | Some n =>
                            issue (negb (Nat.eqb n actual_file_count))
                              ("File count mismatch - metadata: " ++ dec n
                               ++ ", actual: " ++ dec actual_file_count)
                        | None =>
                            issue true
                              ("File count mismatch - metadata: "
                               ++ field o "file_count" "0" ++ ", actual: "
                               ++ dec actual_file_count)
                        end
                    | _ => ret 0
                    end
                  else ret 0) ;;
           ret (i1 + i2)
         else ret 0) ;;
      (if Nat.eqb issues 0 then
         log "✓ Metadata consistency verification passed"
       else log ("❌ Metadata consistency verification failed ("
                 ++ dec issues ++ " issues)")) ;;
      ret (status_of issues)
  end.

Definition main (e : env) (o : options) : sh unit :=
  backup_dir <- match BACKUP_DIR o with
                | Some b => ret b
                | None =>
                    r <- find_latest_backup e ;;
                    if Nat.eqb (fst r) 0 then ret (snd r) else exit 2
                end ;;
  log "Starting backup verification" ;;
  log ("Backup directory: " ++ show backup_dir) ;;
  (if QUICK_CHECK o then log "Quick verification mode enabled" else ret tt) ;;
  s1 <- verify_backup_structure backup_dir ;;
  s2 <- (if CHECK_DATABASE o then verify_database_backup backup_dir
         else ret 0) ;;
  s3 <- (if CHECK_FILES o then verify_file_backup o backup_dir else ret 0) ;;
  s4 <- verify_metadata_consistency e backup_dir ;;
  let total_issues := s1 + s2 + s3 + s4 in
  log "=== Verification Summary ===" ;;
  if Nat.eqb total_issues 0 then
    log "🎉 Backup verification PASSED - backup appears to be complete and valid" ;;
    exit 0
  else
    log ("❌ Backup verification FAILED - found " ++ dec total_issues
         ++ " issues") ;;
    log "Please review the backup and address any issues before relying on it for restore" ;;
    exit 1.

End VerifyBackup.

(* ================================================================= *)
(** ** pre-deployment-checks.sh *)

Module PreDeploymentChecks.

Record options : Type := mkOptions {
  SOURCE_DIR : option path;
  TARGET_DIR : option path;
  DRY_RUN : bool;
  CHECK_DATABASE : bool;
  CHECK_DISK_SPACE : bool;
  CHECK_PERMISSIONS : bool;
  CHECK_SERVICES : bool
}.

Record env : Type := mkEnv {
  PROJECT_ROOT : path;
  perms : access;
  (** The variables of the process. *)
  vars : environ;
  (** The assignments made by sourcing an environment file, whose failing
      lines are passed over ([source ... 2>/dev/null || true]); [None] when
      the file expands a variable that is not set, which under [set -u] ends
      the script with status 1. *)
  source_file : content -> option environ;
  have_pg_isready : bool;
  pg_isready : bool;
  in_container : bool;
  (** The number of issues the probes of the machine find in a live run:
      node, npm, rsync and python3; df; find and the permission bits;
      the content of deploy-config.json. *)
  system_issues : nat;
  disk_issues : nat;
  permission_issues : nat;
  config_issues : nat
}.

Definition log (text : string) : sh unit := echo text.
Definition error_log (text : string) : sh unit :=
  echo_err ("ERROR: " ++ text).

Definition issue (bad : bool) (text : string) : sh nat :=
  if bad then error_log text ;; ret 1 else ret 0.

Definition source_path (e : env) (o : options) : path :=
  match SOURCE_DIR o with Some s => s | None => PROJECT_ROOT e end.

Definition validate_directories (e : env) (o : options) : sh nat :=
  let source := source_path e o in
  t <- get_fs ;;
  if negb (test_d t source) then
    error_log ("Source directory does not exist: " ++ show source) ;; ret 1
  else if negb (readable (perms e) source) then
    error_log ("Source directory is not readable: " ++ show source) ;; ret 1
  else
    match TARGET_DIR o with
    | None => error_log "Target directory must be specified" ;; ret 1
    | Some target =>
        if DRY_RUN o then
          if negb (test_d t (dirname target)) then
            error_log ("Target parent directory does not exist: "
                       ++ show (dirname target)) ;;
            ret 1
          else ret 0
        else if test_d t target then
          if negb (writable (perms e) target) then
            error_log ("Target directory is not writable: " ++ show target) ;;
            ret 1
          else ret 0
        else if negb (test_d t (dirname target))
                || negb (writable (perms e) (dirname target)) then
          error_log ("Cannot create target directory (parent not writable): "
                     ++ show target) ;;
          ret 1
        else ret 0
    end.

(** A check whose probes are left to the environment: the banner, the
    dry-run shortcut, the verdict and the status. *)
Definition probe (what title : string) (dry : bool) (issues : nat)
  : sh nat :=
  if dry then echo ("DRY RUN: Would check " ++ what) ;; ret 0
  else
    (if Nat.eqb issues 0 then log ("✓ " ++ title ++ " check passed")
     else log ("❌ " ++ title ++ " check failed (" ++ dec issues
               ++ " issues)")) ;;
    ret (status_of issues).

Definition check_system_requirements (e : env) (o : options) : sh nat :=
  log "Checking system requirements..." ;;
  probe "system requirements" "System requirements" (DRY_RUN o)
    (system_issues e).

Definition check_disk_space (e : env) (o : options) : sh nat :=
  if negb (CHECK_DISK_SPACE o) then ret 0
  else
    log "Checking disk space requirements..." ;;
    probe "disk space requirements" "Disk space" (DRY_RUN o)
      (disk_issues e).

Definition check_permissions (e : env) (o : options) : sh nat :=
  if negb (CHECK_PERMISSIONS o) then ret 0
  else
    log "Checking file permissions..." ;;
    probe "file permissions" "File permissions" (DRY_RUN o)
      (permission_issues e).

(** The first of .env.production and .env that exists is sourced. *)
Inductive loaded : Type :=
| NoFile
| Aborted
| Loaded (v : environ).

Definition source_env (e : env) (c : content) : loaded :=
  match source_file e c with
  | Some v => Loaded (v ++ vars e)%list
  | None => Aborted
  end.

Definition load_env_file (e : env) (t : node) : loaded :=
  match file_at t (PROJECT_ROOT e // ".env.production") with
  | Some c => source_env e c
  | None =>
      match file_at t (PROJECT_ROOT e // ".env") with
      | Some c => source_env e c
      | None => NoFile
      end
  end.

Definition check_database (e : env) (o : options) : sh nat :=
  if negb (CHECK_DATABASE o) then ret 0
  else
    log "Checking database connectivity..." ;;
    if DRY_RUN o then
      echo "DRY RUN: Would check database connectivity" ;; ret 0
    else
      t <- get_fs ;;
      issues <-
        match load_env_file e t with
        | NoFile =>
            issue true
              "No environment file found - cannot test database connectivity"
        | Aborted => exit 1
        | Loaded v =>
            if negb (String.eqb (getenv v "DB_HOST" EmptyString) EmptyString)
               && negb (String.eqb (getenv v "DB_DATABASE" EmptyString)
                          EmptyString) then
              if have_pg_isready e then
                issue (negb (pg_isready e)) "Database connection failed"
              else ret 0
            else
              issue true "Database credentials not found in environment"
        end ;;
      (if Nat.eqb issues 0 then log "✓ Database connectivity check passed"
       else log ("❌ Database connectivity check failed (" ++ dec issues
                 ++ " issues)")) ;;
      ret (status_of issues).

(** No branch of the service check counts an issue. *)
Definition check_services (e : env) (o : options) : sh nat :=
  if negb (CHECK_SERVICES o) then ret 0
  else
    log "Checking service availability..." ;;
    if DRY_RUN o then
      echo "DRY RUN: Would check service availability" ;; ret 0
    else if in_container e then ret 0
    else log "✓ Service availability check passed" ;; ret 0.

Definition check_deployment_config (e : env) (o : options) : sh nat :=
  log "Checking deployment configuration..." ;;
  probe "deployment configuration" "Deployment configuration" (DRY_RUN o)
    (config_issues e).

Definition generate_report (e : env) (o : options) : sh unit :=
  log "=== PRE-DEPLOYMENT CHECKS SUMMARY ===" ;;
  log ("Source directory: " ++ show (source_path e o)) ;;
  (if DRY_RUN o then log "Mode: DRY RUN (no actual checks performed)"
   else log "Mode: LIVE CHECKS").

Definition main (e : env) (o : options) : sh unit :=
  log "Starting pre-deployment checks" ;;
  s0 <- validate_directories e o ;;
  s1 <- check_system_requirements e o ;;
  s2 <- check_disk_space e o ;;
  s3 <- check_permissions e o ;;
  s4 <- check_database e o ;;
  s5 <- check_services e o ;;
  s6 <- check_deployment_config e o ;;
  let total_issues := s0 + s1 + s2 + s3 + s4 + s5 + s6 in
  generate_report e o ;;
  if Nat.eqb total_issues 0 then
    log "🎉 All pre-deployment checks PASSED - ready for deployment" ;;
    exit 0
  else
    log ("❌ Pre-deployment checks FAILED - found " ++ dec total_issues
         ++ " issues") ;;
    log "Please resolve all issues before proceeding with deployment" ;;
    exit 1.

(** The database check finds no credentials: there is no environment
    file, or the file has been sourced and DB_HOST or DB_DATABASE is
    empty. *)
Definition without_credentials (e : env) (t : node) : bool :=
  match load_env_file e t with
  | NoFile => true
  | Aborted => false
  | Loaded v =>
      negb (negb (String.eqb (getenv v "DB_HOST" EmptyString) EmptyString)
            && negb (String.eqb (getenv v "DB_DATABASE" EmptyString)
                       EmptyString))
  end.

(** What [check_database] says through [error_log] in that case. *)
Definition credentials_message (e : env) (t : node) : string :=
  match load_env_file e t with
  | NoFile => "No environment file found - cannot test database connectivity"
  | _ => "Database credentials not found in environment"
  end.

End PreDeploymentChecks.

(* ================================================================= *)
(** ** deploy.sh *)

Module Deploy.

Record options : Type := mkOptions {
  SOURCE_DIR : option path;
  TARGET_DIR : option path;
  DRY_RUN : bool;
  FORCE : bool;
  SKIP_BACKUP : bool;
  SKIP_CHECKS : bool;
  ROLLBACK_ON_FAILURE : bool
}.

Record env : Type := mkEnv {
  PROJECT_ROOT : path;
  DIRECTUS_PROD_PATH : option path;
  DEPLOY_DRY_RUN : bool;
  DEPLOY_FORCE : bool;
  (** deploy-config.json is there and is valid JSON. *)
  config_ok : bool;
  have_rsync : bool;
  have_python3 : bool;
  perms : access;
  (** [deploy-$(date +%Y%m%d-%H%M%S)-$$]. *)
  DEPLOYMENT_ID : string;
  (** The stages that follow the validation of the prerequisites:
      pre-deployment checks, backup, deployment, post-deployment validation
      and the handling of a failure, all of which run other scripts.  They
      get the log file, the source and the target. *)
  workflow : option path -> path -> path -> sh unit
}.

Definition log (lg : option path) (text : string) : sh unit :=
  fun w =>
    Ret tt (mkWorld
              (match lg with
               | Some f => append_line (fs w) f text
               | None => fs w
               end)
              (console w ++ [Out text])%list).

Definition error_log (lg : option path) (text : string) : sh unit :=
  fun w =>
    Ret tt (mkWorld
              (match lg with
               | Some f => append_line (fs w) f ("ERROR: " ++ text)
               | None => fs w
               end)
              (console w ++ [Err ("ERROR: " ++ text)])%list).

Definition log_file (e : env) : path :=
  PROJECT_ROOT e // "logs" // ("deployment-" ++ DEPLOYMENT_ID e ++ ".log").

Definition setup_deployment_logging (e : env) (dry : bool)
  : sh (option path) :=
  if dry then ret None
  else
    must (fun t => mkdir_p t (PROJECT_ROOT e // "logs")) coreutils_error ;;
    must (fun t =>
            put t (log_file e)
              (File (Bytes ("# Directus Deployment Log
# Deployment ID: " ++ DEPLOYMENT_ID e ++ "
"))))
         coreutils_error ;;
    ret (Some (log_file e)).

Definition load_configuration (lg : option path) (e : env) : sh unit :=
  if negb (config_ok e) then
    error_log lg "Configuration file not found or invalid" ;; exit 2
  else ret tt.

(** Returns the source and the target directory in force. *)
Definition validate_prerequisites (lg : option path) (e : env) (o : options)
  (dry : bool) : sh (path * path) :=
  if negb (have_rsync e) then
    error_log lg "Required tool not found: rsync" ;; exit 2
  else if negb (have_python3 e) then
    error_log lg "Required tool not found: python3" ;; exit 2
  else
    let source := match SOURCE_DIR o with
                  | Some s => s
                  | None => PROJECT_ROOT e
                  end in
    let target := match TARGET_DIR o with
                  | Some t => Some t
                  | None => DIRECTUS_PROD_PATH e
                  end in
    t <- get_fs ;;
    if negb (test_d t source) then
      error_log lg ("Source directory does not exist: " ++ show source) ;;
      exit 2
    else if negb (readable (perms e) source) then
      error_log lg ("Source directory is not readable: " ++ show source) ;;
      exit 2
    else
      match target with
      | None =>
          error_log lg
            "Target directory must be specified with --target or DIRECTUS_PROD_PATH" ;;
          exit 2
      | Some target =>
          (if dry then
             if negb (test_d t (dirname target)) then
               error_log lg ("Target parent directory does not exist: "
                             ++ show (dirname target)) ;;
               exit 2
             else ret tt
           else
             (if negb (test_d t target) then
                log lg ("Creating target directory: " ++ show target) ;;
                must (fun t => mkdir_p t target) coreutils_error
              else ret tt) ;;
             if negb (writable (perms e) target) then
               error_log lg ("Target directory is not writable: "
                             ++ show target) ;;
               exit 2
             else ret tt) ;;
          log lg "Prerequisites validation completed" ;;
          ret (source, target)
      end.

Definition main (e : env) (o : options) : sh unit :=
  let dry := DRY_RUN o || DEPLOY_DRY_RUN e in
  lg <- setup_deployment_logging e dry ;;
  log lg "Starting Directus production deployment" ;;
  log lg ("Deployment ID: " ++ DEPLOYMENT_ID e) ;;
  load_configuration lg e ;;
  st <- validate_prerequisites lg e o dry ;;
  workflow e lg (fst st) (snd st).

End Deploy.

(* ================================================================= *)
(** ** deploy-extensions.sh *)

Module DeployExtensions.

(** The [extension_sync] section of deploy-config.json. *)
Record ext_config : Type := mkConfig {
  exclude_patterns : list string;
  include_dist : bool
}.

Record options : Type := mkOptions {
  SOURCE_EXTENSIONS_DIR : option path;
  TARGET_EXTENSIONS_DIR : option path;
  DRY_RUN : bool;
  VERBOSE : bool;
  BACKUP_EXISTING : bool;
  INSTALL_DEPS : bool
}.

Record env : Type := mkEnv {
  PROJECT_ROOT : path;
  DIRECTUS_EXTENSIONS_PATH : option path;
  (** [None]: the file is missing or is not valid JSON. *)
  config : option ext_config;
  perms : access;
  (** [date +%Y%m%d-%H%M%S]. *)
  stamp : string;
  have_yarn : bool;
  (** What [npm install] and [yarn install] make of the directory of an
      extension; [None] when they fail. *)
  npm_install : list (string * node) -> option (list (string * node));
  yarn_install : list (string * node) -> option (list (string * node))
}.

Definition log (text : string) : sh unit := echo text.
Definition error_log (text : string) : sh unit :=
  echo_err ("ERROR: " ++ text).

Definition source_dir (e : env) (o : options) : path :=
  match SOURCE_EXTENSIONS_DIR o with
  | Some s => s
  | None => PROJECT_ROOT e // "extensions"
  end.

Definition load_config (e : env) : sh ext_config :=
  match config e with
  | None => error_log "Configuration file not found or invalid" ;; exit 1
  | Some c => ret c
  end.

(** Returns the target directory in force. *)
Definition validate_directories (e : env) (o : options) : sh path :=
  let target := match TARGET_EXTENSIONS_DIR o with
                | Some t => Some t
                | None => DIRECTUS_EXTENSIONS_PATH e
                end in
  t <- get_fs ;;
  if negb (test_d t (source_dir e o)) then
    error_log ("Source extensions directory does not exist: "
               ++ show (source_dir e o)) ;;
    exit 1
  else
    match target with
    | None =>
        error_log
          "Target extensions directory must be specified with --target or DIRECTUS_EXTENSIONS_PATH" ;;
        exit 1
    | Some target =>
        (if negb (DRY_RUN o) then
           (if negb (test_d t target) then
              log ("Creating target extensions directory: " ++ show target) ;;
              must (fun t => mkdir_p t target) coreutils_error
            else ret tt) ;;
           if negb (writable (perms e) target) then
             error_log ("Target extensions directory is not writable: "
                        ++ show target) ;;
             exit 1
           else ret tt
         else ret tt) ;;
        ret target
    end.

(** The names of the directories right under the source that are not
    hidden, in the order of the listing. *)
Fixpoint extension_names (es : list (string * node)) : list string :=
  match es with
  | [] => []
  | (n, x) :: es' =>
      if is_dir x && negb (hidden n) then n :: extension_names es'
      else extension_names es'
  end.

(** Returns the content of the list file it writes under /tmp, [None]
    when it writes none. *)
Definition scan_extensions (e : env) (o : options)
  : sh (option (list string)) :=
  t <- get_fs ;;
  let extensions := match lookup t (source_dir e o) with
                    | Some (Dir es) => extension_names es
                    | _ => []
                    end in
  match extensions with
  | [] => log "No extensions found in source directory" ;; ret None
  | _ :: _ =>
      log ("Found " ++ dec (List.length extensions) ++ " extensions: "
           ++ concat " " extensions) ;;
      ret (Some extensions)
  end.

Definition backup_existing_extensions (e : env) (o : options) (target : path)
  : sh unit :=
  if negb (BACKUP_EXISTING o) then ret tt
  else
    t <- get_fs ;;
    if negb (test_d t target) then ret tt
    else
      let backup_dir := path_suffix target (".backup-" ++ stamp e) in
      log "Backing up existing extensions..." ;;
      if DRY_RUN o then
        echo ("DRY RUN: Would backup existing extensions to: "
              ++ show backup_dir)
      else
        match lookup t target with
        | Some (Dir (_ :: _)) =>
            must (fun t => cp_r t target backup_dir) coreutils_error ;;
            log ("Existing extensions backed up to: " ++ show backup_dir)
        | _ => ret tt
        end.

Definition get_extension_exclude_patterns (c : ext_config) : list pattern :=
  match exclude_patterns c with
  | [] => map exclude ["node_modules/"; ".git/"; "*.log"; ".tmp/"; ".cache/"]
  | ps => map exclude ps
  end.

(** The python helper prints one rule per line and the command is run by
    [eval]: with two rules or more the line breaks end the rsync command
    before its operands, and nothing is transferred. *)
Definition one_command (c : ext_config) : bool :=
  Nat.leb (List.length (exclude_patterns c)) 1.

Definition validate_extension (extension_dir : path) : sh nat :=
  t <- get_fs ;;
  if negb (test_f t (extension_dir // "package.json")) then
    error_log ("Extension " ++ basename extension_dir
               ++ " missing package.json") ;;
    ret 1
  else ret 0.

(** The command that [eval] runs is put together from the text of
    [$(get_extension_exclude_patterns)]; with [--verbose] that text starts
    with the two log lines of the function, and the first line that [eval]
    runs is rsync on the words of a log line.  Only a command of one line
    reaches rsync with its rules and its operands. *)
Definition one_line (o : options) (c : ext_config) : bool :=
  negb (VERBOSE o) && one_command c.

(** Called from an [if]: a failing command does not end the script, and the
    status returned is that of the last command, a [verbose_log]. *)
Definition deploy_extension (e : env) (o : options) (c : ext_config)
  (target : path) (extension_name : string) : sh nat :=
  let source_ext_dir := source_dir e o // extension_name in
  let target_ext_dir := target // extension_name in
  log ("Deploying extension: " ++ extension_name) ;;
  v <- validate_extension source_ext_dir ;;
  if negb (Nat.eqb v 0) then
    error_log ("Extension validation failed: " ++ extension_name) ;;
    ret 1
  else if DRY_RUN o then
    echo ("DRY RUN: Would deploy extension " ++ extension_name ++ ":") ;;
    ret 0
  else
    _ <- try (fun t => mkdir_p t target_ext_dir) coreutils_error ;;
    _ <- (if one_line o c then
            try (fun t => rsync true (get_extension_exclude_patterns c) t
                            source_ext_dir target_ext_dir) rsync_error
          else ret 1) ;;
    ret 0.

(** A package manager run in the directory of the extension. *)
Definition install (name : string)
  (manager : list (string * node) -> option (list (string * node)))
  (target_ext_dir : path) (extension_name : string) : sh nat :=
  t <- get_fs ;;
  match lookup t target_ext_dir with
  | Some (Dir es) =>
      match manager es with
      | Some es' =>
          _ <- try (fun t => put t target_ext_dir (Dir es')) coreutils_error ;;
          ret 0
      | None =>
          error_log ("Failed to install " ++ name ++ " dependencies for "
                     ++ extension_name) ;;
          ret 1
      end
  | _ =>
      error_log ("Failed to install " ++ name ++ " dependencies for "
                 ++ extension_name) ;;
      ret 1
  end.

Definition install_extension_dependencies (e : env) (o : options)
  (target : path) (extension_name : string) : sh nat :=
  let target_ext_dir := target // extension_name in
  if negb (INSTALL_DEPS o) then ret 0
  else if DRY_RUN o then
    echo ("DRY RUN: Would install dependencies for extension: "
          ++ extension_name) ;;
    ret 0
  else
    t <- get_fs ;;
    match file_at t (target_ext_dir // "package.json") with
    | None => ret 0
    | Some manifest =>
        if negb (grep_q (dquote ++ "dependencies" ++ dquote) manifest)
        then ret 0
        else
          log ("Installing dependencies for extension: " ++ extension_name) ;;
          if test_f t (target_ext_dir // "package-lock.json") then
            install "npm" (npm_install e) target_ext_dir extension_name
          else if test_f t (target_ext_dir // "yarn.lock") then
            if have_yarn e then
              install "yarn" (yarn_install e) target_ext_dir extension_name
            else install "npm" (npm_install e) target_ext_dir extension_name
          else install "npm" (npm_install e) target_ext_dir extension_name
    end.

(** chmod only: nothing of the tree changes. *)
Definition set_extension_permissions (o : options) : sh unit :=
  if DRY_RUN o then
    echo "DRY RUN: Would set permissions on extensions directory"
  else ret tt.

(** The extensions of the list whose target lacks its directory or its
    package.json. *)
Definition failed_extensions (t : node) (target : path)
  (extensions : list string) : list string :=
  filter (fun n => negb (test_d t (target // n))
                   || negb (test_f t (target // n // "package.json")))
         extensions.

Fixpoint echo_each (lines : list string) : sh unit :=
  match lines with
  | [] => ret tt
  | l :: ls => echo l ;; echo_each ls
  end.

Definition verify_deployment (o : options) (target : path)
  (list_file : option (list string)) : sh nat :=
  match list_file with
  | None => ret 0
  | Some extensions =>
      t <- get_fs ;;
      let failed := if DRY_RUN o then []
                    else failed_extensions t target extensions in
      (if DRY_RUN o then
         echo_each (map (fun n => "DRY RUN: Would verify extension: " ++ n)
                      extensions)
       else ret tt) ;;
      match failed with
      | _ :: _ =>
          error_log ("Failed to deploy extensions: " ++ concat " " failed) ;;
          ret 1
      | [] => log "All extensions verified successfully" ;; ret 0
      end
  end.

(** The [while read] loop of [main]; returns [deployment_failed]. *)
Fixpoint deploy_each (e : env) (o : options) (c : ext_config)
  (target : path) (extensions : list string) (deployment_failed : bool)
  : sh bool :=
  match extensions with
  | [] => ret deployment_failed
  | extension_name :: rest =>
      d <- deploy_extension e o c target extension_name ;;
      if negb (Nat.eqb d 0) then
        error_log ("Failed to deploy extension: " ++ extension_name) ;;
        deploy_each e o c target rest true
      else
        i <- install_extension_dependencies e o target extension_name ;;
        if negb (Nat.eqb i 0) then
          error_log ("Failed to install dependencies for: "
                     ++ extension_name) ;;
          deploy_each e o c target rest true
        else deploy_each e o c target rest deployment_failed
  end.

Definition main (e : env) (o : options) : sh unit :=
  log "Starting extension deployment" ;;
  c <- load_config e ;;
  target <- validate_directories e o ;;
  list_file <- scan_extensions e o ;;
  backup_existing_extensions e o target ;;
  failed <- match list_file with
            | Some extensions => deploy_each e o c target extensions false
            | None => ret false
            end ;;
  set_extension_permissions o ;;
  v <- verify_deployment o target list_file ;;
  let deployment_failed := failed || negb (Nat.eqb v 0) in
  if deployment_failed then
    error_log "Extension deployment completed with errors" ;;
    exit 1
  else if negb (DRY_RUN o) then
    log "Extension deployment completed successfully!" ;;
    log ("Extensions directory: " ++ show target)
  else
    log "DRY RUN completed - no actual deployment performed".

End DeployExtensions.

(* ================================================================= *)
(** ** deploy.sh: the stages of the workflow *)

Module DeployWorkflow.

(** A child process: it runs on the same file system and console, and what
    comes back is its status; its [exit] ends the child, not deploy.sh. *)
Definition process : Type := world -> nat * world.

Definition run (p : process) : sh nat := fun w => Ret (fst (p w)) (snd (p w)).

(** [bash script args] for a script that is embedded here. *)
Definition bash (script : sh unit) : process :=
  fun w => (exit_code (script w), final (script w)).

(** The other scripts as deploy.sh runs them in a live deployment, each with
    the arguments it is given. *)
Record setup : Type := mkSetup {
  SCRIPT_DIR : path;
  (** [date], for the summary. *)
  started : string;
  (** [bash pre-deployment-checks.sh --source S --target T]. *)
  pre_deployment_checks : path -> path -> process;
  (** [bash backup-database.sh]. *)
  backup_database : process;
  (** [bash backup-files.sh --source DIR]. *)
  backup_files : path -> process;
  (** [bash sync-code.sh [--force] --source S --target T]. *)
  sync_code : bool -> path -> path -> process;
  (** [bash deploy-extensions.sh [--force] --source S --target T --target
      T/extensions], the words of the first five unquoted. *)
  deploy_extensions : bool -> path -> path -> path -> process;
  (** [bash post-deployment-validation.sh --deployment-dir T]. *)
  post_deployment_validation : path -> process;
  (** [bash rollback.sh --backup B --target T]; [None] when the script is
      not installed. *)
  rollback : option (path -> path -> process)
}.

(** [BACKUP_CREATED]: empty, the mark of a dry run, or a directory. *)
Inductive backup_created : Type :=
| NoBackup
| DryRunBackup
| BackupAt (dir : path).

Definition quoted (text : string) : string := dquote ++ text ++ dquote.

Definition run_pre_deployment_checks (s : setup) (lg : option path)
  (o : Deploy.options) (dry : bool) (source target : path) : sh unit :=
  if Deploy.SKIP_CHECKS o then
    Deploy.log lg "Skipping pre-deployment checks (--skip-checks specified)"
  else
    Deploy.log lg "Running pre-deployment checks..." ;;
    if dry then
      echo "DRY RUN: Would run pre-deployment checks:" ;;
      echo ("  bash " ++ show (SCRIPT_DIR s // "pre-deployment-checks.sh")
            ++ "  --dry-run --source " ++ quoted (show source)
            ++ " --target " ++ quoted (show target))
    else
      r <- run (pre_deployment_checks s source target) ;;
      if negb (Nat.eqb r 0) then
        Deploy.error_log lg "Pre-deployment checks failed" ;; exit 2
      else Deploy.log lg "Pre-deployment checks completed successfully".

(** [find "$backup_base_dir" -maxdepth 1 -type d -name "*backup*" | sort |
    tail -1]: the starting point, whose name matches, is among the lines and
    sorts before its entries. *)
Definition latest_backup (t : node) (backup_base_dir : path)
  : backup_created :=
  match lookup t backup_base_dir with
  | Some (Dir es) =>
      match VerifyBackup.last_sorted None es with
      | Some n => BackupAt (backup_base_dir // n)
      | None => BackupAt backup_base_dir
      end
  | _ => NoBackup
  end.

Definition create_backup (s : setup) (lg : option path) (e : Deploy.env)
  (o : Deploy.options) (dry : bool) (target : path) : sh backup_created :=
  if Deploy.SKIP_BACKUP o then
    Deploy.log lg "Skipping backup creation (--skip-backup specified)" ;;
    ret NoBackup
  else
    Deploy.log lg "Creating deployment backup..." ;;
    if dry then
      echo "DRY RUN: Would create database backup:" ;;
      echo ("  bash " ++ show (SCRIPT_DIR s // "backup-database.sh")
            ++ " --dry-run") ;;
      echo "DRY RUN: Would create files backup:" ;;
      echo ("  bash " ++ show (SCRIPT_DIR s // "backup-files.sh")
            ++ " --dry-run --source " ++ quoted (show target ++ "/uploads")) ;;
      ret DryRunBackup
    else
      r <- run (backup_database s) ;;
      if negb (Nat.eqb r 0) then
        Deploy.error_log lg "Database backup failed" ;; exit 3
      else
        t <- get_fs ;;
        (if test_d t (target // "uploads") then
           r <- run (backup_files s (target // "uploads")) ;;
           if negb (Nat.eqb r 0) then
             Deploy.error_log lg "Files backup failed" ;; exit 3
           else ret tt
         else ret tt) ;;
        t <- get_fs ;;
        Deploy.log lg "Backup creation completed successfully" ;;
        ret (latest_backup t (Deploy.PROJECT_ROOT e // "backups")).

(** Called from an [if]: returns its status. *)
Definition perform_deployment (s : setup) (lg : option path)
  (dry force : bool) (source target : path) : sh nat :=
  Deploy.log lg "Starting deployment process..." ;;
  if dry then
    echo "DRY RUN: Would perform code sync:" ;;
    echo ("  bash " ++ show (SCRIPT_DIR s // "sync-code.sh") ++ "  --dry-run"
          ++ (if force then " --force" else EmptyString)
          ++ " --source " ++ quoted (show source)
          ++ " --target " ++ quoted (show target)) ;;
    echo "DRY RUN: Would deploy extensions:" ;;
    echo ("  bash " ++ show (SCRIPT_DIR s // "deploy-extensions.sh")
          ++ " --dry-run --target " ++ quoted (show target ++ "/extensions")) ;;
    ret 0
  else
    Deploy.log lg "Syncing code changes..." ;;
    r <- run (sync_code s force source target) ;;
    if negb (Nat.eqb r 0) then
      Deploy.error_log lg "Code sync failed" ;; ret 1
    else
      Deploy.log lg "Deploying extensions..." ;;
      r <- run (deploy_extensions s force source target
                  (target // "extensions")) ;;
      if negb (Nat.eqb r 0) then
        Deploy.error_log lg "Extension deployment failed" ;; ret 1
      else
        Deploy.log lg "Deployment process completed successfully" ;; ret 0.

(** Called from an [if]: returns its status. *)
Definition run_post_deployment_validation (s : setup) (lg : option path)
  (dry : bool) (target : path) : sh nat :=
  Deploy.log lg "Running post-deployment validation..." ;;
  if dry then
    echo "DRY RUN: Would run post-deployment validation:" ;;
    echo ("  bash " ++ show (SCRIPT_DIR s // "post-deployment-validation.sh")
          ++ "  --dry-run --deployment-dir " ++ quoted (show target)) ;;
    ret 0
  else
    r <- run (post_deployment_validation s target) ;;
    if negb (Nat.eqb r 0) then
      Deploy.error_log lg "Post-deployment validation failed" ;; ret 1
    else
      Deploy.log lg "Post-deployment validation completed successfully" ;;
      ret 0.

Definition handle_deployment_failure (s : setup) (lg : option path)
  (o : Deploy.options) (created : backup_created) (target : path)
  (failure_reason : string) : sh unit :=
  Deploy.error_log lg ("Deployment failed: " ++ failure_reason) ;;
  match created with
  | BackupAt backup =>
      if Deploy.ROLLBACK_ON_FAILURE o then
        Deploy.log lg "Attempting automatic rollback..." ;;
        match rollback s with
        | Some script =>
            r <- run (script backup target) ;;
            if Nat.eqb r 0 then Deploy.log lg "Rollback completed successfully"
            else Deploy.error_log lg
                   "Rollback failed - manual intervention required"
        | None =>
            Deploy.error_log lg
              "Rollback script not found - manual intervention required"
        end
      else
        Deploy.error_log lg
          "Rollback disabled or no backup available - manual intervention required"
  | _ =>
      Deploy.error_log lg
        "Rollback disabled or no backup available - manual intervention required"
  end ;;
  Deploy.log lg "Deployment failure handling completed".

(** The list file of deploy-extensions.sh under /tmp is no part of the
    tree. *)
Definition cleanup_deployment (dry : bool) : sh unit :=
  if dry then echo "DRY RUN: Would cleanup deployment artifacts" else ret tt.

Definition generate_deployment_summary (s : setup) (lg : option path)
  (e : Deploy.env) (dry : bool) (source target : path)
  (created : backup_created) : sh unit :=
  Deploy.log lg "=== Deployment Summary ===" ;;
  Deploy.log lg ("Deployment ID: " ++ Deploy.DEPLOYMENT_ID e) ;;
  Deploy.log lg ("Source: " ++ show source) ;;
  Deploy.log lg ("Target: " ++ show target) ;;
  Deploy.log lg ("Started: " ++ started s) ;;
  match created with
  | NoBackup => ret tt
  | DryRunBackup => Deploy.log lg "Backup: dry-run-backup"
  | BackupAt backup => Deploy.log lg ("Backup: " ++ show backup)
  end ;;
  (if dry then Deploy.log lg "Mode: DRY RUN (no actual changes made)"
   else Deploy.log lg "Mode: LIVE DEPLOYMENT") ;;
  match lg with
  | Some f => Deploy.log lg ("Log file: " ++ show f)
  | None => ret tt
  end.

(** The rest of [main], from the pre-deployment checks on. *)
Definition workflow (s : setup) (e : Deploy.env) (o : Deploy.options)
  (lg : option path) (source target : path) : sh unit :=
  let dry := Deploy.DRY_RUN o || Deploy.DEPLOY_DRY_RUN e in
  let force := Deploy.FORCE o || Deploy.DEPLOY_FORCE e in
  run_pre_deployment_checks s lg o dry source target ;;
  created <- create_backup s lg e o dry target ;;
  d <- perform_deployment s lg dry force source target ;;
  if Nat.eqb d 0 then
    v <- run_post_deployment_validation s lg dry target ;;
    if Nat.eqb v 0 then
      Deploy.log lg "🎉 Deployment completed successfully!" ;;
      generate_deployment_summary s lg e dry source target created ;;
      cleanup_deployment dry ;;
      exit 0
    else
      handle_deployment_failure s lg o created target
        "post-deployment validation failed" ;;
      exit 4
  else
    handle_deployment_failure s lg o created target
      "deployment process failed" ;;
    exit 1.

(** deploy.sh as a whole: [main] with its stages. *)
Definition main (s : setup) (e : Deploy.env) (o : Deploy.options)
  : sh unit :=
  Deploy.main
    (Deploy.mkEnv (Deploy.PROJECT_ROOT e) (Deploy.DIRECTUS_PROD_PATH e)
       (Deploy.DEPLOY_DRY_RUN e) (Deploy.DEPLOY_FORCE e) (Deploy.config_ok e)
       (Deploy.have_rsync e) (Deploy.have_python3 e) (Deploy.perms e)
       (Deploy.DEPLOYMENT_ID e) (workflow s e o))
    o.

(** The start of [main], up to and with the validation of the
    prerequisites: returns the log file, the source and the target. *)
Definition prerequisites (e : Deploy.env) (o : Deploy.options)
  : sh (option path * path * path) :=
  let dry := Deploy.DRY_RUN o || Deploy.DEPLOY_DRY_RUN e in
  lg <- Deploy.setup_deployment_logging e dry ;;
  Deploy.log lg "Starting Directus production deployment" ;;
  Deploy.log lg ("Deployment ID: " ++ Deploy.DEPLOYMENT_ID e) ;;
  Deploy.load_configuration lg e ;;
  st <- Deploy.validate_prerequisites lg e o dry ;;
  ret (lg, fst st, snd st).

End DeployWorkflow.

(* ================================================================= *)
(** * Sample machines *)

Module Sample.

Definition allowed : access := mkAccess (fun _ => true) (fun _ => true).

(** A production tree with code, uploads and data; a tree of new code; a
    files backup taken of a whole project tree, whose metadata carries a
    time stamp in ISO format. *)
Definition production : node :=
  Dir [("package.json", File (Bytes "{v2}"));
       ("uploads", Dir [("new.png", File (Bytes "NEW"))]);
       ("data", Dir [("db.sqlite", File (Bytes "ROWS"))])].

Definition backup (timestamp : string) : node :=
  Dir [("backup-metadata.json",
        File (Json [("backup_type", JStr "files");
                    ("timestamp", JStr timestamp);
                    ("file_count", JNum 2)]));
       ("README.md", File (Bytes "# File Backup"));
       ("files", Dir [("package.json", File (Bytes "{v1}"));
                      ("uploads", Dir [("old.png", File (Bytes "OLD"))])])].

Definition disk : node :=
  Dir [("prod", production);
       ("stage", Dir [("package.json", File (Bytes "{v3.1}"))]);
       ("b", backup "2025-01-01T10:00:00");
       ("proj", Dir [])].

Definition start : world := mkWorld disk [].

Definition sync_env : SyncCode.env :=
  SyncCode.mkEnv ["proj"] None false
    (Some (SyncCode.mkConfig ["uploads/"] [] false ["proj"; "staging"]))
    true true allowed false 0 "1700000000".

(** sync-code.sh --source /stage --target /prod, with staging. *)
Definition sync_options : SyncCode.options :=
  SyncCode.mkOptions (Some ["stage"]) (Some ["prod"]) false false false true.

(** A rollback, forced, [age] days after the time stamp of the backup,
    which python reads; it reads no other text of the sample. *)
Definition rollback_env (age : Z) : Rollback.env :=
  Rollback.mkEnv ["proj"] allowed "rollback-20250102-000000-4242"
    "20250102-000000" "2025-01-02T00:00:00Z"
    (fun ts => if String.eqb ts "2025-01-01T10:00:00" then Some age else None)
    "yes" None None.

Definition rollback_options (force verify_only : bool) : Rollback.options :=
  Rollback.mkOptions (Some ["b"]) (Some ["prod"]) false force verify_only
    false.

(** A project whose uploads hold a document and a Finder metadata file,
    and the file backup of it. *)
Definition uploads_disk : node :=
  Dir [("proj",
        Dir [("uploads", Dir [("a.txt", File (Bytes "hello"));
                              (".DS_Store", File (Bytes "Bud1"))])])].

Definition backup_files_env : BackupFiles.env :=
  BackupFiles.mkEnv ["proj"] ["proj"] "2025-01-02 00:00:00"
    "2025-01-02T00-00-00" true allowed (fun _ => "4.0K") "unknown".

Definition backup_files_options : BackupFiles.options :=
  BackupFiles.mkOptions None None false false true.

Definition files_backup_dir : path :=
  ["proj"; "backups"; "directus-files-backup-2025-01-02T00-00-00"].

Definition verify_env : VerifyBackup.env :=
  VerifyBackup.mkEnv ["proj"] true.

(** verify-backup.sh --files-only DIR, with or without --quick. *)
Definition verify_files_only (dir : path) (quick : bool)
  : VerifyBackup.options :=
  VerifyBackup.mkOptions (Some dir) false true quick.

(** A file backup that is well formed, with one empty file in its
    payload. *)
Definition zero_byte_disk : node :=
  Dir [("proj", Dir []);
       ("b",
        Dir [("backup-metadata.json",
              File (Json [("backup_type", JStr "files");
                          ("timestamp", JStr "2025-01-02T00-00-00");
                          ("file_count", JNum 2);
                          ("created_by", JStr "backup-files.sh")]));
             ("README.md", File (Bytes "# File Backup"));
             ("files", Dir [("a.txt", File (Bytes "hello"));
                            ("empty.txt", File (Bytes EmptyString))])])].

(** A project with its environment file, before and after the directory of
    the database backup is made; pg_dump writes [output] and ends with
    [status]. *)
Definition db_disk : node :=
  Dir [("proj", Dir [(".env.production", File (Bytes "DB_HOST=db"))])].

Definition db_disk_made : node :=
  Dir [("proj",
        Dir [(".env.production", File (Bytes "DB_HOST=db"));
             ("backups",
              Dir [("directus-db-backup-2025-01-02T00-00-00", Dir [])])])].

Definition db_env (output : string) (status : nat) : BackupDatabase.env :=
  BackupDatabase.mkEnv ["proj"] ["proj"] "2025-01-02 00:00:00" (fun _ => 0)
    [("DB_HOST", "db"); ("DB_DATABASE", "directus")]
    "2025-01-02T00-00-00" true true output status (fun _ => "0") "unknown".

Definition db_options : BackupDatabase.options :=
  BackupDatabase.mkOptions false false.

(** A project whose environment file sets no database variable, on a
    machine where every other pre-deployment check passes. *)
Definition checks_disk : node :=
  Dir [("proj", Dir [(".env", File (Bytes "PUBLIC_URL=https://cms.example"))]);
       ("prod", Dir [])].

Definition checks_env : PreDeploymentChecks.env :=
  PreDeploymentChecks.mkEnv ["proj"] allowed []
    (fun _ => Some [("PUBLIC_URL", "https://cms.example")]) true true false
    0 0 0 0.

(** pre-deployment-checks.sh --source /proj --target /prod, with or without
    --skip-database. *)
Definition checks_options (database : bool) : PreDeploymentChecks.options :=
  PreDeploymentChecks.mkOptions (Some ["proj"]) (Some ["prod"]) false
    database true true true.

(** A machine where /src does not exist, and the stages started with
    --source /src --target /prod. *)
Definition no_source_disk : node :=
  Dir [("proj", Dir []); ("prod", Dir [])].

Definition no_source_sync : SyncCode.options :=
  SyncCode.mkOptions (Some ["src"]) (Some ["prod"]) false false false true.

Definition no_source_backup : BackupFiles.options :=
  BackupFiles.mkOptions (Some ["src"]) None false false true.

Definition no_source_checks : PreDeploymentChecks.options :=
  PreDeploymentChecks.mkOptions (Some ["src"]) (Some ["prod"]) false
    true true true true.

Definition no_source_deploy (dry : bool) : Deploy.options :=
  Deploy.mkOptions (Some ["src"]) (Some ["prod"]) dry false false false true.

Definition deploy_env : Deploy.env :=
  Deploy.mkEnv ["proj"] None false false true true true allowed
    "deploy-20250102-000000-4242" (fun _ _ _ => ret tt).

(** The same machine with a backup that has lost its metadata. *)
Definition bare_backup_disk : node :=
  Dir [("prod", production);
       ("b", Dir [("files", Dir [("package.json", File (Bytes "{v1}"))])]);
       ("proj", Dir [])].

(** An extension with its manifest and one module; a target that holds an
    older deployment of it, with a file the source no longer has and the
    node_modules of an earlier install.  A second extension has lost its
    manifest, a third is in order. *)
Definition extensions_disk : node :=
  Dir [("proj",
        Dir [("extensions",
              Dir [("alpha", Dir [("package.json", File (Bytes "{alpha 2}"));
                                  ("index.js", File (Bytes "new code"))]);
                   ("broken", Dir [("index.js", File (Bytes "code"))]);
                   (".cache", Dir []);
                   ("gamma", Dir [("package.json", File (Bytes "{gamma}"))])])]);
       ("prod",
        Dir [("extensions",
              Dir [("alpha",
                    Dir [("package.json", File (Bytes "{alpha}"));
                         ("stale.js", File (Bytes "old code"));
                         ("node_modules",
                          Dir [("dep.js", File (Bytes "dependency"))])])])])].

Definition extensions_env : DeployExtensions.env :=
  DeployExtensions.mkEnv ["proj"] None
    (Some (DeployExtensions.mkConfig [] true)) allowed "20250102-000000"
    false (fun es => Some es) (fun es => Some es).

(** deploy-extensions.sh --target /prod/extensions --no-backup. *)
Definition extensions_options : DeployExtensions.options :=
  DeployExtensions.mkOptions None (Some ["prod"; "extensions"]) false false
    false true.


(** A configuration that gives two exclusion rules for the extensions. *)
Definition two_rules_config : DeployExtensions.ext_config :=
  DeployExtensions.mkConfig ["node_modules/"; ".git/"] true.

Definition two_rules_env : DeployExtensions.env :=
  DeployExtensions.mkEnv ["proj"] None (Some two_rules_config) allowed
    "20250102-000000" false (fun es => Some es) (fun es => Some es).

(** deploy-extensions.sh --target /prod/extensions --no-install. *)
Definition extensions_no_install : DeployExtensions.options :=
  DeployExtensions.mkOptions None (Some ["prod"; "extensions"]) false false
    true false.

End Sample.

(* ================================================================= *)
(** * More sample machines *)

Module Cases.

(** A machine on which every probe of the pre-deployment checks would
    find something, and a dry run of the checks. *)
Definition failing_checks_env : PreDeploymentChecks.env :=
  PreDeploymentChecks.mkEnv ["proj"] Sample.allowed [] (fun _ => Some [])
    false false false 4 2 1 3.

Definition dry_checks_options : PreDeploymentChecks.options :=
  PreDeploymentChecks.mkOptions (Some ["proj"]) (Some ["prod"]) true
    true true true true.

(** backup-database.sh --dry-run; a machine whose database does not
    answer. *)
Definition dry_db_options : BackupDatabase.options :=
  BackupDatabase.mkOptions true false.

Definition silent_db_env : BackupDatabase.env :=
  BackupDatabase.mkEnv ["proj"] ["proj"] "2025-01-02 00:00:00" (fun _ => 0)
    [("DB_HOST", "db")] "2025-01-02T00-00-00"
    true false "-- PostgreSQL database dump" 0 (fun _ => "4.0K") "unknown".

(** sync-code.sh with the built-in exclusion rules and --delete among the
    rsync options. *)
Definition default_sync_config : SyncCode.deploy_config :=
  SyncCode.mkConfig [] [] true ["proj"; "deployment-staging"].

Definition default_sync_env : SyncCode.env :=
  SyncCode.mkEnv ["proj"] None false (Some default_sync_config)
    true true Sample.allowed false 0 "1700000000".

(** A rollback at whose prompt the answer is no; rollback.sh --dry-run. *)
Definition refusing_rollback_env : Rollback.env :=
  Rollback.mkEnv ["proj"] Sample.allowed "rollback-20250102-000000-4242"
    "20250102-000000" "2025-01-02T00:00:00Z"
    (fun ts => if String.eqb ts "2025-01-01T10:00:00" then Some 1%Z else None)
    "no" None None.

Definition dry_rollback_options : Rollback.options :=
  Rollback.mkOptions (Some ["b"]) (Some ["prod"]) true false false false.

(** A source whose extensions all carry their manifest, beside a hidden
    directory and a plain file, and a target that is still empty. *)
Definition sound_extensions_disk : node :=
  Dir [("proj",
        Dir [("extensions",
              Dir [("alpha", Dir [("package.json", File (Bytes "{alpha 2}"));
                                  ("index.js", File (Bytes "new code"))]);
                   (".cache", Dir []);
                   ("README.md", File (Bytes "notes"));
                   ("gamma", Dir [("package.json", File (Bytes "{gamma}"))])])]);
       ("prod", Dir [("extensions", Dir [])])].

(** A target that still holds an extension the source has no more. *)
Definition stale_extensions_disk : node :=
  Dir [("proj",
        Dir [("extensions",
              Dir [("alpha", Dir [("package.json", File (Bytes "{alpha 2}"));
                                  ("index.js", File (Bytes "new code"))])])]);
       ("prod",
        Dir [("extensions",
              Dir [("alpha", Dir [("package.json", File (Bytes "{alpha}"))]);
                   ("retired",
                    Dir [("package.json", File (Bytes "{retired}"));
                         ("index.js", File (Bytes "old code"))])])])].

(** Uploads with a thumbnail cache and a Finder file, beside a backups
    directory that is still empty; backup-files.sh --source /proj/uploads
    --target /proj/backups/manual. *)
Definition cached_uploads_disk : node :=
  Dir [("proj",
        Dir [("uploads",
              Dir [("a.txt", File (Bytes "hello"));
                   ("thumbs", Dir [("a.jpg", File (Bytes "small"))]);
                   ("docs", Dir [("b.pdf", File (Bytes "report"));
                                 ("b.tmp", File (Bytes "draft"))]);
                   (".DS_Store", File (Bytes "Bud1"))]);
             ("backups", Dir [])])].

Definition manual_backup_options (dry : bool) : BackupFiles.options :=
  BackupFiles.mkOptions (Some ["proj"; "uploads"])
    (Some ["proj"; "backups"; "manual"]) dry false true.

(** deploy.sh --dry-run --source /proj --target /prod, and the same live;
    scripts that all succeed without doing anything. *)
Definition deploy_env : Deploy.env :=
  Deploy.mkEnv ["proj"] None false false true true true Sample.allowed
    "deploy-20250102-000000-1" (fun _ _ _ => ret tt).

Definition deploy_options (dry skip_backup : bool) : Deploy.options :=
  Deploy.mkOptions (Some ["proj"]) (Some ["prod"]) dry false skip_backup
    false true.

Definition idle_scripts : DeployWorkflow.setup :=
  DeployWorkflow.mkSetup ["proj"; "scripts"; "deployment"]
    "Thu Jan  2 00:00:00 UTC 2025"
    (fun _ _ w => (0, w)) (fun w => (0, w)) (fun _ w => (0, w))
    (fun _ _ _ w => (0, w)) (fun _ _ _ _ w => (0, w)) (fun _ w => (0, w))
    (Some (fun _ _ w => (0, w))).

Definition deploy_disk : node :=
  Dir [("proj", Dir [("package.json", File (Bytes "{v2}"))]);
       ("prod", Dir [("package.json", File (Bytes "{v1}"))])].

(** The same, with sync-code.sh as embedded above for the code sync. *)
Definition staged_sync_scripts : DeployWorkflow.setup :=
  DeployWorkflow.mkSetup ["proj"; "scripts"; "deployment"]
    "Thu Jan  2 00:00:00 UTC 2025"
    (fun _ _ w => (0, w)) (fun w => (0, w)) (fun _ w => (0, w))
    (fun force source target =>
       DeployWorkflow.bash
         (SyncCode.main default_sync_env
            (SyncCode.mkOptions (Some source) (Some target) false false force
               true)))
    (fun _ _ _ _ w => (0, w)) (fun _ w => (0, w))
    (Some (fun _ _ w => (0, w))).

(** A production tree beside a backup of the code and a backup made by
    backup-files.sh; rollback.sh --target /prod --force, logging to
    /proj/logs. *)
Definition restore_disk : node :=
  Dir [("prod", Sample.production);
       ("code", Dir [("package.json", File (Bytes "{v1}"));
                     ("src", Dir [("index.js", File (Bytes "old code"));
                                  ("data", Dir [("seed.json",
                                                 File (Bytes "[]"))])]);
                     ("uploads", Dir [("old.png", File (Bytes "OLD"))])]);
       ("b", Dir [("backup-metadata.json",
                   File (Json [("backup_type", JStr "files");
                               ("timestamp", JStr "2025-01-01T10-00-00")]));
                  ("files", Dir [("a.png", File (Bytes "A"))])]);
       ("proj", Dir [("logs", Dir [])])].

Definition restore_log : option path := Some ["proj"; "logs"; "rollback.log"].

Definition restore_options : Rollback.options :=
  Rollback.mkOptions None (Some ["prod"]) false true false false.

End Cases.

(* ================================================================= *)
(** * What a step of a script may do *)

Unset Implicit Arguments.

(** Two paths part ways when they differ at some component. *)
Inductive apart : path -> path -> Prop :=
| apart_here n m p q : n <> m -> apart (n :: p) (m :: q)
| apart_below n p q : apart p q -> apart (n :: p) (n :: q).

(** A step is [quiet] when it returns, leaves the tree alone and only adds
    lines to the console. *)
Definition quiet {A : Type} (c : sh A) : Prop :=
  forall w, exists a w' more,
    c w = Ret a w' /\ fs w' = fs w /\ console w' = (console w ++ more)%list.

(** [keeps dir c]: whatever [c] does, all that lies apart from [dir] is as
    it was when it ends. *)
Definition keeps {A : Type} (dir : path) (c : sh A) : Prop :=
  forall w q, apart dir q -> lookup (fs (final (c w))) q = lookup (fs w) q.

(** [confined dir c]: [c] returns, only adds lines to the console, and
    leaves all that lies apart from [dir] as it was. *)
Definition confined {A : Type} (dir : path) (c : sh A) : Prop :=
  forall w, exists a w' more,
    c w = Ret a w' /\ console w' = (console w ++ more)%list
    /\ forall q, apart dir q -> lookup (fs w') q = lookup (fs w) q.

(** [fails_loudly c]: when [c] ends the script, the status is not 0. *)
Definition fails_loudly {A : Type} (c : sh A) : Prop :=
  forall w n w', c w = Exit n w' -> n <> 0.

(** The log file of a run is [None] or a file of the logs directory. *)
Definition in_logs (logs : path) (lg : option path) : Prop :=
  match lg with
  | Some f => exists n, f = logs // n
  | None => True
  end.

(** [inert c]: whatever [c] does, the tree is as it was when it ends. *)
Definition inert {A : Type} (c : sh A) : Prop :=
  forall w, fs (final (c w)) = fs w.

(** [ends_with P c]: when [c] ends the script, the status satisfies [P]. *)
Definition ends_with {A : Type} (P : nat -> Prop) (c : sh A) : Prop :=
  forall w n w', c w = Exit n w' -> P n.

(** [returns c]: [c] never ends the script. *)
Definition returns {A : Type} (c : sh A) : Prop :=
  forall w, exists a w', c w = Ret a w'.

(** [spares q c]: whatever [c] does, what is at [q] when it ends is what
    was there before. *)
Definition spares {A : Type} (q : path) (c : sh A) : Prop :=
  forall w, lookup (fs (final (c w))) q = lookup (fs w) q.

(** The states in which a live deploy.sh runs the scripts of its stages,
    from the state [w] in which the stage starts: each script is run after
    the log lines of its stage. *)
Definition checks_start (lg : option path) (w : world) : world :=
  final (Deploy.log lg "Running pre-deployment checks..." w).

Definition backup_start (lg : option path) (w : world) : world :=
  final (Deploy.log lg "Creating deployment backup..." w).

Definition sync_start (lg : option path) (w : world) : world :=
  final ((Deploy.log lg "Starting deployment process..." ;;
          Deploy.log lg "Syncing code changes...") w).

Definition extensions_start (s : DeployWorkflow.setup) (lg : option path)
  (force : bool) (source target : path) (w : world) : world :=
  final (Deploy.log lg "Deploying extensions..."
           (snd (DeployWorkflow.sync_code s force source target
                   (sync_start lg w)))).

Definition validation_start (lg : option path) (w : world) : world :=
  final (Deploy.log lg "Running post-deployment validation..." w).

(** What the statuses of deploy.sh stand for, stage by stage: the script
    of the stage that starts in [w] has returned 0 in the state in which
    the stage runs it. *)
Definition checks_passed (s : DeployWorkflow.setup) (lg : option path)
  (o : Deploy.options) (source target : path) (w : world) : Prop :=
  Deploy.SKIP_CHECKS o = false ->
  fst (DeployWorkflow.pre_deployment_checks s source target
         (checks_start lg w)) = 0.

Definition database_backed_up (s : DeployWorkflow.setup) (lg : option path)
  (o : Deploy.options) (w : world) : Prop :=
  Deploy.SKIP_BACKUP o = false ->
  fst (DeployWorkflow.backup_database s (backup_start lg w)) = 0.

Definition code_synced (s : DeployWorkflow.setup) (lg : option path)
  (force : bool) (source target : path) (w : world) : Prop :=
  fst (DeployWorkflow.sync_code s force source target (sync_start lg w)) = 0.

Definition extensions_deployed (s : DeployWorkflow.setup) (lg : option path)
  (force : bool) (source target : path) (w : world) : Prop :=
  fst (DeployWorkflow.deploy_extensions s force source target
         (target // "extensions")
         (extensions_start s lg force source target w)) = 0.

Definition deployment_validated (s : DeployWorkflow.setup) (lg : option path)
  (target : path) (w : world) : Prop :=
  fst (DeployWorkflow.post_deployment_validation s target
         (validation_start lg w)) = 0.

(* ================================================================= *)
(** * Properties *)

(** ** C1: preserved directories *)


(** ** C3: a stale backup *)


(** ** C5: the file count of the metadata *)

(** C5: for uploads holding [a.txt] and [.DS_Store], backup-files.sh ends
    with status 0, its payload holds one file (the rule [.DS_Store] keeps the
    other out), and it records [file_count] 2, the count of the source;
    verify-backup.sh reports the mismatch and ends with status 1. *)
Theorem file_count_counts_the_source :
  let run := BackupFiles.main Sample.backup_files_env
               Sample.backup_files_options
               (mkWorld Sample.uploads_disk []) in
  let dir := Sample.files_backup_dir in
  let check := VerifyBackup.main Sample.verify_env
                 (Sample.verify_files_only dir false)
                 (mkWorld (fs (final run)) []) in
  exit_code run = 0
  /\ option_map count_type_f (lookup (fs (final run)) (dir // "files"))
     = Some 1
  /\ match file_at (fs (final run)) (dir // "backup-metadata.json") with
     | Some (Json o) => assoc "file_count" o
     | _ => None
     end = Some (JNum 2)
  /\ said (Err "ERROR: File count mismatch - metadata: 2, actual: 1")
       (final check)
  /\ exit_code check = 1.
Proof.
  vm_compute. repeat split; auto 20.
Qed.

(** ** Steps that only talk *)

Lemma bind_runs {A B : Type} (c : sh A) (k : A -> sh B) w a w' :
  c w = Ret a w' -> bind c k w = k a w'.
Proof. intros H. unfold bind. now rewrite H. Qed.

Lemma bind_exits {A B : Type} (c : sh A) (k : A -> sh B) w n w' :
  c w = Exit n w' -> bind c k w = Exit n w'.
Proof. intros H. unfold bind. now rewrite H. Qed.

Lemma bind_assoc {A B C : Type} (c : sh A) (f : A -> sh B) (g : B -> sh C) w :
  bind (bind c f) g w = bind c (fun x => bind (f x) g) w.
Proof. unfold bind. destruct (c w); reflexivity. Qed.

Lemma quiet_ret {A : Type} (a : A) : quiet (ret a).
Proof.
  intros w. exists a, w, []. rewrite app_nil_r. repeat split.
Qed.

Lemma quiet_echo text : quiet (echo text).
Proof. intros w. exists tt, (mkWorld (fs w) (console w ++ [Out text])), [Out text]. repeat split. Qed.

Lemma quiet_echo_err text : quiet (echo_err text).
Proof. intros w. exists tt, (mkWorld (fs w) (console w ++ [Err text])), [Err text]. repeat split. Qed.

Lemma quiet_get_fs : quiet get_fs.
Proof. intros w. exists (fs w), w, []. rewrite app_nil_r. repeat split. Qed.

Lemma quiet_bind {A B : Type} (c : sh A) (k : A -> sh B) :
  quiet c -> (forall a, quiet (k a)) -> quiet (bind c k).
Proof.
  intros Hc Hk w.
  destruct (Hc w) as (a & w1 & m1 & E1 & F1 & C1).
  destruct (Hk a w1) as (b & w2 & m2 & E2 & F2 & C2).
  exists b, w2, (m1 ++ m2)%list. rewrite (bind_runs _ _ _ _ _ E1). split; [exact E2|].
  split; [congruence|]. rewrite C2, C1. now rewrite app_assoc.
Qed.

(** A quiet step that reads the tree first. *)
Lemma quiet_reading {A : Type} (k : node -> sh A) :
  (forall t, quiet (k t)) -> quiet (bind get_fs k).
Proof. intros H. apply quiet_bind; [apply quiet_get_fs | exact H]. Qed.

Ltac quiet_cases :=
  repeat first
    [ apply quiet_ret
    | apply quiet_echo
    | apply quiet_echo_err
    | apply quiet_get_fs
    | apply quiet_bind; [ | intros ? ]
    | match goal with
      | |- quiet (if ?b then _ else _) => destruct b
      | |- quiet (match ?x with _ => _ end) => destruct x
      end ].

Lemma said_later l w w' more :
  said l w -> console w' = (console w ++ more)%list -> said l w'.
Proof. unfold said. intros H E. rewrite E. apply in_or_app. now left. Qed.

Lemma said_new l w w' more :
  In l more -> console w' = (console w ++ more)%list -> said l w'.
Proof. unfold said. intros H E. rewrite E. apply in_or_app. now right. Qed.

Lemma status_of_small n : n < 256 -> status_of n = n.
Proof. intros H. unfold status_of. now apply Nat.mod_small. Qed.

(** ** C9: zero-byte files in a file backup *)

Lemma verify_issue_quiet b text : quiet (VerifyBackup.issue b text).
Proof. unfold VerifyBackup.issue, VerifyBackup.error_log. quiet_cases. Qed.

Lemma verify_backup_structure_quiet b :
  quiet (VerifyBackup.verify_backup_structure b).
Proof.
  unfold VerifyBackup.verify_backup_structure, VerifyBackup.log,
    VerifyBackup.error_log.
  quiet_cases; apply verify_issue_quiet.
Qed.

Lemma verify_database_backup_quiet b :
  quiet (VerifyBackup.verify_database_backup b).
Proof.
  unfold VerifyBackup.verify_database_backup, VerifyBackup.log,
    VerifyBackup.error_log.
  quiet_cases; apply verify_issue_quiet.
Qed.

Lemma verify_metadata_consistency_quiet e b :
  quiet (VerifyBackup.verify_metadata_consistency e b).
Proof.
  unfold VerifyBackup.verify_metadata_consistency, VerifyBackup.log,
    VerifyBackup.error_log.
  quiet_cases; apply verify_issue_quiet.
Qed.

(** Without --quick, a payload with a zero-byte file makes
    [verify_file_backup] report it and return a status that is not 0. *)
Lemma verify_file_backup_zero_byte o b es w :
  VerifyBackup.QUICK_CHECK o = false ->
  lookup (fs w) (b // "files") = Some (Dir es) ->
  0 < count_size_0 (Dir es) ->
  exists n w' more,
    VerifyBackup.verify_file_backup o b w = Ret n w'
    /\ n <> 0 /\ fs w' = fs w
    /\ console w' = (console w ++ more)%list
    /\ In (Err ("ERROR: Found " ++ dec (count_size_0 (Dir es))
                ++ " zero-byte files in backup")) more.
Proof.
  intros Hq Hl Hz.
  unfold VerifyBackup.verify_file_backup, VerifyBackup.log.
  unfold bind at 1. cbn [echo].
  unfold bind at 1. cbn [get_fs fs].
  rewrite Hl, Hq. cbn [negb].
  assert (Ez : Nat.ltb 0 (count_size_0 (Dir es)) = true)
    by now apply Nat.ltb_lt.
  rewrite Ez.
  set (zero := Err ("ERROR: Found " ++ dec (count_size_0 (Dir es))
                    ++ " zero-byte files in backup")).
  destruct (Nat.eqb (count_type_f (Dir es)) 0);
    destruct (Nat.ltb 10 (count_large (Dir es)));
    cbn; eexists _, _, _; (split; [reflexivity|]);
    (split; [discriminate|]); (split; [reflexivity|]);
    (split; [cbn; repeat rewrite <- app_assoc; reflexivity|]);
    cbn; unfold zero; auto 10.
Qed.

Lemma bind_quiet {A B : Type} (c : sh A) (k : A -> sh B) w :
  quiet c ->
  exists a w' more,
    fs w' = fs w /\ console w' = (console w ++ more)%list
    /\ bind c k w = k a w'.
Proof.
  intros H. destruct (H w) as (a & w' & more & E & F & C).
  exists a, w', more. repeat split; auto. now apply bind_runs.
Qed.

(** Runs the first step of the script in the goal, once [tac] has shown that
    it is quiet. *)
Ltac quiet_step tac :=
  rewrite ?bind_assoc;
  match goal with
  | |- context [bind ?c ?k ?w] =>
      let H := fresh "H" in
      let a := fresh "a" in
      let w' := fresh "w" in
      let more := fresh "more" in
      let F := fresh "F" in
      let C := fresh "C" in
      let E := fresh "E" in
      assert (H : quiet c) by tac;
      destruct (bind_quiet c k w H) as (a & w' & more & F & C & E);
      rewrite E; clear E H; cbv beta
  end.

(** Runs a first step that is a plain [ret]. *)
Ltac ret_step :=
  match goal with
  | |- context [bind (ret ?a) ?k ?w] =>
      rewrite (bind_runs (ret a) k w a w eq_refl); cbv beta
  end.

(** A line said at some point is still on the console later: goes back
    step by step to the step that said it. *)
Ltac still_said :=
  repeat match goal with
         | C : console ?w' = (console ?w ++ ?more)%list |- said ?l ?w' =>
             first [ solve [ apply (said_new l w w' more); [ | exact C ];
                             cbn; auto 20 ]
                   | apply (said_later l w w' more); [ | exact C ] ]
         end.

(** C9, as the code has it: without --quick, a file backup whose payload
    holds a zero-byte file is reported ("Found N zero-byte files in backup")
    and counted as an issue, and verify-backup.sh ends with status 1. *)
Theorem zero_byte_file_fails_verification e o w b es :
  VerifyBackup.BACKUP_DIR o = Some b ->
  VerifyBackup.CHECK_FILES o = true ->
  VerifyBackup.QUICK_CHECK o = false ->
  lookup (fs w) (b // "files") = Some (Dir es) ->
  0 < count_size_0 (Dir es) ->
  exit_code (VerifyBackup.main e o w) = 1
  /\ said (Err ("ERROR: Found " ++ dec (count_size_0 (Dir es))
                ++ " zero-byte files in backup"))
       (final (VerifyBackup.main e o w)).
Proof.
  intros Hb Hf Hq Hl Hz.
  unfold VerifyBackup.main, VerifyBackup.log. rewrite Hb, Hf, Hq.
  ret_step.
  quiet_step ltac:(apply quiet_echo).
  quiet_step ltac:(apply quiet_echo).
  quiet_step ltac:(apply quiet_ret).
  quiet_step ltac:(apply verify_backup_structure_quiet).
  quiet_step ltac:(destruct (VerifyBackup.CHECK_DATABASE o);
                   [apply verify_database_backup_quiet | apply quiet_ret]).
  assert (Hl' : lookup (fs w4) (b // "files") = Some (Dir es))
    by (rewrite F3, F2, F1, F0, F; exact Hl).
  destruct (verify_file_backup_zero_byte o b es w4 Hq Hl' Hz)
    as (n & w5 & more5 & E5 & Hn & F5 & C5 & Hin).
  rewrite (bind_runs _ _ _ _ _ E5). cbv beta.
  quiet_step ltac:(apply verify_metadata_consistency_quiet).
  quiet_step ltac:(apply quiet_echo).
  assert (Et : Nat.eqb (a2 + a3 + n + a4) 0 = false)
    by (apply Nat.eqb_neq; lia).
  rewrite Et.
  quiet_step ltac:(apply quiet_echo).
  quiet_step ltac:(apply quiet_echo).
  cbn [exit exit_code final]. split; [reflexivity|].
  still_said.
Qed.

(** The backup of the sample is in order but for its one empty file: with
    --quick, which skips the check of sizes, verify-backup.sh ends with
    status 0; without it the status is 1. *)
Lemma zero_byte_file_counterexample :
  let w := mkWorld Sample.zero_byte_disk [] in
  option_map count_size_0 (lookup (fs w) ["b"; "files"]) = Some 1
  /\ exit_code (VerifyBackup.main Sample.verify_env
                  (Sample.verify_files_only ["b"] true) w) = 0
  /\ exit_code (VerifyBackup.main Sample.verify_env
                  (Sample.verify_files_only ["b"] false) w) <> 0.
Proof.
  vm_compute. repeat split. discriminate.
Qed.

Lemma zero_byte_file_witness :
  let w := mkWorld Sample.zero_byte_disk [] in
  let o := Sample.verify_files_only ["b"] false in
  let es := [("a.txt", File (Bytes "hello"));
             ("empty.txt", File (Bytes EmptyString))] in
  (VerifyBackup.BACKUP_DIR o = Some ["b"]
   /\ VerifyBackup.CHECK_FILES o = true
   /\ VerifyBackup.QUICK_CHECK o = false
   /\ lookup (fs w) (["b"] // "files") = Some (Dir es)
   /\ 0 < count_size_0 (Dir es))
  /\ exit_code (VerifyBackup.main Sample.verify_env o w) = 1
  /\ said (Err ("ERROR: Found " ++ dec (count_size_0 (Dir es))
                ++ " zero-byte files in backup"))
       (final (VerifyBackup.main Sample.verify_env o w)).
Proof.
  intros w o es.
  assert (H1 : VerifyBackup.BACKUP_DIR o = Some ["b"]) by reflexivity.
  assert (H2 : VerifyBackup.CHECK_FILES o = true) by reflexivity.
  assert (H3 : VerifyBackup.QUICK_CHECK o = false) by reflexivity.
  assert (H4 : lookup (fs w) (["b"] // "files") = Some (Dir es))
    by reflexivity.
  assert (H5 : 0 < count_size_0 (Dir es)) by (vm_compute; lia).
  split; [repeat split; assumption|].
  exact (zero_byte_file_fails_verification Sample.verify_env o w ["b"] es
           H1 H2 H3 H4 H5).
Defined.

(** ** The file-system tree: lookup after an update *)

Lemma assoc_set_entry_same {A : Type} n (x : A) l :
  assoc n (set_entry n x l) = Some x.
Proof.
  induction l as [|[m y] l IH]; cbn.
  - now rewrite String.eqb_refl.
  - destruct (String.eqb n m) eqn:E; cbn.
    + now rewrite String.eqb_refl.
    + now rewrite E.
Qed.

Lemma assoc_set_entry_other {A : Type} n m (x : A) l :
  n <> m -> assoc m (set_entry n x l) = assoc m l.
Proof.
  intros Hne. induction l as [|[k y] l IH]; cbn.
  - destruct (String.eqb m n) eqn:E; [|reflexivity].
    apply String.eqb_eq in E. congruence.
  - destruct (String.eqb n k) eqn:E; cbn.
    + apply String.eqb_eq in E. subst k.
      destruct (String.eqb m n) eqn:E'; [|reflexivity].
      apply String.eqb_eq in E'. congruence.
    + now rewrite IH.
Qed.

Lemma assoc_remove_entry_same {A : Type} n (l : list (string * A)) :
  assoc n (remove_entry n l) = None.
Proof.
  induction l as [|[m y] l IH]; cbn; [reflexivity|].
  destruct (String.eqb n m) eqn:E; cbn; [exact IH|]. now rewrite E.
Qed.

Lemma assoc_remove_entry_other {A : Type} n m (l : list (string * A)) :
  n <> m -> assoc m (remove_entry n l) = assoc m l.
Proof.
  intros Hne. induction l as [|[k y] l IH]; cbn; [reflexivity|].
  destruct (String.eqb n k) eqn:E; cbn.
  - apply String.eqb_eq in E. subst k.
    destruct (String.eqb m n) eqn:E'; [|exact IH].
    apply String.eqb_eq in E'. congruence.
  - now rewrite IH.
Qed.

(** [put] below a directory. *)
Lemma put_cons es n m p x :
  put (Dir es) (n :: m :: p) x =
  match assoc n es with
  | Some c =>
      match put c (m :: p) x with
      | Some c' => Some (Dir (set_entry n c' es))
      | None => None
      end
  | None => None
  end.
Proof. reflexivity. Qed.

(** What was stored is found. *)
Lemma lookup_put_same t p x t' :
  put t p x = Some t' -> lookup t' p = Some x.
Proof.
  revert t t'. induction p as [|n p IH]; intros t t' H.
  - cbn in H. injection H as <-. reflexivity.
  - destruct t as [c|es]; [discriminate|].
    destruct p as [|m p].
    + cbn in H. injection H as <-. cbn.
      now rewrite assoc_set_entry_same.
    + rewrite put_cons in H.
      destruct (assoc n es) as [c|]; [|discriminate].
      destruct (put c (m :: p) x) as [c'|] eqn:E; [|discriminate].
      injection H as <-.
      change (lookup (Dir (set_entry n c' es)) (n :: m :: p))
        with (match assoc n (set_entry n c' es) with
              | Some c0 => lookup c0 (m :: p)
              | None => None
              end).
      rewrite assoc_set_entry_same. now apply IH with (t := c).
Qed.

(** A new entry of an existing directory can always be stored, and the
    directory then lists it. *)
Lemma put_child t p es n x :
  lookup t p = Some (Dir es) ->
  exists t', put t (p // n) x = Some t'
             /\ lookup t' p = Some (Dir (set_entry n x es)).
Proof.
  revert t. induction p as [|m p IH]; intros t H.
  - cbn in H. injection H as ->. cbn. eexists. split; reflexivity.
  - destruct t as [c|es0]; [discriminate|]. cbn in H.
    destruct (assoc m es0) as [c|] eqn:Em; [|discriminate].
    destruct (IH c H) as (c' & Hput & Hl).
    unfold child in *. cbn [app].
    destruct (p ++ [n])%list as [|k q] eqn:Eq.
    { destruct p; discriminate. }
    rewrite put_cons, Em, Hput. eexists. split; [reflexivity|].
    cbn. now rewrite assoc_set_entry_same.
Qed.

Lemma apart_sym p q : apart p q -> apart q p.
Proof.
  induction 1; [apply apart_here; congruence | now apply apart_below].
Qed.

Lemma apart_child p n m : n <> m -> apart (p // n) (p // m).
Proof.
  intros H. induction p as [|k p IH]; cbn.
  - now apply apart_here.
  - now apply apart_below.
Qed.

Lemma apart_app p q r : apart p q -> apart (p ++ r)%list q.
Proof.
  induction 1; cbn; [now apply apart_here | now apply apart_below].
Qed.

Lemma apart_under p q r s : apart p q -> apart (p ++ r)%list (q ++ s)%list.
Proof.
  intros H. apply apart_app. apply apart_sym. apply apart_app.
  now apply apart_sym.
Qed.

(** An update leaves what lies apart from it as it was. *)
Lemma lookup_put_apart t p x t' q :
  put t p x = Some t' -> apart p q -> lookup t' q = lookup t q.
Proof.
  intros H Ha. revert t t' H.
  induction Ha as [n m p q Hne | n p q Ha IH]; intros t t' H.
  - destruct t as [c|es]; [discriminate|].
    assert (exists c', t' = Dir (set_entry n c' es)) as (c' & ->).
    { destruct p as [|k p].
      - cbn in H. injection H as <-. now eexists.
      - rewrite put_cons in H.
        destruct (assoc n es); [|discriminate].
        destruct (put n0 (k :: p) x); [|discriminate].
        injection H as <-. now eexists. }
    cbn. now rewrite assoc_set_entry_other.
  - destruct t as [c|es]; [discriminate|].
    destruct p as [|k p]; [inversion Ha|].
    rewrite put_cons in H.
    destruct (assoc n es) as [c|] eqn:En; [|discriminate].
    destruct (put c (k :: p) x) as [c'|] eqn:E; [|discriminate].
    injection H as <-.
    destruct q as [|j q]; [inversion Ha|].
    cbn. rewrite assoc_set_entry_same, En.
    exact (IH c c' E).
Qed.

(** [mkdir -p] makes a directory, and leaves an existing one alone. *)
Lemma mkdir_p_test_d t p t' : mkdir_p t p = Some t' -> test_d t' p = true.
Proof.
  unfold test_d. revert t t'. induction p as [|n p IH]; intros t t' H.
  - cbn in H. destruct t; [discriminate|]. injection H as <-. reflexivity.
  - destruct t as [c|es]; [discriminate|]. cbn in H.
    destruct (mkdir_p (match assoc n es with Some c => c | None => Dir [] end) p)
      as [c'|] eqn:E; [|discriminate].
    injection H as <-. cbn. rewrite assoc_set_entry_same. exact (IH _ _ E).
Qed.

Lemma set_entry_same {A : Type} n (x : A) l :
  assoc n l = Some x -> set_entry n x l = l.
Proof.
  induction l as [|[m y] l IH]; cbn; [discriminate|].
  destruct (String.eqb n m) eqn:E.
  - intros H. injection H as ->. apply String.eqb_eq in E. now subst.
  - intros H. now rewrite IH.
Qed.

Lemma mkdir_p_existing t p : test_d t p = true -> mkdir_p t p = Some t.
Proof.
  unfold test_d. revert t. induction p as [|n p IH]; intros t H.
  - cbn in H. destruct t; [discriminate|]. reflexivity.
  - destruct t as [c|es]; [discriminate|]. cbn in H. cbn.
    destruct (assoc n es) as [c|] eqn:En; [|discriminate].
    rewrite (IH c H). now rewrite set_entry_same.
Qed.

Lemma mkdir_p_apart t p t' q :
  mkdir_p t p = Some t' -> apart p q -> lookup t' q = lookup t q.
Proof.
  intros H Ha. revert t t' H.
  induction Ha as [n m p q Hne | n p q Ha IH]; intros t t' H.
  - destruct t as [c|es]; [discriminate|]. cbn in H.
    destruct (mkdir_p _ p) as [c'|]; [|discriminate].
    injection H as <-. cbn. now rewrite assoc_set_entry_other.
  - destruct t as [c|es]; [discriminate|]. cbn in H.
    destruct (mkdir_p _ p) as [c'|] eqn:E; [|discriminate].
    injection H as <-. cbn. rewrite assoc_set_entry_same.
    destruct (assoc n es) as [c|] eqn:En.
    + exact (IH c c' E).
    + rewrite (IH _ _ E). destruct q; [inversion Ha|]. reflexivity.
Qed.

(** ** Running a script step by step *)

(** Runs the first step of the script in the goal when it computes to a
    return. *)
Ltac run_step :=
  rewrite ?bind_assoc;
  match goal with
  | |- context [bind ?c ?k ?w] =>
      rewrite (bind_runs c k w _ _ eq_refl); cbv beta
  end.

Lemma must_runs r status w t :
  r (fs w) = Some t -> must r status w = Ret tt (mkWorld t (console w)).
Proof. intros H. unfold must. now rewrite H. Qed.

Lemma must_fails r status w :
  r (fs w) = None -> must r status w = Exit status w.
Proof. intros H. unfold must. now rewrite H. Qed.

Lemma try_runs r status w t :
  r (fs w) = Some t -> try r status w = Ret 0 (mkWorld t (console w)).
Proof. intros H. unfold try. now rewrite H. Qed.

Lemma try_fails r status w :
  r (fs w) = None -> try r status w = Ret status w.
Proof. intros H. unfold try. now rewrite H. Qed.

(** Runs a first step that computes to an exit: the script ends there. *)
Ltac exit_step :=
  rewrite ?bind_assoc;
  match goal with
  | |- context [bind ?c ?k ?w] =>
      rewrite (bind_exits c k w _ _ eq_refl)
  end.

(** Runs a first step that is a command known to succeed. *)
Ltac must_step H :=
  rewrite ?bind_assoc;
  match goal with
  | |- context [bind (must ?r ?s) ?k ?w] =>
      rewrite (bind_runs (must r s) k w _ _ (must_runs r s w _ H)); cbv beta
  end.

Ltac try_step H :=
  rewrite ?bind_assoc;
  match goal with
  | |- context [bind (try ?r ?s) ?k ?w] =>
      rewrite (bind_runs (try r s) k w _ _ (try_runs r s w _ H)); cbv beta
  end.

(** ** C2: an empty database dump *)

Lemma getenv_default vars name default :
  default <> EmptyString ->
  String.eqb (getenv vars name default) EmptyString = false.
Proof.
  intros H. unfold getenv. apply String.eqb_neq.
  destruct (assoc name vars) as [v|]; [|exact H].
  destruct (String.eqb v EmptyString) eqn:E; [exact H|].
  now apply String.eqb_neq.
Qed.

(** C2, as the code has it: backup-database.sh does not look at the size of
    the dump.  In a live run without --verbose whose prerequisites hold
    (.env.production is there and is sourced without error, pg_dump is
    installed, the database answers) and whose backup directory can be made,
    the script ends with the status of pg_dump, and it reports the backup as
    completed successfully exactly when that status is 0; the dump is then
    stored as pg_dump wrote it, whatever its size, with that size as
    [backup_size_bytes] in the metadata. *)
Theorem database_backup_follows_pg_dump e o t t1 c :
  BackupDatabase.DRY_RUN o = false ->
  BackupDatabase.VERBOSE o = false ->
  file_at t (BackupDatabase.PROJECT_ROOT e // ".env.production") = Some c ->
  BackupDatabase.source_status e c = 0 ->
  BackupDatabase.have_pg_dump e = true ->
  BackupDatabase.pg_isready e = true ->
  mkdir_p t (BackupDatabase.BACKUP_BASE_DIR e // BackupDatabase.BACKUP_NAME e)
  = Some t1 ->
  let dir := BackupDatabase.BACKUP_BASE_DIR e // BackupDatabase.BACKUP_NAME e in
  let run := BackupDatabase.main e o (mkWorld t []) in
  exit_code run = BackupDatabase.pg_dump_status e
  /\ (said (Out "Database backup completed successfully!") (final run)
      <-> BackupDatabase.pg_dump_status e = 0)
  /\ (BackupDatabase.pg_dump_status e = 0 ->
      file_at (fs (final run)) (dir // "database.sql")
      = Some (Bytes (BackupDatabase.pg_dump_output e))
      /\ exists fields,
          file_at (fs (final run)) (dir // "backup-metadata.json")
          = Some (Json fields)
          /\ assoc "backup_size_bytes" fields
             = Some (JNum (String.length (BackupDatabase.pg_dump_output e)))).
Proof.
  intros Hdry Hverb Henv Hsrc Hpg Hready Hmk dir run.
  assert (Hd1 : test_d t1 dir = true) by exact (mkdir_p_test_d _ _ _ Hmk).
  unfold test_d in Hd1.
  destruct (lookup t1 dir) as [[c1|es1]|] eqn:El1; try discriminate.
  destruct (put_child t1 dir es1 "database.sql"
              (File (Bytes (BackupDatabase.pg_dump_output e))) El1)
    as (t2 & Hput2 & El2).
  destruct (put_child t2 dir _ "backup-metadata.json"
              (File (BackupDatabase.metadata e
                       (Bytes (BackupDatabase.pg_dump_output e)))) El2)
    as (t3 & Hput3 & El3).
  destruct (put_child t3 dir _ "README.md"
              (File (Bytes ("# Database Backup: "
                            ++ BackupDatabase.BACKUP_NAME e))) El3)
    as (t4 & Hput4 & El4).
  subst run.
  unfold BackupDatabase.main, BackupDatabase.load_environment,
    BackupDatabase.check_prerequisites, BackupDatabase.test_connection,
    BackupDatabase.create_backup_directory,
    BackupDatabase.create_database_dump, BackupDatabase.create_backup_summary,
    BackupDatabase.pg_dump, BackupDatabase.log.
  rewrite Hdry, Hverb, Hpg, Hready.
  unfold BackupDatabase.DB_DATABASE, BackupDatabase.DB_USER.
  rewrite !getenv_default by discriminate.
  cbn [negb app]. fold dir.
  run_step. cbn [fs]. rewrite Henv, Hsrc. cbn [Nat.eqb].
  repeat run_step.
  try_step Hmk. repeat run_step. cbn [named].
  must_step Hput2.
  destruct (BackupDatabase.pg_dump_status e) as [|s] eqn:Es.
  - cbn [Nat.eqb]. repeat run_step.
    must_step Hput3. repeat run_step.
    must_step Hput4. repeat run_step.
    cbn [echo exit_code final fs console].
    split; [reflexivity|]. split.
    + split; [reflexivity|]. intros _. unfold said. cbn. auto 10.
    + intros _. unfold file_at. split.
      * rewrite (lookup_put_apart _ _ _ _ (dir // "database.sql") Hput4)
          by (apply apart_child; discriminate).
        rewrite (lookup_put_apart _ _ _ _ (dir // "database.sql") Hput3)
          by (apply apart_child; discriminate).
        now rewrite (lookup_put_same _ _ _ _ Hput2).
      * rewrite (lookup_put_apart _ _ _ _ (dir // "backup-metadata.json")
                   Hput4) by (apply apart_child; discriminate).
        rewrite (lookup_put_same _ _ _ _ Hput3).
        eexists. split; reflexivity.
  - cbn [Nat.eqb]. exit_step.
    cbn [exit_code final fs console].
    split; [reflexivity|]. split; [|discriminate].
    split; [|discriminate].
    unfold said. cbn. intros [H|[]]. discriminate.
Qed.

(** pg_dump ends with status 0 and leaves a dump of zero bytes: the script
    ends with status 0 and says that the backup completed successfully. *)
Lemma empty_dump_counterexample :
  let run := BackupDatabase.main (Sample.db_env EmptyString 0)
               Sample.db_options (mkWorld Sample.db_disk []) in
  option_map size
    (file_at (fs (final run))
       ["proj"; "backups"; "directus-db-backup-2025-01-02T00-00-00";
        "database.sql"]) = Some 0
  /\ exit_code run = 0
  /\ said (Out "Database backup completed successfully!") (final run).
Proof.
  vm_compute. repeat split. auto 10.
Qed.

Lemma database_backup_witness :
  let e := Sample.db_env EmptyString 0 in
  let o := Sample.db_options in
  let dir := BackupDatabase.BACKUP_BASE_DIR e // BackupDatabase.BACKUP_NAME e in
  let run := BackupDatabase.main e o (mkWorld Sample.db_disk []) in
  (BackupDatabase.DRY_RUN o = false
   /\ BackupDatabase.VERBOSE o = false
   /\ file_at Sample.db_disk (BackupDatabase.PROJECT_ROOT e // ".env.production")
      = Some (Bytes "DB_HOST=db")
   /\ BackupDatabase.source_status e (Bytes "DB_HOST=db") = 0
   /\ BackupDatabase.have_pg_dump e = true
   /\ BackupDatabase.pg_isready e = true
   /\ mkdir_p Sample.db_disk dir = Some Sample.db_disk_made)
  /\ exit_code run = BackupDatabase.pg_dump_status e
  /\ (said (Out "Database backup completed successfully!") (final run)
      <-> BackupDatabase.pg_dump_status e = 0)
  /\ (BackupDatabase.pg_dump_status e = 0 ->
      file_at (fs (final run)) (dir // "database.sql")
      = Some (Bytes (BackupDatabase.pg_dump_output e))
      /\ exists fields,
          file_at (fs (final run)) (dir // "backup-metadata.json")
          = Some (Json fields)
          /\ assoc "backup_size_bytes" fields
             = Some (JNum (String.length (BackupDatabase.pg_dump_output e)))).
Proof.
  cbv zeta. split; [repeat split|].
  apply (database_backup_follows_pg_dump (Sample.db_env EmptyString 0)
           Sample.db_options Sample.db_disk Sample.db_disk_made
           (Bytes "DB_HOST=db")); reflexivity.
Defined.

(** ** C4: the database check without credentials *)

Lemma checks_issue_quiet b text : quiet (PreDeploymentChecks.issue b text).
Proof.
  unfold PreDeploymentChecks.issue, PreDeploymentChecks.error_log.
  quiet_cases.
Qed.

Lemma probe_quiet what title dry issues :
  quiet (PreDeploymentChecks.probe what title dry issues).
Proof.
  unfold PreDeploymentChecks.probe, PreDeploymentChecks.log. quiet_cases.
Qed.

Lemma checks_validate_directories_quiet e o :
  quiet (PreDeploymentChecks.validate_directories e o).
Proof.
  unfold PreDeploymentChecks.validate_directories,
    PreDeploymentChecks.error_log.
  quiet_cases.
Qed.

Lemma check_system_requirements_quiet e o :
  quiet (PreDeploymentChecks.check_system_requirements e o).
Proof.
  unfold PreDeploymentChecks.check_system_requirements,
    PreDeploymentChecks.log.
  quiet_cases. apply probe_quiet.
Qed.

Lemma check_disk_space_quiet e o :
  quiet (PreDeploymentChecks.check_disk_space e o).
Proof.
  unfold PreDeploymentChecks.check_disk_space, PreDeploymentChecks.log.
  quiet_cases. apply probe_quiet.
Qed.

Lemma check_permissions_quiet e o :
  quiet (PreDeploymentChecks.check_permissions e o).
Proof.
  unfold PreDeploymentChecks.check_permissions, PreDeploymentChecks.log.
  quiet_cases. apply probe_quiet.
Qed.

(** [check_database] returns without touching the tree, or, in a live run
    with the database category on, ends the script with status 1 when the
    environment file cannot be sourced. *)
Lemma check_database_cases e o w :
  (exists a w' more,
      PreDeploymentChecks.check_database e o w = Ret a w'
      /\ fs w' = fs w /\ console w' = (console w ++ more)%list)
  \/ (exists w',
        PreDeploymentChecks.check_database e o w = Exit 1 w'
        /\ fs w' = fs w).
Proof.
  unfold PreDeploymentChecks.check_database, PreDeploymentChecks.log,
    PreDeploymentChecks.issue, PreDeploymentChecks.error_log.
  destruct (PreDeploymentChecks.CHECK_DATABASE o); cbn [negb];
    [|left; exists 0, w, []; rewrite app_nil_r; repeat split].
  destruct (PreDeploymentChecks.DRY_RUN o).
  { left. eexists _, _, [_; _]. split; [reflexivity|].
    split; [reflexivity|]. cbn. now rewrite <- app_assoc. }
  do 2 run_step. cbn [fs].
  destruct (PreDeploymentChecks.load_env_file e (fs w)) as [| |v].
  - left. repeat run_step. eexists _, _, _. split; [reflexivity|].
    split; [reflexivity|]. cbn [console]. rewrite <- !app_assoc. reflexivity.
  - right. exit_step. eexists. split; reflexivity.
  - left.
    destruct (negb (String.eqb (getenv v "DB_HOST" EmptyString) EmptyString)
              && negb (String.eqb (getenv v "DB_DATABASE" EmptyString)
                         EmptyString)).
    + destruct (PreDeploymentChecks.have_pg_isready e).
      * destruct (PreDeploymentChecks.pg_isready e); cbn [negb];
          repeat run_step; eexists _, _, _; (split; [reflexivity|]);
          (split; [reflexivity|]); cbn [console]; rewrite <- !app_assoc;
          reflexivity.
      * repeat run_step. eexists _, _, _. split; [reflexivity|].
        split; [reflexivity|]. cbn [console]. rewrite <- !app_assoc.
        reflexivity.
    + repeat run_step. eexists _, _, _. split; [reflexivity|].
      split; [reflexivity|]. cbn [console]. rewrite <- !app_assoc.
      reflexivity.
Qed.

(** In a dry run the check only talks. *)
Lemma check_database_quiet_dry e o :
  PreDeploymentChecks.DRY_RUN o = true ->
  quiet (PreDeploymentChecks.check_database e o).
Proof.
  intros Hdry. unfold PreDeploymentChecks.check_database,
    PreDeploymentChecks.log.
  rewrite Hdry. quiet_cases.
Qed.

Lemma check_services_quiet e o :
  quiet (PreDeploymentChecks.check_services e o).
Proof.
  unfold PreDeploymentChecks.check_services, PreDeploymentChecks.log.
  quiet_cases.
Qed.

Lemma check_deployment_config_quiet e o :
  quiet (PreDeploymentChecks.check_deployment_config e o).
Proof.
  unfold PreDeploymentChecks.check_deployment_config, PreDeploymentChecks.log.
  quiet_cases. apply probe_quiet.
Qed.

Lemma generate_report_quiet e o :
  quiet (PreDeploymentChecks.generate_report e o).
Proof.
  unfold PreDeploymentChecks.generate_report, PreDeploymentChecks.log.
  quiet_cases.
Qed.

(** In a live run with the database category on, credentials that are not
    there make [check_database] say so and return 1. *)
Lemma check_database_without_credentials e o w :
  PreDeploymentChecks.CHECK_DATABASE o = true ->
  PreDeploymentChecks.DRY_RUN o = false ->
  PreDeploymentChecks.without_credentials e (fs w) = true ->
  PreDeploymentChecks.check_database e o w
  = Ret 1 (mkWorld (fs w)
             (console w
              ++ [Out "Checking database connectivity...";
                  Err ("ERROR: "
                       ++ PreDeploymentChecks.credentials_message e (fs w));
                  Out "❌ Database connectivity check failed (1 issues)"])%list).
Proof.
  intros Hc Hd Hcred.
  unfold PreDeploymentChecks.check_database, PreDeploymentChecks.log,
    PreDeploymentChecks.issue, PreDeploymentChecks.error_log.
  rewrite Hc, Hd. cbn [negb].
  do 2 run_step. cbn [fs].
  unfold PreDeploymentChecks.without_credentials,
    PreDeploymentChecks.credentials_message in *.
  destruct (PreDeploymentChecks.load_env_file e (fs w)) as [| |v];
    [|discriminate|].
  - repeat run_step. cbn. now rewrite <- !app_assoc.
  - apply negb_true_iff in Hcred. rewrite Hcred.
    repeat run_step. cbn. now rewrite <- !app_assoc.
Qed.

(** With --skip-database, and in a dry run, it returns 0 before it looks
    for an environment file. *)
Lemma check_database_skipped e o w :
  PreDeploymentChecks.CHECK_DATABASE o = false
  \/ PreDeploymentChecks.DRY_RUN o = true ->
  exists w', PreDeploymentChecks.check_database e o w = Ret 0 w'
             /\ fs w' = fs w.
Proof.
  intros H. unfold PreDeploymentChecks.check_database,
    PreDeploymentChecks.log.
  destruct (PreDeploymentChecks.CHECK_DATABASE o); cbn [negb];
    [|eexists; split; reflexivity].
  destruct H as [H|H]; [discriminate|]. rewrite H.
  eexists. split; reflexivity.
Qed.

(** C4, as the code has it.  In a live run with the database category on,
    credentials that are not there (no environment file, or a file that has
    been sourced and leaves DB_HOST or DB_DATABASE empty) are not skipped:
    [check_database] says so through [error_log], counts one issue and
    returns 1, which [main] adds to its total, so that the pre-deployment
    checks are reported as failed and end with status 1.  The check returns
    0 with --skip-database and in a dry run, where it looks for no file. *)
Theorem missing_credentials_fail_the_checks e o w :
  PreDeploymentChecks.CHECK_DATABASE o = true ->
  PreDeploymentChecks.DRY_RUN o = false ->
  PreDeploymentChecks.without_credentials e (fs w) = true ->
  let run := PreDeploymentChecks.main e o w in
  let message := PreDeploymentChecks.credentials_message e (fs w) in
  PreDeploymentChecks.check_database e o w
  = Ret 1 (mkWorld (fs w)
             (console w
              ++ [Out "Checking database connectivity...";
                  Err ("ERROR: " ++ message);
                  Out "❌ Database connectivity check failed (1 issues)"])%list)
  /\ (message
      = "No environment file found - cannot test database connectivity"
      \/ message = "Database credentials not found in environment")
  /\ exit_code run = 1
  /\ said (Err ("ERROR: " ++ message)) (final run)
  /\ said (Out "❌ Database connectivity check failed (1 issues)") (final run)
  /\ (exists total,
        1 <= total
        /\ said (Out ("❌ Pre-deployment checks FAILED - found " ++ dec total
                      ++ " issues")) (final run))
  /\ (forall o' w',
        PreDeploymentChecks.CHECK_DATABASE o' = false
        \/ PreDeploymentChecks.DRY_RUN o' = true ->
        exists w'', PreDeploymentChecks.check_database e o' w' = Ret 0 w''
                    /\ fs w'' = fs w').
Proof.
  intros Hc Hd Hcred run message.
  split; [exact (check_database_without_credentials e o w Hc Hd Hcred)|].
  split.
  { subst message. unfold PreDeploymentChecks.credentials_message.
    destruct (PreDeploymentChecks.load_env_file e (fs w)); auto. }
  assert (G : exists total w',
             run = Exit 1 w' /\ 1 <= total
             /\ said (Err ("ERROR: " ++ message)) w'
             /\ said (Out "❌ Database connectivity check failed (1 issues)") w'
             /\ said (Out ("❌ Pre-deployment checks FAILED - found "
                           ++ dec total ++ " issues")) w').
  { subst run message.
    unfold PreDeploymentChecks.main, PreDeploymentChecks.log.
    quiet_step ltac:(apply quiet_echo).
    quiet_step ltac:(apply checks_validate_directories_quiet).
    quiet_step ltac:(apply check_system_requirements_quiet).
    quiet_step ltac:(apply check_disk_space_quiet).
    quiet_step ltac:(apply check_permissions_quiet).
    assert (Hfs : fs w4 = fs w) by (rewrite F3, F2, F1, F0, F; reflexivity).
    assert (Hcred' : PreDeploymentChecks.without_credentials e (fs w4) = true)
      by (rewrite Hfs; exact Hcred).
    rewrite ?bind_assoc.
    rewrite (bind_runs _ _ _ _ _
               (check_database_without_credentials e o w4 Hc Hd Hcred')).
    cbv beta. rewrite Hfs.
    quiet_step ltac:(apply check_services_quiet).
    quiet_step ltac:(apply check_deployment_config_quiet).
    quiet_step ltac:(apply generate_report_quiet).
    assert (Et : Nat.eqb (a0 + a1 + a2 + a3 + 1 + a4 + a5) 0 = false)
      by (apply Nat.eqb_neq; lia).
    rewrite Et.
    do 2 run_step.
    exists (a0 + a1 + a2 + a3 + 1 + a4 + a5). eexists.
    split; [reflexivity|]. split; [lia|].
    unfold said. cbn [console fs].
    rewrite C6, C5, C4. cbn [console].
    repeat split.
    - apply in_or_app. left. apply in_or_app. left. apply in_or_app. left.
      apply in_or_app. left. apply in_or_app. left. apply in_or_app. right.
      cbn. auto.
    - apply in_or_app. left. apply in_or_app. left. apply in_or_app. left.
      apply in_or_app. left. apply in_or_app. left. apply in_or_app. right.
      cbn. auto.
    - apply in_or_app. left. apply in_or_app. right. cbn. auto. }
  destruct G as (total & w' & E & Ht & S1 & S2 & S3).
  rewrite E. cbn [exit_code final].
  split; [reflexivity|]. split; [exact S1|]. split; [exact S2|].
  split; [exists total; split; assumption|].
  intros o' w0 H. exact (check_database_skipped e o' w0 H).
Qed.

(** The environment file of the sample sets no database variable: with the
    database category on, the checks end with status 1; with --skip-database
    they pass. *)
Lemma missing_credentials_counterexample :
  let w := mkWorld Sample.checks_disk [] in
  PreDeploymentChecks.without_credentials Sample.checks_env (fs w) = true
  /\ exit_code (PreDeploymentChecks.main Sample.checks_env
                  (Sample.checks_options false) w) = 0
  /\ exit_code (PreDeploymentChecks.main Sample.checks_env
                  (Sample.checks_options true) w) = 1
  /\ said (Err "ERROR: Database credentials not found in environment")
       (final (PreDeploymentChecks.main Sample.checks_env
                 (Sample.checks_options true) w)).
Proof.
  vm_compute. repeat split. auto 20.
Qed.

Lemma missing_credentials_witness :
  let w := mkWorld Sample.checks_disk [] in
  let e := Sample.checks_env in
  let o := Sample.checks_options true in
  let run := PreDeploymentChecks.main e o w in
  let message := PreDeploymentChecks.credentials_message e (fs w) in
  (PreDeploymentChecks.CHECK_DATABASE o = true
   /\ PreDeploymentChecks.DRY_RUN o = false
   /\ PreDeploymentChecks.without_credentials e (fs w) = true)
  /\ PreDeploymentChecks.check_database e o w
     = Ret 1 (mkWorld (fs w)
                (console w
                 ++ [Out "Checking database connectivity...";
                     Err ("ERROR: " ++ message);
                     Out "❌ Database connectivity check failed (1 issues)"])%list)
  /\ (message
      = "No environment file found - cannot test database connectivity"
      \/ message = "Database credentials not found in environment")
  /\ exit_code run = 1
  /\ said (Err ("ERROR: " ++ message)) (final run)
  /\ said (Out "❌ Database connectivity check failed (1 issues)") (final run)
  /\ (exists total,
        1 <= total
        /\ said (Out ("❌ Pre-deployment checks FAILED - found " ++ dec total
                      ++ " issues")) (final run))
  /\ (forall o' w',
        PreDeploymentChecks.CHECK_DATABASE o' = false
        \/ PreDeploymentChecks.DRY_RUN o' = true ->
        exists w'', PreDeploymentChecks.check_database e o' w' = Ret 0 w''
                    /\ fs w'' = fs w').
Proof.
  cbv zeta. split; [repeat split|].
  apply (missing_credentials_fail_the_checks Sample.checks_env
           (Sample.checks_options true) (mkWorld Sample.checks_disk []));
    reflexivity.
Defined.

(** ** C6: a source directory that does not exist *)

Lemma sync_missing_source e o w source :
  test_d (fs w) source = false ->
  SyncCode.SOURCE_DIR o = Some source ->
  exit_code (SyncCode.main e o w) = 1
  /\ fs (final (SyncCode.main e o w)) = fs w.
Proof.
  intros Hsrc Ho.
  unfold SyncCode.main, SyncCode.load_config, SyncCode.check_prerequisites,
    SyncCode.validate_directories, SyncCode.log, SyncCode.error_log.
  rewrite Ho. run_step.
  destruct (SyncCode.config e) as [c|].
  2:{ run_step. exit_step. split; reflexivity. }
  run_step.
  destruct (SyncCode.have_rsync e); cbn [negb].
  2:{ run_step. exit_step. split; reflexivity. }
  destruct (SyncCode.have_python3 e); cbn [negb].
  2:{ run_step. exit_step. split; reflexivity. }
  do 2 run_step. cbn [fs]. rewrite Hsrc. cbn [negb].
  run_step. exit_step. split; reflexivity.
Qed.

Lemma backup_files_missing_source e o w source :
  test_d (fs w) source = false ->
  BackupFiles.SOURCE_DIR o = Some source ->
  exit_code (BackupFiles.main e o w) = 1
  /\ fs (final (BackupFiles.main e o w)) = fs w.
Proof.
  intros Hsrc Ho.
  unfold BackupFiles.main, BackupFiles.validate_source, BackupFiles.log.
  rewrite Ho. do 2 run_step. cbn [fs]. rewrite Hsrc. cbn [negb].
  run_step. exit_step. split; reflexivity.
Qed.

Lemma checks_missing_source e o w source :
  test_d (fs w) source = false ->
  PreDeploymentChecks.SOURCE_DIR o = Some source ->
  exit_code (PreDeploymentChecks.main e o w) = 1
  /\ fs (final (PreDeploymentChecks.main e o w)) = fs w.
Proof.
  intros Hsrc Ho.
  assert (H : exists w', PreDeploymentChecks.main e o w = Exit 1 w'
                         /\ fs w' = fs w).
  { unfold PreDeploymentChecks.main, PreDeploymentChecks.log.
    run_step.
    unfold PreDeploymentChecks.validate_directories at 1,
      PreDeploymentChecks.source_path at 1, PreDeploymentChecks.error_log.
    rewrite Ho. run_step. cbn [fs]. rewrite Hsrc. cbn [negb].
    do 2 run_step.
    quiet_step ltac:(apply check_system_requirements_quiet).
    quiet_step ltac:(apply check_disk_space_quiet).
    quiet_step ltac:(apply check_permissions_quiet).
    rewrite ?bind_assoc.
    match goal with
    | |- context [bind (PreDeploymentChecks.check_database e o) _ ?w0] =>
        destruct (check_database_cases e o w0)
          as [(s4 & wd & mored & Ed & Fd & Cd)|(wd & Ed & Fd)]
    end.
    - rewrite (bind_runs _ _ _ _ _ Ed).
      quiet_step ltac:(apply check_services_quiet).
      quiet_step ltac:(apply check_deployment_config_quiet).
      quiet_step ltac:(apply generate_report_quiet).
      cbn [Nat.add Nat.eqb].
      quiet_step ltac:(apply quiet_echo).
      quiet_step ltac:(apply quiet_echo).
      eexists. split; [reflexivity|].
      repeat match goal with H : fs _ = fs _ |- _ => rewrite H; clear H end.
      reflexivity.
    - rewrite (bind_exits _ _ _ _ _ Ed).
      eexists. split; [reflexivity|].
      repeat match goal with H : fs _ = fs _ |- _ => rewrite H; clear H end.
      reflexivity. }
  destruct H as (w' & -> & F). split; [reflexivity | exact F].
Qed.

Lemma deploy_missing_source_dry_run e o w source :
  test_d (fs w) source = false ->
  Deploy.SOURCE_DIR o = Some source ->
  Deploy.DRY_RUN o || Deploy.DEPLOY_DRY_RUN e = true ->
  exit_code (Deploy.main e o w) = 2
  /\ fs (final (Deploy.main e o w)) = fs w.
Proof.
  intros Hsrc Ho Hdry.
  unfold Deploy.main, Deploy.setup_deployment_logging,
    Deploy.load_configuration, Deploy.validate_prerequisites.
  rewrite Hdry, Ho. do 3 run_step.
  destruct (Deploy.config_ok e); cbn [negb].
  2:{ run_step. exit_step. split; reflexivity. }
  run_step.
  destruct (Deploy.have_rsync e); cbn [negb].
  2:{ run_step. exit_step. split; reflexivity. }
  destruct (Deploy.have_python3 e); cbn [negb].
  2:{ run_step. exit_step. split; reflexivity. }
  run_step. cbn [fs Deploy.log]. rewrite Hsrc. cbn [negb].
  run_step. exit_step. split; reflexivity.
Qed.

Lemma lookup_append_line_apart t f text q :
  apart f q -> lookup (append_line t f text) q = lookup t q.
Proof.
  intros Ha. unfold append_line.
  destruct (lookup t f) as [[[s|o]|es]|]; try reflexivity.
  - destruct (put t f _) as [t'|] eqn:E; [|reflexivity].
    exact (lookup_put_apart _ _ _ _ _ E Ha).
  - destruct (put t f _) as [t'|] eqn:E; [|reflexivity].
    exact (lookup_put_apart _ _ _ _ _ E Ha).
Qed.

Lemma append_line_keeps_file t f text :
  test_f t f = true -> test_f (append_line t f text) f = true.
Proof.
  unfold test_f, append_line. intros H.
  destruct (lookup t f) as [[[s|o]|es]|] eqn:El; try discriminate.
  - destruct (put t f _) as [t'|] eqn:E.
    + now rewrite (lookup_put_same _ _ _ _ E).
    + now rewrite El.
  - now rewrite El.
Qed.

(** A live run of deploy.sh whose log file can be set up, for a source that
    is missing and lies apart from the logs directory: status 2, and the log
    file is there. *)
Lemma deploy_missing_source_live e o w source t1 t2 :
  test_d (fs w) source = false ->
  Deploy.SOURCE_DIR o = Some source ->
  Deploy.DRY_RUN o || Deploy.DEPLOY_DRY_RUN e = false ->
  apart (Deploy.PROJECT_ROOT e // "logs") source ->
  mkdir_p (fs w) (Deploy.PROJECT_ROOT e // "logs") = Some t1 ->
  put t1 (Deploy.log_file e)
    (File (Bytes ("# Directus Deployment Log
# Deployment ID: " ++ Deploy.DEPLOYMENT_ID e ++ "
"))) = Some t2 ->
  exit_code (Deploy.main e o w) = 2
  /\ test_f (fs (final (Deploy.main e o w))) (Deploy.log_file e) = true.
Proof.
  intros Hsrc Ho Hdry Hap Hmk Hput.
  assert (Hap' : apart (Deploy.log_file e) source).
  { unfold Deploy.log_file, child at 1. now apply apart_app. }
  assert (Hf2 : test_f t2 (Deploy.log_file e) = true).
  { unfold test_f. now rewrite (lookup_put_same _ _ _ _ Hput). }
  assert (Hs2 : test_d t2 source = false).
  { unfold test_d in *.
    rewrite (lookup_put_apart _ _ _ _ _ Hput Hap').
    now rewrite (mkdir_p_apart _ _ _ _ Hmk Hap). }
  assert (H : exists w', Deploy.main e o w = Exit 2 w'
                         /\ test_f (fs w') (Deploy.log_file e) = true).
  { unfold Deploy.main, Deploy.setup_deployment_logging,
      Deploy.load_configuration, Deploy.validate_prerequisites.
    rewrite Hdry, Ho.
    must_step Hmk. must_step Hput. do 3 run_step.
    destruct (Deploy.config_ok e); cbn [negb].
    2:{ run_step. exit_step. eexists. split; [reflexivity|].
        cbn [fs]. now repeat apply append_line_keeps_file. }
    run_step.
    destruct (Deploy.have_rsync e); cbn [negb].
    2:{ run_step. exit_step. eexists. split; [reflexivity|].
        cbn [fs]. now repeat apply append_line_keeps_file. }
    destruct (Deploy.have_python3 e); cbn [negb].
    2:{ run_step. exit_step. eexists. split; [reflexivity|].
        cbn [fs]. now repeat apply append_line_keeps_file. }
    run_step. cbn [fs Deploy.log].
    unfold test_d. rewrite !lookup_append_line_apart by exact Hap'.
    fold (test_d t2 source). rewrite Hs2. cbn [negb].
    run_step. exit_step. eexists. split; [reflexivity|].
    cbn [fs]. now repeat apply append_line_keeps_file. }
  destruct H as (w' & -> & F). split; [reflexivity | exact F].
Qed.

(** C6, as the code has it: with a --source directory that does not exist,
    sync-code.sh, backup-files.sh and pre-deployment-checks.sh end with
    status 1 and leave the file system as it was; deploy.sh ends with status
    2, leaving the file system as it was in a dry run, while a live run has
    set up its log file under logs/ before it looks at the source. *)
Theorem missing_source_exit_codes t source :
  test_d t source = false ->
  (forall e o c,
      SyncCode.SOURCE_DIR o = Some source ->
      exit_code (SyncCode.main e o (mkWorld t c)) = 1
      /\ fs (final (SyncCode.main e o (mkWorld t c))) = t)
  /\ (forall e o c,
         BackupFiles.SOURCE_DIR o = Some source ->
         exit_code (BackupFiles.main e o (mkWorld t c)) = 1
         /\ fs (final (BackupFiles.main e o (mkWorld t c))) = t)
  /\ (forall e o c,
         PreDeploymentChecks.SOURCE_DIR o = Some source ->
         exit_code (PreDeploymentChecks.main e o (mkWorld t c)) = 1
         /\ fs (final (PreDeploymentChecks.main e o (mkWorld t c))) = t)
  /\ (forall e o c,
         Deploy.SOURCE_DIR o = Some source ->
         Deploy.DRY_RUN o || Deploy.DEPLOY_DRY_RUN e = true ->
         exit_code (Deploy.main e o (mkWorld t c)) = 2
         /\ fs (final (Deploy.main e o (mkWorld t c))) = t)
  /\ (forall e o c t1 t2,
         Deploy.SOURCE_DIR o = Some source ->
         Deploy.DRY_RUN o || Deploy.DEPLOY_DRY_RUN e = false ->
         apart (Deploy.PROJECT_ROOT e // "logs") source ->
         mkdir_p t (Deploy.PROJECT_ROOT e // "logs") = Some t1 ->
         put t1 (Deploy.log_file e)
           (File (Bytes ("# Directus Deployment Log
# Deployment ID: " ++ Deploy.DEPLOYMENT_ID e ++ "
"))) = Some t2 ->
         exit_code (Deploy.main e o (mkWorld t c)) = 2
         /\ test_f (fs (final (Deploy.main e o (mkWorld t c))))
              (Deploy.log_file e) = true).
Proof.
  intros Hsrc. repeat split; intros.
  - now apply (sync_missing_source e o (mkWorld t c) source).
  - now apply (sync_missing_source e o (mkWorld t c) source).
  - now apply (backup_files_missing_source e o (mkWorld t c) source).
  - now apply (backup_files_missing_source e o (mkWorld t c) source).
  - now apply (checks_missing_source e o (mkWorld t c) source).
  - now apply (checks_missing_source e o (mkWorld t c) source).
  - now apply (deploy_missing_source_dry_run e o (mkWorld t c) source).
  - now apply (deploy_missing_source_dry_run e o (mkWorld t c) source).
  - now apply (deploy_missing_source_live e o (mkWorld t c) source t1 t2).
  - now apply (deploy_missing_source_live e o (mkWorld t c) source t1 t2).
Qed.

(** With --source /src on a machine without /src: sync-code.sh,
    backup-files.sh and pre-deployment-checks.sh end with status 1, not 2;
    deploy.sh ends with status 2 and has written its log file. *)
Lemma missing_source_counterexample :
  let w := mkWorld Sample.no_source_disk [] in
  test_d (fs w) ["src"] = false
  /\ exit_code (SyncCode.main Sample.sync_env Sample.no_source_sync w) = 1
  /\ exit_code (BackupFiles.main Sample.backup_files_env
                  Sample.no_source_backup w) = 1
  /\ exit_code (PreDeploymentChecks.main Sample.checks_env
                  Sample.no_source_checks w) = 1
  /\ exit_code (Deploy.main Sample.deploy_env (Sample.no_source_deploy false) w)
     = 2
  /\ test_e (fs w) ["proj"; "logs"] = false
  /\ test_f (fs (final (Deploy.main Sample.deploy_env
                          (Sample.no_source_deploy false) w)))
       ["proj"; "logs"; "deployment-deploy-20250102-000000-4242.log"] = true.
Proof.
  vm_compute. repeat split.
Qed.

Lemma missing_source_witness :
  let t := Sample.no_source_disk in
  test_d t ["src"] = false
  /\ (exit_code (SyncCode.main Sample.sync_env Sample.no_source_sync
                   (mkWorld t [])) = 1
      /\ fs (final (SyncCode.main Sample.sync_env Sample.no_source_sync
                      (mkWorld t []))) = t)
  /\ (exit_code (Deploy.main Sample.deploy_env (Sample.no_source_deploy true)
                   (mkWorld t [])) = 2
      /\ fs (final (Deploy.main Sample.deploy_env
                      (Sample.no_source_deploy true) (mkWorld t []))) = t).
Proof.
  intros t.
  assert (H : test_d t ["src"] = false) by reflexivity.
  split; [exact H|].
  destruct (missing_source_exit_codes t ["src"] H) as (S1 & _ & _ & S4 & _).
  split.
  - exact (S1 Sample.sync_env Sample.no_source_sync [] eq_refl).
  - exact (S4 Sample.deploy_env (Sample.no_source_deploy true) [] eq_refl
             eq_refl).
Defined.

(** ** C7: the verification gate of rollback.sh *)

Lemma bind_returns {A B : Type} (c : sh A) (k : A -> sh B) w b w' :
  bind c k w = Ret b w' -> exists a w1, c w = Ret a w1 /\ k a w1 = Ret b w'.
Proof.
  unfold bind. destruct (c w) as [a w1|n w1]; [|discriminate].
  intros H. now exists a, w1.
Qed.

Lemma keeps_ret {A : Type} dir (a : A) : keeps dir (ret a).
Proof. intros w q _. reflexivity. Qed.

Lemma keeps_exit {A : Type} dir n : keeps dir (@exit A n).
Proof. intros w q _. reflexivity. Qed.

Lemma keeps_echo dir text : keeps dir (echo text).
Proof. intros w q _. reflexivity. Qed.

Lemma keeps_get_fs dir : keeps dir get_fs.
Proof. intros w q _. reflexivity. Qed.

Lemma keeps_bind {A B : Type} dir (c : sh A) (k : A -> sh B) :
  keeps dir c -> (forall a, keeps dir (k a)) -> keeps dir (bind c k).
Proof.
  intros Hc Hk w q Ha. unfold bind.
  specialize (Hc w q Ha). destruct (c w) as [a w1|n w1]; cbn in *.
  - rewrite (Hk a w1 q Ha). exact Hc.
  - exact Hc.
Qed.

Lemma rollback_log_keeps logs lg text :
  in_logs logs lg -> keeps logs (Rollback.log lg text).
Proof.
  intros Hlg w q Ha. unfold Rollback.log. cbn.
  destruct lg as [f|]; [|reflexivity]. destruct Hlg as (n & ->).
  apply lookup_append_line_apart. unfold child. now apply apart_app.
Qed.

Lemma rollback_error_log_keeps logs lg text :
  in_logs logs lg -> keeps logs (Rollback.error_log lg text).
Proof.
  intros Hlg w q Ha. unfold Rollback.error_log. cbn.
  destruct lg as [f|]; [|reflexivity]. destruct Hlg as (n & ->).
  apply lookup_append_line_apart. unfold child. now apply apart_app.
Qed.

Ltac keeps_cases :=
  repeat first
    [ apply keeps_ret
    | apply keeps_exit
    | apply keeps_echo
    | apply keeps_get_fs
    | apply rollback_log_keeps; assumption
    | apply rollback_error_log_keeps; assumption
    | apply keeps_bind; [ | intros ? ]
    | match goal with
      | |- keeps _ (if ?b then _ else _) => destruct b
      | |- keeps _ (match ?x with _ => _ end) => destruct x
      end ].

Lemma rollback_issue_keeps logs lg b text :
  in_logs logs lg -> keeps logs (Rollback.issue lg b text).
Proof. intros H. unfold Rollback.issue. keeps_cases. Qed.

Lemma validate_parameters_keeps logs lg e o :
  in_logs logs lg -> keeps logs (Rollback.validate_parameters lg e o).
Proof. intros H. unfold Rollback.validate_parameters. keeps_cases. Qed.

Lemma verify_backup_integrity_keeps logs lg e o b :
  in_logs logs lg -> keeps logs (Rollback.verify_backup_integrity lg e o b).
Proof.
  intros H. unfold Rollback.verify_backup_integrity.
  keeps_cases; apply rollback_issue_keeps; assumption.
Qed.

Lemma keeps_bind_post {A B : Type} dir (P : A -> Prop) (c : sh A)
  (k : A -> sh B) :
  (forall w a w', c w = Ret a w' -> P a) ->
  keeps dir c -> (forall a, P a -> keeps dir (k a)) -> keeps dir (bind c k).
Proof.
  intros HP Hc Hk w q Ha. unfold bind.
  specialize (Hc w q Ha). specialize (HP w).
  destruct (c w) as [a w1|n w1]; cbn in *.
  - rewrite (Hk a (HP a w1 eq_refl) w1 q Ha). exact Hc.
  - exact Hc.
Qed.

Lemma setup_rollback_logging_in_logs e o w lg w' :
  Rollback.setup_rollback_logging e o w = Ret lg w' ->
  in_logs (Rollback.PROJECT_ROOT e // "logs") lg.
Proof.
  unfold Rollback.setup_rollback_logging.
  destruct (Rollback.DRY_RUN o).
  - intros H. injection H as <- _. exact I.
  - intros H.
    apply bind_returns in H. destruct H as (? & ? & _ & H).
    apply bind_returns in H. destruct H as (? & ? & _ & H).
    injection H as <- _. cbn. now eexists.
Qed.

Lemma keeps_must dir r status :
  (forall t t' q, r t = Some t' -> apart dir q -> lookup t' q = lookup t q) ->
  keeps dir (must r status).
Proof.
  intros H w q Ha. unfold must.
  destruct (r (fs w)) as [t'|] eqn:E; cbn; [|reflexivity].
  exact (H _ _ _ E Ha).
Qed.

Lemma setup_rollback_logging_keeps e o :
  keeps (Rollback.PROJECT_ROOT e // "logs")
    (Rollback.setup_rollback_logging e o).
Proof.
  unfold Rollback.setup_rollback_logging.
  destruct (Rollback.DRY_RUN o); [apply keeps_ret|].
  apply keeps_bind; [|intros _; apply keeps_bind; [|intros _; apply keeps_ret]].
  - apply keeps_must. intros t t' q E Ha. exact (mkdir_p_apart _ _ _ _ E Ha).
  - apply keeps_must. intros t t' q E Ha.
    apply (lookup_put_apart _ _ _ _ _ E). unfold child. now apply apart_app.
Qed.

Lemma verification_keeps e o :
  keeps (Rollback.PROJECT_ROOT e // "logs") (Rollback.verification e o).
Proof.
  unfold Rollback.verification.
  apply (keeps_bind_post _ (in_logs (Rollback.PROJECT_ROOT e // "logs"))).
  - intros w lg w'. apply setup_rollback_logging_in_logs.
  - apply setup_rollback_logging_keeps.
  - intros lg Hlg.
    apply keeps_bind; [now apply rollback_log_keeps|intros _].
    apply keeps_bind; [now apply rollback_log_keeps|intros _].
    apply keeps_bind; [now apply validate_parameters_keeps|intros b].
    apply keeps_bind; [now apply verify_backup_integrity_keeps|intros v].
    apply keeps_ret.
Qed.

Lemma bind_exit_inv {A B : Type} (c : sh A) (k : A -> sh B) w n w' :
  bind c k w = Exit n w' ->
  c w = Exit n w' \/ exists a w1, c w = Ret a w1 /\ k a w1 = Exit n w'.
Proof.
  unfold bind. destruct (c w) as [a w1|m w1]; intros H.
  - right. now exists a, w1.
  - left. injection H as -> ->. reflexivity.
Qed.

Lemma fails_loudly_bind {A B : Type} (c : sh A) (k : A -> sh B) :
  fails_loudly c -> (forall a, fails_loudly (k a)) -> fails_loudly (bind c k).
Proof.
  intros Hc Hk w n w' H.
  destruct (bind_exit_inv _ _ _ _ _ H) as [E|(a & w1 & _ & E)].
  - exact (Hc _ _ _ E).
  - exact (Hk _ _ _ _ E).
Qed.

Lemma fails_loudly_quiet {A : Type} (c : sh A) : quiet c -> fails_loudly c.
Proof.
  intros Hq w n w' H. destruct (Hq w) as (a & w1 & m & E & _).
  rewrite E in H. discriminate.
Qed.

Lemma fails_loudly_exit {A : Type} n : n <> 0 -> fails_loudly (@exit A n).
Proof. intros Hn w m w' H. injection H as <- _. exact Hn. Qed.

Lemma fails_loudly_must r status : status <> 0 -> fails_loudly (must r status).
Proof.
  intros Hn w m w' H. unfold must in H.
  destruct (r (fs w)); [discriminate|]. injection H as <- _. exact Hn.
Qed.

Lemma fails_loudly_rollback_log lg text : fails_loudly (Rollback.log lg text).
Proof. intros w n w' H. discriminate. Qed.

Lemma fails_loudly_rollback_error_log lg text :
  fails_loudly (Rollback.error_log lg text).
Proof. intros w n w' H. discriminate. Qed.

Ltac fails_loudly_cases :=
  repeat first
    [ apply fails_loudly_rollback_log
    | apply fails_loudly_rollback_error_log
    | apply fails_loudly_exit; discriminate
    | apply fails_loudly_must; discriminate
    | apply fails_loudly_quiet; quiet_cases; fail
    | apply fails_loudly_bind; [ | intros ? ]
    | match goal with
      | |- fails_loudly (if ?b then _ else _) => destruct b
      | |- fails_loudly (match ?x with _ => _ end) => destruct x
      end ].

(** The start of [main] never ends the script with status 0. *)
Lemma verification_fails_loudly e o :
  fails_loudly (Rollback.verification e o).
Proof.
  unfold Rollback.verification, Rollback.setup_rollback_logging,
    Rollback.validate_parameters, Rollback.verify_backup_integrity,
    Rollback.issue.
  fails_loudly_cases.
Qed.

(** What [main] does once the start has run. *)
Lemma main_of_verification e o w lg backup v w' :
  Rollback.verification e o w = Ret (lg, backup, v) w' ->
  Rollback.main e o w =
  (if negb (Nat.eqb v 0) then
     Rollback.error_log lg "Backup verification failed - aborting rollback" ;;
     exit 2
   else if Rollback.VERIFY_ONLY o then
     Rollback.log lg "✓ Backup verification completed (verify-only mode)" ;;
     exit 0
   else
     bind (Rollback.check_target_health lg e o)
       (fun h =>
          (if negb (Nat.eqb h 0)
           then Rollback.log lg
                  "Target health check suggests rollback may be needed"
           else ret tt) ;;
          bind (Rollback.get_user_confirmation lg e o)
            (fun c =>
               if negb (Nat.eqb c 0) then
                 Rollback.log lg "Rollback cancelled by user" ;; exit 3
               else
                 bind (Rollback.backup_current_state lg e o backup)
                   (fun b =>
                      if negb (Nat.eqb (fst b) 0) then
                        Rollback.error_log lg
                          "Failed to backup current state - aborting rollback" ;;
                        exit 1
                      else
                        bind (Rollback.perform_rollback lg o backup)
                          (fun r =>
                             if negb (Nat.eqb r 0) then
                               Rollback.error_log lg "Rollback process failed" ;;
                               exit 1
                             else
                               Rollback.restore_database lg backup ;;
                               bind (Rollback.verify_rollback lg e o)
                                 (fun vr =>
                                    if negb (Nat.eqb vr 0) then
                                      Rollback.error_log lg
                                        "Rollback verification failed" ;;
                                      exit 1
                                    else
                                      Rollback.log lg
                                        "🎉 Rollback completed successfully!" ;;
                                      Rollback.generate_rollback_summary lg e o
                                        backup (snd b) ;;
                                      exit 0)))))) w'.
Proof.
  intros H. unfold Rollback.verification in H.
  apply bind_returns in H. destruct H as (lg0 & w1 & E1 & H).
  apply bind_returns in H. destruct H as ([] & w2 & E2 & H).
  apply bind_returns in H. destruct H as ([] & w3 & E3 & H).
  apply bind_returns in H. destruct H as (b0 & w4 & E4 & H).
  apply bind_returns in H. destruct H as (v0 & w5 & E5 & H).
  injection H as -> -> -> ->.
  unfold Rollback.main.
  rewrite (bind_runs _ _ _ _ _ E1), (bind_runs _ _ _ _ _ E2),
    (bind_runs _ _ _ _ _ E3), (bind_runs _ _ _ _ _ E4),
    (bind_runs _ _ _ _ _ E5).
  reflexivity.
Qed.

Lemma main_of_verification_exit e o w n w' :
  Rollback.verification e o w = Exit n w' -> Rollback.main e o w = Exit n w'.
Proof.
  intros H. unfold Rollback.verification in H. unfold Rollback.main.
  apply bind_exit_inv in H. destruct H as [E|(lg & w1 & E1 & H)].
  { now rewrite (bind_exits _ _ _ _ _ E). }
  rewrite (bind_runs _ _ _ _ _ E1).
  apply bind_exit_inv in H. destruct H as [E|([] & w2 & E2 & H)].
  { now rewrite (bind_exits _ _ _ _ _ E). }
  rewrite (bind_runs _ _ _ _ _ E2).
  apply bind_exit_inv in H. destruct H as [E|([] & w3 & E3 & H)].
  { now rewrite (bind_exits _ _ _ _ _ E). }
  rewrite (bind_runs _ _ _ _ _ E3).
  apply bind_exit_inv in H. destruct H as [E|(b & w4 & E4 & H)].
  { now rewrite (bind_exits _ _ _ _ _ E). }
  rewrite (bind_runs _ _ _ _ _ E4).
  apply bind_exit_inv in H. destruct H as [E|(v & w5 & E5 & H)].
  { now rewrite (bind_exits _ _ _ _ _ E). }
  discriminate.
Qed.

(** A live verification returns the number of issues it finds in the tree
    it reads. *)
Lemma verify_backup_integrity_counts lg e o backup w :
  Rollback.DRY_RUN o = false ->
  exists w',
    Rollback.verify_backup_integrity lg e o backup w
    = Ret (Rollback.issues_found e
             (fs (final (Rollback.log lg "Verifying backup integrity..." w)))
             backup) w'.
Proof.
  intros Hd. unfold Rollback.verify_backup_integrity, Rollback.issues_found.
  rewrite Hd. do 2 run_step.
  set (w1 := mkWorld _ _).
  change (final (Rollback.log lg "Verifying backup integrity..." w)) with w1.
  destruct (file_at (fs w1) (backup // "backup-metadata.json")) as [[s|j]|];
    destruct (file_at (fs w1) (backup // "database.sql")) as [c|];
    unfold Rollback.issue;
    repeat match goal with
           | |- context [if ?b then _ else _] => destruct b
           end;
    repeat run_step; cbn; eexists; reflexivity.
Qed.

(** C7: once the verification of the backup has run and returned a status
    that is not 0 (at least one issue), rollback.sh logs that it aborts and
    ends with status 2, whatever --force says; nothing has been restored, as
    all that lies apart from the logs directory is as it was.  With
    --verify-only, the script ends with status 0 only when the verification
    ran and returned 0.  A live verification that finds no metadata file
    returns a status that is not 0. *)
Theorem rollback_verification_gate e o w :
  (forall lg backup v w',
      Rollback.verification e o w = Ret (lg, backup, v) w' ->
      v <> 0 ->
      exit_code (Rollback.main e o w) = 2
      /\ Rollback.main e o w
         = (Rollback.error_log lg
              "Backup verification failed - aborting rollback" ;; exit 2) w'
      /\ (forall q, apart (Rollback.PROJECT_ROOT e // "logs") q ->
                    lookup (fs (final (Rollback.main e o w))) q
                    = lookup (fs w) q))
  /\ (Rollback.VERIFY_ONLY o = true ->
      exit_code (Rollback.main e o w) = 0 ->
      exists lg backup w',
        Rollback.verification e o w = Ret (lg, backup, 0) w')
  /\ (forall lg backup w1,
         Rollback.DRY_RUN o = false ->
         file_at (fs (final (Rollback.log lg "Verifying backup integrity..."
                               w1)))
           (backup // "backup-metadata.json") = None ->
         exists v w2,
           Rollback.verify_backup_integrity lg e o backup w1 = Ret v w2
           /\ v <> 0).
Proof.
  split; [|split].
  - intros lg backup v w' H Hv.
    assert (Ev : negb (Nat.eqb v 0) = true)
      by (apply negb_true_iff, Nat.eqb_neq; exact Hv).
    pose proof (main_of_verification e o w lg backup v w' H) as Hm.
    rewrite Ev in Hm. rewrite Hm.
    split; [reflexivity|]. split; [reflexivity|].
    intros q Ha.
    assert (Hlg : in_logs (Rollback.PROJECT_ROOT e // "logs") lg).
    { unfold Rollback.verification in H.
      apply bind_returns in H. destruct H as (lg0 & w1 & E1 & H).
      pose proof (setup_rollback_logging_in_logs _ _ _ _ _ E1) as Hin.
      repeat (apply bind_returns in H; destruct H as (? & ? & _ & H)).
      injection H as -> _ _ _. exact Hin. }
    pose proof (verification_keeps e o w q Ha) as Hk. rewrite H in Hk.
    cbn [final] in Hk. rewrite <- Hk.
    exact (rollback_error_log_keeps _ lg _ Hlg w' q Ha).
  - intros Hvo Hx.
    destruct (Rollback.verification e o w) as [[[lg backup] v] w'|n w'] eqn:H.
    + destruct v as [|v]; [now exists lg, backup, w'|].
      rewrite (main_of_verification e o w lg backup (S v) w' H) in Hx.
      discriminate.
    + rewrite (main_of_verification_exit e o w n w' H) in Hx.
      cbn in Hx. now apply verification_fails_loudly in H.
  - intros lg backup w1 Hd Hm.
    destruct (verify_backup_integrity_counts lg e o backup w1 Hd) as (w2 & E).
    eexists _, w2. split; [exact E|].
    unfold Rollback.issues_found. rewrite Hm. discriminate.
Qed.

Lemma rollback_verification_witness :
  let e := Sample.rollback_env 1 in
  let o := Sample.rollback_options true false in
  let w := mkWorld Sample.bare_backup_disk [] in
  Rollback.FORCE o = true
  /\ file_at (fs w) ["b"; "backup-metadata.json"] = None
  /\ exit_code (Rollback.main e o w) = 2
  /\ lookup (fs (final (Rollback.main e o w))) ["prod"]
     = lookup (fs w) ["prod"].
Proof.
  intros e o w.
  split; [reflexivity|]. split; [reflexivity|].
  assert (H : exists lg backup v w',
             Rollback.verification e o w = Ret (lg, backup, v) w' /\ v <> 0).
  { vm_compute. eexists _, _, _, _. split; [reflexivity|discriminate]. }
  destruct H as (lg & backup & v & w' & H & Hv).
  destruct (rollback_verification_gate e o w) as (G & _).
  destruct (G lg backup v w' H Hv) as (Hx & _ & Hk).
  split; [exact Hx|].
  apply Hk. apply apart_here. discriminate.
Defined.

(** ** rsync with --delete on two trees *)

Lemma assoc_app {A : Type} n (l1 l2 : list (string * A)) :
  assoc n (l1 ++ l2)%list
  = match assoc n l1 with Some x => Some x | None => assoc n l2 end.
Proof.
  induction l1 as [|[m x] l1 IH]; cbn; [reflexivity|].
  destruct (String.eqb n m); [reflexivity | exact IH].
Qed.

Lemma assoc_absent {A : Type} n (l : list (string * A)) :
  existsb (String.eqb n) (map fst l) = false -> assoc n l = None.
Proof.
  induction l as [|[m x] l IH]; cbn; [reflexivity|].
  destruct (String.eqb n m); [discriminate | exact IH].
Qed.

Lemma assoc_transfer_absent ex f n es :
  assoc n es = None -> assoc n (transfer ex f es) = None.
Proof.
  induction es as [|[m x] es IH]; cbn; [reflexivity|].
  destruct (String.eqb n m) eqn:E; [discriminate|]. intros H.
  destruct (excluded ex m (is_dir x)); cbn; [now apply IH|].
  rewrite E. now apply IH.
Qed.

Lemma assoc_transfer ex f n es :
  unique (map fst es) = true ->
  assoc n (transfer ex f es)
  = match assoc n es with
    | Some x => if excluded ex n (is_dir x) then None else Some (f n x)
    | None => None
    end.
Proof.
  induction es as [|[m x] es IH]; cbn; [reflexivity|].
  intros Hu. apply andb_true_iff in Hu. destruct Hu as [Hm Hu].
  apply negb_true_iff in Hm.
  destruct (String.eqb n m) eqn:E.
  - apply String.eqb_eq in E. subst m.
    destruct (excluded ex n (is_dir x)); cbn.
    + apply assoc_transfer_absent. now apply assoc_absent.
    + now rewrite String.eqb_refl.
  - destruct (excluded ex m (is_dir x)); cbn; [now apply IH|].
    rewrite E. now apply IH.
Qed.

Lemma assoc_In {A : Type} n (l : list (string * A)) x :
  assoc n l = Some x -> In (n, x) l.
Proof.
  induction l as [|[m y] l IH]; cbn; [discriminate|].
  destruct (String.eqb n m) eqn:E.
  - apply String.eqb_eq in E. subst m. intros H. injection H as <-. now left.
  - intros H. right. now apply IH.
Qed.

Lemma well_formed_Dir es :
  well_formed (Dir es) = true ->
  unique (map fst es) = true
  /\ forall n x, In (n, x) es -> well_formed x = true.
Proof.
  cbn. intros H. apply andb_true_iff in H. destruct H as [Hu Ha].
  split; [exact Hu|]. clear Hu.
  induction es as [|[m y] es IH]; intros n x Hin; [destruct Hin|].
  apply andb_true_iff in Ha. destruct Ha as [Hy Ha].
  destruct Hin as [E|Hin]; [injection E as <- <-; exact Hy|].
  exact (IH Ha n x Hin).
Qed.

(** Under an entry that a rule excludes there is no file on a path that no
    rule excludes. *)
Lemma excluded_blocks ex n y p :
  excluded ex n (is_dir y) = true ->
  path_excluded ex (n :: p) = false ->
  file_at y p = None.
Proof.
  intros He Hp. unfold file_at.
  destruct p as [|m p].
  - cbn in Hp. cbn. destruct y as [c|es]; [|reflexivity].
    cbn in He. congruence.
  - change (path_excluded ex (n :: m :: p))
      with (excluded ex n true || path_excluded ex (m :: p)) in Hp.
    apply orb_false_iff in Hp. destruct Hp as [Hn _].
    destruct y as [c|es]; [reflexivity|]. cbn in He. congruence.
Qed.


Lemma file_at_cons es n p :
  file_at (Dir es) (n :: p)
  = match assoc n es with Some c => file_at c p | None => None end.
Proof. unfold file_at. cbn. now destruct (assoc n es). Qed.


Lemma assoc_select_first f n l x y :
  assoc n l = Some x -> f n x = Some y -> assoc n (select f l) = Some y.
Proof.
  intros H G. induction l as [|[m z] l IH]; [discriminate|].
  cbn in H. cbn [select].
  destruct (String.eqb n m) eqn:E.
  - apply String.eqb_eq in E. subst m. injection H as ->.
    rewrite G. cbn. now rewrite String.eqb_refl.
  - destruct (f m z); cbn; [rewrite E|]; exact (IH H).
Qed.




Lemma purge_Dir ex y z : purge ex y = Some z -> exists kept, z = Dir kept.
Proof.
  destruct y as [c|es]; cbn; [discriminate|].
  destruct (select _ es); [discriminate|].
  intros H. injection H as <-. now eexists.
Qed.











(** ** C10: the deployment of one extension *)

Lemma lookup_app t p q :
  lookup t (p ++ q)%list
  = match lookup t p with Some x => lookup x q | None => None end.
Proof.
  revert t. induction p as [|n p IH]; intros t; [reflexivity|].
  cbn. destruct t as [c|es]; [reflexivity|].
  destruct (assoc n es); [apply IH | reflexivity].
Qed.

Lemma file_at_app t p q x :
  lookup t p = Some x -> file_at t (p ++ q)%list = file_at x q.
Proof. intros H. unfold file_at. now rewrite lookup_app, H. Qed.

(** What is there can be overwritten. *)
Lemma put_over t p y x :
  lookup t p = Some y -> exists t', put t p x = Some t'.
Proof.
  revert t. induction p as [|n p IH]; intros t H.
  - eexists. reflexivity.
  - destruct t as [c|es]; [discriminate|]. cbn in H.
    destruct (assoc n es) as [c|] eqn:En; [|discriminate].
    destruct p as [|m p]; [eexists; reflexivity|].
    rewrite put_cons, En. destruct (IH c H) as (c' & ->). now eexists.
Qed.

Lemma well_formed_lookup t p x :
  well_formed t = true -> lookup t p = Some x -> well_formed x = true.
Proof.
  revert t. induction p as [|n p IH]; intros t Hwf H.
  - injection H as <-. exact Hwf.
  - destruct t as [c|es]; [discriminate|]. cbn in H.
    destruct (assoc n es) as [c|] eqn:En; [|discriminate].
    destruct (well_formed_Dir es Hwf) as [_ Hsub].
    exact (IH c (Hsub n c (assoc_In _ _ _ En)) H).
Qed.



(** [mkdir -p] of a directory that is not there makes it empty. *)
Lemma mkdir_p_new t p t1 :
  mkdir_p t p = Some t1 ->
  lookup t p = None \/ lookup t p = Some (Dir []) ->
  lookup t1 p = Some (Dir []).
Proof.
  revert t t1. induction p as [|n p IH]; intros t t1 H Hn.
  - cbn in *. destruct Hn as [Hn|Hn]; [discriminate|].
    injection Hn as ->. now injection H as <-.
  - destruct t as [c|es]; [discriminate|]. cbn in H, Hn.
    destruct (assoc n es) as [x|] eqn:En.
    + destruct (mkdir_p x p) as [x'|] eqn:Ex; [|discriminate].
      injection H as <-. cbn. rewrite assoc_set_entry_same.
      exact (IH x x' Ex Hn).
    + destruct (mkdir_p (Dir []) p) as [x'|] eqn:Ex; [|discriminate].
      injection H as <-. cbn. rewrite assoc_set_entry_same.
      apply (IH (Dir []) x' Ex). destruct p; [now right | now left].
Qed.



(** The same when the command that [eval] runs has more than one line:
    [mkdir -p] is all that happens, and 0 is returned. *)
Lemma deploy_extension_broken e o c w target name :
  DeployExtensions.DRY_RUN o = false ->
  DeployExtensions.one_line o c = false ->
  test_f (fs w) (DeployExtensions.source_dir e o // name // "package.json")
  = true ->
  DeployExtensions.deploy_extension e o c target name w
  = Ret 0 (mkWorld (match mkdir_p (fs w) (target // name) with
                    | Some t1 => t1
                    | None => fs w
                    end)
             (console w ++ [Out ("Deploying extension: " ++ name)])%list).
Proof.
  intros Hdry Hone Hman.
  unfold DeployExtensions.deploy_extension,
    DeployExtensions.validate_extension, DeployExtensions.log.
  rewrite Hdry, Hone.
  do 2 run_step. cbn [fs]. rewrite Hman. cbn [negb].
  run_step. cbn [Nat.eqb negb].
  destruct (mkdir_p (fs w) (target // name)) as [t1|] eqn:Hmk.
  - try_step Hmk. run_step. reflexivity.
  - rewrite ?bind_assoc.
    match goal with
    | |- context [bind (try ?r ?s) ?k ?w0] =>
        rewrite (bind_runs (try r s) k w0 _ _ (try_fails r s w0 Hmk))
    end.
    cbv beta. run_step. reflexivity.
Qed.





(** ** C8: an extension without its manifest *)

Lemma confined_quiet {A : Type} dir (c : sh A) : quiet c -> confined dir c.
Proof.
  intros H w. destruct (H w) as (a & w' & more & E & F & C).
  exists a, w', more. repeat split; auto. intros q _. now rewrite F.
Qed.

Lemma confined_bind {A B : Type} dir (c : sh A) (k : A -> sh B) :
  confined dir c -> (forall a, confined dir (k a)) -> confined dir (bind c k).
Proof.
  intros Hc Hk w.
  destruct (Hc w) as (a & w1 & m1 & E1 & C1 & F1).
  destruct (Hk a w1) as (b & w2 & m2 & E2 & C2 & F2).
  exists b, w2, (m1 ++ m2)%list. rewrite (bind_runs _ _ _ _ _ E1).
  split; [exact E2|]. split; [rewrite C2, C1; now rewrite app_assoc|].
  intros q Ha. rewrite (F2 q Ha). exact (F1 q Ha).
Qed.

Lemma confined_try dir r status :
  (forall t t' q, r t = Some t' -> apart dir q -> lookup t' q = lookup t q) ->
  confined dir (try r status).
Proof.
  intros H w. unfold try. destruct (r (fs w)) as [t'|] eqn:E.
  - exists 0, (mkWorld t' (console w)), []. cbn. rewrite app_nil_r.
    repeat split. intros q Ha. exact (H _ _ _ E Ha).
  - exists status, w, []. rewrite app_nil_r. repeat split.
Qed.

Lemma rsync_apart del ex t src dst t' q :
  rsync del ex t src dst = Some t' -> apart dst q -> lookup t' q = lookup t q.
Proof.
  unfold rsync. destruct (lookup t src) as [[|es]|]; try discriminate.
  destruct (test_f t dst); [discriminate|].
  intros H Ha. exact (lookup_put_apart _ _ _ _ _ H Ha).
Qed.

Ltac confined_cases :=
  repeat first
    [ apply confined_quiet; solve [quiet_cases]
    | apply confined_try; intros ? ? ? ? ?;
      first [ eapply lookup_put_apart; eassumption
            | eapply mkdir_p_apart; eassumption
            | eapply rsync_apart; eassumption ]
    | apply confined_bind; [ | intros ? ]
    | match goal with
      | |- confined _ (if ?b then _ else _) => destruct b
      | |- confined _ (match ?x with _ => _ end) => destruct x
      end ].

Lemma install_confined name manager dir extension_name :
  confined dir (DeployExtensions.install name manager dir extension_name).
Proof.
  unfold DeployExtensions.install, DeployExtensions.error_log.
  confined_cases.
Qed.

Lemma install_extension_dependencies_confined e o target n :
  confined (target // n)
    (DeployExtensions.install_extension_dependencies e o target n).
Proof.
  unfold DeployExtensions.install_extension_dependencies,
    DeployExtensions.log.
  confined_cases; apply install_confined.
Qed.

Lemma basename_child p n : basename (p // n) = n.
Proof.
  unfold child. induction p as [|m p IH]; [reflexivity|].
  cbn. destruct (p ++ [n])%list eqn:E; [now destruct p|]. exact IH.
Qed.

(** The deployment of an extension says that it starts, returns, and
    touches nothing but the directory of the extension in the target. *)
Lemma deploy_extension_reports e o c target n w :
  exists d w' more,
    DeployExtensions.deploy_extension e o c target n w = Ret d w'
    /\ console w'
       = (console w ++ Out ("Deploying extension: " ++ n) :: more)%list
    /\ forall q, apart (target // n) q -> lookup (fs w') q = lookup (fs w) q.
Proof.
  unfold DeployExtensions.deploy_extension, DeployExtensions.log,
    DeployExtensions.validate_extension, DeployExtensions.error_log.
  match goal with
  | |- context [bind (echo ?l) ?k w] =>
      assert (H : confined (target // n) (k tt))
        by (cbv beta; confined_cases);
      destruct (H (mkWorld (fs w) (console w ++ [Out l])%list))
        as (d & w' & more & E & C & F);
      rewrite (bind_runs (echo l) k w tt _ eq_refl)
  end.
  exists d, w', more. split; [exact E|].
  split; [rewrite C; cbn; now rewrite <- app_assoc | exact F].
Qed.

Lemma deploy_extension_without_manifest e o c target n w :
  test_f (fs w) (DeployExtensions.source_dir e o // n // "package.json")
  = false ->
  DeployExtensions.deploy_extension e o c target n w
  = Ret 1 (mkWorld (fs w)
             (console w
              ++ [Out ("Deploying extension: " ++ n);
                  Err ("ERROR: Extension " ++ n ++ " missing package.json");
                  Err ("ERROR: Extension validation failed: " ++ n)])%list).
Proof.
  intros H.
  unfold DeployExtensions.deploy_extension, DeployExtensions.log,
    DeployExtensions.validate_extension, DeployExtensions.error_log.
  do 2 run_step. cbn [fs]. rewrite H. cbn [negb].
  do 2 run_step. cbn [Nat.eqb negb]. run_step.
  rewrite basename_child. cbn. now rewrite <- !app_assoc.
Qed.

(** One turn of the loop of [main]: whatever happens to the extension, the
    loop goes on with the rest of the list. *)
Lemma deploy_each_step e o c target n rest failed w :
  exists f w' more,
    DeployExtensions.deploy_each e o c target (n :: rest) failed w
    = DeployExtensions.deploy_each e o c target rest f w'
    /\ console w' = (console w ++ more)%list
    /\ (forall q, apart (target // n) q -> lookup (fs w') q = lookup (fs w) q)
    /\ (failed = true -> f = true)
    /\ In (Out ("Deploying extension: " ++ n)) more
    /\ (test_f (fs w)
          (DeployExtensions.source_dir e o // n // "package.json") = false ->
        f = true
        /\ In (Err ("ERROR: Failed to deploy extension: " ++ n)) more).
Proof.
  cbn [DeployExtensions.deploy_each]. unfold DeployExtensions.error_log.
  destruct (test_f (fs w)
              (DeployExtensions.source_dir e o // n // "package.json"))
    eqn:Hman.
  - destruct (deploy_extension_reports e o c target n w)
      as (d & w1 & more1 & E1 & C1 & F1).
    rewrite (bind_runs _ _ _ _ _ E1).
    destruct d as [|d]; cbn [Nat.eqb negb].
    + destruct (install_extension_dependencies_confined e o target n w1)
        as (i & w2 & more2 & E2 & C2 & F2).
      rewrite (bind_runs _ _ _ _ _ E2).
      destruct i as [|i]; cbn [Nat.eqb negb].
      * exists failed, w2, (Out ("Deploying extension: " ++ n)
                            :: more1 ++ more2)%list.
        split; [reflexivity|].
        split; [rewrite C2, C1, <- app_assoc; reflexivity|].
        split; [intros q Ha; rewrite (F2 q Ha); exact (F1 q Ha)|].
        split; [auto|]. split; [now left | discriminate].
      * run_step.
        eexists true, _, (Out ("Deploying extension: " ++ n)
                          :: more1 ++ more2 ++ [_])%list.
        split; [reflexivity|]. cbn [console fs].
        split; [rewrite C2, C1, <- !app_assoc; reflexivity|].
        split; [intros q Ha; rewrite (F2 q Ha); exact (F1 q Ha)|].
        split; [auto|]. split; [now left | discriminate].
    + run_step.
      eexists true, _, (Out ("Deploying extension: " ++ n)
                        :: more1 ++ [_])%list.
      split; [reflexivity|]. cbn [console fs].
      split; [rewrite C1, <- !app_assoc; reflexivity|].
      split; [exact F1|].
      split; [auto|]. split; [now left | discriminate].
  - rewrite (bind_runs _ _ _ _ _
               (deploy_extension_without_manifest e o c target n w Hman)).
    cbn [Nat.eqb negb]. run_step.
    eexists true, _, _.
    split; [reflexivity|]. cbn [console fs].
    split; [rewrite <- app_assoc; reflexivity|].
    split; [reflexivity|].
    split; [auto|]. cbn. split; [now left|]. intros _. split; auto 10.
Qed.

(** The loop of [main] returns; it starts the deployment of every
    extension of the list, reports each one that lacks its manifest, and
    returns [true] when one does. *)
Lemma deploy_each_reports e o c target extensions :
  apart target (DeployExtensions.source_dir e o) ->
  forall failed w,
  exists b w' more,
    DeployExtensions.deploy_each e o c target extensions failed w = Ret b w'
    /\ console w' = (console w ++ more)%list
    /\ (failed = true -> b = true)
    /\ (forall n, In n extensions ->
                  In (Out ("Deploying extension: " ++ n)) more)
    /\ (forall n, In n extensions ->
          test_f (fs w)
            (DeployExtensions.source_dir e o // n // "package.json") = false ->
          b = true
          /\ In (Err ("ERROR: Failed to deploy extension: " ++ n)) more).
Proof.
  intros Hap. induction extensions as [|m rest IH]; intros failed w.
  - exists failed, w, []. rewrite app_nil_r. cbn. intuition.
  - destruct (deploy_each_step e o c target m rest failed w)
      as (f & w1 & more1 & E1 & C1 & F1 & Hf & Hout & Hbad).
    destruct (IH f w1) as (b & w2 & more2 & E2 & C2 & Hb & Houts & Hbads).
    exists b, w2, (more1 ++ more2)%list. rewrite E1.
    split; [exact E2|].
    split; [rewrite C2, C1, app_assoc; reflexivity|].
    split; [auto|].
    split.
    + intros n [<-|Hin]; apply in_or_app; [left; exact Hout|].
      right. exact (Houts n Hin).
    + intros n [<-|Hin] Hman.
      * destruct (Hbad Hman) as [-> He]. split; [auto|].
        apply in_or_app. now left.
      * assert (Hman1 : test_f (fs w1)
                  (DeployExtensions.source_dir e o // n // "package.json")
                = false).
        { unfold test_f. rewrite F1; [exact Hman|].
          unfold child. rewrite <- app_assoc. now apply apart_under. }
        destruct (Hbads n Hin Hman1) as [-> He]. split; [reflexivity|].
        apply in_or_app. now right.
Qed.


Lemma lookup_child_parent t p n x :
  lookup t (p // n) = Some x -> test_d t p = true.
Proof.
  unfold test_d, child. rewrite lookup_app.
  destruct (lookup t p) as [[c|es]|]; try discriminate. reflexivity.
Qed.




Lemma append_nonempty n s : (n ++ s)%string = n -> s = EmptyString.
Proof.
  induction n as [|a n IH]; cbn; [auto|]. intros H. injection H as H. auto.
Qed.

Lemma path_suffix_cons n m p s :
  path_suffix (n :: m :: p) s = n :: path_suffix (m :: p) s.
Proof. reflexivity. Qed.

Lemma path_suffix_nonempty p s : path_suffix p s <> [].
Proof.
  destruct p as [|n [|m p]]; try discriminate.
Qed.

(** The backup directory ["$TARGET.backup-..."] lies next to the target. *)
Lemma apart_path_suffix p s :
  p <> [] -> s <> EmptyString -> apart (path_suffix p s) p.
Proof.
  intros Hp Hs. induction p as [|n p IH]; [contradiction|].
  destruct p as [|m p].
  - cbn. apply apart_here. intros H. apply Hs. exact (append_nonempty _ _ H).
  - rewrite path_suffix_cons. apply apart_below. apply IH. discriminate.
Qed.

Lemma put_path_suffix t p s y :
  test_d t p = true -> exists t', put t (path_suffix p s) y = Some t'.
Proof.
  unfold test_d. revert t. induction p as [|n p IH]; intros t H.
  - destruct t as [c|es]; [discriminate|]. cbn. now eexists.
  - destruct t as [c|es]; [discriminate|].
    destruct p as [|m p]; [cbn; now eexists|].
    rewrite path_suffix_cons. cbn in H.
    destruct (assoc n es) as [c|] eqn:En; [|discriminate].
    destruct (IH c H) as (c' & Hc').
    destruct (path_suffix (m :: p) s) as [|k r] eqn:Ek;
      [now apply path_suffix_nonempty in Ek|].
    rewrite put_cons, En, Hc'. now eexists.
Qed.




Lemma validate_directories_runs e o w target :
  test_d (fs w) (DeployExtensions.source_dir e o) = true ->
  DeployExtensions.TARGET_EXTENSIONS_DIR o = Some target ->
  test_d (fs w) target = true ->
  writable (DeployExtensions.perms e) target = true ->
  DeployExtensions.validate_directories e o w = Ret target w.
Proof.
  intros Hs Ht Hd Hw. unfold DeployExtensions.validate_directories.
  rewrite Ht. run_step. rewrite Hs, Hd, Hw. cbn [negb].
  destruct (DeployExtensions.DRY_RUN o); reflexivity.
Qed.

Lemma scan_extensions_runs e o w es :
  lookup (fs w) (DeployExtensions.source_dir e o) = Some (Dir es) ->
  DeployExtensions.extension_names es <> [] ->
  exists text,
    DeployExtensions.scan_extensions e o w
    = Ret (Some (DeployExtensions.extension_names es))
        (mkWorld (fs w) (console w ++ [Out text])%list).
Proof.
  intros Hs Hne. unfold DeployExtensions.scan_extensions,
    DeployExtensions.log.
  run_step. rewrite Hs.
  destruct (DeployExtensions.extension_names es) as [|n ns];
    [contradiction|].
  eexists. reflexivity.
Qed.

(** The backup of the extensions in place, when no backup of the same
    second is there: it returns, and touches only the backup. *)
Lemma backup_existing_extensions_runs e o target w :
  test_d (fs w) target = true ->
  test_e (fs w)
    (path_suffix target (".backup-" ++ DeployExtensions.stamp e)) = false ->
  exists w' more,
    DeployExtensions.backup_existing_extensions e o target w = Ret tt w'
    /\ console w' = (console w ++ more)%list
    /\ forall q,
        apart (path_suffix target (".backup-" ++ DeployExtensions.stamp e)) q ->
        lookup (fs w') q = lookup (fs w) q.
Proof.
  intros Hd He. unfold DeployExtensions.backup_existing_extensions,
    DeployExtensions.log.
  set (backup_dir := path_suffix target
                       (".backup-" ++ DeployExtensions.stamp e)) in *.
  destruct (DeployExtensions.BACKUP_EXISTING o); cbn [negb];
    [|exists w, []; rewrite app_nil_r; repeat split].
  run_step. rewrite Hd. cbn [negb]. run_step.
  destruct (DeployExtensions.DRY_RUN o).
  { eexists _, [_; _]. split; [reflexivity|].
    split; [cbn; now rewrite <- app_assoc | reflexivity]. }
  cbn [fs].
  destruct (lookup (fs w) target) as [[c|[|entry entries]]|] eqn:El;
    try (eexists _, [_]; repeat split; fail).
  destruct (put_path_suffix (fs w) target
              (".backup-" ++ DeployExtensions.stamp e)
              (rsync_node false [] (Dir (entry :: entries)) None) Hd)
    as (t' & Hput).
  fold backup_dir in Hput.
  assert (Hcp : cp_r (fs w) target backup_dir = Some t').
  { assert (Hno : lookup (fs w) backup_dir = None).
    { unfold test_e in He. now destruct (lookup (fs w) backup_dir). }
    unfold cp_r, test_d. rewrite El, Hno. cbv zeta iota. rewrite Hno.
    exact Hput. }
  must_step Hcp.
  eexists _, [_; _]. split; [reflexivity|].
  split; [cbn; now rewrite <- app_assoc|].
  intros q Ha. exact (lookup_put_apart _ _ _ _ _ Hput Ha).
Qed.

Lemma echo_each_quiet lines : quiet (DeployExtensions.echo_each lines).
Proof.
  induction lines as [|l ls IH]; cbn; [apply quiet_ret|].
  apply quiet_bind; [apply quiet_echo | intros _; exact IH].
Qed.

Lemma set_extension_permissions_quiet o :
  quiet (DeployExtensions.set_extension_permissions o).
Proof. unfold DeployExtensions.set_extension_permissions. quiet_cases. Qed.

Lemma verify_deployment_quiet o target list_file :
  quiet (DeployExtensions.verify_deployment o target list_file).
Proof.
  unfold DeployExtensions.verify_deployment, DeployExtensions.log,
    DeployExtensions.error_log.
  destruct list_file as [extensions|]; [|apply quiet_ret].
  apply quiet_reading. intros t. apply quiet_bind.
  - destruct (DeployExtensions.DRY_RUN o);
      [apply echo_each_quiet | apply quiet_ret].
  - intros _. quiet_cases.
Qed.

(** A run on a source that lists an extension without its manifest, as far
    as the loop and from there to the end. *)
Lemma missing_manifest_run e o c w target es bad :
  DeployExtensions.config e = Some c ->
  DeployExtensions.TARGET_EXTENSIONS_DIR o = Some target ->
  lookup (fs w) (DeployExtensions.source_dir e o) = Some (Dir es) ->
  test_d (fs w) target = true ->
  writable (DeployExtensions.perms e) target = true ->
  apart target (DeployExtensions.source_dir e o) ->
  apart (path_suffix target (".backup-" ++ DeployExtensions.stamp e))
    (DeployExtensions.source_dir e o) ->
  test_e (fs w)
    (path_suffix target (".backup-" ++ DeployExtensions.stamp e)) = false ->
  In bad (DeployExtensions.extension_names es) ->
  test_f (fs w) (DeployExtensions.source_dir e o // bad // "package.json")
  = false ->
  exists w1 w2 w' more,
    DeployExtensions.main e o w = Exit 1 w'
    /\ console w'
       = (console w ++ more
          ++ [Err "ERROR: Extension deployment completed with errors"])%list
    /\ In (Err ("ERROR: Failed to deploy extension: " ++ bad)) more
    /\ (forall n, In n (DeployExtensions.extension_names es) ->
                  In (Out ("Deploying extension: " ++ n)) more)
    /\ (forall q,
          apart (path_suffix target (".backup-" ++ DeployExtensions.stamp e))
            q ->
          lookup (fs w1) q = lookup (fs w) q)
    /\ DeployExtensions.deploy_each e o c target
         (DeployExtensions.extension_names es) false w1 = Ret true w2
    /\ fs w' = fs w2.
Proof.
  intros Hc Ht Hs Hd Hw Hap Hbap Hbe Hbad Hman.
  set (backup_dir := path_suffix target
                       (".backup-" ++ DeployExtensions.stamp e)) in *.
  set (src := DeployExtensions.source_dir e o) in *.
  set (names := DeployExtensions.extension_names es) in *.
  assert (Hsd : test_d (fs w) src = true) by (unfold test_d; now rewrite Hs).
  assert (Hne : names <> []) by (intros E; rewrite E in Hbad; destruct Hbad).
  assert (Hbs : forall r, apart backup_dir (src ++ r)%list)
    by (intros r; now apply apart_sym, apart_app, apart_sym).
  unfold DeployExtensions.main, DeployExtensions.log,
    DeployExtensions.load_config.
  rewrite Hc. do 2 run_step.
  match goal with
  | |- context [bind (DeployExtensions.validate_directories _ _) _ ?w0] =>
      rewrite (bind_runs _ _ _ _ _
                 (validate_directories_runs e o w0 target Hsd Ht Hd Hw))
  end.
  destruct (scan_extensions_runs e o
              (mkWorld (fs w)
                 (console w ++ [Out "Starting extension deployment"])%list)
              es Hs Hne) as (found & Hscan).
  rewrite (bind_runs _ _ _ _ _ Hscan). fold names. cbn [fs console].
  match goal with
  | |- context [bind (DeployExtensions.backup_existing_extensions _ _ _) _
                  ?w0] =>
      destruct (backup_existing_extensions_runs e o target w0 Hd Hbe)
        as (w1 & more1 & E1 & C1 & F1)
  end.
  rewrite ?bind_assoc. rewrite (bind_runs _ _ _ _ _ E1).
  cbn [fs console] in *.
  assert (Hman1 : test_f (fs w1) (src // bad // "package.json") = false).
  { unfold test_f. rewrite F1; [exact Hman|].
    unfold child. rewrite <- app_assoc. apply Hbs. }
  destruct (deploy_each_reports e o c target names Hap false w1)
    as (b & w2 & more2 & E2 & C2 & _ & Houts & Hbads).
  destruct (Hbads bad Hbad Hman1) as [-> Hsaid].
  rewrite ?bind_assoc. rewrite (bind_runs _ _ _ _ _ E2).
  quiet_step ltac:(apply set_extension_permissions_quiet).
  quiet_step ltac:(apply verify_deployment_quiet).
  cbn [orb]. unfold DeployExtensions.error_log. run_step.
  eexists w1, w2, _, (_ :: _ :: more1 ++ more2 ++ more ++ more0)%list.
  split; [reflexivity|]. cbn [console fs].
  split; [rewrite C0, C, C2, C1; cbn; rewrite <- !app_assoc; reflexivity|].
  split; [right; right; apply in_or_app; right; apply in_or_app; now left|].
  split.
  { intros n Hin. right. right. apply in_or_app. right. apply in_or_app.
    left. exact (Houts n Hin). }
  split; [exact F1|]. split; [exact E2|]. now rewrite F0, F.
Qed.




(* ================================================================= *)
(** * Further properties of the scripts *)

(** ** Steps that leave the tree alone *)

Lemma inert_ret {A : Type} (a : A) : inert (ret a).
Proof. intros w. reflexivity. Qed.

Lemma inert_exit {A : Type} n : inert (@exit A n).
Proof. intros w. reflexivity. Qed.

Lemma inert_echo text : inert (echo text).
Proof. intros w. reflexivity. Qed.

Lemma inert_echo_err text : inert (echo_err text).
Proof. intros w. reflexivity. Qed.

Lemma inert_get_fs : inert get_fs.
Proof. intros w. reflexivity. Qed.

Lemma inert_bind {A B : Type} (c : sh A) (k : A -> sh B) :
  inert c -> (forall a, inert (k a)) -> inert (bind c k).
Proof.
  intros Hc Hk w. unfold bind. specialize (Hc w).
  destruct (c w) as [a w1|n w1]; cbn in *.
  - rewrite (Hk a w1). exact Hc.
  - exact Hc.
Qed.

Lemma inert_quiet {A : Type} (c : sh A) : quiet c -> inert c.
Proof.
  intros H w. destruct (H w) as (a & w' & more & -> & F & _). exact F.
Qed.

Ltac inert_cases :=
  repeat first
    [ apply inert_ret
    | apply inert_exit
    | apply inert_echo
    | apply inert_echo_err
    | apply inert_get_fs
    | apply inert_bind; [ | intros ? ]
    | match goal with
      | |- inert (if ?b then _ else _) => destruct b
      | |- inert (match ?x with _ => _ end) => destruct x
      | |- inert (let (_, _) := ?x in _) => destruct x
      end ].

Lemma ends_with_ret {A : Type} P (a : A) : ends_with P (ret a).
Proof. intros w n w' H. discriminate. Qed.

Lemma ends_with_exit {A : Type} (P : nat -> Prop) n :
  P n -> ends_with P (@exit A n).
Proof. intros H w m w' E. injection E as <- _. exact H. Qed.

Lemma ends_with_quiet {A : Type} P (c : sh A) : quiet c -> ends_with P c.
Proof.
  intros H w n w' E. destruct (H w) as (a & w1 & more & E1 & _).
  congruence.
Qed.

Lemma ends_with_bind {A B : Type} P (c : sh A) (k : A -> sh B) :
  ends_with P c -> (forall a, ends_with P (k a)) -> ends_with P (bind c k).
Proof.
  intros Hc Hk w n w' H. destruct (bind_exit_inv _ _ _ _ _ H)
    as [E|(a & w1 & _ & E)].
  - exact (Hc _ _ _ E).
  - exact (Hk a _ _ _ E).
Qed.

Lemma ends_with_must (P : nat -> Prop) r status :
  P status -> ends_with P (must r status).
Proof.
  intros H w n w' E. unfold must in E.
  destruct (r (fs w)); [discriminate|]. injection E as <- _. exact H.
Qed.

Lemma ends_with_try P r status : ends_with P (try r status).
Proof.
  intros w n w' E. unfold try in E. destruct (r (fs w)); discriminate.
Qed.

Ltac ends_with_cases :=
  repeat first
    [ apply ends_with_ret
    | apply ends_with_quiet; solve [quiet_cases]
    | apply ends_with_exit; cbn; solve [auto 10 | lia]
    | apply ends_with_must; cbn; solve [auto 10 | lia]
    | apply ends_with_try
    | apply ends_with_bind; [ | intros ? ]
    | match goal with
      | |- ends_with _ (if ?b then _ else _) => destruct b
      | |- ends_with _ (match ?x with _ => _ end) => destruct x
      | |- ends_with _ (let (_, _) := ?x in _) => destruct x
      end ].

(** Finds a line in a console that is written out as a chain of
    appends. *)
Ltac find_line :=
  cbn [console fs final];
  repeat match goal with
         | |- In _ (_ ++ _)%list =>
             apply in_or_app; first [right; solve [cbn; auto 10] | left]
         end;
  solve [cbn; auto 10].

Lemma exit_code_ends_with (P : nat -> Prop) (c : sh unit) w :
  P 0 -> ends_with P c -> P (exit_code (c w)).
Proof.
  intros H0 H. unfold exit_code. destruct (c w) as [a w'|n w'] eqn:E.
  - exact H0.
  - exact (H _ _ _ E).
Qed.

(** ** pre-deployment-checks.sh: what a run can do *)

Lemma check_database_inert e o :
  inert (PreDeploymentChecks.check_database e o).
Proof.
  intros w. destruct (check_database_cases e o w)
    as [(a & w' & more & -> & F & _)|(w' & -> & F)]; exact F.
Qed.

Lemma check_database_ends_with e o :
  ends_with (fun n => n = 0 \/ n = 1)
    (PreDeploymentChecks.check_database e o).
Proof.
  intros w n w' E. destruct (check_database_cases e o w)
    as [(a & w1 & more & E1 & _)|(w1 & E1 & _)]; rewrite E1 in E.
  - discriminate.
  - injection E as <- _. now right.
Qed.

Lemma checks_inert e o : inert (PreDeploymentChecks.main e o).
Proof.
  unfold PreDeploymentChecks.main, PreDeploymentChecks.log.
  apply inert_bind; [apply inert_echo | intros _].
  apply inert_bind;
    [apply inert_quiet, checks_validate_directories_quiet | intros s0].
  apply inert_bind;
    [apply inert_quiet, check_system_requirements_quiet | intros s1].
  apply inert_bind; [apply inert_quiet, check_disk_space_quiet | intros s2].
  apply inert_bind; [apply inert_quiet, check_permissions_quiet | intros s3].
  apply inert_bind; [apply check_database_inert | intros s4].
  apply inert_bind; [apply inert_quiet, check_services_quiet | intros s5].
  apply inert_bind;
    [apply inert_quiet, check_deployment_config_quiet | intros s6].
  apply inert_bind; [apply inert_quiet, generate_report_quiet | intros _].
  inert_cases.
Qed.

Lemma checks_ends_with e o :
  ends_with (fun n => n = 0 \/ n = 1) (PreDeploymentChecks.main e o).
Proof.
  unfold PreDeploymentChecks.main, PreDeploymentChecks.log.
  apply ends_with_bind; [apply ends_with_quiet, quiet_echo | intros _].
  apply ends_with_bind;
    [apply ends_with_quiet, checks_validate_directories_quiet | intros s0].
  apply ends_with_bind;
    [apply ends_with_quiet, check_system_requirements_quiet | intros s1].
  apply ends_with_bind;
    [apply ends_with_quiet, check_disk_space_quiet | intros s2].
  apply ends_with_bind;
    [apply ends_with_quiet, check_permissions_quiet | intros s3].
  apply ends_with_bind; [apply check_database_ends_with | intros s4].
  apply ends_with_bind;
    [apply ends_with_quiet, check_services_quiet | intros s5].
  apply ends_with_bind;
    [apply ends_with_quiet, check_deployment_config_quiet | intros s6].
  apply ends_with_bind;
    [apply ends_with_quiet, generate_report_quiet | intros _].
  ends_with_cases.
Qed.

(** X1.  pre-deployment-checks.sh only looks: whatever the options and the
    machine, the file system is at the end what it was at the start, and
    the status is 0 or 1. *)
Theorem checks_only_look e o w :
  fs (final (PreDeploymentChecks.main e o w)) = fs w
  /\ (exit_code (PreDeploymentChecks.main e o w) = 0
      \/ exit_code (PreDeploymentChecks.main e o w) = 1).
Proof.
  split; [apply checks_inert|].
  apply (exit_code_ends_with (fun n => n = 0 \/ n = 1));
    [now left | apply checks_ends_with].
Qed.

Lemma checks_validate_directories_dry e o w :
  PreDeploymentChecks.DRY_RUN o = true ->
  exists s w',
    PreDeploymentChecks.validate_directories e o w = Ret s w'
    /\ (s = 0 \/ s = 1)
    /\ (s = 0 <->
        test_d (fs w) (PreDeploymentChecks.source_path e o) = true
        /\ readable (PreDeploymentChecks.perms e)
             (PreDeploymentChecks.source_path e o) = true
        /\ exists target,
            PreDeploymentChecks.TARGET_DIR o = Some target
            /\ test_d (fs w) (dirname target) = true).
Proof.
  intros Hdry.
  unfold PreDeploymentChecks.validate_directories,
    PreDeploymentChecks.error_log.
  run_step. rewrite Hdry.
  destruct (test_d (fs w) (PreDeploymentChecks.source_path e o)); cbn [negb];
    [|eexists _, _; split; [reflexivity|]; split; [now right|];
      split; [discriminate | intros (H & _); discriminate]].
  destruct (readable (PreDeploymentChecks.perms e)
              (PreDeploymentChecks.source_path e o)); cbn [negb];
    [|eexists _, _; split; [reflexivity|]; split; [now right|];
      split; [discriminate | intros (_ & H & _); discriminate]].
  destruct (PreDeploymentChecks.TARGET_DIR o) as [target|];
    [|eexists _, _; split; [reflexivity|]; split; [now right|];
      split; [discriminate | intros (_ & _ & t & H & _); discriminate]].
  destruct (test_d (fs w) (dirname target)) eqn:Hp; cbn [negb];
    eexists _, _; (split; [reflexivity|]).
  - split; [now left|]. split; [|reflexivity].
    intros _. repeat split. now exists target.
  - split; [now right|]. split; [discriminate|].
    intros (_ & _ & t & H & Ht). injection H as <-. congruence.
Qed.

Lemma checks_dry e o :
  PreDeploymentChecks.DRY_RUN o = true ->
  forall w,
    (exists w', PreDeploymentChecks.check_system_requirements e o w
                = Ret 0 w')
    /\ (exists w', PreDeploymentChecks.check_disk_space e o w = Ret 0 w')
    /\ (exists w', PreDeploymentChecks.check_permissions e o w = Ret 0 w')
    /\ (exists w', PreDeploymentChecks.check_database e o w = Ret 0 w')
    /\ (exists w', PreDeploymentChecks.check_services e o w = Ret 0 w')
    /\ (exists w', PreDeploymentChecks.check_deployment_config e o w
                   = Ret 0 w').
Proof.
  intros Hdry w.
  unfold PreDeploymentChecks.check_system_requirements,
    PreDeploymentChecks.check_disk_space,
    PreDeploymentChecks.check_permissions,
    PreDeploymentChecks.check_database,
    PreDeploymentChecks.check_services,
    PreDeploymentChecks.check_deployment_config,
    PreDeploymentChecks.probe, PreDeploymentChecks.log.
  rewrite Hdry.
  destruct (PreDeploymentChecks.CHECK_DISK_SPACE o),
    (PreDeploymentChecks.CHECK_PERMISSIONS o),
    (PreDeploymentChecks.CHECK_DATABASE o),
    (PreDeploymentChecks.CHECK_SERVICES o);
    cbn [negb]; repeat split; eexists; reflexivity.
Qed.

(** X2.  A dry run of pre-deployment-checks.sh probes nothing: whatever the
    state of the machine, the database and the configuration, it ends with
    status 0 exactly when the source is a readable directory, a target is
    given and the parent of the target is a directory. *)
Theorem dry_run_checks_only_validate_directories e o w :
  PreDeploymentChecks.DRY_RUN o = true ->
  exit_code (PreDeploymentChecks.main e o w) = 0 <->
  test_d (fs w) (PreDeploymentChecks.source_path e o) = true
  /\ readable (PreDeploymentChecks.perms e)
       (PreDeploymentChecks.source_path e o) = true
  /\ exists target,
      PreDeploymentChecks.TARGET_DIR o = Some target
      /\ test_d (fs w) (dirname target) = true.
Proof.
  intros Hdry.
  assert (H : exists s w',
             (s = 0 \/ s = 1)
             /\ (s = 0 <->
                 test_d (fs w) (PreDeploymentChecks.source_path e o) = true
                 /\ readable (PreDeploymentChecks.perms e)
                      (PreDeploymentChecks.source_path e o) = true
                 /\ exists target,
                     PreDeploymentChecks.TARGET_DIR o = Some target
                     /\ test_d (fs w) (dirname target) = true)
             /\ PreDeploymentChecks.main e o w = Exit s w').
  { unfold PreDeploymentChecks.main, PreDeploymentChecks.log. run_step.
    match goal with
    | |- context [bind (PreDeploymentChecks.validate_directories e o) _ ?w0] =>
        destruct (checks_validate_directories_dry e o w0 Hdry)
          as (s & w1 & E1 & Hs & Hiff)
    end.
    rewrite (bind_runs _ _ _ _ _ E1).
    repeat match goal with
           | |- context [bind (?c e o) _ ?w0] =>
               let H := fresh "H" in
               pose proof (checks_dry e o Hdry w0) as H;
               destruct H as ((? & H1) & (? & H2) & (? & H3) & (? & H4)
                              & (? & H5) & (? & H6));
               first [ rewrite (bind_runs _ _ _ _ _ H1)
                     | rewrite (bind_runs _ _ _ _ _ H2)
                     | rewrite (bind_runs _ _ _ _ _ H3)
                     | rewrite (bind_runs _ _ _ _ _ H4)
                     | rewrite (bind_runs _ _ _ _ _ H5)
                     | rewrite (bind_runs _ _ _ _ _ H6) ];
               clear H1 H2 H3 H4 H5 H6
           end.
    quiet_step ltac:(apply generate_report_quiet).
    rewrite !Nat.add_0_r.
    exists s. destruct Hs as [-> | ->]; cbn [Nat.eqb];
      repeat run_step; eexists;
      (split; [auto|]); (split; [exact Hiff | reflexivity]). }
  destruct H as (s & w' & Hs & Hiff & ->). exact Hiff.
Qed.

Lemma dry_run_checks_witness :
  PreDeploymentChecks.DRY_RUN Cases.dry_checks_options = true
  /\ (exit_code (PreDeploymentChecks.main Cases.failing_checks_env
                   Cases.dry_checks_options (mkWorld Sample.checks_disk []))
      = 0 <->
      test_d Sample.checks_disk
        (PreDeploymentChecks.source_path Cases.failing_checks_env
           Cases.dry_checks_options) = true
      /\ readable (PreDeploymentChecks.perms Cases.failing_checks_env)
           (PreDeploymentChecks.source_path Cases.failing_checks_env
              Cases.dry_checks_options) = true
      /\ exists target,
          PreDeploymentChecks.TARGET_DIR Cases.dry_checks_options
          = Some target
          /\ test_d Sample.checks_disk (dirname target) = true).
Proof.
  split; [reflexivity|].
  exact (dry_run_checks_only_validate_directories Cases.failing_checks_env
           Cases.dry_checks_options (mkWorld Sample.checks_disk [])
           eq_refl).
Defined.

(** ** verify-backup.sh: what a run can do *)

Lemma verify_file_backup_quiet o b :
  quiet (VerifyBackup.verify_file_backup o b).
Proof.
  unfold VerifyBackup.verify_file_backup, VerifyBackup.log,
    VerifyBackup.error_log.
  quiet_cases; apply verify_issue_quiet.
Qed.

(** The run of [main] on a given backup directory, check by check. *)
Lemma verify_main_runs e o b w :
  VerifyBackup.BACKUP_DIR o = Some b ->
  exists s1 s2 s3 s4 w1 w2 w3 w4 w',
    VerifyBackup.verify_backup_structure b w1 = Ret s1 w2
    /\ fs w1 = fs w
    /\ (if VerifyBackup.CHECK_DATABASE o
        then VerifyBackup.verify_database_backup b else ret 0) w2 = Ret s2 w3
    /\ (if VerifyBackup.CHECK_FILES o
        then VerifyBackup.verify_file_backup o b else ret 0) w3 = Ret s3 w4
    /\ fs w4 = fs w
    /\ fs w' = fs w
    /\ VerifyBackup.main e o w
       = Exit (if Nat.eqb (s1 + s2 + s3 + s4) 0 then 0 else 1) w'.
Proof.
  intros Hb. unfold VerifyBackup.main, VerifyBackup.log. rewrite Hb.
  do 3 run_step.
  match goal with
  | |- context [bind (if VerifyBackup.QUICK_CHECK o then _ else _) _ ?w0] =>
      assert (Hq : exists w1,
                 (if VerifyBackup.QUICK_CHECK o
                  then echo "Quick verification mode enabled" else ret tt) w0
                 = Ret tt w1 /\ fs w1 = fs w)
        by (destruct (VerifyBackup.QUICK_CHECK o); eexists;
            split; reflexivity)
  end.
  destruct Hq as (w1 & E0 & F0). rewrite (bind_runs _ _ _ _ _ E0).
  destruct (verify_backup_structure_quiet b w1)
    as (s1 & w2 & m1 & E1 & F1 & _).
  rewrite (bind_runs _ _ _ _ _ E1).
  assert (Q2 : quiet (if VerifyBackup.CHECK_DATABASE o
                      then VerifyBackup.verify_database_backup b else ret 0))
    by (destruct (VerifyBackup.CHECK_DATABASE o);
        [apply verify_database_backup_quiet | apply quiet_ret]).
  destruct (Q2 w2) as (s2 & w3 & m2 & E2 & F2 & _).
  rewrite (bind_runs _ _ _ _ _ E2).
  assert (Q3 : quiet (if VerifyBackup.CHECK_FILES o
                      then VerifyBackup.verify_file_backup o b else ret 0))
    by (destruct (VerifyBackup.CHECK_FILES o);
        [apply verify_file_backup_quiet | apply quiet_ret]).
  destruct (Q3 w3) as (s3 & w4 & m3 & E3 & F3 & _).
  rewrite (bind_runs _ _ _ _ _ E3).
  destruct (verify_metadata_consistency_quiet e b w4)
    as (s4 & w5 & m4 & E4 & F4 & _).
  rewrite (bind_runs _ _ _ _ _ E4).
  run_step.
  exists s1, s2, s3, s4, w1, w2, w3, w4.
  destruct (Nat.eqb (s1 + s2 + s3 + s4) 0); repeat run_step;
    eexists; (split; [exact E1|]); (split; [exact F0|]);
    (split; [exact E2|]); (split; [exact E3|]); (split; [congruence|]);
    (split; [|reflexivity]); cbn [fs]; congruence.
Qed.

(** X3.  verify-backup.sh on a given backup directory only reads: whatever
    the checks find, the file system is at the end what it was at the start,
    and the status is 0 or 1. *)
Theorem verify_backup_only_reads e b database files quick w :
  let run := VerifyBackup.main e
               (VerifyBackup.mkOptions (Some b) database files quick) w in
  fs (final run) = fs w /\ (exit_code run = 0 \/ exit_code run = 1).
Proof.
  destruct (verify_main_runs e
              (VerifyBackup.mkOptions (Some b) database files quick) b w
              eq_refl)
    as (s1 & s2 & s3 & s4 & w1 & w2 & w3 & w4 & w' & _ & _ & _ & _ & _
        & F & E).
  cbv zeta. rewrite E. split; [exact F|].
  destruct (Nat.eqb (s1 + s2 + s3 + s4) 0); [now left | now right].
Qed.

(** X4.  verify-backup.sh on a backup directory that does not exist reports
    it and ends with status 1, whichever checks are selected. *)
Theorem verify_backup_without_directory e b database files quick w :
  test_d (fs w) b = false ->
  let run := VerifyBackup.main e
               (VerifyBackup.mkOptions (Some b) database files quick) w in
  exit_code run = 1
  /\ said (Err ("ERROR: Backup directory does not exist: " ++ show b))
       (final run).
Proof.
  intros Hd. cbv zeta.
  assert (H : exists w',
             VerifyBackup.main e
               (VerifyBackup.mkOptions (Some b) database files quick) w
             = Exit 1 w'
             /\ said (Err ("ERROR: Backup directory does not exist: "
                           ++ show b)) w').
  { unfold VerifyBackup.main, VerifyBackup.log.
    cbn [VerifyBackup.BACKUP_DIR VerifyBackup.CHECK_DATABASE
         VerifyBackup.CHECK_FILES VerifyBackup.QUICK_CHECK].
    do 3 run_step.
    quiet_step ltac:(destruct quick; [apply quiet_echo | apply quiet_ret]).
    unfold VerifyBackup.verify_backup_structure at 1.
    unfold VerifyBackup.log, VerifyBackup.error_log.
    do 2 run_step. cbn [fs] in *. rewrite F. cbn [fs]. rewrite Hd.
    cbn [negb]. do 2 run_step.
    quiet_step ltac:(destruct database;
                     [apply verify_database_backup_quiet | apply quiet_ret]).
    quiet_step ltac:(destruct files;
                     [apply verify_file_backup_quiet | apply quiet_ret]).
    quiet_step ltac:(apply verify_metadata_consistency_quiet).
    cbn [Nat.add Nat.eqb]. repeat run_step.
    eexists. split; [reflexivity|]. unfold said. cbn [console fs].
    rewrite C2, C1, C0. find_line. }
  destruct H as (w' & -> & H). split; [reflexivity | exact H].
Qed.

Lemma verify_backup_without_directory_witness :
  test_d (fs (mkWorld Sample.zero_byte_disk [])) ["gone"] = false
  /\ let run := VerifyBackup.main Sample.verify_env
                  (VerifyBackup.mkOptions (Some ["gone"]) true true false)
                  (mkWorld Sample.zero_byte_disk []) in
     exit_code run = 1
     /\ said (Err ("ERROR: Backup directory does not exist: "
                   ++ show ["gone"])) (final run).
Proof.
  split; [reflexivity|].
  exact (verify_backup_without_directory Sample.verify_env ["gone"]
           true true false (mkWorld Sample.zero_byte_disk []) eq_refl).
Defined.

(** ** backup-database.sh: before anything is written *)

(** The checks of the variables cannot fail: each has a default. *)
Lemma database_check_prerequisites e :
  BackupDatabase.check_prerequisites e
  = if BackupDatabase.have_pg_dump e then ret tt
    else (echo "Error: pg_dump not found. Please install PostgreSQL client tools." ;;
          exit 1).
Proof.
  unfold BackupDatabase.check_prerequisites, BackupDatabase.DB_DATABASE,
    BackupDatabase.DB_USER.
  destruct (BackupDatabase.have_pg_dump e); cbn [negb]; [|reflexivity].
  now rewrite !getenv_default by discriminate.
Qed.

(** X5.  A dry run of backup-database.sh leaves the file system as it was,
    and it ends with status 0 exactly when .env.production is there, the
    shell sources it without a failing line, and pg_dump is installed: the
    database is not contacted, and the checks of DB_DATABASE and DB_USER
    cannot fail, as both have defaults. *)
Theorem database_backup_dry_run e o w :
  BackupDatabase.DRY_RUN o = true ->
  fs (final (BackupDatabase.main e o w)) = fs w
  /\ (exit_code (BackupDatabase.main e o w) = 0 <->
      (exists c,
          file_at (fs w) (BackupDatabase.PROJECT_ROOT e // ".env.production")
          = Some c
          /\ BackupDatabase.source_status e c = 0)
      /\ BackupDatabase.have_pg_dump e = true).
Proof.
  intros Hdry.
  unfold BackupDatabase.main, BackupDatabase.load_environment,
    BackupDatabase.test_connection, BackupDatabase.create_backup_directory,
    BackupDatabase.log.
  rewrite database_check_prerequisites, Hdry. cbn [negb].
  unfold bind, get_fs, echo, exit, ret.
  destruct (file_at (fs w)
              (BackupDatabase.PROJECT_ROOT e // ".env.production")) as [c|].
  - destruct (BackupDatabase.source_status e c) as [|k] eqn:Es;
      cbn [Nat.eqb];
      destruct (BackupDatabase.have_pg_dump e); cbn;
      (split; [reflexivity|]); split; intros H; try discriminate;
      try reflexivity;
      try match goal with
          | H' : _ /\ _ |- _ =>
              destruct H' as [(c' & Hc & Hs) Hp];
              first [ discriminate Hp
                    | injection Hc as <-; rewrite Es in Hs; discriminate Hs ]
          end.
    split; [exists c; split; [reflexivity | exact Es] | reflexivity].
  - cbn. split; [reflexivity|]. split; intros H; [discriminate|].
    destruct H as [(c' & Hc & _) _]. discriminate.
Qed.

(** X6.  A live run of backup-database.sh that finds no .env.production, a
    line of it that fails when the shell sources it, no pg_dump, or a
    database that does not answer, ends with a status other than 0 before
    it has written anything: with the status of the failing line when the
    file cannot be sourced, and with status 1 otherwise. *)
Theorem database_backup_needs_its_prerequisites e o w :
  BackupDatabase.DRY_RUN o = false ->
  file_at (fs w) (BackupDatabase.PROJECT_ROOT e // ".env.production") = None
  \/ (exists c,
         file_at (fs w) (BackupDatabase.PROJECT_ROOT e // ".env.production")
         = Some c
         /\ BackupDatabase.source_status e c <> 0)
  \/ BackupDatabase.have_pg_dump e = false
  \/ BackupDatabase.pg_isready e = false ->
  exit_code (BackupDatabase.main e o w) <> 0
  /\ fs (final (BackupDatabase.main e o w)) = fs w
  /\ exit_code (BackupDatabase.main e o w)
     = match file_at (fs w)
               (BackupDatabase.PROJECT_ROOT e // ".env.production") with
       | Some c => if Nat.eqb (BackupDatabase.source_status e c) 0 then 1
                   else BackupDatabase.source_status e c
       | None => 1
       end.
Proof.
  intros Hdry H.
  assert (G : exists k w',
             BackupDatabase.main e o w = Exit k w' /\ fs w' = fs w
             /\ k <> 0
             /\ k = match file_at (fs w)
                           (BackupDatabase.PROJECT_ROOT e
                            // ".env.production") with
                    | Some c =>
                        if Nat.eqb (BackupDatabase.source_status e c) 0
                        then 1 else BackupDatabase.source_status e c
                    | None => 1
                    end).
  { unfold BackupDatabase.main, BackupDatabase.load_environment,
      BackupDatabase.test_connection, BackupDatabase.log.
    rewrite database_check_prerequisites, Hdry. cbn [negb].
    run_step.
    destruct (file_at (fs w)
                (BackupDatabase.PROJECT_ROOT e // ".env.production"))
      as [c|] eqn:E1;
      [|run_step; exit_step; eexists _, _; repeat split; discriminate].
    destruct (BackupDatabase.source_status e c) as [|k] eqn:Es;
      cbn [Nat.eqb];
      [|exit_step; eexists _, _; repeat split; discriminate].
    do 2 run_step.
    destruct (BackupDatabase.have_pg_dump e) eqn:E2;
      [|run_step; exit_step; eexists _, _; repeat split; discriminate].
    run_step.
    destruct (BackupDatabase.pg_isready e) eqn:E3;
      [|cbn [negb]; do 2 run_step; exit_step; eexists _, _; repeat split;
        discriminate].
    destruct H as [H|[(c' & Hc & Hs)|[H|H]]]; try discriminate.
    injection Hc as <-. contradiction. }
  destruct G as (k & w' & -> & F & Hk & Hv).
  split; [exact Hk|]. split; [exact F | exact Hv].
Qed.

Lemma database_backup_dry_run_witness :
  let e := Sample.db_env "-- PostgreSQL database dump" 0 in
  let w := mkWorld Sample.db_disk [] in
  BackupDatabase.DRY_RUN Cases.dry_db_options = true
  /\ fs (final (BackupDatabase.main e Cases.dry_db_options w)) = fs w
  /\ (exit_code (BackupDatabase.main e Cases.dry_db_options w) = 0 <->
      (exists c,
          file_at (fs w) (BackupDatabase.PROJECT_ROOT e // ".env.production")
          = Some c
          /\ BackupDatabase.source_status e c = 0)
      /\ BackupDatabase.have_pg_dump e = true).
Proof.
  split; [reflexivity|].
  exact (database_backup_dry_run
           (Sample.db_env "-- PostgreSQL database dump" 0)
           Cases.dry_db_options (mkWorld Sample.db_disk []) eq_refl).
Defined.

Lemma database_backup_prerequisites_witness :
  let w := mkWorld Sample.db_disk [] in
  let e := Cases.silent_db_env in
  (BackupDatabase.DRY_RUN Sample.db_options = false
   /\ BackupDatabase.pg_isready e = false)
  /\ exit_code (BackupDatabase.main e Sample.db_options w) <> 0
  /\ fs (final (BackupDatabase.main e Sample.db_options w)) = fs w
  /\ exit_code (BackupDatabase.main e Sample.db_options w)
     = match file_at (fs w)
               (BackupDatabase.PROJECT_ROOT e // ".env.production") with
       | Some c => if Nat.eqb (BackupDatabase.source_status e c) 0 then 1
                   else BackupDatabase.source_status e c
       | None => 1
       end.
Proof.
  split; [split; reflexivity|].
  exact (database_backup_needs_its_prerequisites Cases.silent_db_env
           Sample.db_options (mkWorld Sample.db_disk []) eq_refl
           (or_intror (or_intror (or_intror eq_refl)))).
Defined.

(** ** sync-code.sh *)

(** X7.  A dry run of sync-code.sh (--dry-run, or DEPLOY_DRY_RUN=true)
    leaves the file system as it was, whatever the configuration and the
    options. *)
Theorem sync_dry_run_changes_nothing e o w :
  SyncCode.DRY_RUN o || SyncCode.DEPLOY_DRY_RUN e = true ->
  fs (final (SyncCode.main e o w)) = fs w.
Proof.
  intros Hdry. revert w. change (inert (SyncCode.main e o)).
  unfold SyncCode.main, SyncCode.load_config, SyncCode.check_prerequisites,
    SyncCode.validate_directories, SyncCode.validate_source_changes,
    SyncCode.create_staging_directory, SyncCode.perform_sync,
    SyncCode.set_permissions, SyncCode.promote_staging,
    SyncCode.log, SyncCode.error_log.
  rewrite Hdry. cbn [negb]. inert_cases.
Qed.

Lemma lookup_unlink_apart t p q :
  apart p q -> lookup (unlink t p) q = lookup t q.
Proof.
  intros Ha. revert t.
  induction Ha as [n m p q Hne | n p q Ha IH]; intros t.
  - destruct t as [c|es]; [reflexivity|].
    destruct p as [|k p]; cbn.
    + now rewrite assoc_remove_entry_other.
    + destruct (assoc n es) as [c|]; [|reflexivity].
      cbn. now rewrite assoc_set_entry_other.
  - destruct t as [c|es]; [reflexivity|].
    destruct p as [|k p]; [inversion Ha|].
    destruct q as [|j q]; [inversion Ha|].
    cbn [unlink].
    destruct (assoc n es) as [c|] eqn:En; [|reflexivity].
    cbn [lookup]. rewrite assoc_set_entry_same, En. apply IH.
Qed.

Lemma validate_source_changes_cases e o source w :
  SyncCode.validate_source_changes e o source w = Ret tt w
  \/ exists n w',
      SyncCode.validate_source_changes e o source w = Exit n w'
      /\ n <> 0 /\ fs w' = fs w.
Proof.
  unfold SyncCode.validate_source_changes, SyncCode.error_log.
  run_step.
  destruct (test_d (fs w) (source // ".git")); [|now left].
  destruct (negb (SyncCode.FORCE o) && SyncCode.uncommitted_changes e).
  - right. run_step. eexists _, _. split; [reflexivity|].
    split; [discriminate | reflexivity].
  - destruct (SyncCode.git_head e) as [|k]; cbn [Nat.eqb negb];
      [now left | right].
    eexists _, _. split; [reflexivity|].
    split; [discriminate | reflexivity].
Qed.

(** In a live run with staging, the text that [$(create_staging_directory)]
    gives holds the log lines of the function before the path. *)
Lemma create_staging_directory_staged c o target w :
  SyncCode.USE_STAGING o = true ->
  exists st w',
    SyncCode.create_staging_directory c o false target w = Ret st w'
    /\ noise st <> []
    /\ console w' = console w
    /\ forall q, apart (SyncCode.staging_directory c) q ->
                 lookup (fs w') q = lookup (fs w) q.
Proof.
  intros Hs. unfold SyncCode.create_staging_directory. rewrite Hs.
  cbn [negb]. run_step.
  destruct (test_d (fs w) (SyncCode.staging_directory c)).
  - run_step. cbn [fs console].
    match goal with
    | |- context [bind (try ?r ?s) _ ?w0] =>
        destruct (confined_try (SyncCode.staging_directory c) r s
                    (fun t t' q H Ha => mkdir_p_apart _ _ _ _ H Ha) w0)
          as (a & w1 & more & E & C & F);
        assert (C' : console w1 = console w0)
          by (unfold try in E; destruct (r (fs w0)); injection E as _ <-;
              reflexivity)
    end.
    rewrite (bind_runs _ _ _ _ _ E).
    eexists _, _. split; [reflexivity|].
    split; [cbn [noise]; destruct (SyncCode.VERBOSE o); discriminate|].
    split; [exact C'|].
    intros q Ha. rewrite (F q Ha). cbn [fs]. unfold rm_rf.
    now apply lookup_unlink_apart.
  - run_step.
    match goal with
    | |- context [bind (try ?r ?s) _ ?w0] =>
        destruct (confined_try (SyncCode.staging_directory c) r s
                    (fun t t' q H Ha => mkdir_p_apart _ _ _ _ H Ha) w0)
          as (a & w1 & more & E & C & F);
        assert (C' : console w1 = console w0)
          by (unfold try in E; destruct (r (fs w0)); injection E as _ <-;
              reflexivity)
    end.
    rewrite (bind_runs _ _ _ _ _ E).
    eexists _, _. split; [reflexivity|].
    split; [cbn [noise]; destruct (SyncCode.VERBOSE o); discriminate|].
    split; [exact C'|]. exact F.
Qed.

(** A text of several lines is no destination: the live sync ends there. *)
Lemma perform_sync_of_noise c verbose source st w :
  noise st <> [] ->
  exists n w',
    SyncCode.perform_sync c verbose false source st w = Exit n w'
    /\ n <> 0 /\ fs w' = fs w.
Proof.
  intros Hn. unfold SyncCode.perform_sync, SyncCode.log.
  do 3 run_step.
  destruct verbose;
    [exit_step; eexists _, _; split; [reflexivity|];
     split; [discriminate | reflexivity]|].
  destruct (SyncCode.one_command c); cbn [negb].
  - unfold denotes. destruct (noise st); [contradiction|].
    exit_step. eexists _, _. split; [reflexivity|].
    split; [discriminate | reflexivity].
  - exit_step. eexists _, _. split; [reflexivity|].
    split; [discriminate | reflexivity].
Qed.

(** A live run with staging ends the script with a status that is not 0,
    and when the target directory was there all that lies apart from the
    staging directory is as it was. *)
Lemma staged_sync_exits e o w :
  SyncCode.USE_STAGING o = true ->
  SyncCode.DRY_RUN o || SyncCode.DEPLOY_DRY_RUN e = false ->
  exists n w',
    SyncCode.main e o w = Exit n w' /\ n <> 0
    /\ forall c target,
        SyncCode.config e = Some c ->
        SyncCode.TARGET_DIR o = Some target ->
        test_d (fs w) target = true ->
        forall q, apart (SyncCode.staging_directory c) q ->
                  lookup (fs w') q = lookup (fs w) q.
Proof.
  intros Hs Hdry.
  unfold SyncCode.main, SyncCode.load_config, SyncCode.check_prerequisites,
    SyncCode.validate_directories, SyncCode.log, SyncCode.error_log.
  rewrite Hdry. run_step.
  destruct (SyncCode.config e) as [c|];
    [|run_step; exit_step; eexists _, _; split; [reflexivity|];
      split; [discriminate | intros; reflexivity]].
  run_step.
  destruct (SyncCode.have_rsync e); cbn [negb];
    [|run_step; exit_step; eexists _, _; split; [reflexivity|];
      split; [discriminate | intros; reflexivity]].
  destruct (SyncCode.have_python3 e); cbn [negb];
    [|run_step; exit_step; eexists _, _; split; [reflexivity|];
      split; [discriminate | intros; reflexivity]].
  do 2 run_step. cbn [fs].
  match goal with
  | |- context [test_d (fs w) ?s] =>
      destruct (test_d (fs w) s); cbn [negb];
        [|run_step; exit_step; eexists _, _; split; [reflexivity|];
          split; [discriminate | intros; reflexivity]]
  end.
  match goal with
  | |- context [readable ?a ?s] =>
      destruct (readable a s); cbn [negb];
        [|run_step; exit_step; eexists _, _; split; [reflexivity|];
          split; [discriminate | intros; reflexivity]]
  end.
  set (source := match SyncCode.SOURCE_DIR o with
                 | Some s => s
                 | None => SyncCode.PROJECT_ROOT e
                 end).
  assert (Tail : forall target w0,
             exists n w',
               (SyncCode.validate_source_changes e o source ;;
                sync_target <- SyncCode.create_staging_directory c o false
                                 target ;;
                SyncCode.perform_sync c (SyncCode.VERBOSE o) false source
                  sync_target ;;
                SyncCode.set_permissions false sync_target ;;
                SyncCode.promote_staging e o false target sync_target ;;
                (if negb false then
                   echo "Selective deployment completed successfully!" ;;
                   echo ("Production directory: " ++ show target)
                 else
                   echo "DRY RUN completed - no actual deployment performed"))
                 w0 = Exit n w'
               /\ n <> 0
               /\ forall q, apart (SyncCode.staging_directory c) q ->
                            lookup (fs w') q = lookup (fs w0) q).
  { intros target w0.
    destruct (validate_source_changes_cases e o source w0) as [E|E].
    - rewrite (bind_runs _ _ _ _ _ E).
      destruct (create_staging_directory_staged c o target w0 Hs)
        as (st & w1 & E1 & Hn & _ & F1).
      rewrite (bind_runs _ _ _ _ _ E1).
      destruct (perform_sync_of_noise c (SyncCode.VERBOSE o) source st w1 Hn)
        as (n & w2 & E2 & Hne & F2).
      rewrite (bind_exits _ _ _ _ _ E2).
      exists n, w2. split; [reflexivity|]. split; [exact Hne|].
      intros q Ha. rewrite F2. now apply F1.
    - destruct E as (n & w1 & E & Hne & F).
      rewrite (bind_exits _ _ _ _ _ E).
      exists n, w1. split; [reflexivity|]. split; [exact Hne|].
      intros q _. now rewrite F. }
  destruct (match SyncCode.TARGET_DIR o with
            | Some t => Some t
            | None => SyncCode.DIRECTUS_PROD_PATH e
            end) as [target|] eqn:Et;
    [|run_step; exit_step; eexists _, _; split; [reflexivity|];
      split; [discriminate | intros; reflexivity]].
  destruct (test_d (fs w) target) eqn:Hd; cbn [negb].
  - run_step.
    destruct (writable (SyncCode.perms e) target); cbn [negb];
      [|run_step; exit_step; eexists _, _; split; [reflexivity|];
        split; [discriminate | intros; reflexivity]].
    run_step.
    match goal with
    | |- context [bind _ _ ?w0] =>
        destruct (Tail target w0) as (n & w' & E & Hne & F)
    end.
    exists n, w'. split; [exact E|]. split; [exact Hne|].
    intros c' target' Hc' Ht' Hd' q Ha. injection Hc' as <-.
    exact (F q Ha).
  - run_step.
    destruct (mkdir_p (fs w) target) as [t1|] eqn:Hmk.
    + must_step Hmk.
      destruct (writable (SyncCode.perms e) target); cbn [negb];
        [|run_step; exit_step; eexists _, _; split; [reflexivity|];
          split; [discriminate|];
          intros c' target' _ Ht' Hd'; rewrite Ht' in Et;
          injection Et as <-; congruence].
      run_step.
      match goal with
      | |- context [bind _ _ ?w0] =>
          destruct (Tail target w0) as (n & w' & E & Hne & F)
      end.
      exists n, w'. split; [exact E|]. split; [exact Hne|].
      intros c' target' _ Ht' Hd'. rewrite Ht' in Et.
      injection Et as <-. congruence.
    + rewrite ?bind_assoc.
      match goal with
      | |- context [bind (must ?r ?s) ?k ?w0] =>
          rewrite (bind_exits (must r s) k w0 _ _ (must_fails r s w0 Hmk))
      end.
      eexists _, _. split; [reflexivity|].
      split; [discriminate | intros; reflexivity].
Qed.

(** X8.  A live run of sync-code.sh with staging (the default) never
    succeeds: [sync_target=$(create_staging_directory)] takes the log line
    of the function together with the path, rsync is given that text as its
    destination, and the script ends with a status that is not 0 before
    anything is promoted.  When the target directory was there, all that
    lies apart from the staging directory is as it was. *)
Theorem staged_sync_never_promotes e o w :
  SyncCode.USE_STAGING o = true ->
  SyncCode.DRY_RUN o || SyncCode.DEPLOY_DRY_RUN e = false ->
  exit_code (SyncCode.main e o w) <> 0
  /\ forall c target,
      SyncCode.config e = Some c ->
      SyncCode.TARGET_DIR o = Some target ->
      test_d (fs w) target = true ->
      forall q, apart (SyncCode.staging_directory c) q ->
                lookup (fs (final (SyncCode.main e o w))) q
                = lookup (fs w) q.
Proof.
  intros Hs Hdry.
  destruct (staged_sync_exits e o w Hs Hdry) as (n & w' & -> & Hne & F).
  split; [exact Hne | exact F].
Qed.

(** ** What rsync transfers and what it protects *)


(** An entry of the receiver that a rule excludes stays as it is, with all
    below it, when the sender has no entry of that name that is
    transferred. *)
Lemma rsync_node_protects del ex es d ds n y :
  unique (map fst es) = true ->
  d = Some (Dir ds) ->
  assoc n ds = Some y ->
  excluded ex n (is_dir y) = true ->
  match assoc n es with
  | Some x => excluded ex n (is_dir x) = true
  | None => True
  end ->
  lookup (rsync_node del ex (Dir es) d) [n] = Some y.
Proof.
  intros Hu -> Hy Hex Hs. cbn [rsync_node lookup].
  rewrite assoc_app, assoc_transfer by exact Hu.
  assert (Hsent : sent ex es n = false).
  { unfold sent. destruct (assoc n es) as [x|]; [|reflexivity].
    now rewrite Hs. }
  replace (match assoc n es with
           | Some x =>
               if excluded ex n (is_dir x) then None
               else Some (rsync_node del ex x (assoc n ds))
           | None => None
           end) with (@None node)
    by (destruct (assoc n es) as [x|]; [now rewrite Hs | reflexivity]).
  unfold leftover. rewrite (assoc_select_first _ n ds y y Hy); [reflexivity|].
  cbv beta. now rewrite Hsent, Hex.
Qed.

(** A live sync without staging, step by step: one rsync from the source
    into the target. *)
Lemma sync_without_staging_runs e c source target force w es :
  SyncCode.DEPLOY_DRY_RUN e = false ->
  SyncCode.config e = Some c ->
  SyncCode.one_command c = true ->
  SyncCode.have_rsync e = true ->
  SyncCode.have_python3 e = true ->
  lookup (fs w) source = Some (Dir es) ->
  readable (SyncCode.perms e) source = true ->
  test_d (fs w) target = true ->
  writable (SyncCode.perms e) target = true ->
  test_d (fs w) (source // ".git")
  && ((negb force && SyncCode.uncommitted_changes e)
      || negb (Nat.eqb (SyncCode.git_head e) 0)) = false ->
  exists w',
    SyncCode.main e
      (SyncCode.mkOptions (Some source) (Some target) false false force
         false) w
    = Ret tt w'
    /\ put (fs w) target
         (rsync_node (SyncCode.rsync_delete c) (SyncCode.filter_rules c)
            (Dir es) (lookup (fs w) target))
       = Some (fs w').
Proof.
  intros Hdry Hc Hone Hr Hp Hs Hread Hd Hw Hgit.
  assert (Hsd : test_d (fs w) source = true) by (unfold test_d; now rewrite Hs).
  assert (Hf : test_f (fs w) target = false).
  { unfold test_d in Hd. unfold test_f.
    destruct (lookup (fs w) target) as [[|]|]; congruence. }
  assert (Hput : exists t',
             put (fs w) target
               (rsync_node (SyncCode.rsync_delete c) (SyncCode.filter_rules c)
                  (Dir es) (lookup (fs w) target)) = Some t').
  { unfold test_d in Hd.
    destruct (lookup (fs w) target) as [y|] eqn:El; [|discriminate].
    now apply (put_over (fs w) target y). }
  destruct Hput as (t' & Hput).
  assert (Hrs : rsync (SyncCode.rsync_delete c) (SyncCode.filter_rules c)
                  (fs w) source target = Some t').
  { unfold rsync. now rewrite Hs, Hf. }
  unfold SyncCode.main, SyncCode.load_config, SyncCode.check_prerequisites,
    SyncCode.validate_directories, SyncCode.validate_source_changes,
    SyncCode.create_staging_directory, SyncCode.perform_sync,
    SyncCode.set_permissions, SyncCode.promote_staging,
    SyncCode.log, SyncCode.error_log.
  cbn [SyncCode.DRY_RUN SyncCode.SOURCE_DIR SyncCode.TARGET_DIR
       SyncCode.FORCE SyncCode.USE_STAGING SyncCode.VERBOSE].
  rewrite Hdry, Hc, Hr, Hp. cbn [orb negb].
  do 4 run_step. cbn [fs]. rewrite Hsd, Hread, Hd, Hw. cbn [negb].
  do 2 run_step. cbv iota beta. run_step. cbn [fs].
  destruct (test_d (fs w) (source // ".git"));
    [cbn [andb] in Hgit; apply orb_false_iff in Hgit;
     destruct Hgit as [Hgit Hhead]; rewrite Hgit, Hhead|];
    repeat run_step;
    rewrite Hone; cbn [negb denotes noise value]; (must_step Hrs);
    repeat run_step; (eexists; split; [reflexivity | exact Hput]).
Qed.


(** X10.  In such a run (live, --no-staging, without --verbose, the rules
    on one command line and plain names, the rsync options --archive
    --verbose with or without --delete, the checks passing), a directory of
    the target whose name an exclusion rule matches (uploads/ and data/ with
    the built-in rules) is after the sync what it was before, with all below
    it, unless the source holds a regular file of that name. *)
Theorem sync_without_staging_preserves e c source target force w es :
  SyncCode.DEPLOY_DRY_RUN e = false ->
  SyncCode.config e = Some c ->
  SyncCode.one_command c = true ->
  forallb plain_rule (SyncCode.exclude_patterns c) = true ->
  forallb plain_rule (SyncCode.include_patterns c) = true ->
  SyncCode.have_rsync e = true ->
  SyncCode.have_python3 e = true ->
  lookup (fs w) source = Some (Dir es) ->
  readable (SyncCode.perms e) source = true ->
  test_d (fs w) target = true ->
  writable (SyncCode.perms e) target = true ->
  test_d (fs w) (source // ".git")
  && ((negb force && SyncCode.uncommitted_changes e)
      || negb (Nat.eqb (SyncCode.git_head e) 0)) = false ->
  well_formed (fs w) = true ->
  apart target source ->
  forall n y r,
    excluded (SyncCode.filter_rules c) n true = true ->
    lookup (fs w) (target // n) = Some (Dir y) ->
    test_f (fs w) (source // n) = false ->
    lookup (fs (final (SyncCode.main e
                         (SyncCode.mkOptions (Some source) (Some target)
                            false false force false) w)))
      (target // n ++ r)%list
    = lookup (fs w) (target // n ++ r)%list.
Proof.
  intros Hdry Hc Hone _ _ Hr Hp Hs Hread Hd Hw Hgit Hwf Hap n y r Hex Hy Hsf.
  destruct (sync_without_staging_runs e c source target force w es
              Hdry Hc Hone Hr Hp Hs Hread Hd Hw Hgit) as (w' & E & Hput).
  rewrite E. cbn [final].
  pose proof (well_formed_lookup _ _ _ Hwf Hs) as Hwfs.
  destruct (well_formed_Dir es Hwfs) as [Hu _].
  unfold test_d in Hd.
  destruct (lookup (fs w) target) as [[|ds]|] eqn:Et; try discriminate.
  assert (Hn : assoc n ds = Some (Dir y)).
  { unfold child in Hy. rewrite lookup_app, Et in Hy. cbn in Hy.
    now destruct (assoc n ds). }
  assert (Hsn : match assoc n es with
                | Some x => excluded (SyncCode.filter_rules c) n (is_dir x)
                            = true
                | None => True
                end).
  { unfold test_f, child in Hsf. rewrite lookup_app, Hs in Hsf. cbn in Hsf.
    destruct (assoc n es) as [[|]|]; try discriminate; [exact Hex|exact I]. }
  unfold child. rewrite <- !app_assoc, !lookup_app.
  rewrite (lookup_put_same _ _ _ _ Hput), Et. rewrite !lookup_app.
  rewrite (rsync_node_protects (SyncCode.rsync_delete c)
             (SyncCode.filter_rules c) es (Some (Dir ds)) ds n (Dir y)
             Hu eq_refl Hn Hex Hsn).
  cbn [lookup]. now rewrite Hn.
Qed.

Lemma staged_sync_witness :
  let e := Sample.sync_env in
  let o := Sample.sync_options in
  let w := Sample.start in
  (SyncCode.USE_STAGING o = true
   /\ SyncCode.DRY_RUN o || SyncCode.DEPLOY_DRY_RUN e = false)
  /\ exit_code (SyncCode.main e o w) <> 0
  /\ forall c target,
      SyncCode.config e = Some c ->
      SyncCode.TARGET_DIR o = Some target ->
      test_d (fs w) target = true ->
      forall q, apart (SyncCode.staging_directory c) q ->
                lookup (fs (final (SyncCode.main e o w))) q
                = lookup (fs w) q.
Proof.
  split; [split; reflexivity|].
  exact (staged_sync_never_promotes Sample.sync_env Sample.sync_options
           Sample.start eq_refl eq_refl).
Defined.


Lemma sync_without_staging_preserves_witness :
  let e := Cases.default_sync_env in
  let c := Cases.default_sync_config in
  let w := Sample.start in
  let source := ["stage"] in
  let target := ["prod"] in
  let es := [("package.json", File (Bytes "{v3.1}"))] in
  (SyncCode.DEPLOY_DRY_RUN e = false
   /\ SyncCode.config e = Some c
   /\ SyncCode.one_command c = true
   /\ forallb plain_rule (SyncCode.exclude_patterns c) = true
   /\ forallb plain_rule (SyncCode.include_patterns c) = true
   /\ SyncCode.have_rsync e = true
   /\ SyncCode.have_python3 e = true
   /\ lookup (fs w) source = Some (Dir es)
   /\ readable (SyncCode.perms e) source = true
   /\ test_d (fs w) target = true
   /\ writable (SyncCode.perms e) target = true
   /\ test_d (fs w) (source // ".git")
      && ((negb false && SyncCode.uncommitted_changes e)
          || negb (Nat.eqb (SyncCode.git_head e) 0)) = false
   /\ well_formed (fs w) = true
   /\ excluded (SyncCode.filter_rules c) "uploads" true = true
   /\ lookup (fs w) (target // "uploads")
      = Some (Dir [("new.png", File (Bytes "NEW"))])
   /\ test_f (fs w) (source // "uploads") = false)
  /\ lookup (fs (final (SyncCode.main e
                          (SyncCode.mkOptions (Some source) (Some target)
                             false false false false) w)))
       (target // "uploads" ++ ["new.png"])%list
     = lookup (fs w) (target // "uploads" ++ ["new.png"])%list.
Proof.
  cbv zeta. split; [repeat split|].
  exact (sync_without_staging_preserves Cases.default_sync_env
           Cases.default_sync_config ["stage"] ["prod"] false Sample.start
           [("package.json", File (Bytes "{v3.1}"))]
           eq_refl eq_refl eq_refl eq_refl eq_refl eq_refl eq_refl eq_refl
           eq_refl eq_refl eq_refl eq_refl eq_refl
           (apart_here "prod" "stage" [] [] ltac:(discriminate))
           "uploads" [("new.png", File (Bytes "NEW"))] ["new.png"]
           eq_refl eq_refl eq_refl).
Defined.

(** X11.  sync-code.sh without --force on a source that is a git repository
    with uncommitted changes ends with status 1 and has synced nothing: when
    the target directory is there, the file system is as it was (dry run or
    not, with or without --verbose, with or without staging). *)
Theorem uncommitted_changes_block_the_sync e source target dry verbose
  staging w :
  test_d (fs w) (source // ".git") = true ->
  SyncCode.uncommitted_changes e = true ->
  test_d (fs w) target = true ->
  let run := SyncCode.main e
               (SyncCode.mkOptions (Some source) (Some target) dry verbose
                  false staging) w in
  exit_code run = 1 /\ fs (final run) = fs w.
Proof.
  intros Hgit Hun Hd run.
  assert (G : exists w', run = Exit 1 w' /\ fs w' = fs w).
  { subst run.
    unfold SyncCode.main, SyncCode.load_config, SyncCode.check_prerequisites,
      SyncCode.validate_directories, SyncCode.validate_source_changes,
      SyncCode.log, SyncCode.error_log.
    cbn [SyncCode.DRY_RUN SyncCode.SOURCE_DIR SyncCode.TARGET_DIR
         SyncCode.FORCE SyncCode.USE_STAGING SyncCode.VERBOSE].
    run_step.
    destruct (SyncCode.config e) as [c|];
      [|run_step; exit_step; eexists; split; reflexivity].
    run_step.
    destruct (SyncCode.have_rsync e); cbn [negb];
      [|run_step; exit_step; eexists; split; reflexivity].
    destruct (SyncCode.have_python3 e); cbn [negb];
      [|run_step; exit_step; eexists; split; reflexivity].
    do 2 run_step. cbn [fs]. rewrite Hd. cbn [negb].
    destruct (test_d (fs w) source); cbn [negb];
      [|run_step; exit_step; eexists; split; reflexivity].
    destruct (readable (SyncCode.perms e) source); cbn [negb];
      [|run_step; exit_step; eexists; split; reflexivity].
    destruct (dry || SyncCode.DEPLOY_DRY_RUN e).
    - destruct (test_d (fs w) (dirname target)); cbn [negb];
        [|run_step; exit_step; eexists; split; reflexivity].
      run_step. cbv iota beta. run_step. cbn [fs]. rewrite Hgit, Hun.
      cbn [negb andb]. run_step. exit_step. eexists; split; reflexivity.
    - run_step.
      destruct (writable (SyncCode.perms e) target); cbn [negb];
        [|run_step; exit_step; eexists; split; reflexivity].
      run_step. cbv iota beta. run_step. cbn [fs]. rewrite Hgit, Hun.
      cbn [negb andb]. run_step. exit_step. eexists; split; reflexivity. }
  destruct G as (w' & -> & F). split; [reflexivity | exact F].
Qed.

Lemma uncommitted_changes_witness :
  let w := mkWorld (Dir [("src", Dir [(".git", Dir [])]); ("prod", Dir [])])
             [] in
  let e := SyncCode.mkEnv ["proj"] None false
             (Some Cases.default_sync_config) true true Sample.allowed true
             0 "1700000000" in
  (test_d (fs w) (["src"] // ".git") = true
   /\ SyncCode.uncommitted_changes e = true
   /\ test_d (fs w) ["prod"] = true)
  /\ let run := SyncCode.main e
                  (SyncCode.mkOptions (Some ["src"]) (Some ["prod"]) false
                     true false false) w in
     exit_code run = 1 /\ fs (final run) = fs w.
Proof.
  split; [repeat split|].
  exact (uncommitted_changes_block_the_sync
           (SyncCode.mkEnv ["proj"] None false
              (Some Cases.default_sync_config) true true Sample.allowed true
              0 "1700000000")
           ["src"] ["prod"] false true false
           (mkWorld (Dir [("src", Dir [(".git", Dir [])]); ("prod", Dir [])])
              [])
           eq_refl eq_refl eq_refl).
Defined.

(** ** rollback.sh *)

Lemma rollback_log_none_inert text : inert (Rollback.log None text).
Proof. intros w. reflexivity. Qed.

Lemma rollback_error_log_none_inert text :
  inert (Rollback.error_log None text).
Proof. intros w. reflexivity. Qed.

Ltac rollback_inert_cases :=
  repeat first
    [ apply rollback_log_none_inert
    | apply rollback_error_log_none_inert
    | apply inert_ret
    | apply inert_exit
    | apply inert_echo
    | apply inert_echo_err
    | apply inert_get_fs
    | apply inert_bind; [ | intros ? ]
    | match goal with
      | |- inert (if ?b then _ else _) => destruct b
      | |- inert (match ?x with _ => _ end) => destruct x
      end ].

(** X12.  A dry run of rollback.sh leaves the file system as it was: no log
    file is set up, and every stage only says what it would do. *)
Theorem rollback_dry_run_changes_nothing e o w :
  Rollback.DRY_RUN o = true ->
  fs (final (Rollback.main e o w)) = fs w.
Proof.
  intros Hdry. unfold Rollback.main, Rollback.setup_rollback_logging.
  rewrite Hdry. ret_step. revert w.
  match goal with
  | |- forall w, fs (final (?c w)) = fs w => change (inert c)
  end.
  unfold Rollback.validate_parameters, Rollback.verify_backup_integrity,
    Rollback.check_target_health, Rollback.get_user_confirmation,
    Rollback.backup_current_state, Rollback.perform_rollback,
    Rollback.restore_database, Rollback.verify_rollback,
    Rollback.generate_rollback_summary.
  rewrite Hdry. rollback_inert_cases.
Qed.

Lemma returns_ret {A : Type} (a : A) : returns (ret a).
Proof. intros w. now exists a, w. Qed.

Lemma returns_bind {A B : Type} (c : sh A) (k : A -> sh B) :
  returns c -> (forall a, returns (k a)) -> returns (bind c k).
Proof.
  intros Hc Hk w. destruct (Hc w) as (a & w1 & E).
  rewrite (bind_runs _ _ _ _ _ E). apply Hk.
Qed.

Lemma returns_quiet {A : Type} (c : sh A) : quiet c -> returns c.
Proof.
  intros H w. destruct (H w) as (a & w' & more & E & _). now exists a, w'.
Qed.

Lemma returns_try r status : returns (try r status).
Proof.
  intros w. unfold try. destruct (r (fs w)); eexists _, _; reflexivity.
Qed.

Lemma returns_rollback_log lg text : returns (Rollback.log lg text).
Proof. intros w. eexists _, _. reflexivity. Qed.

Lemma returns_rollback_error_log lg text :
  returns (Rollback.error_log lg text).
Proof. intros w. eexists _, _. reflexivity. Qed.

Ltac returns_cases :=
  repeat first
    [ apply returns_ret
    | apply returns_rollback_log
    | apply returns_rollback_error_log
    | apply returns_try
    | apply returns_quiet; solve [quiet_cases]
    | apply returns_bind; [ | intros ? ]
    | match goal with
      | |- returns (if ?b then _ else _) => destruct b
      | |- returns (match ?x with _ => _ end) => destruct x
      end ].

Lemma check_target_health_returns lg e o :
  returns (Rollback.check_target_health lg e o).
Proof.
  unfold Rollback.check_target_health, Rollback.issue. returns_cases.
Qed.

Lemma check_target_health_keeps logs lg e o :
  in_logs logs lg -> keeps logs (Rollback.check_target_health lg e o).
Proof.
  intros H. unfold Rollback.check_target_health.
  keeps_cases; apply rollback_issue_keeps; assumption.
Qed.

Lemma get_user_confirmation_keeps logs lg e o :
  in_logs logs lg -> keeps logs (Rollback.get_user_confirmation lg e o).
Proof. intros H. unfold Rollback.get_user_confirmation. keeps_cases. Qed.

(** Without --force, an answer other than yes, YES, y or Y is a refusal. *)
Lemma get_user_confirmation_refused lg e o w :
  Rollback.FORCE o = false ->
  Rollback.DRY_RUN o = false ->
  Rollback.confirms (Rollback.response e) = false ->
  exists w', Rollback.get_user_confirmation lg e o w = Ret 1 w'.
Proof.
  intros Hf Hd Hc. unfold Rollback.get_user_confirmation.
  rewrite Hf, Hd, Hc. cbn [orb Rollback.SKIP_CONFIRMATION].
  repeat run_step. eexists. reflexivity.
Qed.

Lemma verification_in_logs e o w lg backup v w' :
  Rollback.verification e o w = Ret (lg, backup, v) w' ->
  in_logs (Rollback.PROJECT_ROOT e // "logs") lg.
Proof.
  intros H. unfold Rollback.verification in H.
  apply bind_returns in H. destruct H as (lg0 & w1 & E1 & H).
  apply bind_returns in H. destruct H as ([] & w2 & _ & H).
  apply bind_returns in H. destruct H as ([] & w3 & _ & H).
  apply bind_returns in H. destruct H as (b0 & w4 & _ & H).
  apply bind_returns in H. destruct H as (v0 & w5 & _ & H).
  injection H as -> _ _ _.
  exact (setup_rollback_logging_in_logs _ _ _ _ _ E1).
Qed.

(** X13.  rollback.sh restores nothing without consent: with --verify-only,
    or in a live run without --force in which the answer at the prompt is
    not yes, YES, y or Y, the script ends and all that lies apart from the
    logs directory is as it was (no pre-rollback backup, no staging, no
    promotion); unless --verify-only is given, the status is not 0. *)
Theorem rollback_needs_consent e o w :
  Rollback.VERIFY_ONLY o = true
  \/ (Rollback.FORCE o = false /\ Rollback.DRY_RUN o = false
      /\ Rollback.confirms (Rollback.response e) = false) ->
  (forall q, apart (Rollback.PROJECT_ROOT e // "logs") q ->
             lookup (fs (final (Rollback.main e o w))) q = lookup (fs w) q)
  /\ (Rollback.VERIFY_ONLY o = false ->
      exit_code (Rollback.main e o w) <> 0).
Proof.
  intros Hyp.
  set (logs := Rollback.PROJECT_ROOT e // "logs").
  assert (G : exists n w',
             Rollback.main e o w = Exit n w'
             /\ (Rollback.VERIFY_ONLY o = false -> n <> 0)
             /\ forall q, apart logs q -> lookup (fs w') q = lookup (fs w) q).
  { destruct (Rollback.verification e o w) as [[[lg backup] v] w1|n w1] eqn:H.
    2:{ exists n, w1. split; [now apply main_of_verification_exit|].
        split; [intros _; exact (verification_fails_loudly e o _ _ _ H)|].
        intros q Ha. pose proof (verification_keeps e o w q Ha) as K.
        now rewrite H in K. }
    pose proof (verification_in_logs _ _ _ _ _ _ _ H) as Hlg.
    fold logs in Hlg.
    assert (F1 : forall q, apart logs q -> lookup (fs w1) q = lookup (fs w) q).
    { intros q Ha. pose proof (verification_keeps e o w q Ha) as K.
      now rewrite H in K. }
    rewrite (main_of_verification e o w lg backup v w1 H).
    destruct (negb (Nat.eqb v 0)).
    { run_step. eexists _, _. split; [reflexivity|].
      split; [discriminate|]. intros q Ha. cbn [fs]. rewrite <- (F1 q Ha).
      exact (rollback_error_log_keeps logs lg _ Hlg w1 q Ha). }
    destruct (Rollback.VERIFY_ONLY o) eqn:Hv.
    { run_step. eexists _, _. split; [reflexivity|].
      split; [discriminate|]. intros q Ha. cbn [fs]. rewrite <- (F1 q Ha).
      exact (rollback_log_keeps logs lg _ Hlg w1 q Ha). }
    destruct Hyp as [Hyp|(Hf & Hd & Hc)]; [discriminate|].
    destruct (check_target_health_returns lg e o w1) as (h & w2 & E2).
    pose proof (check_target_health_keeps logs lg e o Hlg w1) as K2.
    rewrite E2 in K2. cbn [final] in K2.
    rewrite (bind_runs _ _ _ _ _ E2).
    assert (E3 : exists w3,
               (if negb (Nat.eqb h 0)
                then Rollback.log lg
                       "Target health check suggests rollback may be needed"
                else ret tt) w2 = Ret tt w3
               /\ forall q, apart logs q -> lookup (fs w3) q = lookup (fs w2) q).
    { destruct (negb (Nat.eqb h 0)).
      - eexists. split; [reflexivity|]. intros q Ha.
        exact (rollback_log_keeps logs lg _ Hlg w2 q Ha).
      - eexists. split; reflexivity. }
    destruct E3 as (w3 & E3 & K3). rewrite (bind_runs _ _ _ _ _ E3).
    destruct (get_user_confirmation_refused lg e o w3 Hf Hd Hc) as (w4 & E4).
    pose proof (get_user_confirmation_keeps logs lg e o Hlg w3) as K4.
    rewrite E4 in K4. cbn [final] in K4.
    rewrite (bind_runs _ _ _ _ _ E4). cbn [Nat.eqb negb].
    run_step. eexists _, _. split; [reflexivity|].
    split; [discriminate|]. intros q Ha. cbn [fs].
    rewrite <- (F1 q Ha), <- (K2 q Ha), <- (K3 q Ha), <- (K4 q Ha).
    exact (rollback_log_keeps logs lg _ Hlg w4 q Ha). }
  destruct G as (n & w' & -> & Hn & F). split; [exact F | exact Hn].
Qed.

Lemma rollback_dry_run_witness :
  Rollback.DRY_RUN Cases.dry_rollback_options = true
  /\ fs (final (Rollback.main (Sample.rollback_env 1)
                  Cases.dry_rollback_options Sample.start))
     = fs Sample.start.
Proof.
  split; [reflexivity|].
  exact (rollback_dry_run_changes_nothing (Sample.rollback_env 1)
           Cases.dry_rollback_options Sample.start eq_refl).
Defined.

Lemma rollback_needs_consent_witness :
  let e := Cases.refusing_rollback_env in
  let o := Sample.rollback_options false false in
  let w := Sample.start in
  (Rollback.VERIFY_ONLY o = true
   \/ (Rollback.FORCE o = false /\ Rollback.DRY_RUN o = false
       /\ Rollback.confirms (Rollback.response e) = false))
  /\ (forall q, apart (Rollback.PROJECT_ROOT e // "logs") q ->
                lookup (fs (final (Rollback.main e o w))) q = lookup (fs w) q)
  /\ (Rollback.VERIFY_ONLY o = false ->
      exit_code (Rollback.main e o w) <> 0).
Proof.
  split; [right; repeat split|].
  exact (rollback_needs_consent Cases.refusing_rollback_env
           (Sample.rollback_options false false) Sample.start
           (or_intror (conj eq_refl (conj eq_refl eq_refl)))).
Defined.

Lemma sync_dry_run_witness :
  let o := SyncCode.mkOptions (Some ["stage"]) (Some ["prod"]) true true
             false true in
  SyncCode.DRY_RUN o || SyncCode.DEPLOY_DRY_RUN Sample.sync_env = true
  /\ fs (final (SyncCode.main Sample.sync_env o Sample.start))
     = fs Sample.start.
Proof.
  split; [reflexivity|].
  exact (sync_dry_run_changes_nothing Sample.sync_env
           (SyncCode.mkOptions (Some ["stage"]) (Some ["prod"]) true true
              false true)
           Sample.start eq_refl).
Defined.

(** ** deploy-extensions.sh *)

Lemma spares_inert {A : Type} q (c : sh A) : inert c -> spares q c.
Proof. intros H w. now rewrite H. Qed.

Lemma spares_bind {A B : Type} q (c : sh A) (k : A -> sh B) :
  spares q c -> (forall a, spares q (k a)) -> spares q (bind c k).
Proof.
  intros Hc Hk w. unfold bind. specialize (Hc w).
  destruct (c w) as [a w1|n w1]; cbn in *.
  - rewrite (Hk a w1). exact Hc.
  - exact Hc.
Qed.

Lemma spares_confined {A : Type} dir q (c : sh A) :
  confined dir c -> apart dir q -> spares q c.
Proof.
  intros H Ha w. destruct (H w) as (a & w' & more & -> & _ & F).
  exact (F q Ha).
Qed.

Lemma spares_must q r status :
  (forall t t', r t = Some t' -> lookup t' q = lookup t q) ->
  spares q (must r status).
Proof.
  intros H w. unfold must. destruct (r (fs w)) as [t'|] eqn:E; cbn;
    [exact (H _ _ E) | reflexivity].
Qed.

Lemma cp_r_apart t src dst t' q :
  cp_r t src dst = Some t' -> apart dst q -> lookup t' q = lookup t q.
Proof.
  unfold cp_r. destruct (lookup t src) as [x|]; [|discriminate].
  destruct (test_d t dst).
  - destruct (overlay x (lookup t (dst ++ [basename src])%list));
      [|discriminate].
    intros H Ha. apply (lookup_put_apart _ _ _ _ _ H). now apply apart_app.
  - destruct (overlay x (lookup t dst)); [|discriminate].
    intros H Ha. exact (lookup_put_apart _ _ _ _ _ H Ha).
Qed.

(** The loop of [main] returns and touches nothing but the target. *)
Lemma deploy_each_confined e o c target extensions :
  forall failed,
    confined target
      (DeployExtensions.deploy_each e o c target extensions failed).
Proof.
  induction extensions as [|n rest IH]; intros failed w.
  - exists failed, w, []. rewrite app_nil_r. repeat split.
  - destruct (deploy_each_step e o c target n rest failed w)
      as (f & w1 & more1 & E1 & C1 & F1 & _).
    destruct (IH f w1) as (b & w2 & more2 & E2 & C2 & F2).
    exists b, w2, (more1 ++ more2)%list. rewrite E1.
    split; [exact E2|]. split; [rewrite C2, C1; now rewrite app_assoc|].
    intros q Ha. rewrite (F2 q Ha). apply F1. unfold child.
    now apply apart_app.
Qed.

Lemma spares_bind_post {A B : Type} q (P : A -> Prop) (c : sh A)
  (k : A -> sh B) :
  (forall w a w', c w = Ret a w' -> P a) ->
  spares q c -> (forall a, P a -> spares q (k a)) -> spares q (bind c k).
Proof.
  intros HP Hc Hk w. unfold bind. specialize (Hc w). specialize (HP w).
  destruct (c w) as [a w1|n w1]; cbn in *.
  - rewrite (Hk a (HP a w1 eq_refl) w1). exact Hc.
  - exact Hc.
Qed.

Lemma validate_directories_returns_target e o target w a w' :
  DeployExtensions.TARGET_EXTENSIONS_DIR o = Some target ->
  DeployExtensions.validate_directories e o w = Ret a w' -> a = target.
Proof.
  intros Ht. unfold DeployExtensions.validate_directories,
    DeployExtensions.log, DeployExtensions.error_log.
  rewrite Ht. unfold bind, get_fs, echo, echo_err, exit, ret, must.
  destruct (negb (test_d (fs w) (DeployExtensions.source_dir e o)));
    [discriminate|].
  destruct (negb (DeployExtensions.DRY_RUN o));
    [|intros H; now injection H as <- _].
  destruct (negb (test_d (fs w) target)); cbn [fs].
  - destruct (mkdir_p (fs w) target); [|discriminate].
    destruct (negb (writable (DeployExtensions.perms e) target));
      [discriminate|]. intros H. now injection H as <- _.
  - destruct (negb (writable (DeployExtensions.perms e) target));
      [discriminate|]. intros H. now injection H as <- _.
Qed.

(** X14.  deploy-extensions.sh never writes to the source: whatever the
    options and the outcome, when the target and its backup directory lie
    apart from the source extensions directory, all that is at or below the
    source is at the end what it was at the start. *)
Theorem extension_deployment_spares_the_source e o w target :
  DeployExtensions.TARGET_EXTENSIONS_DIR o = Some target ->
  apart target (DeployExtensions.source_dir e o) ->
  apart (path_suffix target (".backup-" ++ DeployExtensions.stamp e))
    (DeployExtensions.source_dir e o) ->
  forall r,
    lookup (fs (final (DeployExtensions.main e o w)))
      (DeployExtensions.source_dir e o ++ r)%list
    = lookup (fs w) (DeployExtensions.source_dir e o ++ r)%list.
Proof.
  intros Ht Hap Hbap r. revert w.
  set (q := (DeployExtensions.source_dir e o ++ r)%list).
  assert (Ha : apart target q)
    by (apply apart_sym, apart_app, apart_sym; exact Hap).
  assert (Hb : apart (path_suffix target
                        (".backup-" ++ DeployExtensions.stamp e)) q)
    by (apply apart_sym, apart_app, apart_sym; exact Hbap).
  change (spares q (DeployExtensions.main e o)).
  unfold DeployExtensions.main, DeployExtensions.load_config,
    DeployExtensions.log, DeployExtensions.error_log.
  apply spares_bind; [apply spares_inert, inert_echo | intros _].
  apply spares_bind; [apply spares_inert; inert_cases | intros c].
  apply (spares_bind_post q (fun a => a = target)).
  { intros w a w'. now apply validate_directories_returns_target. }
  { unfold DeployExtensions.validate_directories, DeployExtensions.log,
      DeployExtensions.error_log. rewrite Ht.
    apply spares_bind; [apply spares_inert, inert_get_fs | intros t].
    destruct (negb (test_d t (DeployExtensions.source_dir e o)));
      [apply spares_inert; inert_cases|].
    apply spares_bind; [|intros _; apply spares_inert, inert_ret].
    destruct (negb (DeployExtensions.DRY_RUN o));
      [|apply spares_inert, inert_ret].
    apply spares_bind; [|intros _; apply spares_inert; inert_cases].
    destruct (negb (test_d t target)); [|apply spares_inert, inert_ret].
    apply spares_bind; [apply spares_inert, inert_echo | intros _].
    apply spares_must. intros t0 t' E. exact (mkdir_p_apart _ _ _ _ E Ha). }
  intros target0 ->.
  apply spares_bind;
    [apply spares_inert, inert_quiet; unfold DeployExtensions.scan_extensions,
       DeployExtensions.log; quiet_cases | intros list_file].
  apply spares_bind.
  { unfold DeployExtensions.backup_existing_extensions, DeployExtensions.log.
    destruct (negb (DeployExtensions.BACKUP_EXISTING o));
      [apply spares_inert, inert_ret|].
    apply spares_bind; [apply spares_inert, inert_get_fs | intros t].
    destruct (negb (test_d t target)); [apply spares_inert, inert_ret|].
    apply spares_bind; [apply spares_inert, inert_echo | intros _].
    destruct (DeployExtensions.DRY_RUN o); [apply spares_inert, inert_echo|].
    destruct (lookup t target) as [[|[|]]|];
      try (apply spares_inert, inert_ret).
    apply spares_bind; [|intros _; apply spares_inert, inert_echo].
    apply spares_must. intros t0 t' E. exact (cp_r_apart _ _ _ _ _ E Hb). }
  intros _.
  apply spares_bind.
  { destruct list_file as [extensions|]; [|apply spares_inert, inert_ret].
    exact (spares_confined target q _
             (deploy_each_confined e o c target extensions false) Ha). }
  intros failed.
  apply spares_bind;
    [apply spares_inert, inert_quiet, set_extension_permissions_quiet
    | intros _].
  apply spares_bind;
    [apply spares_inert, inert_quiet, verify_deployment_quiet | intros v].
  apply spares_inert. inert_cases.
Qed.

Lemma extension_deployment_spares_the_source_witness :
  let e := Sample.extensions_env in
  let o := Sample.extensions_no_install in
  let w := mkWorld Sample.extensions_disk [] in
  DeployExtensions.TARGET_EXTENSIONS_DIR o = Some ["prod"; "extensions"]
  /\ forall r,
      lookup (fs (final (DeployExtensions.main e o w)))
        (DeployExtensions.source_dir e o ++ r)%list
      = lookup (fs w) (DeployExtensions.source_dir e o ++ r)%list.
Proof.
  split; [reflexivity|].
  exact (extension_deployment_spares_the_source Sample.extensions_env
           Sample.extensions_no_install (mkWorld Sample.extensions_disk [])
           ["prod"; "extensions"] eq_refl
           (apart_here "prod" "proj" _ _ ltac:(discriminate))
           (apart_here "prod" "proj" _ _ ltac:(discriminate))).
Defined.

Lemma deploy_extension_dry_inert e o c target n :
  DeployExtensions.DRY_RUN o = true ->
  inert (DeployExtensions.deploy_extension e o c target n).
Proof.
  intros Hdry. unfold DeployExtensions.deploy_extension,
    DeployExtensions.validate_extension, DeployExtensions.log,
    DeployExtensions.error_log.
  rewrite Hdry. inert_cases.
Qed.

Lemma install_extension_dependencies_dry_inert e o target n :
  DeployExtensions.DRY_RUN o = true ->
  inert (DeployExtensions.install_extension_dependencies e o target n).
Proof.
  intros Hdry. unfold DeployExtensions.install_extension_dependencies.
  rewrite Hdry. inert_cases.
Qed.

Lemma deploy_each_dry_inert e o c target extensions :
  DeployExtensions.DRY_RUN o = true ->
  forall failed,
    inert (DeployExtensions.deploy_each e o c target extensions failed).
Proof.
  intros Hdry. induction extensions as [|n rest IH]; intros failed.
  - apply inert_ret.
  - cbn [DeployExtensions.deploy_each]. unfold DeployExtensions.error_log.
    apply inert_bind; [now apply deploy_extension_dry_inert | intros d].
    destruct (negb (Nat.eqb d 0)).
    + apply inert_bind; [apply inert_echo_err | intros _; apply IH].
    + apply inert_bind;
        [now apply install_extension_dependencies_dry_inert | intros i].
      destruct (negb (Nat.eqb i 0)); [|apply IH].
      apply inert_bind; [apply inert_echo_err | intros _; apply IH].
Qed.

(** X15.  A dry run of deploy-extensions.sh leaves the file system as it
    was: no target directory is made, no backup is taken, nothing is
    transferred or installed. *)
Theorem extensions_dry_run_changes_nothing e o w :
  DeployExtensions.DRY_RUN o = true ->
  fs (final (DeployExtensions.main e o w)) = fs w.
Proof.
  intros Hdry. revert w. change (inert (DeployExtensions.main e o)).
  unfold DeployExtensions.main, DeployExtensions.load_config,
    DeployExtensions.validate_directories,
    DeployExtensions.backup_existing_extensions,
    DeployExtensions.log, DeployExtensions.error_log.
  rewrite Hdry. cbn [negb].
  apply inert_bind; [apply inert_echo | intros _].
  apply inert_bind; [inert_cases | intros c].
  apply inert_bind; [inert_cases | intros target].
  apply inert_bind;
    [apply inert_quiet; unfold DeployExtensions.scan_extensions,
       DeployExtensions.log; quiet_cases | intros list_file].
  apply inert_bind; [inert_cases | intros _].
  apply inert_bind;
    [destruct list_file; [now apply deploy_each_dry_inert | apply inert_ret]
    | intros failed].
  apply inert_bind;
    [apply inert_quiet, set_extension_permissions_quiet | intros _].
  apply inert_bind;
    [apply inert_quiet, verify_deployment_quiet | intros v].
  inert_cases.
Qed.

Lemma extensions_dry_run_witness :
  let o := DeployExtensions.mkOptions None (Some ["prod"; "extensions"]) true
             true true true in
  DeployExtensions.DRY_RUN o = true
  /\ fs (final (DeployExtensions.main Sample.extensions_env o
                  (mkWorld Sample.extensions_disk [])))
     = Sample.extensions_disk.
Proof.
  split; [reflexivity|].
  exact (extensions_dry_run_changes_nothing Sample.extensions_env
           (DeployExtensions.mkOptions None (Some ["prod"; "extensions"]) true
              true true true)
           (mkWorld Sample.extensions_disk []) eq_refl).
Defined.

Lemma validate_directories_spares e o target q :
  DeployExtensions.TARGET_EXTENSIONS_DIR o = Some target ->
  apart target q ->
  spares q (DeployExtensions.validate_directories e o).
Proof.
  intros Ht Ha.
  unfold DeployExtensions.validate_directories, DeployExtensions.log,
    DeployExtensions.error_log. rewrite Ht.
  apply spares_bind; [apply spares_inert, inert_get_fs | intros t].
  destruct (negb (test_d t (DeployExtensions.source_dir e o)));
    [apply spares_inert; inert_cases|].
  apply spares_bind; [|intros _; apply spares_inert, inert_ret].
  destruct (negb (DeployExtensions.DRY_RUN o));
    [|apply spares_inert, inert_ret].
  apply spares_bind; [|intros _; apply spares_inert; inert_cases].
  destruct (negb (test_d t target)); [|apply spares_inert, inert_ret].
  apply spares_bind; [apply spares_inert, inert_echo | intros _].
  apply spares_must. intros t0 t' E. exact (mkdir_p_apart _ _ _ _ E Ha).
Qed.

Lemma scan_extensions_lists e o w es list_file w' :
  lookup (fs w) (DeployExtensions.source_dir e o) = Some (Dir es) ->
  DeployExtensions.scan_extensions e o w = Ret list_file w' ->
  forall n, In n (DeployExtensions.extension_names es) ->
    exists extensions, list_file = Some extensions /\ In n extensions.
Proof.
  intros Hs. unfold DeployExtensions.scan_extensions, DeployExtensions.log.
  run_step. rewrite Hs.
  destruct (DeployExtensions.extension_names es) as [|m ms] eqn:E.
  - intros _ n [].
  - intros H n Hn. injection H as <- _. now exists (m :: ms).
Qed.

Lemma verify_deployment_passed o target extensions w w' :
  DeployExtensions.DRY_RUN o = false ->
  DeployExtensions.verify_deployment o target (Some extensions) w = Ret 0 w' ->
  forall n, In n extensions ->
    test_f (fs w') (target // n // "package.json") = true.
Proof.
  intros Hdry. unfold DeployExtensions.verify_deployment,
    DeployExtensions.log, DeployExtensions.error_log.
  rewrite Hdry. run_step. run_step.
  destruct (DeployExtensions.failed_extensions (fs w) target extensions)
    as [|m ms] eqn:E.
  - intros H n Hn. injection H as <-. cbn [fs].
    unfold DeployExtensions.failed_extensions in E.
    destruct (test_f (fs w) (target // n // "package.json")) eqn:F;
      [reflexivity|].
    assert (Hin : In n (filter
              (fun n => negb (test_d (fs w) (target // n))
                        || negb (test_f (fs w) (target // n // "package.json")))
              extensions)).
    { apply filter_In. split; [exact Hn|]. rewrite F.
      now rewrite orb_true_r. }
    rewrite E in Hin. destruct Hin.
  - intros H. discriminate.
Qed.

(** X16.  Status 0 of a live deploy-extensions.sh is a guarantee: when the
    script runs to its end without [exit 1], every extension it found in
    the source (each directory there that is not hidden) has a
    package.json in its directory of the target. *)
Theorem successful_deployment_has_every_manifest e o w w' target es :
  DeployExtensions.DRY_RUN o = false ->
  DeployExtensions.TARGET_EXTENSIONS_DIR o = Some target ->
  apart target (DeployExtensions.source_dir e o) ->
  lookup (fs w) (DeployExtensions.source_dir e o) = Some (Dir es) ->
  DeployExtensions.main e o w = Ret tt w' ->
  forall n, In n (DeployExtensions.extension_names es) ->
    test_f (fs w') (target // n // "package.json") = true.
Proof.
  intros Hdry Ht Hap Hs H n Hn.
  unfold DeployExtensions.main, DeployExtensions.log in H.
  apply bind_returns in H. destruct H as ([] & w0 & E0 & H).
  injection E0 as <-.
  apply bind_returns in H. destruct H as (c & w1 & E1 & H).
  assert (F1 : fs w1 = fs w).
  { assert (I : inert (DeployExtensions.load_config e))
      by (unfold DeployExtensions.load_config, DeployExtensions.error_log;
          inert_cases).
    specialize (I (mkWorld (fs w)
                     (console w ++ [Out "Starting extension deployment"]))).
    rewrite E1 in I. exact I. }
  apply bind_returns in H. destruct H as (target0 & w2 & E2 & H).
  assert (target0 = target)
    by exact (validate_directories_returns_target _ _ _ _ _ _ Ht E2).
  subst target0.
  assert (F2 : lookup (fs w2) (DeployExtensions.source_dir e o)
               = Some (Dir es)).
  { pose proof (validate_directories_spares e o target _ Ht Hap w1) as S.
    rewrite E2 in S. cbn [final] in S. now rewrite S, F1. }
  apply bind_returns in H. destruct H as (list_file & w3 & E3 & H).
  destruct (scan_extensions_lists _ _ _ _ _ _ F2 E3 n Hn)
    as (extensions & -> & Hin).
  apply bind_returns in H. destruct H as ([] & w4 & E4 & H).
  apply bind_returns in H. destruct H as (failed & w5 & E5 & H).
  apply bind_returns in H. destruct H as ([] & w6 & E6 & H).
  apply bind_returns in H. destruct H as (v & w7 & E7 & H).
  destruct failed; [discriminate|].
  destruct v as [|v]; [|discriminate].
  rewrite Hdry in H. cbn in H. injection H as <-. cbn [fs].
  exact (verify_deployment_passed _ _ _ _ _ Hdry E7 n Hin).
Qed.

Lemma successful_deployment_witness :
  let e := Sample.extensions_env in
  let o := Sample.extensions_no_install in
  let w := mkWorld Cases.sound_extensions_disk [] in
  DeployExtensions.DRY_RUN o = false
  /\ DeployExtensions.main e o w
     = Ret tt (final (DeployExtensions.main e o w))
  /\ forall n, In n ["alpha"; "gamma"] ->
       test_f (fs (final (DeployExtensions.main e o w)))
         (["prod"; "extensions"] // n // "package.json") = true.
Proof.
  split; [reflexivity|]. split; [vm_compute; reflexivity|].
  exact (successful_deployment_has_every_manifest Sample.extensions_env
           Sample.extensions_no_install
           (mkWorld Cases.sound_extensions_disk [])
           (final (DeployExtensions.main Sample.extensions_env
                     Sample.extensions_no_install
                     (mkWorld Cases.sound_extensions_disk [])))
           ["prod"; "extensions"]
           [("alpha", Dir [("package.json", File (Bytes "{alpha 2}"));
                           ("index.js", File (Bytes "new code"))]);
            (".cache", Dir []);
            ("README.md", File (Bytes "notes"));
            ("gamma", Dir [("package.json", File (Bytes "{gamma}"))])]
           eq_refl eq_refl
           (apart_here "prod" "proj" _ _ ltac:(discriminate))
           eq_refl ltac:(vm_compute; reflexivity)).
Defined.

Lemma spares_step {A B : Type} q (c : sh A) (k : A -> sh B) w :
  lookup (fs (final (c w))) q = lookup (fs w) q ->
  (forall a w1, c w = Ret a w1 ->
     lookup (fs (final (k a w1))) q = lookup (fs w1) q) ->
  lookup (fs (final (bind c k w))) q = lookup (fs w) q.
Proof.
  intros Hc Hk. unfold bind. destruct (c w) as [a w1|n w1]; cbn in *.
  - rewrite (Hk a w1 eq_refl). exact Hc.
  - exact Hc.
Qed.

Lemma validate_directories_existing e o target w :
  DeployExtensions.TARGET_EXTENSIONS_DIR o = Some target ->
  test_d (fs w) target = true ->
  fs (final (DeployExtensions.validate_directories e o w)) = fs w.
Proof.
  intros Ht Hd. unfold DeployExtensions.validate_directories,
    DeployExtensions.log, DeployExtensions.error_log.
  rewrite Ht. unfold bind, get_fs, echo, echo_err, exit, ret.
  rewrite Hd. cbn [negb].
  destruct (negb (test_d (fs w) (DeployExtensions.source_dir e o)));
    [reflexivity|].
  destruct (negb (DeployExtensions.DRY_RUN o)); [|reflexivity].
  destruct (negb (writable (DeployExtensions.perms e) target)); reflexivity.
Qed.

Lemma deploy_each_spares e o c target q extensions :
  (forall n, In n extensions -> apart (target // n) q) ->
  forall failed,
    spares q (DeployExtensions.deploy_each e o c target extensions failed).
Proof.
  induction extensions as [|n rest IH]; intros Ha failed w.
  - reflexivity.
  - destruct (deploy_each_step e o c target n rest failed w)
      as (f & w1 & more1 & E1 & _ & F1 & _).
    rewrite E1, (IH (fun k Hk => Ha k (or_intror Hk)) f w1).
    apply F1, Ha. now left.
Qed.

Lemma backup_existing_extensions_spares e o target q :
  apart (path_suffix target (".backup-" ++ DeployExtensions.stamp e)) q ->
  spares q (DeployExtensions.backup_existing_extensions e o target).
Proof.
  intros Hb.
  unfold DeployExtensions.backup_existing_extensions, DeployExtensions.log.
  destruct (negb (DeployExtensions.BACKUP_EXISTING o));
    [apply spares_inert, inert_ret|].
  apply spares_bind; [apply spares_inert, inert_get_fs | intros t].
  destruct (negb (test_d t target)); [apply spares_inert, inert_ret|].
  apply spares_bind; [apply spares_inert, inert_echo | intros _].
  destruct (DeployExtensions.DRY_RUN o); [apply spares_inert, inert_echo|].
  destruct (lookup t target) as [[x|[|entry es]]|];
    try (apply spares_inert, inert_ret).
  apply spares_bind; [|intros _; apply spares_inert, inert_echo].
  apply spares_must. intros t0 t' E. exact (cp_r_apart _ _ _ _ _ E Hb).
Qed.

(** X17.  deploy-extensions.sh removes nothing from the target for being
    gone from the source: what an existing target holds under a name that
    is not one of the extensions found in the source (an extension since
    retired, a hidden directory, a plain file) is at the end of the run,
    whatever its outcome, what it was at the start. *)
Theorem unlisted_target_entries_stay e o w target es m :
  DeployExtensions.TARGET_EXTENSIONS_DIR o = Some target ->
  target <> [] ->
  test_d (fs w) target = true ->
  lookup (fs w) (DeployExtensions.source_dir e o) = Some (Dir es) ->
  ~ In m (DeployExtensions.extension_names es) ->
  forall r,
    lookup (fs (final (DeployExtensions.main e o w))) (target // m ++ r)%list
    = lookup (fs w) (target // m ++ r)%list.
Proof.
  intros Ht Hne Hd Hs Hm r.
  set (q := (target // m ++ r)%list).
  assert (Hb : apart (path_suffix target
                        (".backup-" ++ DeployExtensions.stamp e)) q).
  { unfold q, child. rewrite <- app_assoc. apply apart_sym, apart_app, apart_sym.
    apply apart_path_suffix; [exact Hne | discriminate]. }
  unfold DeployExtensions.main, DeployExtensions.log.
  apply spares_step; [reflexivity | intros [] w0 E0].
  injection E0 as <-.
  apply spares_step.
  { apply spares_inert. unfold DeployExtensions.load_config,
      DeployExtensions.error_log. inert_cases. }
  intros c w1 E1.
  assert (F1 : fs w1 = fs w).
  { assert (I : inert (DeployExtensions.load_config e))
      by (unfold DeployExtensions.load_config, DeployExtensions.error_log;
          inert_cases).
    specialize (I (mkWorld (fs w)
                     (console w ++ [Out "Starting extension deployment"]))).
    rewrite E1 in I. exact I. }
  rewrite <- F1 in Hd, Hs.
  apply spares_step;
    [now rewrite (validate_directories_existing e o target w1 Ht Hd)|].
  intros target0 w2 E2.
  assert (target0 = target)
    by exact (validate_directories_returns_target _ _ _ _ _ _ Ht E2).
  subst target0.
  assert (F2 : fs w2 = fs w1).
  { pose proof (validate_directories_existing e o target w1 Ht Hd) as I.
    rewrite E2 in I. exact I. }
  rewrite <- F2 in Hs.
  apply spares_step.
  { apply spares_inert, inert_quiet. unfold DeployExtensions.scan_extensions,
      DeployExtensions.log. quiet_cases. }
  intros list_file w3 E3.
  assert (Hl : forall extensions, list_file = Some extensions ->
               forall n, In n extensions -> apart (target // n) q).
  { unfold DeployExtensions.scan_extensions, DeployExtensions.log in E3.
    revert E3. run_step. rewrite Hs.
    destruct (DeployExtensions.extension_names es) as [|k ks] eqn:Ek.
    - intros E3. injection E3 as <- _. discriminate.
    - intros E3. injection E3 as <- _. intros extensions Hx n Hn.
      injection Hx as <-. unfold q. apply apart_sym, apart_app, apart_child.
      intros E. apply Hm. now rewrite E. }
  revert w3 E3. intros w3 _. revert w3.
  change (spares q
    (DeployExtensions.backup_existing_extensions e o target ;;
     failed <- match list_file with
               | Some extensions =>
                   DeployExtensions.deploy_each e o c target extensions false
               | None => ret false
               end ;;
     DeployExtensions.set_extension_permissions o ;;
     v <- DeployExtensions.verify_deployment o target list_file ;;
     (if failed || negb (Nat.eqb v 0)
      then DeployExtensions.error_log
             "Extension deployment completed with errors" ;; exit 1
      else if negb (DeployExtensions.DRY_RUN o)
           then echo "Extension deployment completed successfully!" ;;
                echo ("Extensions directory: " ++ show target)
           else echo "DRY RUN completed - no actual deployment performed"))).
  apply spares_bind; [now apply backup_existing_extensions_spares | intros _].
  apply spares_bind.
  { destruct list_file as [extensions|];
      [|apply spares_inert, inert_ret].
    apply deploy_each_spares. exact (Hl extensions eq_refl). }
  intros failed.
  apply spares_bind;
    [apply spares_inert, inert_quiet, set_extension_permissions_quiet
    | intros _].
  apply spares_bind;
    [apply spares_inert, inert_quiet, verify_deployment_quiet | intros v].
  apply spares_inert. unfold DeployExtensions.error_log. inert_cases.
Qed.

Lemma unlisted_target_entries_witness :
  let e := Sample.extensions_env in
  let o := Sample.extensions_no_install in
  let w := mkWorld Cases.stale_extensions_disk [] in
  test_d (fs w) ["prod"; "extensions"] = true
  /\ ~ In "retired" ["alpha"]
  /\ lookup (fs (final (DeployExtensions.main e o w)))
       (["prod"; "extensions"] // "retired" ++ ["index.js"])%list
     = Some (File (Bytes "old code")).
Proof.
  split; [reflexivity|].
  split; [intros [H|[]]; discriminate|].
  cbv zeta.
  rewrite (unlisted_target_entries_stay Sample.extensions_env
             Sample.extensions_no_install
             (mkWorld Cases.stale_extensions_disk [])
             ["prod"; "extensions"]
             [("alpha", Dir [("package.json", File (Bytes "{alpha 2}"));
                             ("index.js", File (Bytes "new code"))])]
             "retired" eq_refl ltac:(discriminate) eq_refl eq_refl
             ltac:(intros [H|[]]; discriminate) ["index.js"]).
  reflexivity.
Defined.

(* ================================================================= *)
(** X28.  The rsync command of deploy-extensions.sh is one line only
    without --verbose and with at most one exclusion rule in the
    configuration.  With --verbose, or with two rules or more, the command
    that [eval] runs breaks, and in a live run the deployment of an
    extension that has its manifest transfers nothing, deletes nothing and
    still returns 0: all that happens is the [mkdir -p] of the directory of
    the extension in the target.  A directory that was there is as it was,
    with its stale files; one that was not there is empty afterwards;
    nothing apart from it is touched. *)
Theorem broken_command_deploys_nothing e o c w target name :
  DeployExtensions.DRY_RUN o = false ->
  DeployExtensions.VERBOSE o = true
  \/ 2 <= List.length (DeployExtensions.exclude_patterns c) ->
  test_f (fs w) (DeployExtensions.source_dir e o // name // "package.json")
  = true ->
  exists w',
    DeployExtensions.deploy_extension e o c target name w = Ret 0 w'
    /\ (test_d (fs w) (target // name) = true -> fs w' = fs w)
    /\ (forall t1,
          mkdir_p (fs w) (target // name) = Some t1 ->
          lookup (fs w) (target // name) = None ->
          lookup (fs w') (target // name) = Some (Dir []))
    /\ (forall q, apart (target // name) q ->
                  lookup (fs w') q = lookup (fs w) q).
Proof.
  intros Hdry Hbroken Hman.
  assert (Hone : DeployExtensions.one_line o c = false).
  { unfold DeployExtensions.one_line, DeployExtensions.one_command.
    destruct Hbroken as [-> | Hlen]; [reflexivity|].
    apply andb_false_iff. right. apply Nat.leb_gt. lia. }
  rewrite (deploy_extension_broken e o c w target name Hdry Hone Hman).
  eexists. split; [reflexivity|]. cbn [fs]. split; [|split].
  - intros Hd. now rewrite (mkdir_p_existing _ _ Hd).
  - intros t1 Hmk Hnone. rewrite Hmk.
    exact (mkdir_p_new _ _ _ Hmk (or_introl Hnone)).
  - intros q Ha.
    destruct (mkdir_p (fs w) (target // name)) as [t1|] eqn:Hmk;
      [|reflexivity].
    exact (mkdir_p_apart _ _ _ _ Hmk Ha).
Qed.

Lemma broken_command_witness :
  let w := mkWorld Sample.extensions_disk [] in
  let e := Sample.two_rules_env in
  let o := Sample.extensions_options in
  let c := Sample.two_rules_config in
  let target := ["prod"; "extensions"] in
  (DeployExtensions.DRY_RUN o = false
   /\ 2 <= List.length (DeployExtensions.exclude_patterns c)
   /\ test_f (fs w)
        (DeployExtensions.source_dir e o // "alpha" // "package.json") = true
   /\ test_d (fs w) (target // "alpha") = true)
  /\ exists w',
      DeployExtensions.deploy_extension e o c target "alpha" w = Ret 0 w'
      /\ (test_d (fs w) (target // "alpha") = true -> fs w' = fs w)
      /\ (forall t1,
            mkdir_p (fs w) (target // "alpha") = Some t1 ->
            lookup (fs w) (target // "alpha") = None ->
            lookup (fs w') (target // "alpha") = Some (Dir []))
      /\ (forall q, apart (target // "alpha") q ->
                    lookup (fs w') q = lookup (fs w) q).
Proof.
  cbv zeta. split; [repeat split; (reflexivity || (cbn; lia))|].
  apply (broken_command_deploys_nothing Sample.two_rules_env
           Sample.extensions_options Sample.two_rules_config
           (mkWorld Sample.extensions_disk []) ["prod"; "extensions"]
           "alpha"); [reflexivity | right; cbn; lia | reflexivity].
Defined.

(** X29.  deploy-extensions.sh on a source that lists, among its
    extensions, one without package.json, in a dry run or live and whatever
    the configuration: the deployment of every extension of the list is
    started, the one without manifest is reported ("Failed to deploy
    extension"), and the script ends with the line "Extension deployment
    completed with errors" and status 1.  (The target directory exists and
    is writable, no backup of the same second is there, and target and
    backup lie apart from the source.) *)
Theorem missing_manifest_fails_the_run e o c w target es bad :
  DeployExtensions.config e = Some c ->
  DeployExtensions.TARGET_EXTENSIONS_DIR o = Some target ->
  lookup (fs w) (DeployExtensions.source_dir e o) = Some (Dir es) ->
  test_d (fs w) target = true ->
  writable (DeployExtensions.perms e) target = true ->
  apart target (DeployExtensions.source_dir e o) ->
  apart (path_suffix target (".backup-" ++ DeployExtensions.stamp e))
    (DeployExtensions.source_dir e o) ->
  test_e (fs w)
    (path_suffix target (".backup-" ++ DeployExtensions.stamp e)) = false ->
  In bad (DeployExtensions.extension_names es) ->
  test_f (fs w) (DeployExtensions.source_dir e o // bad // "package.json")
  = false ->
  exists w' more,
    DeployExtensions.main e o w = Exit 1 w'
    /\ console w'
       = (console w ++ more
          ++ [Err "ERROR: Extension deployment completed with errors"])%list
    /\ In (Err ("ERROR: Failed to deploy extension: " ++ bad)) more
    /\ (forall n, In n (DeployExtensions.extension_names es) ->
                  In (Out ("Deploying extension: " ++ n)) more).
Proof.
  intros Hc Ht Hs Hd Hw Hap Hbap Hbe Hbad Hman.
  destruct (missing_manifest_run e o c w target es bad
              Hc Ht Hs Hd Hw Hap Hbap Hbe Hbad Hman)
    as (w1 & w2 & w' & more & E & C & Hsaid & Houts & _).
  exists w', more. auto.
Qed.

Lemma missing_manifest_fails_the_run_witness :
  let w := mkWorld Sample.extensions_disk [] in
  let e := Sample.two_rules_env in
  let o := DeployExtensions.mkOptions None (Some ["prod"; "extensions"])
             false true true true in
  let c := Sample.two_rules_config in
  let target := ["prod"; "extensions"] in
  let es := match lookup Sample.extensions_disk ["proj"; "extensions"] with
            | Some (Dir es) => es
            | _ => []
            end in
  (DeployExtensions.config e = Some c
   /\ DeployExtensions.TARGET_EXTENSIONS_DIR o = Some target
   /\ lookup (fs w) (DeployExtensions.source_dir e o) = Some (Dir es)
   /\ test_d (fs w) target = true
   /\ writable (DeployExtensions.perms e) target = true
   /\ test_e (fs w)
        (path_suffix target (".backup-" ++ DeployExtensions.stamp e)) = false
   /\ In "broken" (DeployExtensions.extension_names es)
   /\ test_f (fs w)
        (DeployExtensions.source_dir e o // "broken" // "package.json")
      = false)
  /\ exists w' more,
      DeployExtensions.main e o w = Exit 1 w'
      /\ console w'
         = (console w ++ more
            ++ [Err "ERROR: Extension deployment completed with errors"])%list
      /\ In (Err ("ERROR: Failed to deploy extension: " ++ "broken")) more
      /\ (forall n, In n (DeployExtensions.extension_names es) ->
                    In (Out ("Deploying extension: " ++ n)) more).
Proof.
  cbv zeta. split; [repeat split; (reflexivity || (right; left; reflexivity))|].
  apply (missing_manifest_fails_the_run Sample.two_rules_env
           (DeployExtensions.mkOptions None (Some ["prod"; "extensions"])
              false true true true)
           Sample.two_rules_config
           (mkWorld Sample.extensions_disk []) ["prod"; "extensions"] _
           "broken"); try reflexivity.
  - apply apart_here. discriminate.
  - apply apart_here. discriminate.
  - right. left. reflexivity.
Defined.

(** ** backup-files.sh *)

(** X18.  A dry run of backup-files.sh leaves the file system as it was,
    and its status tells whether the source can be backed up: 0 when the
    source is a readable directory, 1 when it is not. *)
Theorem files_backup_dry_run e o w :
  BackupFiles.DRY_RUN o = true ->
  let source := match BackupFiles.SOURCE_DIR o with
                | Some s => s
                | None => BackupFiles.DEFAULT_SOURCE_DIR e
                end in
  fs (final (BackupFiles.main e o w)) = fs w
  /\ exit_code (BackupFiles.main e o w)
     = if test_d (fs w) source && readable (BackupFiles.perms e) source
       then 0 else 1.
Proof.
  intros Hdry source. split.
  - revert w. change (inert (BackupFiles.main e o)).
    unfold BackupFiles.main, BackupFiles.validate_source,
      BackupFiles.calculate_source_size, BackupFiles.count_files,
      BackupFiles.create_backup_directory, BackupFiles.log.
    rewrite Hdry. cbn [negb]. inert_cases.
  - unfold BackupFiles.main, BackupFiles.validate_source,
      BackupFiles.calculate_source_size, BackupFiles.count_files,
      BackupFiles.create_backup_directory, BackupFiles.log.
    rewrite Hdry. cbn [negb]. fold source.
    unfold test_d, bind, echo, get_fs, ret, exit. cbn [fs].
    destruct (lookup (fs w) source) as [[x|es]|] eqn:El; cbn [negb andb];
      try reflexivity.
    destruct (readable (BackupFiles.perms e) source); cbn [negb fs];
      [|reflexivity].
    do 3 (cbn [fs]; rewrite ?El; cbv beta iota). reflexivity.
Qed.

Lemma files_backup_dry_run_witness :
  let e := Sample.backup_files_env in
  let o := Cases.manual_backup_options true in
  let w := mkWorld Cases.cached_uploads_disk [] in
  BackupFiles.DRY_RUN o = true
  /\ fs (final (BackupFiles.main e o w)) = fs w
  /\ exit_code (BackupFiles.main e o w) = 0.
Proof.
  split; [reflexivity|].
  exact (files_backup_dry_run Sample.backup_files_env
           (Cases.manual_backup_options true)
           (mkWorld Cases.cached_uploads_disk []) eq_refl).
Defined.

(** [mkdir -p] of a new name in an existing directory makes an empty
    directory there. *)
Lemma mkdir_p_fresh t p n :
  test_d t p = true -> lookup t (p // n) = None ->
  exists t1, mkdir_p t (p // n) = Some t1
             /\ lookup t1 (p // n) = Some (Dir []).
Proof.
  unfold test_d, child. revert t.
  induction p as [|m p IH]; intros t Hd Hn.
  - destruct t as [c|es]; [discriminate|]. cbn in *.
    destruct (assoc n es) as [c|] eqn:En; [discriminate|].
    eexists. split; [reflexivity|]. cbn. now rewrite assoc_set_entry_same.
  - destruct t as [c|es]; [discriminate|]. cbn in *.
    destruct (assoc m es) as [c|] eqn:Em; [|discriminate].
    destruct (IH c Hd Hn) as (c1 & E & L). rewrite E.
    eexists. split; [reflexivity|]. cbn. now rewrite assoc_set_entry_same.
Qed.

(** rsync into a receiver that holds nothing: the receiver has the files of
    the sender on the paths no rule excludes, and no other file. *)
Lemma rsync_node_fresh del ex s :
  well_formed s = true ->
  forall d p,
    match d with Some (Dir (_ :: _)) => False | _ => True end ->
    file_at (rsync_node del ex s d) p
    = if path_excluded ex p then None else file_at s p.
Proof.
  induction s as [c|es IH] using node_ind; intros Hwf d p Hd.
  - cbn [rsync_node]. destruct p as [|n p]; [reflexivity|].
    unfold file_at. cbn [lookup]. now destruct (path_excluded ex (n :: p)).
  - destruct (well_formed_Dir es Hwf) as [Hu Hsub].
    assert (Hds : match d with Some (Dir ds) => ds | _ => [] end = [])
      by (destruct d as [[c|[|x ds]]|]; try reflexivity; contradiction).
    cbn [rsync_node]. rewrite Hds. cbn [filter]. rewrite app_nil_r.
    destruct p as [|n p]; [reflexivity|].
    rewrite !file_at_cons, assoc_transfer by exact Hu.
    destruct (assoc n es) as [x|] eqn:En;
      [|now destruct (path_excluded ex (n :: p))].
    destruct (excluded ex n (is_dir x)) eqn:Ex.
    + destruct (path_excluded ex (n :: p)) eqn:Hp; [reflexivity|].
      symmetry. exact (excluded_blocks ex n x p Ex Hp).
    + apply assoc_In in En. rewrite Forall_forall in IH.
      pose proof (IH (n, x) En (Hsub n x En) (assoc n []) p I) as R.
      cbn [snd] in R. rewrite R. clear R.
      destruct p as [|m p'].
      * cbn [path_excluded]. destruct x as [c|xs]; cbn [is_dir] in Ex.
        -- now rewrite Ex.
        -- unfold file_at. cbn [lookup].
           now destruct (excluded ex n false).
      * change (path_excluded ex (n :: m :: p'))
          with (excluded ex n true || path_excluded ex (m :: p')).
        destruct x as [c|xs]; cbn [is_dir] in Ex.
        -- unfold file_at. cbn [lookup].
           now destruct (path_excluded ex (m :: p')), (excluded ex n true).
        -- now rewrite Ex.
Qed.

Lemma apart_sibling p n m r : n <> m -> apart (p // n) (p // m ++ r)%list.
Proof.
  intros H. apply apart_sym, apart_app, apart_child. congruence.
Qed.

(** A live backup with rsync into a new directory of an existing parent,
    step by step: two [mkdir -p], one rsync into the empty [files/], the
    metadata and the summary. *)
Lemma files_backup_runs e o w source parent name es :
  BackupFiles.DRY_RUN o = false ->
  BackupFiles.VERBOSE o = false ->
  BackupFiles.have_rsync e = true ->
  match BackupFiles.SOURCE_DIR o with
  | Some s => s
  | None => BackupFiles.DEFAULT_SOURCE_DIR e
  end = source ->
  match BackupFiles.TARGET_DIR o with
  | Some t => t
  | None => BackupFiles.BACKUP_BASE_DIR e // BackupFiles.BACKUP_NAME e
  end = parent // name ->
  lookup (fs w) source = Some (Dir es) ->
  readable (BackupFiles.perms e) source = true ->
  test_d (fs w) parent = true ->
  lookup (fs w) (parent // name) = None ->
  apart (parent // name) source ->
  exists w',
    BackupFiles.main e o w = Ret tt w'
    /\ lookup (fs w') (parent // name // "files")
       = Some (rsync_node false (BackupFiles.build_exclude_patterns o)
                 (Dir es) (Some (Dir [])))
    /\ lookup (fs w') (parent // name // "backup-metadata.json")
       = Some (File (BackupFiles.metadata e o source (parent // name)
                       (BackupFiles.du e (Dir es)) (count_type_f (Dir es))))
    /\ (forall q, apart (parent // name) q ->
                  lookup (fs w') q = lookup (fs w) q).
Proof.
  intros Hdry Hverb Hr Hsrc Htg Hs Hread Hpar Hnew Hap.
  set (target := parent // name) in *.
  destruct (mkdir_p_fresh _ _ _ Hpar Hnew) as (t1 & M1 & L1).
  fold target in M1, L1.
  assert (D1 : test_d t1 target = true) by (unfold test_d; now rewrite L1).
  assert (N1 : lookup t1 (target // "files") = None)
    by (unfold child; rewrite lookup_app, L1; reflexivity).
  destruct (mkdir_p_fresh _ _ _ D1 N1) as (t2 & M2 & L2).
  assert (S2 : lookup t2 source = Some (Dir es)).
  { rewrite (mkdir_p_apart _ _ _ _ M2), (mkdir_p_apart _ _ _ _ M1);
      [exact Hs | exact Hap | apply apart_app; exact Hap]. }
  assert (F2 : test_f t2 (target // "files") = false)
    by (unfold test_f; now rewrite L2).
  pose proof (lookup_child_parent _ _ _ _ L2) as D2.
  unfold test_d in D2.
  destruct (lookup t2 target) as [[c2|ds2]|] eqn:T2; try discriminate.
  clear D2.
  set (payload := rsync_node false (BackupFiles.build_exclude_patterns o)
                    (Dir es) (Some (Dir []))).
  destruct (put_child t2 target ds2 "files" payload T2) as (t3 & P3 & T3).
  assert (S3 : lookup t3 source = Some (Dir es)).
  { rewrite (lookup_put_apart _ _ _ _ _ P3); [exact S2|].
    apply apart_app. exact Hap. }
  set (meta := File (BackupFiles.metadata e o source target
                       (BackupFiles.du e (Dir es)) (count_type_f (Dir es)))).
  destruct (put_child t3 target _ "backup-metadata.json" meta T3)
    as (t4 & P4 & T4).
  assert (S4 : lookup t4 source = Some (Dir es)).
  { rewrite (lookup_put_apart _ _ _ _ _ P4); [exact S3|].
    apply apart_app. exact Hap. }
  set (readme := File (Bytes ("# File Backup: " ++ BackupFiles.BACKUP_NAME e ++ "
Source: " ++ show source ++ "
Size: " ++ BackupFiles.du e (Dir es) ++ " ("
          ++ dec (count_type_f (Dir es)) ++ " files)"))).
  destruct (put_child t4 target _ "README.md" readme T4) as (t5 & P5 & T5).
  assert (G : exists w', BackupFiles.main e o w = Ret tt w' /\ fs w' = t5).
  { unfold BackupFiles.main, BackupFiles.create_backup_metadata,
      BackupFiles.create_backup_summary, BackupFiles.validate_source,
      BackupFiles.calculate_source_size, BackupFiles.count_files,
      BackupFiles.create_backup_directory, BackupFiles.backup_files_rsync,
      BackupFiles.source_size_text, BackupFiles.file_count_text,
      BackupFiles.verbose_log, BackupFiles.log.
    rewrite Hsrc, Htg, Hdry, Hverb, Hr. fold target.
    cbn [negb app map captured_text cline_text concat named].
    do 2 run_step. cbn [fs]. unfold test_d. rewrite Hs, Hread. cbn [negb].
    run_step. run_step. cbn [fs]. rewrite Hs. run_step.
    run_step. cbn [fs]. rewrite Hs. run_step. run_step.
    try_step M1. run_step. run_step.
    must_step M2. cbn [fs].
    assert (R : rsync false (BackupFiles.build_exclude_patterns o) t2 source
                  (target // "files") = Some t3).
    { unfold rsync. rewrite S2, F2, L2. exact P3. }
    must_step R. cbn [fs].
    run_step. cbn [fs]. rewrite S3. run_step.
    run_step. cbn [fs]. rewrite S3. run_step.
    must_step P4. cbn [fs].
    run_step. cbn [fs]. rewrite S4. run_step.
    run_step. cbn [fs]. rewrite S4. run_step.
    must_step P5. cbn [fs].
    repeat run_step. eexists. split; reflexivity. }
  destruct G as (w' & E & F). exists w'. rewrite F.
  split; [exact E|]. split; [|split].
  - rewrite (lookup_put_apart _ _ _ _ _ P5)
      by (apply apart_child; discriminate).
    rewrite (lookup_put_apart _ _ _ _ _ P4)
      by (apply apart_child; discriminate).
    exact (lookup_put_same _ _ _ _ P3).
  - rewrite (lookup_put_apart _ _ _ _ _ P5)
      by (apply apart_child; discriminate).
    exact (lookup_put_same _ _ _ _ P4).
  - intros q Ha.
    assert (Ha' : forall n, apart (target // n) q)
      by (intros n; apply apart_app; exact Ha).
    rewrite (lookup_put_apart _ _ _ _ _ P5 (Ha' _)),
      (lookup_put_apart _ _ _ _ _ P4 (Ha' _)),
      (lookup_put_apart _ _ _ _ _ P3 (Ha' _)),
      (mkdir_p_apart _ _ _ _ M2 (Ha' _)).
    exact (mkdir_p_apart _ _ _ _ M1 Ha).
Qed.

(** X19.  A live backup-files.sh without --verbose and with rsync, from a
    readable source into a new directory of an existing parent, ends with
    status 0; the payload
    [files/] then holds the files of the source on the paths no rule
    excludes and no other file; the metadata records the size and the
    count of the source, not of the payload; nothing apart from the new
    directory is touched. *)
Theorem files_backup_payload e o w source parent name es :
  BackupFiles.DRY_RUN o = false ->
  BackupFiles.VERBOSE o = false ->
  BackupFiles.have_rsync e = true ->
  match BackupFiles.SOURCE_DIR o with
  | Some s => s
  | None => BackupFiles.DEFAULT_SOURCE_DIR e
  end = source ->
  match BackupFiles.TARGET_DIR o with
  | Some t => t
  | None => BackupFiles.BACKUP_BASE_DIR e // BackupFiles.BACKUP_NAME e
  end = parent // name ->
  lookup (fs w) source = Some (Dir es) ->
  readable (BackupFiles.perms e) source = true ->
  well_formed (fs w) = true ->
  test_d (fs w) parent = true ->
  lookup (fs w) (parent // name) = None ->
  apart (parent // name) source ->
  let run := BackupFiles.main e o w in
  let target := parent // name in
  exit_code run = 0
  /\ (forall p,
        file_at (fs (final run)) (target // "files" ++ p)%list
        = if path_excluded (BackupFiles.build_exclude_patterns o) p then None
          else file_at (fs w) (source ++ p)%list)
  /\ file_at (fs (final run)) (target // "backup-metadata.json")
     = Some (BackupFiles.metadata e o source target
               (BackupFiles.du e (Dir es)) (count_type_f (Dir es)))
  /\ (forall q, apart target q ->
                lookup (fs (final run)) q = lookup (fs w) q).
Proof.
  intros Hdry Hverb Hr Hsrc Htg Hs Hread Hwf Hpar Hnew Hap. cbv zeta.
  destruct (files_backup_runs e o w source parent name es Hdry Hverb Hr Hsrc
              Htg Hs Hread Hpar Hnew Hap) as (w' & -> & Lp & Lm & Fa).
  cbn [exit_code final]. split; [reflexivity|]. split; [|split].
  - intros p. rewrite (file_at_app _ _ p _ Lp), (file_at_app _ _ p _ Hs).
    apply rsync_node_fresh; [|exact I].
    exact (well_formed_lookup _ _ _ Hwf Hs).
  - unfold file_at. now rewrite Lm.
  - exact Fa.
Qed.

Lemma files_backup_payload_witness :
  let e := Sample.backup_files_env in
  let o := Cases.manual_backup_options false in
  let w := mkWorld Cases.cached_uploads_disk [] in
  let run := BackupFiles.main e o w in
  let target := ["proj"; "backups"] // "manual" in
  (BackupFiles.DRY_RUN o = false
   /\ BackupFiles.VERBOSE o = false
   /\ BackupFiles.have_rsync e = true
   /\ readable (BackupFiles.perms e) ["proj"; "uploads"] = true
   /\ well_formed (fs w) = true
   /\ test_d (fs w) ["proj"; "backups"] = true
   /\ lookup (fs w) target = None)
  /\ exit_code run = 0
  /\ (forall p,
        file_at (fs (final run)) (target // "files" ++ p)%list
        = if path_excluded (BackupFiles.build_exclude_patterns o) p then None
          else file_at (fs w) (["proj"; "uploads"] ++ p)%list)
  /\ file_at (fs (final run)) (target // "backup-metadata.json")
     = Some (BackupFiles.metadata e o ["proj"; "uploads"] target "4.0K" 5)
  /\ (forall q, apart target q ->
                lookup (fs (final run)) q = lookup (fs w) q).
Proof.
  cbv zeta. split; [repeat split|].
  exact (files_backup_payload Sample.backup_files_env
           (Cases.manual_backup_options false)
           (mkWorld Cases.cached_uploads_disk [])
           ["proj"; "uploads"] ["proj"; "backups"] "manual"
           [("a.txt", File (Bytes "hello"));
            ("thumbs", Dir [("a.jpg", File (Bytes "small"))]);
            ("docs", Dir [("b.pdf", File (Bytes "report"));
                          ("b.tmp", File (Bytes "draft"))]);
            (".DS_Store", File (Bytes "Bud1"))]
           eq_refl eq_refl eq_refl eq_refl eq_refl eq_refl eq_refl eq_refl
           eq_refl eq_refl
           (apart_below "proj" _ _
              (apart_here "backups" "uploads" _ _ ltac:(discriminate)))).
Defined.

(** ** A file backup against its own verification *)

Lemma count_type_f_cons n x es :
  count_type_f (Dir ((n, x) :: es)) = count_type_f x + count_type_f (Dir es).
Proof. reflexivity. Qed.

Lemma count_type_f_In n x es :
  In (n, x) es -> count_type_f x <= count_type_f (Dir es).
Proof.
  induction es as [|[m y] es IH]; intros H; [destruct H|].
  rewrite count_type_f_cons. destruct H as [H|H].
  - injection H as _ ->. lia.
  - specialize (IH H). lia.
Qed.

Lemma file_at_counts x p c : file_at x p = Some c -> 1 <= count_type_f x.
Proof.
  revert x. induction p as [|n p IH]; intros x H.
  - unfold file_at in H. cbn in H. destruct x; [cbn; lia | discriminate].
  - destruct x as [c0|es]; [discriminate|]. rewrite file_at_cons in H.
    destruct (assoc n es) as [y|] eqn:En; [|discriminate].
    pose proof (count_type_f_In _ _ _ (assoc_In _ _ _ En)).
    specialize (IH y H). lia.
Qed.

Lemma count_transfer_le ex f es :
  (forall n x, In (n, x) es -> count_type_f (f n x) <= count_type_f x) ->
  count_type_f (Dir (transfer ex f es)) <= count_type_f (Dir es).
Proof.
  induction es as [|[m y] es IH]; intros H; [cbn; lia|].
  assert (IH' := IH (fun n x Hn => H n x (or_intror Hn))).
  rewrite count_type_f_cons. cbn [transfer].
  destruct (excluded ex m (is_dir y)).
  - lia.
  - rewrite count_type_f_cons.
    specialize (H m y (or_introl eq_refl)). lia.
Qed.

Lemma count_transfer_lt ex f es n x :
  (forall n x, In (n, x) es -> count_type_f (f n x) <= count_type_f x) ->
  In (n, x) es ->
  (excluded ex n (is_dir x) = true /\ 1 <= count_type_f x)
  \/ count_type_f (f n x) < count_type_f x ->
  count_type_f (Dir (transfer ex f es)) < count_type_f (Dir es).
Proof.
  induction es as [|[m y] es IH]; intros H Hin Hx; [destruct Hin|].
  pose proof (count_transfer_le ex f es
                (fun n x Hn => H n x (or_intror Hn))) as Hle.
  pose proof (H m y (or_introl eq_refl)) as Hy.
  rewrite count_type_f_cons. cbn [transfer].
  destruct Hin as [Hin|Hin].
  - injection Hin as -> ->.
    destruct Hx as [[Hex H1]|Hlt].
    + rewrite Hex. lia.
    + destruct (excluded ex n (is_dir x)); [|rewrite count_type_f_cons]; lia.
  - specialize (IH (fun n x Hn => H n x (or_intror Hn)) Hin Hx).
    destruct (excluded ex m (is_dir y)); [|rewrite count_type_f_cons]; lia.
Qed.

Lemma rsync_node_fresh_count_le del ex s :
  forall d,
    match d with Some (Dir (_ :: _)) => False | _ => True end ->
    count_type_f (rsync_node del ex s d) <= count_type_f s.
Proof.
  induction s as [c|es IH] using node_ind; intros d Hd; [cbn; lia|].
  assert (Hds : match d with Some (Dir ds) => ds | _ => [] end = [])
    by (destruct d as [[c|[|x ds]]|]; try reflexivity; contradiction).
  cbn [rsync_node]. rewrite Hds. cbn [filter]. rewrite app_nil_r.
  apply count_transfer_le. intros n x Hn.
  rewrite Forall_forall in IH. exact (IH (n, x) Hn (assoc n []) I).
Qed.

(** A file of the sender that a rule excludes is missing from the count of
    a receiver that held nothing. *)
Lemma rsync_node_fresh_count_lt del ex s :
  well_formed s = true ->
  forall d p c,
    match d with Some (Dir (_ :: _)) => False | _ => True end ->
    file_at s p = Some c ->
    path_excluded ex p = true ->
    count_type_f (rsync_node del ex s d) < count_type_f s.
Proof.
  induction s as [c0|es IH] using node_ind; intros Hwf d p c Hd Hf Hp.
  - destruct p as [|n p]; discriminate.
  - destruct (well_formed_Dir es Hwf) as [Hu Hsub].
    destruct p as [|n p]; [discriminate|].
    rewrite file_at_cons in Hf.
    destruct (assoc n es) as [x|] eqn:En; [|discriminate].
    assert (Hds : match d with Some (Dir ds) => ds | _ => [] end = [])
      by (destruct d as [[c1|[|y ds]]|]; try reflexivity; contradiction).
    cbn [rsync_node]. rewrite Hds. cbn [filter]. rewrite app_nil_r.
    pose proof (assoc_In _ _ _ En) as Hin.
    apply (count_transfer_lt ex _ es n x).
    + intros m y Hm. now apply rsync_node_fresh_count_le.
    + exact Hin.
    + destruct (excluded ex n (is_dir x)) eqn:Ex.
      * left. split; [reflexivity|]. exact (file_at_counts _ _ _ Hf).
      * right. rewrite Forall_forall in IH.
        apply (IH (n, x) Hin (Hsub n x Hin) (assoc n []) p c I Hf).
        destruct p as [|m p'].
        -- cbn [path_excluded] in Hp.
           destruct x as [c1|xs]; [|discriminate].
           cbn [is_dir] in Ex. congruence.
        -- change (path_excluded ex (n :: m :: p'))
             with (excluded ex n true || path_excluded ex (m :: p')) in Hp.
           destruct x as [c1|xs]; [discriminate|].
           cbn [is_dir] in Ex. rewrite Ex in Hp. exact Hp.
Qed.

(** The consistency check on a metadata file whose [file_count] is not the
    number of files of the payload. *)
Lemma metadata_miscount ve b w o n es :
  VerifyBackup.have_python3 ve = true ->
  file_at (fs w) (b // "backup-metadata.json") = Some (Json o) ->
  assoc "backup_type" o = Some (JStr "files") ->
  assoc "file_count" o = Some (JNum n) ->
  lookup (fs w) (b // "files") = Some (Dir es) ->
  n <> count_type_f (Dir es) ->
  exists s w' more,
    VerifyBackup.verify_metadata_consistency ve b w = Ret s w'
    /\ s <> 0 /\ fs w' = fs w
    /\ console w' = (console w ++ more)%list
    /\ In (Err ("ERROR: File count mismatch - metadata: " ++ dec n
                ++ ", actual: " ++ dec (count_type_f (Dir es)))) more.
Proof.
  intros Hpy Hm Hbt Hfc Hl Hne.
  unfold VerifyBackup.verify_metadata_consistency, VerifyBackup.log,
    VerifyBackup.file_count_meta, VerifyBackup.field.
  run_step. rewrite Hm. run_step. rewrite Hpy, Hbt, Hfc, Hl.
  cbn [py_print]. rewrite String.eqb_refl.
  rewrite (proj2 (Nat.eqb_neq _ _) Hne). cbn [negb].
  unfold VerifyBackup.issue, VerifyBackup.error_log.
  destruct (negb (timestamp_format _)); repeat run_step;
    cbn [Nat.add Nat.eqb]; repeat run_step;
    eexists _, _, _; (split; [reflexivity|]); (split; [discriminate|]);
    (split; [reflexivity|]); cbn [console]; rewrite <- ?app_assoc;
    (split; [reflexivity|]); cbn; auto 10.
Qed.

(** verify-backup.sh on a file backup whose metadata miscounts. *)
Lemma verification_of_a_miscount ve b database files quick w o n es :
  VerifyBackup.have_python3 ve = true ->
  file_at (fs w) (b // "backup-metadata.json") = Some (Json o) ->
  assoc "backup_type" o = Some (JStr "files") ->
  assoc "file_count" o = Some (JNum n) ->
  lookup (fs w) (b // "files") = Some (Dir es) ->
  n <> count_type_f (Dir es) ->
  exists w',
    VerifyBackup.main ve (VerifyBackup.mkOptions (Some b) database files quick)
      w = Exit 1 w'
    /\ fs w' = fs w
    /\ said (Err ("ERROR: File count mismatch - metadata: " ++ dec n
                  ++ ", actual: " ++ dec (count_type_f (Dir es)))) w'.
Proof.
  intros Hpy Hm Hbt Hfc Hl Hne.
  unfold VerifyBackup.main, VerifyBackup.log.
  cbn [VerifyBackup.BACKUP_DIR VerifyBackup.CHECK_DATABASE
       VerifyBackup.CHECK_FILES VerifyBackup.QUICK_CHECK].
  do 3 run_step.
  match goal with
  | |- context [bind (if quick then _ else _) _ ?w0] =>
      assert (Hq : exists w1,
                 (if quick
                  then echo "Quick verification mode enabled" else ret tt) w0
                 = Ret tt w1 /\ fs w1 = fs w)
        by (destruct quick; eexists; split; reflexivity)
  end.
  destruct Hq as (w1 & E0 & F0). rewrite (bind_runs _ _ _ _ _ E0).
  destruct (verify_backup_structure_quiet b w1)
    as (s1 & w2 & m1 & E1 & F1 & _).
  rewrite (bind_runs _ _ _ _ _ E1).
  assert (Q2 : quiet (if database
                      then VerifyBackup.verify_database_backup b else ret 0))
    by (destruct database;
        [apply verify_database_backup_quiet | apply quiet_ret]).
  destruct (Q2 w2) as (s2 & w3 & m2 & E2 & F2 & _).
  rewrite (bind_runs _ _ _ _ _ E2).
  assert (Q3 : quiet (if files
                      then VerifyBackup.verify_file_backup
                             (VerifyBackup.mkOptions (Some b) database files
                                quick) b
                      else ret 0))
    by (destruct files;
        [apply verify_file_backup_quiet | apply quiet_ret]).
  destruct (Q3 w3) as (s3 & w4 & m3 & E3 & F3 & _).
  rewrite (bind_runs _ _ _ _ _ E3).
  assert (F : fs w4 = fs w) by congruence.
  rewrite <- F in Hm, Hl.
  destruct (metadata_miscount ve b w4 o n es Hpy Hm Hbt Hfc Hl Hne)
    as (s4 & w5 & m4 & E4 & Hs4 & F4 & C4 & Hin).
  rewrite (bind_runs _ _ _ _ _ E4).
  assert (Ht : Nat.eqb (s1 + s2 + s3 + s4) 0 = false)
    by (apply Nat.eqb_neq; lia).
  rewrite Ht. repeat run_step.
  eexists. split; [reflexivity|]. cbn [fs]. split; [congruence|].
  unfold said. cbn [console]. rewrite C4, !in_app_iff. auto.
Qed.

(** X20.  backup-files.sh against verify-backup.sh: whenever a rule of the
    backup excludes a file of the source, the backup (live, without
    --verbose, with rsync, from a readable source into a new directory of
    an existing parent) that has just ended with status 0 fails its
    verification when python3 is there.  The metadata counts the files of
    the source, the verification counts those of the payload, and
    verify-backup.sh reports the mismatch and ends with status 1. *)
Theorem excluded_file_fails_the_verification e o w source parent name es
  ve database files quick p c :
  BackupFiles.DRY_RUN o = false ->
  BackupFiles.VERBOSE o = false ->
  BackupFiles.have_rsync e = true ->
  match BackupFiles.SOURCE_DIR o with
  | Some s => s
  | None => BackupFiles.DEFAULT_SOURCE_DIR e
  end = source ->
  match BackupFiles.TARGET_DIR o with
  | Some t => t
  | None => BackupFiles.BACKUP_BASE_DIR e // BackupFiles.BACKUP_NAME e
  end = parent // name ->
  lookup (fs w) source = Some (Dir es) ->
  readable (BackupFiles.perms e) source = true ->
  well_formed (fs w) = true ->
  test_d (fs w) parent = true ->
  lookup (fs w) (parent // name) = None ->
  apart (parent // name) source ->
  VerifyBackup.have_python3 ve = true ->
  file_at (fs w) (source ++ p)%list = Some c ->
  path_excluded (BackupFiles.build_exclude_patterns o) p = true ->
  let backup := BackupFiles.main e o w in
  let check := VerifyBackup.main ve
                 (VerifyBackup.mkOptions (Some (parent // name)) database
                    files quick) (final backup) in
  exit_code backup = 0
  /\ exit_code check = 1
  /\ exists actual,
       actual < count_type_f (Dir es)
       /\ said (Err ("ERROR: File count mismatch - metadata: "
                     ++ dec (count_type_f (Dir es)) ++ ", actual: "
                     ++ dec actual)) (final check).
Proof.
  intros Hdry Hverb Hr Hsrc Htg Hs Hread Hwf Hpar Hnew Hap Hpy Hf Hp.
  cbv zeta.
  destruct (files_backup_runs e o w source parent name es Hdry Hverb Hr Hsrc
              Htg Hs Hread Hpar Hnew Hap) as (w' & -> & Lp & Lm & Fa).
  cbn [exit_code final]. split; [reflexivity|].
  pose proof (well_formed_lookup _ _ _ Hwf Hs) as Hwfs.
  rewrite (file_at_app _ _ p _ Hs) in Hf.
  pose proof (rsync_node_fresh_count_lt false
                (BackupFiles.build_exclude_patterns o) (Dir es) Hwfs
                (Some (Dir [])) p c I Hf Hp) as Hlt.
  remember (rsync_node false (BackupFiles.build_exclude_patterns o) (Dir es)
              (Some (Dir []))) as payload eqn:Epay.
  destruct payload as [c0|ps]; [cbn [rsync_node] in Epay; discriminate|].
  assert (Hm : file_at (fs w') (parent // name // "backup-metadata.json")
               = Some (BackupFiles.metadata e o source (parent // name)
                         (BackupFiles.du e (Dir es)) (count_type_f (Dir es))))
    by (unfold file_at; now rewrite Lm).
  destruct (verification_of_a_miscount ve (parent // name) database files
              quick w' _ (count_type_f (Dir es)) ps Hpy Hm eq_refl eq_refl Lp
              ltac:(lia)) as (w2 & -> & _ & Hsaid).
  cbn [exit_code final]. split; [reflexivity|].
  exists (count_type_f (Dir ps)). split; [exact Hlt | exact Hsaid].
Qed.

Lemma excluded_file_fails_the_verification_witness :
  let e := Sample.backup_files_env in
  let o := Cases.manual_backup_options false in
  let w := mkWorld Cases.cached_uploads_disk [] in
  let backup := BackupFiles.main e o w in
  let check := VerifyBackup.main Sample.verify_env
                 (VerifyBackup.mkOptions (Some (["proj"; "backups"] // "manual"))
                    false true true) (final backup) in
  (BackupFiles.DRY_RUN o = false
   /\ BackupFiles.VERBOSE o = false
   /\ BackupFiles.have_rsync e = true
   /\ readable (BackupFiles.perms e) ["proj"; "uploads"] = true
   /\ well_formed (fs w) = true
   /\ test_d (fs w) ["proj"; "backups"] = true
   /\ lookup (fs w) (["proj"; "backups"] // "manual") = None
   /\ VerifyBackup.have_python3 Sample.verify_env = true
   /\ file_at (fs w) (["proj"; "uploads"] ++ ["thumbs"; "a.jpg"])%list
      = Some (Bytes "small")
   /\ path_excluded (BackupFiles.build_exclude_patterns o)
        ["thumbs"; "a.jpg"] = true)
  /\ exit_code backup = 0
  /\ exit_code check = 1
  /\ exists actual,
       actual < 5
       /\ said (Err ("ERROR: File count mismatch - metadata: "
                     ++ dec 5 ++ ", actual: " ++ dec actual)) (final check).
Proof.
  cbv zeta. split; [repeat split|].
  exact (excluded_file_fails_the_verification Sample.backup_files_env
           (Cases.manual_backup_options false)
           (mkWorld Cases.cached_uploads_disk [])
           ["proj"; "uploads"] ["proj"; "backups"] "manual"
           [("a.txt", File (Bytes "hello"));
            ("thumbs", Dir [("a.jpg", File (Bytes "small"))]);
            ("docs", Dir [("b.pdf", File (Bytes "report"));
                          ("b.tmp", File (Bytes "draft"))]);
            (".DS_Store", File (Bytes "Bud1"))]
           Sample.verify_env false true true ["thumbs"; "a.jpg"]
           (Bytes "small")
           eq_refl eq_refl eq_refl eq_refl eq_refl eq_refl eq_refl eq_refl
           eq_refl eq_refl
           (apart_below "proj" _ _
              (apart_here "backups" "uploads" _ _ ltac:(discriminate)))
           eq_refl eq_refl eq_refl).
Defined.

(* ================================================================= *)
(** ** deploy.sh and the scripts it runs *)

Lemma bind_ext {A B : Type} (c : sh A) (k1 k2 : A -> sh B) w :
  (forall a w1, k1 a w1 = k2 a w1) -> bind c k1 w = bind c k2 w.
Proof. intros H. unfold bind. destruct (c w); [apply H | reflexivity]. Qed.

(** [main] is its start followed by the stages. *)
Lemma deploy_main_unfold s e o w :
  DeployWorkflow.main s e o w
  = bind (DeployWorkflow.prerequisites e o)
      (fun x => DeployWorkflow.workflow s e o (fst (fst x)) (snd (fst x))
                  (snd x)) w.
Proof.
  unfold DeployWorkflow.main, DeployWorkflow.prerequisites, Deploy.main.
  cbn [Deploy.DEPLOY_DRY_RUN Deploy.DEPLOYMENT_ID Deploy.workflow].
  repeat (rewrite ?bind_assoc; first [reflexivity | apply bind_ext; intros ? ?]).
Qed.

(** In a dry run the start of [main] only reads: it ends the script with
    status 2 or hands on no log file, and the tree is as it was. *)
Lemma prerequisites_dry e o w :
  Deploy.DRY_RUN o || Deploy.DEPLOY_DRY_RUN e = true ->
  (exists w', DeployWorkflow.prerequisites e o w = Exit 2 w' /\ fs w' = fs w)
  \/ (exists source target w',
        DeployWorkflow.prerequisites e o w = Ret (None, source, target) w'
        /\ fs w' = fs w).
Proof.
  intros Hdry.
  unfold DeployWorkflow.prerequisites, Deploy.setup_deployment_logging,
    Deploy.load_configuration, Deploy.validate_prerequisites.
  rewrite Hdry. do 3 run_step.
  destruct (Deploy.config_ok e); cbn [negb];
    [|left; run_step; exit_step; eexists; split; reflexivity].
  run_step.
  destruct (Deploy.have_rsync e); cbn [negb];
    [|left; run_step; exit_step; eexists; split; reflexivity].
  destruct (Deploy.have_python3 e); cbn [negb];
    [|left; run_step; exit_step; eexists; split; reflexivity].
  run_step. cbn [fs].
  destruct (test_d (fs w) _); cbn [negb];
    [|left; run_step; exit_step; eexists; split; reflexivity].
  destruct (readable (Deploy.perms e) _); cbn [negb];
    [|left; run_step; exit_step; eexists; split; reflexivity].
  destruct (match Deploy.TARGET_DIR o with
            | Some t => Some t
            | None => Deploy.DIRECTUS_PROD_PATH e
            end) as [target|];
    [|left; run_step; exit_step; eexists; split; reflexivity].
  destruct (test_d (fs w) (dirname target)); cbn [negb];
    [|left; run_step; exit_step; eexists; split; reflexivity].
  right. repeat run_step. eexists _, _, _. split; reflexivity.
Qed.

(** Runs a first step and reads the new state off the record. *)
Ltac run_on := run_step; cbn [fs console Nat.eqb negb].

(** In a dry run the stages run none of the other scripts. *)
Lemma workflow_dry s e o source target w :
  Deploy.DRY_RUN o || Deploy.DEPLOY_DRY_RUN e = true ->
  (forall s',
      DeployWorkflow.SCRIPT_DIR s' = DeployWorkflow.SCRIPT_DIR s ->
      DeployWorkflow.started s' = DeployWorkflow.started s ->
      DeployWorkflow.workflow s' e o None source target w
      = DeployWorkflow.workflow s e o None source target w)
  /\ exists w',
      DeployWorkflow.workflow s e o None source target w = Exit 0 w'
      /\ fs w' = fs w.
Proof.
  intros Hdry. split.
  - intros s' Hsd Hst.
    unfold DeployWorkflow.workflow, DeployWorkflow.run_pre_deployment_checks,
      DeployWorkflow.create_backup, DeployWorkflow.perform_deployment,
      DeployWorkflow.run_post_deployment_validation,
      DeployWorkflow.generate_deployment_summary.
    cbv zeta. rewrite Hdry. cbv beta iota. rewrite Hsd, Hst.
    apply bind_ext. intros [] w1. apply bind_ext. intros created w2.
    do 6 run_on. cbn [Nat.eqb]. do 4 run_on. cbn [Nat.eqb].
    destruct created; reflexivity.
  - unfold DeployWorkflow.workflow, DeployWorkflow.run_pre_deployment_checks,
      DeployWorkflow.create_backup, DeployWorkflow.perform_deployment,
      DeployWorkflow.run_post_deployment_validation,
      DeployWorkflow.generate_deployment_summary,
      DeployWorkflow.cleanup_deployment.
    cbv zeta. rewrite Hdry. cbv beta iota.
    destruct (Deploy.SKIP_CHECKS o), (Deploy.SKIP_BACKUP o);
      repeat run_on; eexists; split; reflexivity.
Qed.

(** X21.  A dry run of deploy.sh (--dry-run or DEPLOY_DRY_RUN=true) runs
    none of the other scripts, whatever they are, and leaves the file system
    as it was; it ends with status 0, or with status 2 when the
    configuration, a tool, the source or the parent of the target is
    missing. *)
Theorem deployment_dry_run_runs_no_script s s' e o w :
  Deploy.DRY_RUN o || Deploy.DEPLOY_DRY_RUN e = true ->
  DeployWorkflow.SCRIPT_DIR s' = DeployWorkflow.SCRIPT_DIR s ->
  DeployWorkflow.started s' = DeployWorkflow.started s ->
  DeployWorkflow.main s' e o w = DeployWorkflow.main s e o w
  /\ fs (final (DeployWorkflow.main s e o w)) = fs w
  /\ (exit_code (DeployWorkflow.main s e o w) = 0
      \/ exit_code (DeployWorkflow.main s e o w) = 2).
Proof.
  intros Hdry Hsd Hst. rewrite !deploy_main_unfold.
  destruct (prerequisites_dry e o w Hdry)
    as [(w' & E & F)|(source & target & w' & E & F)].
  - rewrite !(bind_exits _ _ _ _ _ E). cbn. auto.
  - rewrite !(bind_runs _ _ _ _ _ E). cbn [fst snd].
    destruct (workflow_dry s e o source target w' Hdry)
      as (Hs & w2 & E2 & F2).
    rewrite (Hs s' Hsd Hst), E2. cbn. split; [reflexivity|].
    split; [congruence | now left].
Qed.

Lemma deployment_dry_run_witness :
  let o := Cases.deploy_options true false in
  let w := mkWorld Cases.deploy_disk [] in
  let s' := DeployWorkflow.mkSetup ["proj"; "scripts"; "deployment"]
              "Thu Jan  2 00:00:00 UTC 2025"
              (fun _ _ w => (1, w)) (fun w => (1, w)) (fun _ w => (1, w))
              (fun _ _ _ w => (1, w)) (fun _ _ _ _ w => (1, w))
              (fun _ w => (1, w)) None in
  Deploy.DRY_RUN o || Deploy.DEPLOY_DRY_RUN Cases.deploy_env = true
  /\ DeployWorkflow.main s' Cases.deploy_env o w
     = DeployWorkflow.main Cases.idle_scripts Cases.deploy_env o w
  /\ fs (final (DeployWorkflow.main Cases.idle_scripts Cases.deploy_env o w))
     = fs w
  /\ (exit_code (DeployWorkflow.main Cases.idle_scripts Cases.deploy_env o w)
      = 0
      \/ exit_code
           (DeployWorkflow.main Cases.idle_scripts Cases.deploy_env o w) = 2).
Proof.
  cbv zeta. split; [reflexivity|].
  apply (deployment_dry_run_runs_no_script Cases.idle_scripts); reflexivity.
Defined.

(** *** The stages of a live deployment *)

Section LiveStages.

Variables (s : DeployWorkflow.setup) (lg : option path)
  (e : Deploy.env) (o : Deploy.options) (source target : path).

Variable force : bool.

Lemma run_pre_deployment_checks_live w :
  (exists w1,
      DeployWorkflow.run_pre_deployment_checks s lg o false source target w
      = Exit 2 w1)
  \/ (exists w1,
        DeployWorkflow.run_pre_deployment_checks s lg o false source target w
        = Ret tt w1
        /\ checks_passed s lg o source target w).
Proof.
  unfold DeployWorkflow.run_pre_deployment_checks, checks_passed,
    checks_start.
  destruct (Deploy.SKIP_CHECKS o).
  - right. eexists. split; [reflexivity | discriminate].
  - do 2 run_on.
    match goal with
    | |- context [Nat.eqb (fst ?x) 0] => destruct (Nat.eqb (fst x) 0) eqn:E
    end; cbn [negb].
    + right. eexists. split; [reflexivity|]. intros _.
      apply Nat.eqb_eq in E. exact E.
    + left. run_on. eexists. reflexivity.
Qed.

Lemma create_backup_live w :
  (exists w1,
      DeployWorkflow.create_backup s lg e o false target w = Exit 3 w1)
  \/ (exists created w1,
        DeployWorkflow.create_backup s lg e o false target w = Ret created w1
        /\ database_backed_up s lg o w
        /\ (Deploy.SKIP_BACKUP o = true -> created = DeployWorkflow.NoBackup)).
Proof.
  unfold DeployWorkflow.create_backup, database_backed_up, backup_start.
  destruct (Deploy.SKIP_BACKUP o).
  - right. repeat run_on. eexists _, _.
    split; [reflexivity|]. split; [discriminate | reflexivity].
  - do 2 run_on.
    match goal with
    | |- context [Nat.eqb (fst ?x) 0] => destruct (Nat.eqb (fst x) 0) eqn:E
    end; cbn [negb]; [|left; run_on; eexists; reflexivity].
    run_on.
    match goal with
    | |- context [if test_d ?t ?p then _ else _] => destruct (test_d t p)
    end.
    + run_on.
      match goal with
      | |- context [Nat.eqb (fst ?x) 0] => destruct (Nat.eqb (fst x) 0)
      end; cbn [negb]; [|left; run_on; exit_step; eexists; reflexivity].
      right. repeat run_on. eexists _, _. split; [reflexivity|].
      split; [|discriminate]. intros _. apply Nat.eqb_eq in E. exact E.
    + right. repeat run_on. eexists _, _. split; [reflexivity|].
      split; [|discriminate]. intros _. apply Nat.eqb_eq in E. exact E.
Qed.

Lemma perform_deployment_live w :
  exists d w1,
    DeployWorkflow.perform_deployment s lg false force source target w
    = Ret d w1
    /\ (d = 0 \/ d = 1)
    /\ (d = 0 -> code_synced s lg force source target w
                 /\ extensions_deployed s lg force source target w).
Proof.
  unfold DeployWorkflow.perform_deployment, code_synced, extensions_deployed,
    extensions_start, sync_start.
  do 3 run_on.
  match goal with
  | |- context [Nat.eqb (fst ?x) 0] => destruct (Nat.eqb (fst x) 0) eqn:E1
  end; cbn [negb].
  - do 2 run_on.
    match goal with
    | |- context [Nat.eqb (fst ?x) 0] => destruct (Nat.eqb (fst x) 0) eqn:E2
    end; cbn [negb].
    + run_on. eexists _, _. split; [reflexivity|]. split; [now left|].
      intros _. apply Nat.eqb_eq in E1, E2.
      split; [exact E1 | exact E2].
    + run_on. eexists _, _. split; [reflexivity|].
      split; [now right | discriminate].
  - run_on. eexists _, _. split; [reflexivity|].
    split; [now right | discriminate].
Qed.

Lemma run_post_deployment_validation_live w :
  exists v w1,
    DeployWorkflow.run_post_deployment_validation s lg false target w
    = Ret v w1
    /\ (v = 0 -> deployment_validated s lg target w).
Proof.
  unfold DeployWorkflow.run_post_deployment_validation, deployment_validated,
    validation_start.
  do 2 run_on.
  match goal with
  | |- context [Nat.eqb (fst ?x) 0] => destruct (Nat.eqb (fst x) 0) eqn:E
  end; cbn [negb]; run_on; eexists _, _; (split; [reflexivity|]).
  - intros _. apply Nat.eqb_eq in E. exact E.
  - discriminate.
Qed.

Lemma handle_deployment_failure_returns created reason :
  returns (DeployWorkflow.handle_deployment_failure s lg o created target
             reason).
Proof.
  intros w. unfold DeployWorkflow.handle_deployment_failure.
  run_on.
  destruct created as [| |backup]; [repeat run_on; eexists _, _; reflexivity
                                   |repeat run_on; eexists _, _; reflexivity|].
  destruct (Deploy.ROLLBACK_ON_FAILURE o);
    [|repeat run_on; eexists _, _; reflexivity].
  run_on.
  destruct (DeployWorkflow.rollback s) as [script|];
    [|repeat run_on; eexists _, _; reflexivity].
  run_on.
  match goal with
  | |- context [Nat.eqb (fst ?x) 0] => destruct (Nat.eqb (fst x) 0)
  end; repeat run_on; eexists _, _; reflexivity.
Qed.

Lemma generate_deployment_summary_returns created :
  returns (DeployWorkflow.generate_deployment_summary s lg e false source
             target created).
Proof.
  intros w. unfold DeployWorkflow.generate_deployment_summary.
  destruct created, lg; repeat run_on; eexists _, _; reflexivity.
Qed.

(** A live run of the stages ends the script; the status tells how far
    it came: with status 0 or 4 every stage up to the deployment has run,
    each from the state in which the stage before it ended, and its script
    has returned 0. *)
Lemma workflow_live w :
  Deploy.DRY_RUN o || Deploy.DEPLOY_DRY_RUN e = false ->
  force = Deploy.FORCE o || Deploy.DEPLOY_FORCE e ->
  exists n w',
    DeployWorkflow.workflow s e o lg source target w = Exit n w'
    /\ (n = 0 \/ n = 1 \/ n = 2 \/ n = 3 \/ n = 4)
    /\ (n = 0 \/ n = 4 ->
        exists w1 created w2 w3,
          DeployWorkflow.run_pre_deployment_checks s lg o false source target
            w = Ret tt w1
          /\ checks_passed s lg o source target w
          /\ DeployWorkflow.create_backup s lg e o false target w1
             = Ret created w2
          /\ database_backed_up s lg o w1
          /\ DeployWorkflow.perform_deployment s lg false force source target
               w2 = Ret 0 w3
          /\ code_synced s lg force source target w2
          /\ extensions_deployed s lg force source target w2
          /\ (n = 0 -> deployment_validated s lg target w3)).
Proof.
  intros Hdry Hforce. unfold DeployWorkflow.workflow. cbv zeta. rewrite Hdry.
  rewrite <- Hforce.
  destruct (run_pre_deployment_checks_live w) as [(w1 & E1)|(w1 & E1 & G1)].
  { rewrite (bind_exits _ _ _ _ _ E1). exists 2, w1.
    split; [reflexivity|]. split; [auto|].
    intros [H|H]; discriminate. }
  rewrite (bind_runs _ _ _ _ _ E1).
  destruct (create_backup_live w1) as [(w2 & E2)|(created & w2 & E2 & G2 & _)].
  { rewrite (bind_exits _ _ _ _ _ E2). exists 3, w2.
    split; [reflexivity|]. split; [auto 6|].
    intros [H|H]; discriminate. }
  rewrite (bind_runs _ _ _ _ _ E2).
  destruct (perform_deployment_live w2) as (d & w3 & E3 & Hd & G3).
  rewrite (bind_runs _ _ _ _ _ E3).
  destruct Hd as [-> | ->]; cbn [Nat.eqb].
  - destruct (G3 eq_refl) as [Gs Ge].
    destruct (run_post_deployment_validation_live w3) as (v & w4 & E4 & G4).
    rewrite (bind_runs _ _ _ _ _ E4).
    destruct v as [|v]; cbn [Nat.eqb].
    + run_on.
      match goal with
      | |- context [bind (DeployWorkflow.generate_deployment_summary
                            _ _ _ _ _ _ _) _ ?w0] =>
          destruct (generate_deployment_summary_returns created w0)
            as ([] & w5 & E5)
      end.
      rewrite (bind_runs _ _ _ _ _ E5). cbn [DeployWorkflow.cleanup_deployment].
      run_on. exists 0. eexists. split; [reflexivity|].
      split; [auto|]. intros _. exists w1, created, w2, w3.
      repeat split; assumption.
    + destruct (handle_deployment_failure_returns created
                  "post-deployment validation failed" w4) as ([] & w5 & E5).
      rewrite (bind_runs _ _ _ _ _ E5). exists 4. eexists.
      split; [reflexivity|]. split; [auto 6|].
      intros _. exists w1, created, w2, w3.
      repeat split; try assumption; discriminate.
  - destruct (handle_deployment_failure_returns created
                "deployment process failed" w3) as ([] & w4 & E4).
    rewrite (bind_runs _ _ _ _ _ E4). exists 1. eexists.
    split; [reflexivity|]. split; [auto|].
    intros [H|H]; discriminate.
Qed.

End LiveStages.

Lemma ends_with_returns {A : Type} P (c : sh A) : returns c -> ends_with P c.
Proof.
  intros H w n w' E. destruct (H w) as (a & w1 & E1). congruence.
Qed.

Lemma deploy_log_returns lg text : returns (Deploy.log lg text).
Proof. intros w. eexists _, _. reflexivity. Qed.

Lemma deploy_error_log_returns lg text : returns (Deploy.error_log lg text).
Proof. intros w. eexists _, _. reflexivity. Qed.

(** The start of [main] ends the script with status 1 (the log file cannot
    be set up) or 2 only. *)
Lemma prerequisites_ends_with e o :
  ends_with (fun n => n = 1 \/ n = 2) (DeployWorkflow.prerequisites e o).
Proof.
  unfold DeployWorkflow.prerequisites, Deploy.setup_deployment_logging,
    Deploy.load_configuration, Deploy.validate_prerequisites.
  repeat first
    [ apply ends_with_returns, deploy_log_returns
    | apply ends_with_returns, deploy_error_log_returns
    | apply ends_with_ret
    | apply ends_with_exit; cbn; solve [auto]
    | apply ends_with_must; cbn; solve [auto]
    | apply ends_with_quiet; solve [quiet_cases]
    | apply ends_with_bind; [ | intros ? ]
    | match goal with
      | |- ends_with _ (if ?b then _ else _) => destruct b
      | |- ends_with _ (match ?x with _ => _ end) => destruct x
      end ].
Qed.

(** X22.  What the status of a live deploy.sh stands for.  Status 0 or 4
    is reached only by a run in which the start of the script has returned
    the log file, the source and the target, and the stages have followed
    one another, each from the state in which the one before it ended: the
    pre-deployment checks, the backup and the deployment have returned, the
    deployment with status 0; and in the state in which its stage ran it,
    after the log lines of the stage, pre-deployment-checks.sh (unless
    skipped), backup-database.sh (unless skipped), sync-code.sh and
    deploy-extensions.sh (which starts where sync-code.sh ended) have each
    returned 0.  Status 0 is reached only when post-deployment-validation.sh
    has returned 0 as well, in the state in which the deployment ended. *)
Theorem deployment_status_vouches_for_the_stages s e o w :
  Deploy.DRY_RUN o || Deploy.DEPLOY_DRY_RUN e = false ->
  exit_code (DeployWorkflow.main s e o w) = 0
  \/ exit_code (DeployWorkflow.main s e o w) = 4 ->
  let force := Deploy.FORCE o || Deploy.DEPLOY_FORCE e in
  exists lg source target w0 w1 created w2 w3,
    DeployWorkflow.prerequisites e o w = Ret (lg, source, target) w0
    /\ DeployWorkflow.run_pre_deployment_checks s lg o false source target w0
       = Ret tt w1
    /\ checks_passed s lg o source target w0
    /\ DeployWorkflow.create_backup s lg e o false target w1 = Ret created w2
    /\ database_backed_up s lg o w1
    /\ DeployWorkflow.perform_deployment s lg false force source target w2
       = Ret 0 w3
    /\ code_synced s lg force source target w2
    /\ extensions_deployed s lg force source target w2
    /\ (exit_code (DeployWorkflow.main s e o w) = 0 ->
        deployment_validated s lg target w3).
Proof.
  intros Hdry. rewrite deploy_main_unfold. cbv zeta.
  destruct (DeployWorkflow.prerequisites e o w)
    as [[[lg source] target] w0|n w0] eqn:E.
  - rewrite (bind_runs _ _ _ _ _ E). cbn [fst snd].
    destruct (workflow_live s lg e o source target _ w0 Hdry eq_refl)
      as (n & w' & -> & _ & G).
    cbn [exit_code]. intros Hn.
    destruct (G Hn) as (w1 & created & w2 & w3 & G').
    exists lg, source, target, w0, w1, created, w2, w3.
    split; [reflexivity | exact G'].
  - rewrite (bind_exits _ _ _ _ _ E). cbn [exit_code].
    destruct (prerequisites_ends_with e o w n w0 E) as [-> | ->];
      intros [H|H]; discriminate.
Qed.

Lemma deployment_status_witness :
  let s := Cases.idle_scripts in
  let e := Cases.deploy_env in
  let o := Cases.deploy_options false false in
  let w := mkWorld Cases.deploy_disk [] in
  let force := Deploy.FORCE o || Deploy.DEPLOY_FORCE e in
  (Deploy.DRY_RUN o || Deploy.DEPLOY_DRY_RUN e = false
   /\ exit_code (DeployWorkflow.main s e o w) = 0)
  /\ exists lg source target w0 w1 created w2 w3,
       DeployWorkflow.prerequisites e o w = Ret (lg, source, target) w0
       /\ DeployWorkflow.run_pre_deployment_checks s lg o false source target
            w0 = Ret tt w1
       /\ checks_passed s lg o source target w0
       /\ DeployWorkflow.create_backup s lg e o false target w1
          = Ret created w2
       /\ database_backed_up s lg o w1
       /\ DeployWorkflow.perform_deployment s lg false force source target w2
          = Ret 0 w3
       /\ code_synced s lg force source target w2
       /\ extensions_deployed s lg force source target w2
       /\ (exit_code (DeployWorkflow.main s e o w) = 0 ->
           deployment_validated s lg target w3).
Proof.
  cbv zeta. split; [split; [reflexivity | vm_compute; reflexivity]|].
  apply deployment_status_vouches_for_the_stages;
    [reflexivity | left; vm_compute; reflexivity].
Defined.

(** X23.  deploy.sh with sync-code.sh as its code sync never completes a
    live deployment: it runs sync-code.sh with staging, which never returns
    0 in a live run (with or without --verbose), so that whatever the other
    scripts do the status of deploy.sh is 1, 2 or 3, and never 0. *)
Theorem live_deployment_never_succeeds s e o w se verbose :
  Deploy.DRY_RUN o || Deploy.DEPLOY_DRY_RUN e = false ->
  SyncCode.DEPLOY_DRY_RUN se = false ->
  (forall force source target,
      DeployWorkflow.sync_code s force source target
      = DeployWorkflow.bash
          (SyncCode.main se
             (SyncCode.mkOptions (Some source) (Some target) false verbose
                force true))) ->
  exit_code (DeployWorkflow.main s e o w) = 1
  \/ exit_code (DeployWorkflow.main s e o w) = 2
  \/ exit_code (DeployWorkflow.main s e o w) = 3.
Proof.
  intros Hdry Hse Hsync. rewrite deploy_main_unfold.
  destruct (DeployWorkflow.prerequisites e o w)
    as [[[lg source] target] w1|n w1] eqn:E.
  - rewrite (bind_runs _ _ _ _ _ E). cbn [fst snd].
    destruct (workflow_live s lg e o source target _ w1 Hdry eq_refl)
      as (n & w' & -> & Hn & G1).
    cbn [exit_code].
    assert (Hno : ~ (n = 0 \/ n = 4)).
    { intros H.
      destruct (G1 H) as (wa & created & wb & wc & _ & _ & _ & _ & _ & Hs & _).
      unfold code_synced in Hs.
      rewrite Hsync in Hs. unfold DeployWorkflow.bash in Hs. cbn [fst] in Hs.
      destruct (staged_sync_exits se
                  (SyncCode.mkOptions (Some source) (Some target) false
                     verbose (Deploy.FORCE o || Deploy.DEPLOY_FORCE e) true)
                  (sync_start lg wb) eq_refl Hse) as (m & w2 & Em & Hm & _).
      rewrite Em in Hs. cbn [exit_code] in Hs. contradiction. }
    destruct Hn as [->|[->|[->|[->| ->]]]]; auto; exfalso; apply Hno; auto.
  - rewrite (bind_exits _ _ _ _ _ E). cbn [exit_code].
    destruct (prerequisites_ends_with e o w n w1 E) as [-> | ->]; auto.
Qed.

Lemma live_deployment_witness :
  let s := Cases.staged_sync_scripts in
  let e := Cases.deploy_env in
  let o := Cases.deploy_options false false in
  let w := mkWorld Cases.deploy_disk [] in
  Deploy.DRY_RUN o || Deploy.DEPLOY_DRY_RUN e = false
  /\ SyncCode.DEPLOY_DRY_RUN Cases.default_sync_env = false
  /\ (exit_code (DeployWorkflow.main s e o w) = 1
      \/ exit_code (DeployWorkflow.main s e o w) = 2
      \/ exit_code (DeployWorkflow.main s e o w) = 3).
Proof.
  cbv zeta. split; [reflexivity|]. split; [reflexivity|].
  apply (live_deployment_never_succeeds Cases.staged_sync_scripts
           Cases.deploy_env (Cases.deploy_options false false)
           (mkWorld Cases.deploy_disk []) Cases.default_sync_env false);
    [reflexivity | reflexivity | intros; reflexivity].
Defined.

(** X24.  With --skip-backup, deploy.sh never runs rollback.sh: whatever
    fails later, and although rollback on failure is on by default, the run
    is the same whatever rollback.sh would do, since no backup has been
    recorded to roll back to. *)
Theorem skipped_backup_means_no_rollback s e o w r :
  Deploy.SKIP_BACKUP o = true ->
  DeployWorkflow.main
    (DeployWorkflow.mkSetup (DeployWorkflow.SCRIPT_DIR s)
       (DeployWorkflow.started s) (DeployWorkflow.pre_deployment_checks s)
       (DeployWorkflow.backup_database s) (DeployWorkflow.backup_files s)
       (DeployWorkflow.sync_code s) (DeployWorkflow.deploy_extensions s)
       (DeployWorkflow.post_deployment_validation s) r) e o w
  = DeployWorkflow.main s e o w.
Proof.
  intros Hskip. rewrite !deploy_main_unfold. apply bind_ext.
  intros [[lg source] target] w1. cbn [fst snd].
  unfold DeployWorkflow.workflow. cbv zeta.
  apply bind_ext. intros [] w2.
  unfold DeployWorkflow.create_backup. rewrite Hskip.
  do 4 run_on.
  apply bind_ext. intros d w3.
  destruct (Nat.eqb d 0); [|reflexivity].
  apply bind_ext. intros v w4.
  destruct (Nat.eqb v 0); reflexivity.
Qed.

Lemma skipped_backup_witness :
  let s := Cases.idle_scripts in
  let e := Cases.deploy_env in
  let o := Cases.deploy_options false true in
  let w := mkWorld Cases.deploy_disk [] in
  Deploy.SKIP_BACKUP o = true
  /\ DeployWorkflow.main
       (DeployWorkflow.mkSetup (DeployWorkflow.SCRIPT_DIR s)
          (DeployWorkflow.started s) (DeployWorkflow.pre_deployment_checks s)
          (DeployWorkflow.backup_database s) (DeployWorkflow.backup_files s)
          (DeployWorkflow.sync_code s) (DeployWorkflow.deploy_extensions s)
          (DeployWorkflow.post_deployment_validation s) None) e o w
     = DeployWorkflow.main s e o w.
Proof.
  cbv zeta. split; [reflexivity|].
  apply skipped_backup_means_no_rollback. reflexivity.
Defined.

(** When the checks fail in the state in which the stage runs them, the
    stages end with status 2 right after them. *)
Lemma workflow_of_failed_checks s e o lg source target w :
  Deploy.DRY_RUN o || Deploy.DEPLOY_DRY_RUN e = false ->
  Deploy.SKIP_CHECKS o = false ->
  fst (DeployWorkflow.pre_deployment_checks s source target
         (checks_start lg w)) <> 0 ->
  DeployWorkflow.workflow s e o lg source target w
  = Exit 2
      (final ((Deploy.log lg "Running pre-deployment checks..." ;;
               _ <- DeployWorkflow.run
                      (DeployWorkflow.pre_deployment_checks s source target) ;;
               Deploy.error_log lg "Pre-deployment checks failed") w)).
Proof.
  intros Hdry Hskip Hfail.
  unfold DeployWorkflow.workflow, DeployWorkflow.run_pre_deployment_checks.
  cbv zeta. rewrite Hdry, Hskip. do 2 run_on.
  match goal with
  | |- context [Nat.eqb (fst ?x) 0] =>
      replace (Nat.eqb (fst x) 0) with false
        by (symmetry; apply Nat.eqb_neq; exact Hfail)
  end.
  cbn [negb]. run_on. exit_step. reflexivity.
Qed.

(** X25.  Failed pre-deployment checks stop a live deploy.sh before
    anything else is run: when pre-deployment-checks.sh returns a status
    that is not 0 in the state in which deploy.sh runs it, deploy.sh ends
    with status 2 (or with 1 or 2 before it gets there), and the run is the
    same whatever the backup, sync, extension, validation and rollback
    scripts would do. *)
Theorem failed_checks_stop_the_deployment s s' e o w :
  Deploy.DRY_RUN o || Deploy.DEPLOY_DRY_RUN e = false ->
  Deploy.SKIP_CHECKS o = false ->
  (forall lg source target w0,
      DeployWorkflow.prerequisites e o w = Ret (lg, source, target) w0 ->
      fst (DeployWorkflow.pre_deployment_checks s source target
             (checks_start lg w0)) <> 0) ->
  DeployWorkflow.pre_deployment_checks s'
  = DeployWorkflow.pre_deployment_checks s ->
  DeployWorkflow.main s' e o w = DeployWorkflow.main s e o w
  /\ (exit_code (DeployWorkflow.main s e o w) = 1
      \/ exit_code (DeployWorkflow.main s e o w) = 2).
Proof.
  intros Hdry Hskip Hfail Hsame. rewrite !deploy_main_unfold.
  destruct (DeployWorkflow.prerequisites e o w)
    as [[[lg source] target] w1|n w1] eqn:E.
  - rewrite !(bind_runs _ _ _ _ _ E). cbn [fst snd].
    rewrite (workflow_of_failed_checks s e o lg source target w1 Hdry Hskip
               (Hfail lg source target w1 eq_refl)).
    rewrite (workflow_of_failed_checks s' e o lg source target w1 Hdry Hskip)
      by (rewrite Hsame; exact (Hfail lg source target w1 eq_refl)).
    rewrite Hsame. cbn [exit_code]. auto.
  - rewrite !(bind_exits _ _ _ _ _ E). cbn [exit_code].
    split; [reflexivity|]. exact (prerequisites_ends_with e o w n w1 E).
Qed.

Lemma failed_checks_witness :
  let s := DeployWorkflow.mkSetup ["proj"; "scripts"; "deployment"]
             "Thu Jan  2 00:00:00 UTC 2025"
             (fun _ _ w => (List.length (console w), w))
             (fun w => (0, w)) (fun _ w => (0, w))
             (fun _ _ _ w => (0, w)) (fun _ _ _ _ w => (0, w))
             (fun _ w => (0, w)) None in
  let s' := DeployWorkflow.mkSetup ["proj"; "scripts"; "deployment"]
              "Thu Jan  2 00:00:00 UTC 2025"
              (fun _ _ w => (List.length (console w), w))
              (fun w => (1, w)) (fun _ w => (1, w))
              (fun _ _ _ w => (1, w)) (fun _ _ _ _ w => (1, w))
              (fun _ w => (1, w)) None in
  let e := Cases.deploy_env in
  let o := Cases.deploy_options false false in
  let w := mkWorld Cases.deploy_disk [] in
  (Deploy.DRY_RUN o || Deploy.DEPLOY_DRY_RUN e = false
   /\ Deploy.SKIP_CHECKS o = false
   /\ (exists lg source target w0,
          DeployWorkflow.prerequisites e o w = Ret (lg, source, target) w0
          /\ fst (DeployWorkflow.pre_deployment_checks s source target
                    (checks_start lg w0)) <> 0)
   /\ fst (DeployWorkflow.pre_deployment_checks s ["proj"] ["prod"] w) = 0)
  /\ DeployWorkflow.main s' e o w = DeployWorkflow.main s e o w
  /\ (exit_code (DeployWorkflow.main s e o w) = 1
      \/ exit_code (DeployWorkflow.main s e o w) = 2).
Proof.
  cbv zeta. split.
  - split; [reflexivity|]. split; [reflexivity|]. split; [|reflexivity].
    eexists _, _, _, _. split; [vm_compute; reflexivity|].
    vm_compute. discriminate.
  - apply failed_checks_stop_the_deployment;
      [reflexivity | reflexivity | | reflexivity].
    intros lg source target w0 E. vm_compute in E.
    injection E as <- <- <- <-. vm_compute. discriminate.
Defined.

(* ================================================================= *)
(** ** rollback.sh: what [perform_rollback] leaves in the target *)

Lemma append_cancel n a b : (n ++ a)%string = (n ++ b)%string -> a = b.
Proof.
  induction n as [|c n IH]; cbn; [auto|]. intros H. injection H as H. auto.
Qed.

Lemma path_suffix_child p n s : path_suffix (p // n) s = p // (n ++ s)%string.
Proof.
  unfold child. induction p as [|m p IH]; [reflexivity|].
  destruct p as [|k p]; [reflexivity|].
  change (path_suffix (m :: k :: (p ++ [n])%list) s
          = m :: ((k :: p) ++ [(n ++ s)%string])%list).
  rewrite path_suffix_cons. f_equal. exact IH.
Qed.

Lemma lookup_unlink_same t p : p <> [] -> lookup (unlink t p) p = None.
Proof.
  revert t. induction p as [|n p IH]; intros t Hp; [contradiction|].
  destruct t as [c|es]; [reflexivity|].
  destruct p as [|m p].
  - cbn. now rewrite assoc_remove_entry_same.
  - cbn [unlink]. destruct (assoc n es) as [c|] eqn:En.
    + cbn [lookup]. rewrite assoc_set_entry_same. apply IH. discriminate.
    + cbn [lookup]. now rewrite En.
Qed.

(** Removing an entry leaves its directory a directory. *)
Lemma lookup_unlink_parent t p n es :
  lookup t p = Some (Dir es) ->
  lookup (unlink t (p // n)) p = Some (Dir (remove_entry n es)).
Proof.
  unfold child. revert t. induction p as [|m p IH]; intros t H.
  - cbn in H. injection H as ->. reflexivity.
  - destruct t as [c|ds]; [discriminate|]. cbn [lookup] in H.
    destruct (assoc m ds) as [c|] eqn:Em; [|discriminate].
    specialize (IH c H).
    destruct p as [|k p]; cbn [app unlink]; rewrite Em; cbn [lookup];
      rewrite assoc_set_entry_same; exact IH.
Qed.

(** A copy made by [cp -r] of what was not there is the original. *)
Lemma rsync_node_copy x d :
  match d with Some (Dir (_ :: _)) => False | _ => True end ->
  rsync_node false [] x d = x.
Proof.
  revert d. induction x as [c|es IH] using node_ind; intros d Hd;
    [reflexivity|].
  assert (Hds : match d with Some (Dir ds) => ds | _ => [] end = [])
    by (destruct d as [[c|[|y ds]]|]; try reflexivity; contradiction).
  cbn [rsync_node]. rewrite Hds. cbn [filter]. rewrite app_nil_r. f_equal.
  induction es as [|[n y] es IHes]; [reflexivity|].
  cbn [transfer excluded]. inversion IH as [|? ? Hy Hes]; subst.
  cbn [snd] in Hy. rewrite (Hy (assoc n []) I). f_equal. exact (IHes Hes).
Qed.

(** [mv] of an entry to a new name in its directory. *)
Lemma mv_rename t p n m x :
  lookup t (p // n) = Some x ->
  lookup t (p // m) = None ->
  n <> m ->
  exists t',
    mv t (p // n) (p // m) = Some t'
    /\ lookup t' (p // m) = Some x
    /\ lookup t' (p // n) = None
    /\ forall q, apart (p // n) q -> apart (p // m) q ->
                 lookup t' q = lookup t q.
Proof.
  intros Hx Hm Hne.
  pose proof (lookup_child_parent _ _ _ _ Hx) as Hd. unfold test_d in Hd.
  destruct (lookup t p) as [[c|es]|] eqn:Ep; try discriminate. clear Hd.
  destruct (put_child (unlink t (p // n)) p _ m x
              (lookup_unlink_parent t p n es Ep)) as (t' & P & _).
  exists t'. unfold mv, test_d. rewrite Hx, Hm. cbv zeta iota. rewrite Hm.
  split; [now destruct x|].
  split; [exact (lookup_put_same _ _ _ _ P)|].
  split.
  - rewrite (lookup_put_apart _ _ _ _ _ P) by (apply apart_child; congruence).
    apply lookup_unlink_same. unfold child. now destruct p.
  - intros q Hn Hq. rewrite (lookup_put_apart _ _ _ _ _ P Hq).
    exact (lookup_unlink_apart _ _ _ Hn).
Qed.

(** [cp -r] of a directory to a name that is free in an existing
    directory. *)
Lemma cp_r_fresh t src p n x es :
  lookup t src = Some x ->
  lookup t p = Some (Dir es) ->
  assoc n es = None ->
  exists t',
    cp_r t src (p // n) = Some t'
    /\ lookup t' p = Some (Dir (set_entry n x es)).
Proof.
  intros Hx Hp Hn.
  assert (Hq : lookup t (p // n) = None)
    by (unfold child; rewrite lookup_app, Hp; cbn; now rewrite Hn).
  destruct (put_child t p es n x Hp) as (t' & P & L).
  exists t'. unfold cp_r, test_d. rewrite Hx, Hq. cbv zeta iota.
  rewrite Hq. unfold overlay.
  rewrite (rsync_node_copy x None I). split; [now destruct x | exact L].
Qed.

Lemma rollback_log_runs logs lg text w :
  in_logs logs lg ->
  exists w',
    Rollback.log lg text w = Ret tt w'
    /\ console w' = (console w ++ [Out text])%list
    /\ forall q, apart logs q -> lookup (fs w') q = lookup (fs w) q.
Proof.
  intros Hlg. eexists. split; [reflexivity|]. split; [reflexivity|].
  intros q Ha. exact (rollback_log_keeps logs lg text Hlg w q Ha).
Qed.

(** One directory of the target is copied into the staging tree, which has
    no entry of that name. *)
Lemma preserve_runs target staging dir ts ss w :
  lookup (fs w) target = Some (Dir ts) ->
  lookup (fs w) staging = Some (Dir ss) ->
  assoc dir ss = None ->
  exists w',
    Rollback.preserve target staging dir w = Ret tt w'
    /\ console w' = console w
    /\ lookup (fs w') staging
       = Some (Dir (match assoc dir ts with
                    | Some (Dir x) => set_entry dir (Dir x) ss
                    | _ => ss
                    end))
    /\ forall q, apart staging q -> lookup (fs w') q = lookup (fs w) q.
Proof.
  intros HT HS Hn. unfold Rollback.preserve. run_on.
  assert (Hd : lookup (fs w) (target // dir)
               = assoc dir ts)
    by (unfold child; rewrite lookup_app, HT; cbn;
        now destruct (assoc dir ts)).
  unfold test_d. rewrite Hd.
  destruct (assoc dir ts) as [[c|x]|] eqn:Ed;
    try (exists w; repeat split; assumption).
  destruct (cp_r_fresh (fs w) (target // dir) staging dir (Dir x) ss Hd HS Hn)
    as (t' & C & L).
  try_step C. eexists. split; [reflexivity|].
  split; [reflexivity|]. split; [exact L|].
  intros q Ha. cbn [fs]. apply (cp_r_apart _ _ _ _ _ C).
  apply apart_app. exact Ha.
Qed.

(** The names next to the target that [perform_rollback] uses differ from
    the name of the target and from one another. *)
Lemma staging_names name :
  (name ++ ".rollback-staging")%string <> name
  /\ (name ++ ".pre-rollback-temp")%string <> name
  /\ (name ++ ".rollback-staging")%string
     <> (name ++ ".pre-rollback-temp")%string.
Proof.
  repeat split; intros H.
  - apply append_nonempty in H. discriminate.
  - apply append_nonempty in H. discriminate.
  - apply append_cancel in H. discriminate.
Qed.

(** The end of [perform_rollback] on a staging tree that has no [data] and
    no [uploads] of its own: the two directories of the target are copied
    into it, the target is moved aside and the staging tree takes its
    place. *)
Lemma promote_runs logs lg parent name ts ss w :
  in_logs logs lg ->
  apart logs (parent // name) ->
  apart logs (parent // (name ++ ".rollback-staging")%string) ->
  apart logs (parent // (name ++ ".pre-rollback-temp")%string) ->
  lookup (fs w) (parent // name) = Some (Dir ts) ->
  lookup (fs w) (parent // (name ++ ".rollback-staging")%string)
  = Some (Dir ss) ->
  lookup (fs w) (parent // (name ++ ".pre-rollback-temp")%string) = None ->
  assoc "data" ss = None ->
  assoc "uploads" ss = None ->
  exists w',
    Rollback.promote lg (parent // name)
      (parent // (name ++ ".rollback-staging")%string) w = Ret 0 w'
    /\ lookup (fs w') (parent // name)
       = Some (Dir (let ss1 := match assoc "data" ts with
                               | Some (Dir x) => set_entry "data" (Dir x) ss
                               | _ => ss
                               end in
                    match assoc "uploads" ts with
                    | Some (Dir x) => set_entry "uploads" (Dir x) ss1
                    | _ => ss1
                    end))
    /\ lookup (fs w') (parent // (name ++ ".pre-rollback-temp")%string)
       = Some (Dir ts).
Proof.
  intros Hlg AT AS AP HT HS HP Hnd Hnu.
  destruct (staging_names name) as (NS & NP & NSP).
  unfold Rollback.promote. rewrite path_suffix_child.
  set (T := parent // name) in *.
  set (S := parent // (name ++ ".rollback-staging")%string) in *.
  set (P := parent // (name ++ ".pre-rollback-temp")%string) in *.
  assert (AST : apart S T) by (apply apart_child; exact NS).
  assert (ASP : apart S P) by (apply apart_child; exact NSP).
  assert (ATS : apart T S) by (apply apart_sym; exact AST).
  assert (APS : apart P S) by (apply apart_sym; exact ASP).
  assert (ATP : apart T P) by (apply apart_child; congruence).
  destruct (rollback_log_runs logs lg "Preserving current data directories..."
              w Hlg) as (w1 & E1 & _ & K1).
  rewrite (bind_runs _ _ _ _ _ E1).
  rewrite <- (K1 _ AT) in HT. rewrite <- (K1 _ AS) in HS.
  rewrite <- (K1 _ AP) in HP.
  destruct (preserve_runs T S "data" ts ss w1 HT HS Hnd)
    as (w2 & E2 & _ & L2 & K2).
  rewrite (bind_runs _ _ _ _ _ E2).
  rewrite <- (K2 _ AST) in HT. rewrite <- (K2 _ ASP) in HP.
  set (ss1 := match assoc "data" ts with
              | Some (Dir x) => set_entry "data" (Dir x) ss
              | _ => ss
              end) in *.
  assert (Hnu1 : assoc "uploads" ss1 = None).
  { unfold ss1. destruct (assoc "data" ts) as [[c|x]|]; try exact Hnu.
    rewrite assoc_set_entry_other by discriminate. exact Hnu. }
  destruct (preserve_runs T S "uploads" ts ss1 w2 HT L2 Hnu1)
    as (w3 & E3 & _ & L3 & K3).
  rewrite (bind_runs _ _ _ _ _ E3).
  rewrite <- (K3 _ AST) in HT. rewrite <- (K3 _ ASP) in HP.
  set (ss2 := match assoc "uploads" ts with
              | Some (Dir x) => set_entry "uploads" (Dir x) ss1
              | _ => ss1
              end) in *.
  destruct (rollback_log_runs logs lg "Performing atomic rollback promotion..."
              w3 Hlg) as (w4 & E4 & _ & K4).
  rewrite (bind_runs _ _ _ _ _ E4).
  rewrite <- (K4 _ AT) in HT. rewrite <- (K4 _ AS) in L3.
  rewrite <- (K4 _ AP) in HP.
  destruct (mv_rename (fs w4) parent name _ (Dir ts) HT HP
              (fun H => NP (eq_sym H)))
    as (t5 & M5 & LP5 & LT5 & K5).
  try_step M5. cbn [fs console].
  rewrite <- (K5 _ ATS APS) in L3.
  destruct (mv_rename t5 parent _ name (Dir ss2) L3 LT5 NS)
    as (t6 & M6 & LT6 & LS6 & K6).
  try_step M6. cbn [fs console].
  assert (LP6 : lookup t6 P = Some (Dir ts))
    by (rewrite (K6 _ ASP ATP); exact LP5).
  match goal with
  | |- context [bind (Rollback.log lg ?text) _ ?w0] =>
      destruct (rollback_log_runs logs lg text w0 Hlg) as (w7 & E7 & _ & K7)
  end.
  rewrite (bind_runs _ _ _ _ _ E7).
  exists w7. split; [reflexivity|].
  rewrite (K7 _ AT), (K7 _ AP). cbn [fs]. split; [exact LT6 | exact LP6].
Qed.

(** A live [perform_rollback] next to whose target neither the staging
    directory nor the temporary backup is there yet, on a backup of either
    shape whose payload brings no [data] and no [uploads]. *)
Lemma perform_rollback_runs logs lg o backup parent name ts bs payload ex w :
  in_logs logs lg ->
  Rollback.DRY_RUN o = false ->
  Rollback.TARGET_DIR o = Some (parent // name) ->
  apart logs (parent // name) ->
  apart logs (parent // (name ++ ".rollback-staging")%string) ->
  apart logs (parent // (name ++ ".pre-rollback-temp")%string) ->
  apart logs backup ->
  apart (parent // (name ++ ".rollback-staging")%string) backup ->
  lookup (fs w) (parent // name) = Some (Dir ts) ->
  lookup (fs w) (parent // (name ++ ".rollback-staging")%string) = None ->
  lookup (fs w) (parent // (name ++ ".pre-rollback-temp")%string) = None ->
  lookup (fs w) payload = Some (Dir bs) ->
  (test_f (fs w) (backup // "package.json") = true
   /\ payload = backup /\ ex = map exclude ["data/"; "uploads/"])
  \/ (test_f (fs w) (backup // "package.json") = false
      /\ payload = backup // "files" /\ ex = []) ->
  forall ss,
    rsync_node false ex (Dir bs) (Some (Dir [])) = Dir ss ->
    assoc "data" ss = None ->
    assoc "uploads" ss = None ->
    exists w',
      Rollback.perform_rollback lg o backup w = Ret 0 w'
      /\ lookup (fs w') (parent // name)
         = Some (Dir (let ss1 := match assoc "data" ts with
                                 | Some (Dir x) => set_entry "data" (Dir x) ss
                                 | _ => ss
                                 end in
                      match assoc "uploads" ts with
                      | Some (Dir x) => set_entry "uploads" (Dir x) ss1
                      | _ => ss1
                      end))
      /\ lookup (fs w') (parent // (name ++ ".pre-rollback-temp")%string)
         = Some (Dir ts).
Proof.
  intros Hlg Hdry Ht AT AS AP AB ASB HT HS HP HB Hshape ss Hss Hnd Hnu.
  destruct (staging_names name) as (NS & NP & NSP).
  unfold Rollback.perform_rollback, Rollback.target_path.
  rewrite Hdry, Ht, path_suffix_child.
  set (T := parent // name) in *.
  set (S := parent // (name ++ ".rollback-staging")%string) in *.
  set (P := parent // (name ++ ".pre-rollback-temp")%string) in *.
  assert (AST : apart S T) by (apply apart_child; exact NS).
  assert (ASP : apart S P) by (apply apart_child; exact NSP).
  assert (ALB : forall r, apart logs (backup ++ r)%list)
    by (intros r; apply apart_sym, apart_app, apart_sym; exact AB).
  assert (ASB' : forall r, apart S (backup ++ r)%list)
    by (intros r; apply apart_sym, apart_app, apart_sym; exact ASB).
  assert (Hpay : exists r, payload = (backup ++ r)%list).
  { destruct Hshape as [(_ & -> & _)|(_ & -> & _)].
    - exists []. now rewrite app_nil_r.
    - now exists ["files"]. }
  destruct Hpay as (rp & Hpay).
  (* log *)
  destruct (rollback_log_runs logs lg "Starting rollback process..." w Hlg)
    as (w1 & E1 & _ & K1).
  rewrite (bind_runs _ _ _ _ _ E1).
  (* mkdir -p staging *)
  assert (Hpar : test_d (fs w1) parent = true).
  { apply (lookup_child_parent _ _ name (Dir ts)).
    change (lookup (fs w1) T = Some (Dir ts)). rewrite (K1 _ AT).
    exact HT. }
  assert (HS1 : lookup (fs w1) S = None) by (rewrite (K1 _ AS); exact HS).
  destruct (mkdir_p_fresh _ _ _ Hpar HS1) as (t2 & M2 & L2).
  fold S in M2, L2.
  try_step M2. cbn [fs console].
  (* log *)
  match goal with
  | |- context [bind (Rollback.log lg ?text) _ ?w0] =>
      destruct (rollback_log_runs logs lg text w0 Hlg) as (w3 & E3 & _ & K3)
  end.
  rewrite (bind_runs _ _ _ _ _ E3). cbn [fs] in K3.
  assert (F3 : forall q, apart logs q -> apart S q ->
                         lookup (fs w3) q = lookup (fs w) q).
  { intros q Hl Hs. rewrite (K3 _ Hl), (mkdir_p_apart _ _ _ _ M2 Hs).
    exact (K1 _ Hl). }
  assert (HT3 : lookup (fs w3) T = Some (Dir ts))
    by (rewrite (F3 _ AT AST); exact HT).
  assert (HP3 : lookup (fs w3) P = None)
    by (rewrite (F3 _ AP ASP); exact HP).
  assert (HS3 : lookup (fs w3) S = Some (Dir []))
    by (rewrite (K3 _ AS); exact L2).
  assert (HB3 : lookup (fs w3) payload = Some (Dir bs))
    by (rewrite Hpay, (F3 _ (ALB rp) (ASB' rp)), <- Hpay; exact HB).
  assert (Hpk : test_f (fs w3) (backup // "package.json")
                = test_f (fs w) (backup // "package.json"))
    by (unfold test_f, child; now rewrite (F3 _ (ALB _) (ASB' _))).
  assert (Hfd : test_d (fs w3) (backup // "files")
                = test_d (fs w) (backup // "files"))
    by (unfold test_d, child; now rewrite (F3 _ (ALB _) (ASB' _))).
  run_on. rewrite Hpk.
  (* rsync into the staging directory *)
  assert (R : rsync false ex (fs w3) payload S
              = put (fs w3) S (Dir ss)).
  { unfold rsync, test_f. rewrite HB3, HS3, Hss. reflexivity. }
  destruct (put_over (fs w3) S (Dir []) (Dir ss) HS3) as (t4 & P4).
  rewrite P4 in R.
  assert (F4 : forall q, apart S q -> lookup t4 q = lookup (fs w3) q)
    by (intros q Hq; exact (lookup_put_apart _ _ _ _ _ P4 Hq)).
  assert (HT4 : lookup t4 T = Some (Dir ts))
    by (rewrite (F4 _ AST); exact HT3).
  assert (HP4 : lookup t4 P = None) by (rewrite (F4 _ ASP); exact HP3).
  pose proof (lookup_put_same _ _ _ _ P4) as HS4.
  assert (Tail : forall w4, fs w4 = t4 ->
            exists w',
              Rollback.promote lg T S w4 = Ret 0 w'
              /\ lookup (fs w') T
                 = Some (Dir (let ss1 := match assoc "data" ts with
                                         | Some (Dir x) =>
                                             set_entry "data" (Dir x) ss
                                         | _ => ss
                                         end in
                              match assoc "uploads" ts with
                              | Some (Dir x) => set_entry "uploads" (Dir x) ss1
                              | _ => ss1
                              end))
              /\ lookup (fs w') P = Some (Dir ts)).
  { intros w4 F. apply (promote_runs logs lg parent name ts ss w4 Hlg AT AS AP);
      try assumption; rewrite F; assumption. }
  destruct Hshape as [(Hp & -> & ->)|(Hp & -> & ->)]; rewrite Hp.
  - try_step R. apply Tail; reflexivity.
  - assert (Hd : test_d (fs w3) (backup // "files") = true)
      by (unfold test_d; now rewrite HB3).
    rewrite Hd. try_step R. apply Tail; reflexivity.
Qed.

(** What the staging tree becomes the tree of the target: the entries
    other than [data] and [uploads] are those of the staging tree, and a
    [data] or [uploads] directory of the target is kept. *)
Lemma promoted_entries ts ss :
  assoc "data" ss = None ->
  assoc "uploads" ss = None ->
  let ss1 := match assoc "data" ts with
             | Some (Dir x) => set_entry "data" (Dir x) ss
             | _ => ss
             end in
  let ss2 := match assoc "uploads" ts with
             | Some (Dir x) => set_entry "uploads" (Dir x) ss1
             | _ => ss1
             end in
  (forall n, n <> "data" -> n <> "uploads" -> assoc n ss2 = assoc n ss)
  /\ (forall d x, d = "data" \/ d = "uploads" ->
                  assoc d ts = Some (Dir x) -> assoc d ss2 = Some (Dir x)).
Proof.
  intros Hnd Hnu ss1 ss2. split.
  - intros n H1 H2. unfold ss2, ss1.
    destruct (assoc "uploads" ts) as [[c|x]|],
             (assoc "data" ts) as [[c'|x']|];
      rewrite ?assoc_set_entry_other by congruence; reflexivity.
  - intros d x [-> | ->] Hd; unfold ss2, ss1; rewrite Hd.
    + destruct (assoc "uploads" ts) as [[c|y]|];
        rewrite ?assoc_set_entry_other by discriminate;
        apply assoc_set_entry_same.
    + apply assoc_set_entry_same.
Qed.

Lemma lookup_child_entry t p es n r :
  lookup t p = Some (Dir es) ->
  lookup t (p // n ++ r)%list
  = match assoc n es with Some c => lookup c r | None => None end.
Proof.
  intros H. unfold child. rewrite <- app_assoc, lookup_app, H. reflexivity.
Qed.

(** Without a package.json in the target, the verification of a live
    rollback counts an issue. *)
Lemma verify_rollback_without_manifest logs lg e o target w :
  in_logs logs lg ->
  Rollback.DRY_RUN o = false ->
  Rollback.TARGET_DIR o = Some target ->
  apart logs target ->
  test_f (fs w) (target // "package.json") = false ->
  exists v w', Rollback.verify_rollback lg e o w = Ret v w' /\ v <> 0.
Proof.
  intros Hlg Hdry Ht AT Hf.
  unfold Rollback.verify_rollback, Rollback.target_path. rewrite Hdry, Ht.
  destruct (rollback_log_runs logs lg "Verifying rollback..." w Hlg)
    as (w1 & E1 & _ & K1).
  rewrite (bind_runs _ _ _ _ _ E1). run_on.
  assert (Hf1 : test_f (fs w1) (target // "package.json") = false).
  { unfold test_f, child. rewrite K1 by (apply apart_sym, apart_app,
                                         apart_sym; exact AT).
    exact Hf. }
  rewrite Hf1. cbn [negb]. unfold Rollback.issue. do 2 run_on.
  destruct (Rollback.validate_deployment e) as [verdict|].
  - match goal with
    | |- context [if negb ?b then _ else _] => destruct b
    end; cbn [negb]; repeat run_on; eexists _, _;
      (split; [reflexivity | discriminate]).
  - repeat run_on. eexists _, _. split; [reflexivity | discriminate].
Qed.

(** X26.  [perform_rollback] of rollback.sh on a backup that holds the code
    (package.json at its root), where neither the staging directory nor the
    temporary backup is next to the target yet: it returns 0; the target
    then holds, apart from [data] and [uploads], the files of the backup on
    the paths that the rules [data/] and [uploads/] do not exclude, and no
    other file; a [data] or [uploads] directory of the old target is in the
    new one as it was; the old target lies at TARGET.pre-rollback-temp. *)
Theorem rollback_restores_a_code_backup logs lg o backup parent name ts bs w :
  in_logs logs lg ->
  Rollback.DRY_RUN o = false ->
  Rollback.TARGET_DIR o = Some (parent // name) ->
  apart logs (parent // name) ->
  apart logs (parent // (name ++ ".rollback-staging")%string) ->
  apart logs (parent // (name ++ ".pre-rollback-temp")%string) ->
  apart logs backup ->
  apart (parent // (name ++ ".rollback-staging")%string) backup ->
  lookup (fs w) (parent // name) = Some (Dir ts) ->
  lookup (fs w) (parent // (name ++ ".rollback-staging")%string) = None ->
  lookup (fs w) (parent // (name ++ ".pre-rollback-temp")%string) = None ->
  lookup (fs w) backup = Some (Dir bs) ->
  well_formed (Dir bs) = true ->
  test_f (fs w) (backup // "package.json") = true ->
  test_f (fs w) (backup // "data") = false ->
  test_f (fs w) (backup // "uploads") = false ->
  exists w',
    Rollback.perform_rollback lg o backup w = Ret 0 w'
    /\ (forall n r,
          n <> "data" -> n <> "uploads" ->
          file_at (fs w') (parent // name // n ++ r)%list
          = if path_excluded (map exclude ["data/"; "uploads/"]) (n :: r)
            then None
            else file_at (fs w) (backup // n ++ r)%list)
    /\ (forall d,
          d = "data" \/ d = "uploads" ->
          test_d (fs w) (parent // name // d) = true ->
          lookup (fs w') (parent // name // d)
          = lookup (fs w) (parent // name // d))
    /\ lookup (fs w') (parent // (name ++ ".pre-rollback-temp")%string)
       = lookup (fs w) (parent // name).
Proof.
  intros Hlg Hdry Ht AT AS AP AB ASB HT HS HP HB Hwf Hpk Hfd Hfu.
  set (ex := map exclude ["data/"; "uploads/"]).
  destruct (well_formed_Dir bs Hwf) as [Hu _].
  assert (Hss : exists ss, rsync_node false ex (Dir bs) (Some (Dir []))
                           = Dir ss)
    by (cbn [rsync_node]; eexists; reflexivity).
  destruct Hss as (ss & Hss).
  assert (Hno : forall d, d = "data" \/ d = "uploads" ->
                test_f (fs w) (backup // d) = false -> assoc d ss = None).
  { intros d Hd Hf. pose proof Hss as H. cbn [rsync_node filter] in H.
    rewrite app_nil_r in H. injection H as <-.
    rewrite assoc_transfer by exact Hu.
    unfold test_f in Hf. rewrite <- (app_nil_r (backup // d)) in Hf.
    rewrite (lookup_child_entry _ _ _ d [] HB) in Hf.
    destruct (assoc d bs) as [[c|x]|]; try discriminate; try reflexivity.
    destruct Hd as [-> | ->]; reflexivity. }
  pose proof (Hno "data" (or_introl eq_refl) Hfd) as Hnd.
  pose proof (Hno "uploads" (or_intror eq_refl) Hfu) as Hnu.
  destruct (perform_rollback_runs logs lg o backup parent name ts bs backup ex
              w Hlg Hdry Ht AT AS AP AB ASB HT HS HP HB
              (or_introl (conj Hpk (conj eq_refl eq_refl))) ss Hss Hnd Hnu)
    as (w' & E & LT & LP).
  destruct (promoted_entries ts ss Hnd Hnu) as [Hother Hkept].
  cbv zeta in LT, Hother, Hkept.
  exists w'. split; [exact E|]. split; [|split].
  - intros n r H1 H2. unfold file_at at 1.
    rewrite (lookup_child_entry _ _ _ n r LT), (Hother n H1 H2).
    change (file_at (Dir ss) (n :: r)
            = if path_excluded ex (n :: r) then None
              else file_at (fs w) (backup // n ++ r)%list).
    rewrite <- Hss. unfold file_at at 2.
    rewrite (lookup_child_entry _ _ _ n r HB).
    change (file_at (rsync_node false ex (Dir bs) (Some (Dir []))) (n :: r)
            = if path_excluded ex (n :: r) then None
              else file_at (Dir bs) (n :: r)).
    apply rsync_node_fresh; [exact Hwf | exact I].
  - intros d Hd Htd.
    rewrite <- (app_nil_r (parent // name // d)).
    rewrite (lookup_child_entry _ _ _ d [] LT),
      (lookup_child_entry _ _ _ d [] HT).
    unfold test_d in Htd. rewrite <- (app_nil_r (parent // name // d)) in Htd.
    rewrite (lookup_child_entry _ _ _ d [] HT) in Htd.
    destruct (assoc d ts) as [[c|x]|] eqn:Ed; try discriminate.
    rewrite (Hkept d x Hd Ed). reflexivity.
  - rewrite LP, HT. reflexivity.
Qed.

(** X27.  [perform_rollback] on a backup made by backup-files.sh (a
    [files/] directory and no package.json at the root) takes the uploaded
    files for the deployment: it returns 0, and the target then holds,
    apart from its old [data] and [uploads] directories, what [files/]
    holds, while the code lies at TARGET.pre-rollback-temp.  When the
    payload has no package.json, the verification that follows counts an
    issue. *)
Theorem rollback_of_a_files_backup_replaces_the_code logs lg o backup parent
  name ts bs w :
  in_logs logs lg ->
  Rollback.DRY_RUN o = false ->
  Rollback.TARGET_DIR o = Some (parent // name) ->
  apart logs (parent // name) ->
  apart logs (parent // (name ++ ".rollback-staging")%string) ->
  apart logs (parent // (name ++ ".pre-rollback-temp")%string) ->
  apart logs backup ->
  apart (parent // (name ++ ".rollback-staging")%string) backup ->
  lookup (fs w) (parent // name) = Some (Dir ts) ->
  lookup (fs w) (parent // (name ++ ".rollback-staging")%string) = None ->
  lookup (fs w) (parent // (name ++ ".pre-rollback-temp")%string) = None ->
  test_f (fs w) (backup // "package.json") = false ->
  lookup (fs w) (backup // "files") = Some (Dir bs) ->
  assoc "data" bs = None ->
  assoc "uploads" bs = None ->
  exists w',
    Rollback.perform_rollback lg o backup w = Ret 0 w'
    /\ (forall n r,
          n <> "data" -> n <> "uploads" ->
          lookup (fs w') (parent // name // n ++ r)%list
          = lookup (fs w) (backup // "files" // n ++ r)%list)
    /\ (forall d,
          d = "data" \/ d = "uploads" ->
          test_d (fs w) (parent // name // d) = true ->
          lookup (fs w') (parent // name // d)
          = lookup (fs w) (parent // name // d))
    /\ lookup (fs w') (parent // (name ++ ".pre-rollback-temp")%string)
       = lookup (fs w) (parent // name)
    /\ (assoc "package.json" bs = None ->
        forall e, exists v w2,
          Rollback.verify_rollback lg e o w' = Ret v w2 /\ v <> 0).
Proof.
  intros Hlg Hdry Ht AT AS AP AB ASB HT HS HP Hpk HB Hnd Hnu.
  assert (Hss : rsync_node false [] (Dir bs) (Some (Dir [])) = Dir bs)
    by (apply rsync_node_copy; exact I).
  destruct (perform_rollback_runs logs lg o backup parent name ts bs
              (backup // "files") [] w Hlg Hdry Ht AT AS AP AB ASB HT HS HP HB
              (or_intror (conj Hpk (conj eq_refl eq_refl))) bs Hss Hnd Hnu)
    as (w' & E & LT & LP).
  destruct (promoted_entries ts bs Hnd Hnu) as [Hother Hkept].
  cbv zeta in LT, Hother, Hkept.
  exists w'. split; [exact E|]. split; [|split; [|split]].
  - intros n r H1 H2.
    rewrite (lookup_child_entry _ _ _ n r LT), (Hother n H1 H2).
    now rewrite (lookup_child_entry _ _ _ n r HB).
  - intros d Hd Htd.
    rewrite <- (app_nil_r (parent // name // d)).
    rewrite (lookup_child_entry _ _ _ d [] LT),
      (lookup_child_entry _ _ _ d [] HT).
    unfold test_d in Htd. rewrite <- (app_nil_r (parent // name // d)) in Htd.
    rewrite (lookup_child_entry _ _ _ d [] HT) in Htd.
    destruct (assoc d ts) as [[c|x]|] eqn:Ed; try discriminate.
    rewrite (Hkept d x Hd Ed). reflexivity.
  - rewrite LP, HT. reflexivity.
  - intros Hnone e.
    apply (verify_rollback_without_manifest logs lg e o (parent // name) w'
             Hlg Hdry Ht AT).
    unfold test_f. rewrite <- (app_nil_r (parent // name // "package.json")).
    rewrite (lookup_child_entry _ _ _ "package.json" [] LT).
    rewrite (Hother "package.json") by discriminate. now rewrite Hnone.
Qed.

Lemma rollback_restores_a_code_backup_witness :
  let w := mkWorld Cases.restore_disk [] in
  test_f (fs w) (["code"] // "package.json") = true
  /\ lookup (fs w) ["prod.rollback-staging"] = None
  /\ exists w',
       Rollback.perform_rollback Cases.restore_log Cases.restore_options
         ["code"] w = Ret 0 w'
       /\ (forall n r,
             n <> "data" -> n <> "uploads" ->
             file_at (fs w') ([] // "prod" // n ++ r)%list
             = if path_excluded (map exclude ["data/"; "uploads/"]) (n :: r)
               then None
               else file_at (fs w) (["code"] // n ++ r)%list)
       /\ (forall d,
             d = "data" \/ d = "uploads" ->
             test_d (fs w) ([] // "prod" // d) = true ->
             lookup (fs w') ([] // "prod" // d)
             = lookup (fs w) ([] // "prod" // d))
       /\ lookup (fs w') ([] // ("prod" ++ ".pre-rollback-temp")%string)
          = lookup (fs w) ([] // "prod").
Proof.
  cbv zeta. split; [reflexivity|]. split; [reflexivity|].
  apply (rollback_restores_a_code_backup ["proj"; "logs"] Cases.restore_log
           Cases.restore_options ["code"] [] "prod"
           [("package.json", File (Bytes "{v2}"));
            ("uploads", Dir [("new.png", File (Bytes "NEW"))]);
            ("data", Dir [("db.sqlite", File (Bytes "ROWS"))])]
           [("package.json", File (Bytes "{v1}"));
            ("src", Dir [("index.js", File (Bytes "old code"));
                         ("data", Dir [("seed.json", File (Bytes "[]"))])]);
            ("uploads", Dir [("old.png", File (Bytes "OLD"))])]);
    try reflexivity; try (apply apart_here; discriminate).
  now exists "rollback.log".
Defined.

Lemma rollback_of_a_files_backup_witness :
  let w := mkWorld Cases.restore_disk [] in
  test_f (fs w) (["b"] // "package.json") = false
  /\ test_f (fs w) ["prod"; "package.json"] = true
  /\ exists w',
       Rollback.perform_rollback Cases.restore_log Cases.restore_options
         ["b"] w = Ret 0 w'
       /\ (forall n r,
             n <> "data" -> n <> "uploads" ->
             lookup (fs w') ([] // "prod" // n ++ r)%list
             = lookup (fs w) (["b"] // "files" // n ++ r)%list)
       /\ (forall d,
             d = "data" \/ d = "uploads" ->
             test_d (fs w) ([] // "prod" // d) = true ->
             lookup (fs w') ([] // "prod" // d)
             = lookup (fs w) ([] // "prod" // d))
       /\ lookup (fs w') ([] // ("prod" ++ ".pre-rollback-temp")%string)
          = lookup (fs w) ([] // "prod")
       /\ (assoc "package.json" [("a.png", File (Bytes "A"))] = None ->
           forall e, exists v w2,
             Rollback.verify_rollback Cases.restore_log e
               Cases.restore_options w' = Ret v w2 /\ v <> 0).
Proof.
  cbv zeta. split; [reflexivity|]. split; [reflexivity|].
  apply (rollback_of_a_files_backup_replaces_the_code ["proj"; "logs"]
           Cases.restore_log Cases.restore_options ["b"] [] "prod"
           [("package.json", File (Bytes "{v2}"));
            ("uploads", Dir [("new.png", File (Bytes "NEW"))]);
            ("data", Dir [("db.sqlite", File (Bytes "ROWS"))])]
           [("a.png", File (Bytes "A"))]);
    try reflexivity; try (apply apart_here; discriminate).
  now exists "rollback.log".
Defined.
